(* ===== verification/_CoqProject ===== *)
-Q . S2P
Prelude.v
Clock.v
Iso.v
Json.v
Dom.v
Scheduler.v
Catalog.v
UnicodeData.v
Text.v
Random.v
Uniform.v
Store.v
Deck.v
Quiz.v
Session.v
Machine.v
Typing.v
Widgets.v
View.v
SessionView.v
ListPage.v
Trace.v
Refine.v
History.v
App.v
Durable.v
SiteView.v
Observe.v
