(* ===== verification/Prelude.v ===== *)
(** * Radicals-60 study site: a verification development

    The program ([src/app/page.tsx]) is a single-page flashcard trainer for
    60 Chinese radicals, written for React.  Its logic is small and sits
    between long stretches of markup: a table of 60 radicals, a Leitner-style
    spaced-repetition scheduler, a progress store mirrored to the browser's
    local storage, a deck builder, a quiz generator, the study session
    that ties them together, and a list page with a search box.  This
    library models the logic and the markup as executable Rocq definitions,
    translated from the source function by function and element by
    element, and proves the properties that make the program correct.

    ** The program and the files that model it

    - [Prelude] (this file).  The JavaScript conventions the source relies
      on: [x || d] on a number that may be missing ([num_or]), truthiness of
      a setting that may be missing ([truthy]), object spread
      [{...a, ...b}] field by field ([spread]), and exceptions as values
      ([outcome], with [catch] for [try { } catch { }] and [outcome_bind]
      for sequencing).  Notations live in the scope [js_scope]; the tactics
      [z_bool], [z_solve], [z_divmod] and the hint databases [radicals] and
      [js] are shared by all files.
    - [Clock].  [todayStart] and [addDays] (source lines 590-604) over the
      interface [DateLib], which states what the program needs of the
      JavaScript [Date] object; [fixed_zone] is an instance.
    - [Iso].  [iso] (596-598): the text [toISOString] gives an instant, on
      the proleptic Gregorian calendar in UTC ([civil_from_days],
      [days_from_civil]), with the expanded years of ECMAScript, and the
      reader of that format ([parseDate]) that [new Date(text)] applies to
      a stored date.
    - [Json].  JSON as the browser writes and reads it: the values
      ([json]), the printer [JSON_stringify] (no white space, the escapes
      of ECMAScript's [QuoteJSONString]) and the parser [JSON_parse] (the
      grammar of RFC 8259 by recursive descent, with the white space
      between the tokens; of the numbers, the integers).
    - [Dom].  The trees a component returns ([Node]: elements with tag,
      properties and children), the handlers a user reaches in a tree
      ([handlers]) and the events they raise ([fires], [offers]).
    - [Scheduler].  [intervalByBox] (625-632) and [applyGrade] (871-880) on
      [Z], and the abstract ladder [Leitner] they implement.
    - [Catalog].  The table [RADICALS] (44-585) entry for entry, with the
      lookups the session makes in it ([idsAll], [findCard], [othersOf]).
    - [UnicodeData], [Text].  [normalize] (616-622) and [formatPinyin]
      (867-869) on UTF-8 byte strings: the deletion of the combining marks
      is code of the program ([stripMarks]); lower-casing, decomposition
      and trimming are the interface [TextLib], with the instance [latin]
      that follows the tables of Unicode 14 on the code points
      U+0000-U+024F and U+1E00-U+1EFF ([UnicodeData], the Latin letters
      with their Vietnamese and pinyin marks).
    - [Random].  [Math.random] as a stream of draws with a read position
      ([Rng]) and [shuffle] (607-614) as the loop [shuffle_loop] over it,
      and turn by turn with its counter as [loop_run].
    - [Uniform].  The loop of [shuffle] as a function of the indices its
      turns draw ([swaps], [drawn], [index_of]), the index vectors
      ([choices]) and the counts of the draws that select an index
      ([hits]) and of the vectors of draws that give an order ([ways]).
    - [Store].  [ProgressItem], [ProgressState], [emptyProgress],
      [loadProgress], [saveProgress] and the hook [useProgress] with
      [patchId], [patchSettings], [resetAll] (635-728).  The state of the
      hook is paired with the storage it is saved to ([Store]); every
      update is followed by the save effect ([setProgress]).  Local storage
      ([LocalStorage], [getItem], [setItem]) and JSON ([JsonLib]) are
      collaborators of the program and are modelled by their contracts;
      the instance [json_text] of the contract is the text itself: the
      state as a JSON value ([encode_state]: the records under their
      decimal keys, the dates as ISO texts), printed by [Json], and what
      the program reads of a parsed value ([decode]).
    - [Deck].  [buildDeck] (882-896) and the counters [dueCount] and
      [learnedCount] of the home page (1355-1360).
    - [Quiz].  The quiz [useMemo] of the session (931-940) as [makeQuiz].
    - [Session].  The component [StudySession] (898-998): its state cells
      as the record [Session], the values derived on a render, the handlers
      [grade], [handleFlip], [submitQuiz], [nextQuiz], [onKey], the timer,
      and the three hooks that run on a render ([memoQuiz], [deckEffect],
      [registerKeys]) composed as [render]; [startSession] is the mount.
    - [Machine].  The events the markup of the session binds (1000-1196,
      and the settings dialog, 769-843), which of them a render offers
      ([offered]), the handler of each ([handle]) and the step relation
      [Step]; the invariant [Inv] and its proof.
    - [Typing].  The type declarations [ProgressItem] and [ProgressState]
      (635-653) as types over JavaScript values ([Ty], [Val], [has_type])
      and the values the records of [Store] stand for.
    - [Widgets].  [MODE_META] (729-757) and the components [SmallKbd],
      [SettingsDialog], [TopBar], [StatChip] (760-865) as functions to
      trees.
    - [View].  The values the session computes for its markup (928-929,
      998, 1011-1012): the percentage [pct] of the progress bar on
      binary64 numbers, the timer text [timeStr] and the two chips.
    - [SessionView].  The tree [StudySession] returns (1000-1248), in the
      parts [cardFace], [answerPanel], [quizPanel], [optionButton],
      [gradeBar], [sidePanel] and the whole [sessionMarkup]; [sessionView]
      is its evaluation in a world.
    - [ListPage].  [ManageList] (1251-1346): the search text, the rows
      [listMemo] it selects and the tree.
    - [Trace].  Sequences of events ([run]) and the rounds of a session
      followed through them: a flashcard round, a quiz round, the keyboard
      shortcuts against the buttons.
    - [Refine].  The state machine of the specification ([AState],
      [AStep]: flip, reveal, grade with wrap-around, choose, submit,
      proceed, tick, reconfigure), the abstraction [abs] from the state of
      the program, and the simulation of [Machine.step] by that machine.
    - [History].  The order "may come later" on records and stored states
      ([⊑]) and what an event writes to the store ([Written]).
    - [App].  The component [Radicals60StudySite] (1348-1569): the cells
      [page] and [mode], the navigation handlers ([siteHandle]), the two
      memoised counters of the home page ([refreshMemos]), the settings
      dialog's read of the settings, and the mounting and unmounting of the
      session with the page ([showPage]); the invariant [SiteInv].
    - [SiteView].  The tree [Radicals60StudySite] returns (1364-1577):
      [homePage], [selectPage], the settings dialog, the mounted session
      and the list page inside [siteMarkup]; [siteView] is the render.
    - [Observe].  What the program reads of a stored record ([reads]) and
      the equivalence of records, stored states, sessions and worlds that
      read alike ([≡]), with the operations of the session as morphisms.

    The dependency order is the order above: the site mounts the session;
    the session calls the deck builder, the quiz generator, the store and
    the scheduler; the deck builder and the quiz generator call the shuffle
    and read the catalog; the store and the deck builder read the clock.

    ** How React is modelled

    A component is a record of its state cells; a handler is a function on
    that record; after a handler the component renders, which is a function
    too: it recomputes each [useMemo] whose dependencies changed and runs
    each [useEffect] whose dependencies changed, the dependencies of the
    previous render being part of the state.  A closure registered by an
    effect (the keyboard listener) keeps the values of the render that
    registered it ([KeyListener]).  One event is a handler followed by the
    render ([step], [siteStep]); the browser dispatches events one at a
    time ([run], [Step], [SiteStep]).

    The markup a component returns is a tree ([Dom.Node]) whose handler
    properties hold the events of the machine of that component: the tree
    of a state is what the user sees in it, and the events its controls
    raise are what the user can do.  Tags, class names and texts are those
    of the source; a component of the program is a function to trees, a
    component of a library an element with its name.

    ** Conventions

    - JavaScript numbers that the program only uses as integers (box, grade,
      counters, millisecond timestamps) are [Z]; array indices and item
      identifiers are [nat].  A date is its number of milliseconds since the
      epoch: the records hold the instant, and the ISO string the program
      keeps in its place appears where the state becomes text
      ([Store.encode_item]); [Iso.parseDate_iso] is why nothing is lost.
    - A field of an object read back from storage may be missing, so the
      fields of stored records are [option]s and every read goes through the
      guard the source uses ([pr.box || 1] is [num_or (box pr) 1]).  A
      value of a wrong JavaScript type in a stored text (a string where a
      number is expected) is read as a missing one ([Store.decode_item]);
      [Typing] has the values themselves.
    - The clock and the random source are explicit: a function that reads
      the clock takes [now], a function that draws takes an [Rng] and
      returns the advanced one, so the number and order of draws of the
      source are part of the model.
    - A call that can throw returns an [outcome]; the only exceptions of the
      program are those of local storage and JSON, which the source catches,
      and the [TypeError] of reading a field of a missing [settings].
    - A string is the list of its UTF-8 bytes; where the program works on
      characters ([normalize]) the development decodes them.
    - Definitions keep the names of the source functions they translate.
      Three names had to change: the memo [list] of the list page is
      [listMemo], and the themes of [MODE_META] and its lookup are
      [MODE_META.learn], [MODE_META.review], [MODE_META.quiz] and
      [MODE_META.lookup] in a module of that name.

    ** What the theorems show

    - [Scheduler]: a box in 1..5 stays in 1..5 for every grade; the code
      implements the abstract ladder on boxes 1..5 and grades 1..4; the
      interval table is monotone.  Two theorems record where the code is
      more permissive than its documentation: a box above 5 survives a
      "Hard" grade, and a grade outside 1..3 is treated as "Easy".
    - [Iso]: the day number and the calendar date are inverse on every
      day; the reader gives back the instant of every text [iso] prints,
      so the text determines the date; the text has 24 characters in the
      years 0 to 9999.
    - [Json]: parsing what the printer wrote gives the value, for every
      value, with any text after it left over; the fuel the parser is
      given, the length of the text, suffices.
    - [Text]: [includes] holds exactly of the substrings; the UTF-8 codec
      round-trips; the deletion of the marks on bytes is the deletion of
      the code points U+0300-U+036F; with the Latin tables [normalize] is
      the pipeline on code points, its result has no mark and is trimmed;
      pinyin without tone marks is ASCII.
    - [Random]: the drawn index is inside the array, also when the
      product of doubles rounds up; [shuffle] returns a permutation and
      draws one number less than the array has entries; every permutation
      is returned for some draws, so every order of the deck can occur;
      the loop terminates, after exactly one turn less than the array has
      entries.
    - [Uniform]: on an array without duplicates the loop is a bijection
      from the index vectors to the orders, so uniform independent indices
      give a uniform order; an index out of [n] has the same number of
      draws as every other exactly when [n] divides [2^53], and within 2
      of [2^53 / n] always; the number of vectors of draws that give an
      order is the product of the counts of its indices.
    - [Store]: a fresh state is well formed; patches touch one record or
      the settings and nothing else; [loadProgress] never throws and says
      exactly when it returns nothing; saving then loading gives the state
      back; a failed save is swallowed.  [loadProgress] accepts a stored
      value without settings.  These hold for every JSON that satisfies
      the contract, and the text of the browser does: parsing the text of
      a state and reading it as the program does gives the state.  On
      texts: the fresh state has 6477 characters, and a truncated text, a
      text that is no object and an object whose [byId] is falsy load as
      nothing.
    - [Deck]: every deck is non-empty, duplicate-free and made of catalog
      identifiers; the contents of the deck in each mode.  With draws
      uniform on the doubles, every order of a shuffled deck is dealt and
      the probabilities of two orders differ by less than one part in
      [10^12]; they are not all equal.
    - [Quiz]: four distinct options, the correct one among them.
    - [Session]: what [grade] writes, that it writes nothing else, that it
      keeps the progress well formed and walks the index around the deck;
      read through [boxOf], an answer moves the stored record of the card
      the way the abstract ladder moves a box, and sets it due after the
      interval of the new box; a session cannot start on a state without
      settings, and the deck it starts on is the second one built.
    - [Machine]: the invariant holds after the mount and after every
      offered event, for every clock reading and random source; no offered
      event throws.
    - [Typing]: a fresh state has the declared type and every event of
      the session keeps it; a state loaded from storage need not have it.
    - [SessionView]: the controls of the tree raise exactly the click
      events [Machine.offered] allows; a card that is face down is drawn
      from its identifier and glyph alone and a question that is not
      revealed does not depend on which option is correct; the render of
      a state of the invariant does not throw.
    - [ListPage]: the rows are the entries whose normalised text contains
      the normalised search text, in the order of the table; a blank
      search shows all sixty; a longer search shows no more.  With the
      Latin tables a name is found without its marks, except that đ is not
      found as d.
    - [View]: the progress bar shows an integer between 2 and 100, 100
      exactly on the last card and never less than on the card before; it
      is the exactly rounded percentage except on card 23 of 40, where the
      doubles of the source give 57 for 57.5.  The timer text determines
      the number of seconds.
    - [Trace]: every trace returns, in a state of the invariant; a graded
      card is due again exactly from the day its interval ends; a quiz
      round grades Good or Again and only when the user proceeds; the keys
      do what the buttons do; Good, Good, Good, Easy takes a card from box
      1 to box 5, due in 14 days.  After a reset made while a card is face
      up the keyboard listener still holds the old record, and a digit key
      writes it back.
    - [Refine]: the session refines its specification: it starts in the
      start state of the specification, and every run of offered events
      without a reset of the progress is a run of the specification's
      machine; each single event, the reset included, is a step of that
      machine or invisible to it.  The proviso is the keyboard listener:
      the simulation of a digit key needs the listener to hold the current
      record ([Fresh]), which every event but the reset keeps; after a
      reset made while a card is face up, a digit key is an event the
      machine of the specification cannot make.
    - [History]: an event other than the reset writes nothing, a patch
      of the settings, or the grade of the card shown from its stored
      record; so along every run without a reset a record stays stored, a
      learned radical stays learned and the counters do not decrease, and
      one event adds at most one answer.  The reset takes back.
    - [App]: the site mounts and runs without throwing from a well-formed
      state, mounts sessions only in the three known modes and keeps their
      invariant; it cannot mount on a state without settings; its counter
      of due cards is recomputed when the progress changes, not when the
      day does.
    - [SiteView]: every event a control of the site raises is allowed by
      [App.siteOffered] in the state shown, and every allowed event that
      a control can raise has its control in the tree; the render of a
      state of the invariant does not throw.
    - [Observe]: records are read through five readings only and
      [lastReviewed] through none; the deck builder, the counters, the
      updates of the store, every handler, the render, [step] and [run]
      are morphisms of the equivalence this induces, and the trees of the
      session and of the list page are equal on equivalent states: stored
      states that read alike cannot be told apart by any sequence of
      events.  The equivalence is decidable through normal forms
      ([normalState]).  It is proved for the session and the list page;
      the counters of the home page are morphisms too; their refresh
      ([App.byIdChanged]) compares the stored maps themselves and is
      outside the equivalence.

    ** Bounds

    The only loop of the program, in [shuffle], runs from the last index
    down to 1 and is structural in [shuffle_loop]; [run] is structural in
    the list of events.  [Random.loop_run] runs the same loop with its
    counter for a given number of turns, and [shuffle_terminates] says
    which numbers suffice: exactly those from the length of the array
    less one.  The parser of [Json] recurses on fuel, one unit for each
    value, element and member it enters, and [JSON_parse] gives it the
    length of the text; [Json.size_length] shows that the text of a value
    is at least as long as the fuel its parse needs, so the fuel never
    runs out on a text the printer wrote.  No other definition uses
    fuel.  The counts of [Uniform] are lengths of lists filtered from the
    [2^53] numerators ([Uniform.grid]) and from the vectors of them: they
    are defined by executable functions, evaluated on small bounds in the
    examples, and reasoned about on the grid.  The numbers of a JSON text
    are integers, the only numbers the
    program stores; a string is printed byte by byte, as the development
    holds strings, and the escape [\uXXXX] is read for the code points
    below 128.  [Iso] prints every instant; ECMAScript stops at
    8.64e15 milliseconds on either side of the epoch, inside which the
    year has at most six digits.  A draw of
    [Math.random] is a fraction with denominator [2^53]
    ([Random.resolution]), the grid of the doubles a browser produces, and
    its product with an array length is rounded to 53 bits as the hardware
    does ([Random.round53]); the theorems hold for every stream of
    numerators.  That every order can come out of [shuffle] is proved for
    arrays of at most [2^51] entries, where the rounding error of the
    product is less than half a unit interval; the deck has 60.  The
    reference instance of [DateLib] is a zone at a fixed offset from UTC,
    where every day has 86400000 milliseconds; the theorems are proved for
    every instance.  The facts about the progress bar are proved by
    evaluating it on each of the 1830 positions of the decks of 1 to 60
    cards, which are all the decks the invariant allows.  The instance
    [latin] of [TextLib] follows Unicode on the Latin ranges (350
    lower-case mappings and 497 decompositions) and leaves the other code
    points alone: it agrees with the browser on
    every string of the catalogue, and the theorems that use it say so;
    the theorems about [normalize] and the list page that do not name it
    hold for every instance.  UTF-8 is modelled for code points below
    [2^21].

    ** Not modelled

    - The components of the icon and widget libraries (Button, Card,
      Switch, Dialog, the icons, [motion.div]) are elements of the trees
      by name; how they draw and the state they keep (whether the dialog
      is open, focus, animations) is not modelled.  The properties [key]
      and [aria-label] and the animation properties are left out of the
      trees.
    - Of JSON: numbers with a fraction or an exponent, which the parser
      refuses, and code points above 127 written as [\uXXXX].  Of dates:
      the texts [new Date] accepts besides the format [toISOString]
      prints, and time zones with daylight saving, for which [DateLib]
      has no instance here.
    - The text [toLocaleDateString] prints: the interface [LocaleLib]
      without laws.
    - Lower-casing and decomposition outside the Latin ranges, and the
      reordering of several marks on one letter by NFD, which the
      deletion of the marks makes unobservable.
    - The import lines and the directive of the first 43 lines of the
      source. *)

From Stdlib Require Import ZArith Lia.
From stdpp Require Import base tactics option.

#[local] Open Scope Z_scope.

(** ** JavaScript value conventions *)

(** [x || d] where [x] is a number that may be missing: [undefined], [null]
    and [0] are falsy, every other integer is kept. *)
Definition num_or (x : option Z) (d : Z) : Z :=
  match x with
  | Some v => if v =? 0 then d else v
  | None => d
  end.

(** Truthiness of a boolean that may be missing. *)
Definition truthy (x : option bool) : bool :=
  match x with
  | Some b => b
  | None => false
  end.

(** One field of [{...base, ...patch}]: the patch wins when it has the field. *)
Definition spread {A : Type} (base patch : option A) : option A :=
  match patch with
  | Some v => Some v
  | None => base
  end.

(** What a call that may throw yields: its value, or the exception. *)
Inductive Exn : Set := SecurityError | QuotaExceededError | SyntaxError | TypeError.

Inductive outcome (A : Type) : Type :=
  | Returned (a : A)
  | Thrown (e : Exn).
Arguments Returned {A} a.
Arguments Thrown {A} e.

(** [try { ... } catch { return d }] *)
Definition catch {A : Type} (o : outcome A) (d : A) : A :=
  match o with
  | Returned a => a
  | Thrown _ => d
  end.

Definition outcome_bind {A B : Type} (o : outcome A) (k : A -> outcome B) : outcome B :=
  match o with
  | Returned a => k a
  | Thrown e => Thrown e
  end.

Definition returns {A : Type} (o : outcome A) : bool :=
  match o with Returned _ => true | Thrown _ => false end.

Declare Scope js_scope.
Delimit Scope js_scope with js.
Notation "x || d" := (num_or x d) : js_scope.
Notation "a '<<<' p" := (spread a p) (at level 45, left associativity) : js_scope.
Notation "'try!' x ':=' o 'in' k" := (outcome_bind o (fun x => k))
  (at level 200, x name, o at level 100, k at level 200, right associativity) : js_scope.

(** ** Tactics *)

(** Case analysis on every boolean comparison of integers in the goal. *)
Ltac z_bool :=
  repeat match goal with
    | |- context [Z.eqb ?a ?b] => destruct (Z.eqb_spec a b)
    | |- context [Z.leb ?a ?b] => destruct (Z.leb_spec a b)
    | |- context [Z.ltb ?a ?b] => destruct (Z.ltb_spec a b)
    | |- context [Z.geb ?a ?b] => rewrite (Z.geb_leb a b)
    | |- context [Z.gtb ?a ?b] => rewrite (Z.gtb_ltb a b)
    end.

Ltac z_solve := intros; z_bool; simpl; try lia; try done.

(** Linear goals with division or remainder by a constant. *)
Ltac z_divmod := intros; Z.div_mod_to_equations; lia.

Create HintDb radicals discriminated.
Create Rewrite HintDb js.

(** ** Lemmas on the conventions *)

Section num_or.
Implicit Types (x : option Z) (v d : Z).

Lemma num_or_None d : num_or None d = d.
Proof. reflexivity. Qed.

Lemma num_or_zero d : num_or (Some 0) d = d.
Proof. reflexivity. Qed.

Lemma num_or_Some v d : v <> 0 -> num_or (Some v) d = v.
Proof. unfold num_or. z_solve. Qed.

(** The guard never yields [0] when the default is not [0]. *)
Lemma num_or_nonzero x d : d <> 0 -> num_or x d <> 0.
Proof. destruct x; unfold num_or; z_solve. Qed.

(** A bound that holds of the default and of the stored value holds of
    the guarded read. *)
Lemma num_or_bounds x d lo hi :
    lo <= d <= hi ->
    (forall v, x = Some v -> v = 0 \/ lo <= v <= hi) ->
    lo <= num_or x d <= hi.
Proof.
    intros Hd Hx. destruct x as [v|]; simpl; [|lia].
    destruct (Hx v eq_refl); z_solve.
Qed.

Lemma num_or_nonneg x : (forall v, x = Some v -> 0 <= v) -> 0 <= num_or x 0.
Proof. intros Hx. destruct x as [v|]; simpl; [|lia]. specialize (Hx v eq_refl). z_solve. Qed.

(** On a counter the guard is the identity: a missing counter reads [0]
    and [0] reads [0]. *)
Lemma num_or_counter v : num_or (Some v) 0 = v.
Proof. unfold num_or. z_solve. Qed.
End num_or.

Section spread.
Context {A : Type}.
Implicit Types (a b c : option A).

Lemma spread_None_r a : spread a None = a.
Proof. reflexivity. Qed.

Lemma spread_Some_r a v : spread a (Some v) = Some v.
Proof. reflexivity. Qed.

Lemma spread_None_l b : spread None b = b.
Proof. by destruct b. Qed.

Lemma spread_assoc a b c : spread (spread a b) c = spread a (spread b c).
Proof. by destruct c. Qed.

Lemma spread_idemp a : spread a a = a.
Proof. by destruct a. Qed.

Lemma spread_is_Some a b : is_Some (spread a b) <-> is_Some a \/ is_Some b.
Proof. destruct a, b; simpl; split; intros; eauto; destruct H as [[]|[]]; done. Qed.
End spread.

Lemma truthy_spread (a b : option bool) :
  truthy (spread a b) = match b with Some v => v | None => truthy a end.
Proof. by destruct b. Qed.

Lemma Returned_inj {A} (a b : A) : Returned a = Returned b -> a = b.
Proof. by intros [= ->]. Qed.

Lemma catch_Returned {A} (a d : A) : catch (Returned a) d = a.
Proof. reflexivity. Qed.

Lemma catch_Thrown {A} e (d : A) : catch (Thrown e) d = d.
Proof. reflexivity. Qed.

Lemma returns_bind {A B} (o : outcome A) (k : A -> outcome B) :
  returns (outcome_bind o k) = true <->
  exists a, o = Returned a /\ returns (k a) = true.
Proof.
  destruct o as [a|e]; simpl; split.
  - eauto.
  - by intros (? & [= <-] & ?).
  - done.
  - by intros (? & ? & _).
Qed.

#[export] Hint Rewrite @catch_Returned @catch_Thrown : js.
#[export] Hint Rewrite num_or_None num_or_zero num_or_counter : js.
#[export] Hint Rewrite @spread_None_r @spread_Some_r @spread_None_l @spread_idemp : js.
#[export] Hint Resolve num_or_nonzero num_or_nonneg : radicals.
