(* ===== verification/Clock.v ===== *)
(** * Clock: calendar days

    The source computes with JavaScript [Date] objects: [todayStart] reads
    the clock and calls [setHours(0, 0, 0, 0)], [addDays] calls
    [setDate(getDate() + days)].  An instant is modelled as its number of
    milliseconds since the epoch, a [Z] (the ISO string the program stores
    for it, [iso], is one-to-one with it and is not modelled apart).

    The [Date] library is a collaborator the source only calls, so it
    appears here as an interface, the class [DateLib]: the two operations
    with the laws a local calendar satisfies.  [todayStart] and [addDays]
    are written against it, as are all theorems of the components that use
    dates.  [fixed_zone] implements the interface for a time zone with a
    constant offset from UTC and discharges the laws; zones with daylight
    saving are not constructed here. *)

From Stdlib Require Import ZArith Lia.
From stdpp Require Import base tactics.
From S2P Require Import Prelude.

#[local] Open Scope Z_scope.

(** ** The interface of the date library *)

Class DateLib := {
  (** [d.setHours(0, 0, 0, 0)]: the first instant of the local day of [d]. *)
  startOfLocalDay : Z -> Z;
  (** [d.setDate(d.getDate() + n)]: the same local time [n] days later. *)
  plusLocalDays : Z -> Z -> Z;
  startOfLocalDay_le t : startOfLocalDay t <= t;
  startOfLocalDay_idem t : startOfLocalDay (startOfLocalDay t) = startOfLocalDay t;
  startOfLocalDay_mono t1 t2 : t1 <= t2 -> startOfLocalDay t1 <= startOfLocalDay t2;
  plusLocalDays_0 d : plusLocalDays d 0 = d;
  plusLocalDays_plus d m n : plusLocalDays (plusLocalDays d m) n = plusLocalDays d (m + n);
  plusLocalDays_mono d m n : m <= n -> plusLocalDays d m <= plusLocalDays d n;
  plusLocalDays_strict d m n : m < n -> plusLocalDays d m < plusLocalDays d n;
  plusLocalDays_start t n :
    startOfLocalDay (plusLocalDays (startOfLocalDay t) n) = plusLocalDays (startOfLocalDay t) n;
  (** The next local midnight is in the future. *)
  tomorrow_after t : t < plusLocalDays (startOfLocalDay t) 1;
}.

(** ** The functions of the source *)

(** [todayStart()], with the clock reading [now] made explicit. *)
Definition todayStart `{DateLib} (now : Z) : Z := startOfLocalDay now.

Definition addDays `{DateLib} (d : Z) (days : Z) : Z := plusLocalDays d days.

(** ** A time zone with a fixed offset *)

Definition ms_per_day : Z := 86400000.

(** Local day number of an instant in the zone [tz] milliseconds east of UTC. *)
Definition local_day (tz t : Z) : Z := (t + tz) / ms_per_day.

Definition fixed_start (tz t : Z) : Z := t - (t + tz) mod ms_per_day.
Definition fixed_plus (d n : Z) : Z := d + n * ms_per_day.

Lemma fixed_start_day tz t : fixed_start tz t = local_day tz t * ms_per_day - tz.
Proof. unfold fixed_start, local_day, ms_per_day. z_divmod. Qed.

Lemma local_day_fixed_start tz t : local_day tz (fixed_start tz t) = local_day tz t.
Proof. unfold fixed_start, local_day, ms_per_day. z_divmod. Qed.

Lemma local_day_mono tz t1 t2 : t1 <= t2 -> local_day tz t1 <= local_day tz t2.
Proof. unfold local_day, ms_per_day. z_divmod. Qed.

Lemma local_day_fixed_plus tz t n :
  local_day tz (fixed_plus (fixed_start tz t) n) = local_day tz t + n.
Proof. unfold fixed_plus, fixed_start, local_day, ms_per_day. z_divmod. Qed.

#[export] Program Instance fixed_zone (tz : Z) : DateLib := {|
  startOfLocalDay := fixed_start tz;
  plusLocalDays := fixed_plus;
|}.
Next Obligation. intros. unfold fixed_start, ms_per_day. z_divmod. Qed.
Next Obligation.
  intros tz t. rewrite (fixed_start_day tz (fixed_start _ _)), local_day_fixed_start.
  symmetry. apply fixed_start_day.
Qed.
Next Obligation. intros tz t1 t2 H. rewrite !fixed_start_day. pose proof (local_day_mono tz _ _ H). unfold ms_per_day. lia. Qed.
Next Obligation. intros. unfold fixed_plus. lia. Qed.
Next Obligation. intros. unfold fixed_plus. lia. Qed.
Next Obligation. intros. unfold fixed_plus, ms_per_day. lia. Qed.
Next Obligation. intros. unfold fixed_plus, ms_per_day. lia. Qed.
Next Obligation.
  intros tz t n. rewrite (fixed_start_day tz (fixed_plus _ _)), local_day_fixed_plus.
  rewrite fixed_start_day. unfold fixed_plus. lia.
Qed.
Next Obligation. intros. unfold fixed_plus, fixed_start, ms_per_day. z_divmod. Qed.

(** ** Consequences of the interface *)

Section calendar.
Context `{DateLib}.
Implicit Types (now t d n : Z).

Lemma todayStart_le now : todayStart now <= now.
Proof. apply startOfLocalDay_le. Qed.

Lemma todayStart_idem now : todayStart (todayStart now) = todayStart now.
Proof. apply startOfLocalDay_idem. Qed.

Lemma todayStart_mono t1 t2 : t1 <= t2 -> todayStart t1 <= todayStart t2.
Proof. apply startOfLocalDay_mono. Qed.

Lemma addDays_0 d : addDays d 0 = d.
Proof. apply plusLocalDays_0. Qed.

Lemma addDays_addDays d m n : addDays (addDays d m) n = addDays d (m + n).
Proof. apply plusLocalDays_plus. Qed.

Lemma addDays_le d n : 0 <= n -> d <= addDays d n.
Proof. intros Hn. rewrite <- (addDays_0 d) at 1. by apply plusLocalDays_mono. Qed.

Lemma addDays_lt d n : 0 < n -> d < addDays d n.
Proof. intros Hn. rewrite <- (addDays_0 d) at 1. by apply plusLocalDays_strict. Qed.

Lemma addDays_mono d m n : m <= n -> addDays d m <= addDays d n.
Proof. apply plusLocalDays_mono. Qed.

Lemma addDays_todayStart now n :
  todayStart (addDays (todayStart now) n) = addDays (todayStart now) n.
Proof. apply plusLocalDays_start. Qed.

(** A date [n >= 1] days after today's midnight is after now. *)
Lemma addDays_future now n : 1 <= n -> now < addDays (todayStart now) n.
Proof.
  intros Hn. eapply Z.lt_le_trans; [apply tomorrow_after|].
  by apply plusLocalDays_mono.
Qed.

(** Today's midnight is never after a later midnight. *)
Lemma todayStart_later now now' : now <= now' -> todayStart now <= todayStart now'.
Proof. apply todayStart_mono. Qed.
End calendar.

#[export] Hint Resolve todayStart_le todayStart_mono addDays_le addDays_mono : radicals.
#[export] Hint Rewrite @addDays_0 @todayStart_idem @addDays_todayStart : js.
