(* ===== verification/Iso.v ===== *)
(** * Iso: the text of an instant

    The program stores a date as the text [iso] gives it,
    [d.toISOString()] (source lines 596-598), and reads it back with
    [new Date(text)].  In the records of this development a date is its
    instant, a number of milliseconds; this file holds the text: the
    calendar of ECMAScript ([civil_from_days], [days_from_civil]: the
    proleptic Gregorian calendar, UTC), the printer [toISOString], the
    reader [parseDate], and the theorem that reading inverts printing,
    which is what makes the instant a faithful stand-in for its text.

    - The format is [YYYY-MM-DDTHH:mm:ss.sssZ] for the years 0 to 9999 and
      [±YYYYYY-MM-DDTHH:mm:ss.sssZ] for the others, as ECMAScript defines
      it.  ECMAScript has no dates further than 100 000 000 days from the
      epoch ([toISOString] throws a RangeError there); the printer of this
      file continues beyond them with as many digits of the year as it
      takes, so that it is defined, and invertible, on every instant.
    - [parseDate] reads the format [toISOString] writes and nothing else:
      the other formats [Date.parse] accepts (a date without a time, a time
      zone offset, the formats of an implementation) are read as invalid,
      and the day is checked against 1..31, not against the month.
    - [setDate(getDate() + n)] of the source's [addDays] is, in UTC, the
      calendar date with the day of the month increased by [n], which may
      leave the month: [days_from_civil_plus] shows that this is [n] days
      later, the [plusLocalDays] of the zone [Clock.fixed_zone 0]. *)

From Stdlib Require Import ZArith Lia Ascii String.
From stdpp Require Import base tactics option strings.
From S2P Require Import Prelude Clock.

#[local] Open Scope Z_scope.

(** ** Decimal digits *)

Definition digit (d : Z) : ascii := ascii_of_nat (Z.to_nat (48 + d)).

Definition digit_val (c : ascii) : option Z :=
  let n := Z.of_nat (nat_of_ascii c) in
  if (48 <=? n) && (n <=? 57) then Some (n - 48) else None.

(** [n] in [w] digits, the most significant first, before [rest]. *)
Fixpoint pad (w : nat) (n : Z) (rest : string) : string :=
  match w with
  | O => rest
  | S w' => String (digit (n / 10 ^ Z.of_nat w')) (pad w' (n mod 10 ^ Z.of_nat w') rest)
  end.

(** Exactly [w] digits. *)
Fixpoint read (w : nat) (acc : Z) (s : string) : option (Z * string) :=
  match w, s with
  | O, _ => Some (acc, s)
  | S w', String c s' =>
      match digit_val c with
      | Some d => read w' (acc * 10 + d) s'
      | None => None
      end
  | S _, EmptyString => None
  end.

(** All the digits there are, and how many they were. *)
Fixpoint read_all (acc : Z) (n : nat) (s : string) : Z * nat * string :=
  match s with
  | String c s' =>
      match digit_val c with
      | Some d => read_all (acc * 10 + d) (S n) s'
      | None => (acc, n, s)
      end
  | EmptyString => (acc, n, s)
  end.

(** One given character. *)
Definition expect (c : ascii) (s : string) : option string :=
  match s with
  | String c' s' => if decide (c' = c) then Some s' else None
  | EmptyString => None
  end.

(** ** The calendar *)

(** Year, month and day of the day [z] days after 1970-01-01. *)
Definition civil_from_days (z : Z) : Z * Z * Z :=
  let z := z + 719468 in
  let era := z / 146097 in
  let doe := z - era * 146097 in
  let yoe := (doe - doe / 1460 + doe / 36524 - doe / 146096) / 365 in
  let doy := doe - (365 * yoe + yoe / 4 - yoe / 100) in
  let mp := (5 * doy + 2) / 153 in
  let d := doy - (153 * mp + 2) / 5 + 1 in
  let m := if mp <? 10 then mp + 3 else mp - 9 in
  (yoe + era * 400 + (if m <=? 2 then 1 else 0), m, d).

(** The day number of a calendar date; the day of the month may lie
    outside the month, as in [setDate]. *)
Definition days_from_civil (y m d : Z) : Z :=
  let y := y - (if m <=? 2 then 1 else 0) in
  let era := y / 400 in
  let yoe := y - era * 400 in
  let doy := (153 * (if 2 <? m then m - 3 else m + 9) + 2) / 5 + d - 1 in
  let doe := yoe * 365 + yoe / 4 - yoe / 100 + doy in
  era * 146097 + doe - 719468.

(** ** The text *)

(** The width of the year in the expanded format: six digits, more for
    the years ECMAScript does not have. *)
Definition year_width (y : Z) : nat :=
  if Z.abs y <? 1000000 then 6%nat else Z.to_nat (Z.log2 (Z.abs y) + 1).

Definition year_text (y : Z) (rest : string) : string :=
  if (0 <=? y) && (y <=? 9999) then pad 4 y rest
  else String (if y <? 0 then "-"%char else "+"%char) (pad (year_width y) (Z.abs y) rest).

(** [d.toISOString()] of the instant [t], before [rest]. *)
Definition toISOString (t : Z) (rest : string) : string :=
  let '(y, m, d) := civil_from_days (t / ms_per_day) in
  let r := t mod ms_per_day in
  year_text y
    (String "-" (pad 2 m
    (String "-" (pad 2 d
    (String "T" (pad 2 (r / 3600000)
    (String ":" (pad 2 (r / 60000 mod 60)
    (String ":" (pad 2 (r / 1000 mod 60)
    (String "." (pad 3 (r mod 1000)
    (String "Z" rest))))))))))))).

(** [iso(d)], source lines 596-598. *)
Definition iso (d : Z) : string := toISOString d EmptyString.

Definition read_year (s : string) : option (Z * string) :=
  match s with
  | String c s' =>
      if decide (c = "+"%char ∨ c = "-"%char) then
        let '(y, n, rest) := read_all 0 0 s' in
        if decide (6 <= n)%nat then Some (if decide (c = "-"%char) then - y else y, rest)
        else None
      else read 4 0 s
  | EmptyString => None
  end.

(** [new Date(text).getTime()] for a text in the format of [toISOString];
    [None] is the invalid date. *)
Definition parseDate (s : string) : option Z :=
  '(y, s) ← read_year s;
  s ← expect "-" s; '(m, s) ← read 2 0 s;
  s ← expect "-" s; '(d, s) ← read 2 0 s;
  s ← expect "T" s; '(h, s) ← read 2 0 s;
  s ← expect ":" s; '(mi, s) ← read 2 0 s;
  s ← expect ":" s; '(sec, s) ← read 2 0 s;
  s ← expect "." s; '(ms, s) ← read 3 0 s;
  s ← expect "Z" s;
  if decide (s = EmptyString ∧ 1 <= m <= 12 ∧ 1 <= d <= 31 ∧ h <= 23 ∧ mi <= 59 ∧ sec <= 59)
  then Some (days_from_civil y m d * ms_per_day + h * 3600000 + mi * 60000 + sec * 1000 + ms)
  else None.

(** ** Lemmas: digits *)

Lemma digit_val_digit d : 0 <= d <= 9 -> digit_val (digit d) = Some d.
Proof.
  intros Hd. unfold digit_val, digit. rewrite nat_ascii_embedding by lia.
  rewrite Z2Nat.id by lia. rewrite (proj2 (Z.leb_le _ _)), (proj2 (Z.leb_le _ _)) by lia.
  cbn. f_equal. lia.
Qed.

Lemma digit_val_range c d : digit_val c = Some d -> 0 <= d <= 9.
Proof.
  unfold digit_val. destruct (_ && _) eqn:Hc; [|done]. intros [= <-].
  apply andb_true_iff in Hc as [?%Z.leb_le ?%Z.leb_le]. lia.
Qed.

Lemma pow10_pos w : 0 < 10 ^ Z.of_nat w.
Proof. apply Z.pow_pos_nonneg; lia. Qed.

Lemma pow10_S w : 10 ^ Z.of_nat (S w) = 10 * 10 ^ Z.of_nat w.
Proof. rewrite Nat2Z.inj_succ, Z.pow_succ_r; lia. Qed.

(** The leading digit and the others. *)
Lemma split_leading w n :
  0 <= n < 10 ^ Z.of_nat (S w) ->
  0 <= n / 10 ^ Z.of_nat w <= 9 ∧ 0 <= n mod 10 ^ Z.of_nat w < 10 ^ Z.of_nat w ∧
  n = n / 10 ^ Z.of_nat w * 10 ^ Z.of_nat w + n mod 10 ^ Z.of_nat w.
Proof.
  rewrite pow10_S. pose proof (pow10_pos w) as Hp. intros Hn.
  pose proof (Z.div_mod n (10 ^ Z.of_nat w) ltac:(lia)) as Hdm.
  pose proof (Z.mod_pos_bound n (10 ^ Z.of_nat w) Hp) as Hm.
  split_and!; try lia.
  - apply Z.div_pos; lia.
  - assert (n / 10 ^ Z.of_nat w < 10); [|lia]. apply Z.div_lt_upper_bound; lia.
Qed.

Lemma read_pad w n acc rest :
  0 <= n < 10 ^ Z.of_nat w -> read w acc (pad w n rest) = Some (acc * 10 ^ Z.of_nat w + n, rest).
Proof.
  revert n acc. induction w as [|w IH]; intros n acc Hn.
  - cbn in *. do 2 f_equal. lia.
  - destruct (split_leading w n Hn) as (Hd & Hm & Hs). cbn [pad read].
    rewrite digit_val_digit, IH by done. do 2 f_equal. rewrite pow10_S. lia.
Qed.

(** A text that does not go on with a digit. *)
Definition no_digit (s : string) : Prop :=
  match s with
  | String c _ => digit_val c = None
  | EmptyString => True
  end.

Lemma read_all_pad w n acc k rest :
  0 <= n < 10 ^ Z.of_nat w -> no_digit rest ->
  read_all acc k (pad w n rest) = (acc * 10 ^ Z.of_nat w + n, (k + w)%nat, rest).
Proof.
  intros Hn Hrest. revert n acc k Hn. induction w as [|w IH]; intros n acc k Hn.
  - cbn in Hn. cbn [pad]. replace n with 0 by lia. rewrite Nat.add_0_r.
    replace (acc * 10 ^ Z.of_nat 0 + 0) with acc by (cbn; lia).
    destruct rest as [|c rest]; [done|]. cbn in *. by rewrite Hrest.
  - destruct (split_leading w n Hn) as (Hd & Hm & Hs). cbn [pad read_all].
    rewrite digit_val_digit, IH by done. rewrite pow10_S.
    replace (k + S w)%nat with (S k + w)%nat by lia. do 2 f_equal. lia.
Qed.

Lemma pad_length w n rest : String.length (pad w n rest) = (w + String.length rest)%nat.
Proof. revert n. induction w as [|w IH]; intros n; cbn; [done|]. by rewrite IH. Qed.

(** ** Lemmas: the calendar *)

(** The day number of the date of a day is that day. *)
Lemma days_from_civil_from_days z :
  let '(y, m, d) := civil_from_days z in days_from_civil y m d = z.
Proof.
  unfold civil_from_days, days_from_civil.
  repeat match goal with |- context [if ?b then _ else _] => destruct b eqn:?; z_bool end;
    Z.div_mod_to_equations; lia.
Qed.

(** Months are 1..12 and days 1..31. *)
Lemma civil_from_days_range z :
  let '(y, m, d) := civil_from_days z in 1 <= m <= 12 ∧ 1 <= d <= 31.
Proof.
  unfold civil_from_days.
  repeat match goal with |- context [if ?b then _ else _] => destruct b eqn:?; z_bool end;
    Z.div_mod_to_equations; lia.
Qed.

(** [setDate(getDate() + n)]: the day of the month increased by [n] is
    [n] days later, also across the end of the month. *)
Lemma days_from_civil_plus y m d n : days_from_civil y m (d + n) = days_from_civil y m d + n.
Proof. unfold days_from_civil. lia. Qed.

(** ** Lemmas: the text *)

Lemma read_pad0 w n rest :
  0 <= n < 10 ^ Z.of_nat w -> read w 0 (pad w n rest) = Some (n, rest).
Proof. intros Hn. by rewrite read_pad. Qed.

Lemma digit_not_sign d : 0 <= d <= 9 -> ¬ (digit d = "+"%char ∨ digit d = "-"%char).
Proof.
  intros Hd [Hc|Hc]; apply (f_equal digit_val) in Hc; by rewrite digit_val_digit in Hc.
Qed.

(** The width of an expanded year holds the year and is six digits at
    least. *)
Lemma year_width_spec y : Z.abs y < 10 ^ Z.of_nat (year_width y) ∧ (6 <= year_width y)%nat.
Proof.
  unfold year_width. case_match; z_bool; [split; [cbn; lia|lia]|].
  pose proof (Z.log2_le_mono 1000000 (Z.abs y) ltac:(lia)) as Hl.
  change (Z.log2 1000000) with 19 in Hl. rewrite Z2Nat.id by lia. split; [|lia].
  destruct (Z.log2_spec (Z.abs y) ltac:(lia)) as [_ Hu]. rewrite <- Z.add_1_r in Hu.
  eapply Z.lt_le_trans; [exact Hu|]. apply Z.pow_le_mono_l. lia.
Qed.

Lemma read_year_text y rest :
  no_digit rest -> read_year (year_text y rest) = Some (y, rest).
Proof.
  intros Hrest. unfold year_text. destruct (_ && _) eqn:Hy.
  - apply andb_true_iff in Hy as [?%Z.leb_le ?%Z.leb_le].
    assert (0 <= y < 10 ^ Z.of_nat 4) as Hr by (cbn; lia).
    destruct (split_leading 3 y Hr) as (Hd & _). cbn [pad read_year].
    rewrite decide_False by by apply digit_not_sign.
    apply (read_pad0 4 y rest Hr).
  - destruct (year_width_spec y) as [Hw H6]. cbn [read_year].
    rewrite decide_True by (case_match; auto).
    rewrite read_all_pad by (done || lia). cbn [Nat.add]. rewrite decide_True by done.
    f_equal. f_equal. apply andb_false_iff in Hy.
    destruct (y <? 0) eqn:Hneg; z_bool; [by rewrite decide_True by done; lia|].
    rewrite decide_False by done. destruct Hy; z_bool; lia.
Qed.

(** ** Properties *)

(** The reader inverts the printer, field by field. *)
Lemma read_toISOString t : parseDate (toISOString t EmptyString) = Some t.
Proof.
  unfold toISOString, parseDate.
  pose proof (days_from_civil_from_days (t / ms_per_day)) as Hdays.
  pose proof (civil_from_days_range (t / ms_per_day)) as Hrange.
  destruct (civil_from_days (t / ms_per_day)) as [[y m] d].
  pose proof (Z.mod_pos_bound t ms_per_day ltac:(done)) as Hr.
  set (r := t mod ms_per_day) in *. unfold ms_per_day in Hr.
  rewrite read_year_text by done. cbn [mbind option_bind expect].
  repeat (first [rewrite decide_True by done | rewrite read_pad0 by (cbn; z_divmod)];
          cbn [mbind option_bind expect]).
  rewrite decide_True by (split_and!; [done|z_divmod..]).
  f_equal. rewrite Hdays. unfold r, ms_per_day. z_divmod.
Qed.

(** C26: reading the text of an instant gives the instant: the text [iso]
    stores determines the date, for every instant. *)
Theorem parseDate_iso t : parseDate (iso t) = Some t.
Proof. exact (read_toISOString t). Qed.

(** The text of an instant determines it. *)
Corollary iso_inj t1 t2 : iso t1 = iso t2 -> t1 = t2.
Proof.
  intros Hi. apply (f_equal parseDate) in Hi. unfold iso in Hi. rewrite !read_toISOString in Hi. congruence.
Qed.

(** The years 0 to 9999 are the days from -719528 to 2932896. *)
Lemma civil_year_range z :
  -719528 <= z < 2932897 -> 0 <= (civil_from_days z).1.1 <= 9999.
Proof.
  intros Hz. pose proof (days_from_civil_from_days z) as Hd.
  pose proof (civil_from_days_range z) as Hr.
  destruct (civil_from_days z) as [[y m] d]. cbn [fst]. revert Hd. unfold days_from_civil.
  repeat match goal with |- context [if ?b then _ else _] => destruct b eqn:?; z_bool end;
    Z.div_mod_to_equations; lia.
Qed.

(** Between the years 0 and 9999 the text has 24 characters. *)
Lemma iso_length t :
  -62167219200000 <= t < 253402300800000 -> String.length (iso t) = 24%nat.
Proof.
  intros Ht. unfold iso, toISOString.
  assert (-719528 <= t / ms_per_day < 2932897) as Hz by (unfold ms_per_day; z_divmod).
  pose proof (civil_year_range _ Hz) as Hy.
  destruct (civil_from_days _) as [[y m] d]. cbn [fst] in Hy. unfold year_text.
  rewrite (proj2 (andb_true_iff _ _)) by (split; apply Z.leb_le; lia).
  cbn [String.length]. by rewrite !pad_length.
Qed.

(** The epoch, the last millisecond before it, and a date beyond the year
    9999. *)
Example iso_examples :
  iso 0 = "1970-01-01T00:00:00.000Z" ∧ iso (-1) = "1969-12-31T23:59:59.999Z" ∧
  iso 1700000000123 = "2023-11-14T22:13:20.123Z" ∧
  iso 951782400000 = "2000-02-29T00:00:00.000Z" ∧
  iso 253402300800000 = "+010000-01-01T00:00:00.000Z" ∧
  iso (-62198755200000) = "-000001-01-01T00:00:00.000Z" ∧
  parseDate "2023-11-14T22:13:20.123Z" = Some 1700000000123 ∧
  parseDate "2023-11-14" = None ∧ parseDate "soon" = None.
Proof. by vm_compute. Qed.
