(* ===== verification/Json.v ===== *)
(** * Json: JSON text

    [saveProgress] writes [JSON.stringify(state)] under the key of the
    program and [loadProgress] reads it back with [JSON.parse] (source
    lines 683-700).  This file holds the two functions of the browser on
    JSON values; [Store.v] applies them to the stored state.

    - [json] is the type of JSON values.  [print] is [JSON.stringify] on
      them: no white space, the characters of a string escaped as
      ECMAScript escapes them.
    - [JSON_parse] is [JSON.parse]: a recursive-descent reader of the JSON
      grammar with its white space ([parse_value], [parse_items],
      [parse_members]).  The three functions recurse on fuel; a value
      needs one unit for itself and one for each of its elements and
      members ([size]), and the length of the text, which [JSON_parse]
      gives them, is at least that ([size_length]).
    - [parse_print]: parsing the text of a value, whatever follows it,
      gives the value and what follows.  [JSON_parse_stringify]:
      [JSON.parse(JSON.stringify(j))] is [j], for every value.

    Limits.  A number is an integer, printed in full: a number with a
    fraction or an exponent is a syntax error here, where [JSON.parse]
    reads it, and the exponent notation and the rounding of numbers beyond
    [2^53] are not modelled.  An escape [\uXXXX] is read when it stands for
    an ASCII character.  A string is a sequence of bytes; bytes from 128
    are printed and read as they are. *)

From Stdlib Require Import ZArith Lia Ascii String.
From stdpp Require Import base tactics option list strings.
From S2P Require Import Prelude Clock Iso.

#[local] Open Scope Z_scope.

(** ** Values *)

Unset Elimination Schemes.
Inductive json : Type :=
  | JNull
  | JBool (b : bool)
  | JNum (z : Z)
  | JStr (s : string)
  | JArr (l : list json)
  | JObj (l : list (string * json)).
Set Elimination Schemes.

(** ** Characters of a string *)

Definition dquote : ascii := "034"%char.
Definition backslash : ascii := "092"%char.

Definition char_code (c : ascii) : Z := Z.of_nat (nat_of_ascii c).

Definition hex (d : Z) : ascii :=
  if d <? 10 then digit d else ascii_of_nat (Z.to_nat (87 + d)).

Definition hex_val (c : ascii) : option Z :=
  match digit_val c with
  | Some d => Some d
  | None =>
      if (97 <=? char_code c) && (char_code c <=? 102) then Some (char_code c - 87)
      else if (65 <=? char_code c) && (char_code c <=? 70) then Some (char_code c - 55)
      else None
  end.

(** What [JSON.stringify] writes for one character of a string. *)
Definition print_char (c : ascii) (rest : string) : string :=
  if decide (c = dquote ∨ c = backslash) then String backslash (String c rest)
  else if decide (c = "008"%char) then String backslash (String "b" rest)
  else if decide (c = "009"%char) then String backslash (String "t" rest)
  else if decide (c = "010"%char) then String backslash (String "n" rest)
  else if decide (c = "012"%char) then String backslash (String "f" rest)
  else if decide (c = "013"%char) then String backslash (String "r" rest)
  else if char_code c <? 32 then
    String backslash (String "u" (String "0" (String "0"
      (String (hex (char_code c / 16)) (String (hex (char_code c mod 16)) rest)))))
  else String c rest.

(** The characters of a string and the closing quote. *)
Fixpoint print_chars (s rest : string) : string :=
  match s with
  | EmptyString => String dquote rest
  | String c s' => print_char c (print_chars s' rest)
  end.

Definition print_string (s rest : string) : string := String dquote (print_chars s rest).

Definition read_hex4 (s : string) : option (Z * string) :=
  match s with
  | String a (String b (String c (String d r))) =>
      match hex_val a, hex_val b, hex_val c, hex_val d with
      | Some x1, Some x2, Some x3, Some x4 => Some (((x1 * 16 + x2) * 16 + x3) * 16 + x4, r)
      | _, _, _, _ => None
      end
  | _ => None
  end.

(** One character of a string, escaped or not; [None] at the closing
    quote, at a control character and at a malformed escape. *)
Definition read_char (s : string) : option (ascii * string) :=
  match s with
  | String c s' =>
      if decide (c = backslash) then
        match s' with
        | String e s'' =>
            if decide (e = dquote ∨ e = backslash ∨ e = "/"%char) then Some (e, s'')
            else if decide (e = "b"%char) then Some ("008"%char, s'')
            else if decide (e = "t"%char) then Some ("009"%char, s'')
            else if decide (e = "n"%char) then Some ("010"%char, s'')
            else if decide (e = "f"%char) then Some ("012"%char, s'')
            else if decide (e = "r"%char) then Some ("013"%char, s'')
            else if decide (e = "u"%char) then
              match read_hex4 s'' with
              | Some (v, r) => if v <? 128 then Some (ascii_of_nat (Z.to_nat v), r) else None
              | None => None
              end
            else None
        | EmptyString => None
        end
      else if decide (c = dquote) then None
      else if char_code c <? 32 then None
      else Some (c, s')
  | EmptyString => None
  end.

(** The characters up to the closing quote. *)
Fixpoint read_chars (fuel : nat) (s : string) : option (string * string) :=
  match fuel with
  | O => None
  | S fuel =>
      match s with
      | String c s' =>
          if decide (c = dquote) then Some (EmptyString, s')
          else
            match read_char s with
            | Some (x, r) =>
                match read_chars fuel r with
                | Some (xs, r') => Some (String x xs, r')
                | None => None
                end
            | None => None
            end
      | EmptyString => None
      end
  end.

(** A string, after its opening quote. *)
Definition read_string (s : string) : option (string * string) :=
  read_chars (String.length s) s.

(** ** Numbers *)

(** The number of decimal digits of [n], for [n] below [2^(fuel+1)]. *)
Fixpoint ndigits (fuel : nat) (n : Z) : nat :=
  match fuel with
  | O => 1%nat
  | S fuel => if n <? 10 then 1%nat else S (ndigits fuel (n / 10))
  end.

Definition width (n : Z) : nat := ndigits (Z.to_nat (Z.log2 n)) n.

Definition print_number (z : Z) (rest : string) : string :=
  if z <? 0 then String "-" (pad (width (- z)) (- z) rest) else pad (width z) z rest.

(** What may not follow an integer: a digit, a fraction or an exponent. *)
Definition goes_on (s : string) : bool :=
  match s with
  | String c _ =>
      bool_decide (is_Some (digit_val c) ∨ c = "."%char ∨ c = "e"%char ∨ c = "E"%char)
  | EmptyString => false
  end.

Definition leading_zero (s : string) (n : nat) : bool :=
  match s with
  | String c _ => bool_decide (c = "0"%char ∧ (1 < n)%nat)
  | EmptyString => false
  end.

Definition parse_digits (s : string) : option (Z * string) :=
  let '(v, n, rest) := read_all 0 0 s in
  if decide (n = 0%nat) then None
  else if leading_zero s n then None
  else if goes_on rest then None
  else Some (v, rest).

Definition parse_number (s : string) : option (json * string) :=
  match s with
  | String c s' =>
      if decide (c = "-"%char) then
        match parse_digits s' with
        | Some (v, rest) => Some (JNum (- v), rest)
        | None => None
        end
      else
        match parse_digits s with
        | Some (v, rest) => Some (JNum v, rest)
        | None => None
        end
  | EmptyString => None
  end.

(** ** The printer *)

Section separated.
Context {A : Type} (p : A -> string -> string) (close : ascii).

(** The elements with commas between them, and the closing bracket. *)
Fixpoint print_list (l : list A) (rest : string) : string :=
  match l with
  | [] => String close rest
  | x :: l' =>
      p x (match l' with
           | [] => String close rest
           | _ :: _ => String "," (print_list l' rest)
           end)
  end.
End separated.

(** [JSON.stringify(j)], before [rest]. *)
Fixpoint print (j : json) (rest : string) : string :=
  match j with
  | JNull => String "n" (String "u" (String "l" (String "l" rest)))
  | JBool true => String "t" (String "r" (String "u" (String "e" rest)))
  | JBool false => String "f" (String "a" (String "l" (String "s" (String "e" rest))))
  | JNum z => print_number z rest
  | JStr s => print_string s rest
  | JArr l => String "[" (print_list print "]" l rest)
  | JObj l =>
      String "{"
        (print_list (λ kv rest, print_string kv.1 (String ":" (print kv.2 rest))) "}" l rest)
  end.

Definition print_member (kv : string * json) (rest : string) : string :=
  print_string kv.1 (String ":" (print kv.2 rest)).

Definition JSON_stringify (j : json) : string := print j EmptyString.

(** ** The parser *)

Definition is_ws (c : ascii) : bool :=
  bool_decide (c = " "%char ∨ c = "009"%char ∨ c = "010"%char ∨ c = "013"%char).

Fixpoint skip_ws (s : string) : string :=
  match s with
  | String c s' => if is_ws c then skip_ws s' else s
  | EmptyString => s
  end.

(** The text after the prefix [lit]. *)
Fixpoint literal (lit s : string) : option string :=
  match lit with
  | EmptyString => Some s
  | String c lit' =>
      match s with
      | String c' s' => if decide (c' = c) then literal lit' s' else None
      | EmptyString => None
      end
  end.

(** A value at the head of [s] (no white space before it), the elements
    of an array after its first bracket, and the members of an object. *)
Fixpoint parse_value (fuel : nat) (s : string) {struct fuel} : option (json * string) :=
  match fuel with
  | O => None
  | S fuel =>
      match s with
      | EmptyString => None
      | String c s' =>
          if decide (c = "{"%char) then
            match skip_ws s' with
            | String c' r =>
                if decide (c' = "}"%char) then Some (JObj [], r)
                else
                  match parse_members fuel (String c' r) with
                  | Some (l, r') => Some (JObj l, r')
                  | None => None
                  end
            | EmptyString => None
            end
          else if decide (c = "["%char) then
            match skip_ws s' with
            | String c' r =>
                if decide (c' = "]"%char) then Some (JArr [], r)
                else
                  match parse_items fuel (String c' r) with
                  | Some (l, r') => Some (JArr l, r')
                  | None => None
                  end
            | EmptyString => None
            end
          else if decide (c = dquote) then
            match read_string s' with
            | Some (x, r) => Some (JStr x, r)
            | None => None
            end
          else if decide (c = "t"%char) then
            match literal "rue" s' with Some r => Some (JBool true, r) | None => None end
          else if decide (c = "f"%char) then
            match literal "alse" s' with Some r => Some (JBool false, r) | None => None end
          else if decide (c = "n"%char) then
            match literal "ull" s' with Some r => Some (JNull, r) | None => None end
          else parse_number s
      end
  end
with parse_items (fuel : nat) (s : string) {struct fuel} : option (list json * string) :=
  match fuel with
  | O => None
  | S fuel =>
      match parse_value fuel s with
      | Some (v, r) =>
          match skip_ws r with
          | String c r' =>
              if decide (c = ","%char) then
                match parse_items fuel (skip_ws r') with
                | Some (l, r'') => Some (v :: l, r'')
                | None => None
                end
              else if decide (c = "]"%char) then Some ([v], r')
              else None
          | EmptyString => None
          end
      | None => None
      end
  end
with parse_members (fuel : nat) (s : string) {struct fuel}
    : option (list (string * json) * string) :=
  match fuel with
  | O => None
  | S fuel =>
      match s with
      | String q s' =>
          if decide (q = dquote) then
            match read_string s' with
            | Some (k, r) =>
                match skip_ws r with
                | String c r' =>
                    if decide (c = ":"%char) then
                      match parse_value fuel (skip_ws r') with
                      | Some (v, r2) =>
                          match skip_ws r2 with
                          | String c2 r3 =>
                              if decide (c2 = ","%char) then
                                match parse_members fuel (skip_ws r3) with
                                | Some (l, r4) => Some ((k, v) :: l, r4)
                                | None => None
                                end
                              else if decide (c2 = "}"%char) then Some ([(k, v)], r3)
                              else None
                          | EmptyString => None
                          end
                      | None => None
                      end
                    else None
                | EmptyString => None
                end
            | None => None
            end
          else None
      | EmptyString => None
      end
  end.

(** [JSON.parse(text)]: one value between white space, or a SyntaxError. *)
Definition JSON_parse (text : string) : outcome json :=
  match parse_value (String.length text) (skip_ws text) with
  | Some (j, rest) =>
      if decide (skip_ws rest = EmptyString) then Returned j else Thrown SyntaxError
  | None => Thrown SyntaxError
  end.

(** ** Lemmas: strings *)

Lemma read_char_print c rest : read_char (print_char c rest) = Some (c, rest).
Proof. by destruct c as [[] [] [] [] [] [] [] []]. Qed.

Lemma print_char_head c rest :
  exists c' r, print_char c rest = String c' r ∧ c' ≠ dquote.
Proof. destruct c as [[] [] [] [] [] [] [] []]; by eexists _, _. Qed.

Lemma print_char_length c rest :
  (String.length rest < String.length (print_char c rest))%nat.
Proof.
  destruct (print_char_head c rest) as (c' & r & Heq & _). revert Heq.
  destruct c as [[] [] [] [] [] [] [] []]; vm_compute; intros [= <- <-]; lia.
Qed.

Lemma print_chars_length s rest :
  (String.length s + String.length rest < String.length (print_chars s rest))%nat.
Proof.
  induction s as [|c s IH]; cbn [print_chars String.length]; [lia|].
  pose proof (print_char_length c (print_chars s rest)). lia.
Qed.

Lemma read_chars_print fuel s rest :
  (String.length s < fuel)%nat -> read_chars fuel (print_chars s rest) = Some (s, rest).
Proof.
  revert fuel. induction s as [|c s IH]; intros [|fuel] Hf; cbn in Hf; try lia.
  - done.
  - cbn [print_chars read_chars].
    destruct (print_char_head c (print_chars s rest)) as (c' & r & Heq & Hne).
    rewrite Heq, decide_False by done. rewrite <- Heq, read_char_print, IH by lia. done.
Qed.

(** Reading the characters of a string gives the string. *)
Lemma read_string_print s rest : read_string (print_chars s rest) = Some (s, rest).
Proof.
  unfold read_string. apply read_chars_print.
  pose proof (print_chars_length s rest). lia.
Qed.

(** ** Lemmas: numbers *)

Lemma ndigits_small fuel n : n < 10 -> ndigits fuel n = 1%nat.
Proof. intros Hn. destruct fuel; cbn; [done|]. by rewrite (proj2 (Z.ltb_lt _ _)). Qed.

Lemma ndigits_spec fuel n :
  0 <= n < 2 ^ (Z.of_nat fuel + 1) ->
  n < 10 ^ Z.of_nat (ndigits fuel n) ∧
  (10 <= n -> 10 * 10 ^ (Z.of_nat (ndigits fuel n) - 2) <= n ∧ (2 <= ndigits fuel n)%nat).
Proof.
  revert n. induction fuel as [|fuel IH]; intros n Hn.
  - cbn in *. lia.
  - cbn [ndigits]. destruct (n <? 10) eqn:Hlt; z_bool; [cbn; lia|].
    assert (0 <= n / 10 < 2 ^ (Z.of_nat fuel + 1)) as Hq.
    { rewrite Nat2Z.inj_succ in Hn. replace (Z.succ (Z.of_nat fuel) + 1) with
        (Z.succ (Z.of_nat fuel + 1)) in Hn by lia. rewrite Z.pow_succ_r in Hn by lia.
      split; [apply Z.div_pos; lia|]. apply Z.div_lt_upper_bound; lia. }
    destruct (IH _ Hq) as [Hu Hl]. rewrite pow10_S. split; [z_divmod|]. intros _.
    destruct (decide (n / 10 < 10)) as [Hs|Hs].
    + rewrite (ndigits_small fuel (n / 10) Hs). cbn. lia.
    + destruct Hl as [Hl H2]; [lia|]. split; [|lia].
      replace (Z.of_nat (S (ndigits fuel (n / 10))) - 2) with
        (Z.succ (Z.of_nat (ndigits fuel (n / 10)) - 2)) by lia.
      rewrite Z.pow_succ_r by lia. z_divmod.
Qed.

Lemma width_spec n :
  0 <= n ->
  n < 10 ^ Z.of_nat (width n) ∧
  (10 <= n -> 10 * 10 ^ (Z.of_nat (width n) - 2) <= n ∧ (2 <= width n)%nat) ∧
  (n < 10 -> width n = 1%nat).
Proof.
  intros Hn. unfold width. split_and!; [..|apply ndigits_small].
  all: apply ndigits_spec; rewrite Z2Nat.id by apply Z.log2_nonneg.
  all: destruct (decide (n = 0)) as [->|]; [done|].
  all: split; [done|]; rewrite Z.add_1_r; by apply Z.log2_spec; lia.
Qed.

Lemma digit_inj d1 d2 : 0 <= d1 <= 9 -> 0 <= d2 <= 9 -> digit d1 = digit d2 -> d1 = d2.
Proof.
  intros H1 H2 Hd. apply (f_equal digit_val) in Hd. rewrite !digit_val_digit in Hd by done.
  congruence.
Qed.

(** The text of a natural number starts with a digit, which is not 0
    when others follow. *)
Lemma pad_width_head n rest :
  0 <= n ->
  exists d r, pad (width n) n rest = String (digit d) r ∧ 0 <= d <= 9 ∧
              leading_zero (pad (width n) n rest) (width n) = false.
Proof.
  intros Hn. destruct (width_spec n Hn) as (Hu & Hl & Hs).
  destruct (width n) as [|w] eqn:Hw; [cbn in Hu; lia|].
  destruct (split_leading w n ltac:(lia)) as (Hd & _). cbn [pad leading_zero].
  eexists _, _. split_and!; [done|lia..|]. apply bool_decide_eq_false. intros [Hz Hw1].
  apply (digit_inj _ 0) in Hz; [|lia..]. destruct Hl as [Hl _]; [|].
  { destruct (decide (n < 10)) as [Hlt|]; [|lia]. specialize (Hs Hlt). lia. }
  replace (Z.of_nat (S w) - 2) with (Z.of_nat w - 1) in Hl by lia.
  assert (10 * 10 ^ (Z.of_nat w - 1) = 10 ^ Z.of_nat w) as Hp.
  { rewrite <- Z.pow_succ_r by lia. f_equal. lia. }
  pose proof (pow10_pos w). rewrite Hp in Hl.
  assert (1 <= n / 10 ^ Z.of_nat w); [|lia]. apply Z.div_le_lower_bound; lia.
Qed.

Lemma goes_on_no_digit rest : goes_on rest = false -> no_digit rest.
Proof.
  destruct rest as [|c rest]; [done|]. cbn. intros Hg%bool_decide_eq_false.
  destruct (digit_val c) eqn:Hd; [|done]. destruct Hg. left. by eexists.
Qed.

Lemma parse_digits_pad n rest :
  0 <= n -> goes_on rest = false -> parse_digits (pad (width n) n rest) = Some (n, rest).
Proof.
  intros Hn Hg. unfold parse_digits. destruct (width_spec n Hn) as (Hu & _ & Hs).
  rewrite read_all_pad by (lia || by apply goes_on_no_digit). cbn [Nat.add].
  destruct (pad_width_head n rest Hn) as (d & r & _ & _ & ->).
  destruct (width n) eqn:Hw; [cbn in Hu; lia|]. rewrite decide_False by done.
  by rewrite Hg.
Qed.

Lemma parse_number_print z rest :
  goes_on rest = false -> parse_number (print_number z rest) = Some (JNum z, rest).
Proof.
  intros Hg. unfold print_number. destruct (z <? 0) eqn:Hz; z_bool.
  - cbn [parse_number]. rewrite decide_True by done. rewrite parse_digits_pad by (lia || done).
    do 3 f_equal. lia.
  - destruct (pad_width_head z rest ltac:(lia)) as (d & r & Heq & Hd & _).
    unfold parse_number. rewrite Heq. rewrite decide_False.
    + by rewrite <- Heq, parse_digits_pad by (lia || done).
    + intros Hc. apply (f_equal digit_val) in Hc. by rewrite digit_val_digit in Hc.
Qed.

(** A printed number starts with a minus sign or a digit. *)
Lemma print_number_head z rest :
  exists c r, print_number z rest = String c r ∧ (c = "-"%char ∨ is_Some (digit_val c)).
Proof.
  unfold print_number. destruct (z <? 0) eqn:Hz; z_bool; [by eexists _, _; split; [|left]|].
  destruct (pad_width_head z rest ltac:(lia)) as (d & r & -> & Hd & _).
  eexists _, _. split; [done|]. right. rewrite digit_val_digit by done. by eexists.
Qed.

(** ** Lemmas: values *)

(** The fuel the parser needs for a value: one unit for each value and
    each element or member. *)
Fixpoint size (j : json) : nat :=
  match j with
  | JArr l => S (foldr (λ x n, S (size x + n)) 0%nat l)
  | JObj l => S (foldr (λ kv n, S (size kv.2 + n)) 0%nat l)
  | _ => 1%nat
  end.

Definition size_items (l : list json) : nat := foldr (λ x n, S (size x + n)) 0%nat l.
Definition size_members (l : list (string * json)) : nat :=
  foldr (λ kv n, S (size kv.2 + n)) 0%nat l.

(** What a printed value starts with. *)
Definition opens (c : ascii) : Prop :=
  is_ws c = false ∧ c ≠ "]"%char ∧ c ≠ "}"%char ∧ c ≠ ","%char ∧ c ≠ ":"%char.

Lemma digit_opens c : c = "-"%char ∨ is_Some (digit_val c) -> opens c.
Proof.
  intros [-> | [d Hd]]; [done|].
  split_and!; [apply bool_decide_eq_false; intros Hc|intros ->..]; [|done..].
  by destruct Hc as [-> | [-> | [-> | ->]]].
Qed.

Lemma print_head j rest : exists c r, print j rest = String c r ∧ opens c.
Proof.
  destruct j as [|[]|z|s|l|l]; try by eexists _, _.
  destruct (print_number_head z rest) as (c & r & Heq & Hc).
  exists c, r. split; [done|]. by apply digit_opens.
Qed.

Lemma skip_ws_mark c r : is_ws c = false -> skip_ws (String c r) = String c r.
Proof. intros Hc. cbn. by rewrite Hc. Qed.

Lemma skip_ws_opens c r : opens c -> skip_ws (String c r) = String c r.
Proof. intros [Hc _]. by apply skip_ws_mark. Qed.

Lemma skip_ws_print j rest : skip_ws (print j rest) = print j rest.
Proof. destruct (print_head j rest) as (c & r & -> & Hc). by apply skip_ws_opens. Qed.

(** A number is read by the last branch of the parser. *)
Lemma parse_value_number fuel c r :
  c = "-"%char ∨ is_Some (digit_val c) ->
  parse_value (S fuel) (String c r) = parse_number (String c r).
Proof.
  intros Hc. cbn [parse_value].
  repeat (rewrite decide_False; [|by intros ->; destruct Hc as [|[? ?]]]). done.
Qed.

(** The parser at an opening bracket or brace that something follows. *)
Lemma parse_value_array fuel c r :
  opens c ->
  parse_value (S fuel) (String "[" (String c r)) =
  match parse_items fuel (String c r) with
  | Some (l, r') => Some (JArr l, r')
  | None => None
  end.
Proof.
  intros Hc. cbn [parse_value]. rewrite decide_False, decide_True by done.
  rewrite skip_ws_opens by done. rewrite decide_False; [done|apply Hc].
Qed.

Lemma parse_value_object fuel c r :
  opens c ->
  parse_value (S fuel) (String "{" (String c r)) =
  match parse_members fuel (String c r) with
  | Some (l, r') => Some (JObj l, r')
  | None => None
  end.
Proof.
  intros Hc. cbn [parse_value]. rewrite decide_True by done.
  rewrite skip_ws_opens by done. rewrite decide_False; [done|apply Hc].
Qed.

(** What follows an element or a member in a printed list. *)
Definition follows (close : ascii) (s : string) : Prop :=
  exists r, s = String close r ∨ exists c r', s = String "," (String c r') ∧ opens c.

Lemma print_list_tail {A} (p : A -> string -> string) close (l : list A) rest :
  (∀ x r, exists c r', p x r = String c r' ∧ opens c) ->
  follows close
    (match l with
     | [] => String close rest
     | _ :: _ => String "," (print_list p close l rest)
     end).
Proof.
  intros Hp. destruct l as [|x l]; [by eexists; left|].
  cbn [print_list].
  match goal with |- context [p x ?R] => destruct (Hp x R) as (c & r & -> & Hc) end.
  exists EmptyString. right. by eexists _, _.
Qed.

Lemma print_member_head kv r : exists c r', print_member kv r = String c r' ∧ opens c.
Proof. by eexists _, _. Qed.

Lemma follows_goes_on close s :
  close = "]"%char ∨ close = "}"%char -> follows close s -> goes_on s = false.
Proof. by intros [-> | ->] [r [-> | (c & r' & -> & _)]]. Qed.

Lemma size_items_cons x l : size_items (x :: l) = S (size x + size_items l).
Proof. done. Qed.

Lemma size_members_cons kv l : size_members (kv :: l) = S (size kv.2 + size_members l).
Proof. done. Qed.

(** Parsing the text of a value, whatever follows it, gives the value and
    what follows; so for the elements of an array and the members of an
    object. *)
Lemma parse_print fuel :
  (∀ j rest, (size j <= fuel)%nat -> goes_on rest = false ->
     parse_value fuel (print j rest) = Some (j, rest)) ∧
  (∀ l rest, l ≠ [] -> (size_items l <= fuel)%nat ->
     parse_items fuel (print_list print "]" l rest) = Some (l, rest)) ∧
  (∀ l rest, l ≠ [] -> (size_members l <= fuel)%nat ->
     parse_members fuel (print_list print_member "}" l rest) = Some (l, rest)).
Proof.
  induction fuel as [|fuel (IHv & IHi & IHm)].
  { split_and!; [intros []|intros []|intros []]; intros; cbn in *; done || lia. }
  split_and!.
  - intros j rest Hs Hg. destruct j as [|[]|z|s|l|l]; try by cbn.
    + destruct (print_number_head z rest) as (c & r & Heq & Hc). cbn [print].
      rewrite Heq, parse_value_number, <- Heq by done. by apply parse_number_print.
    + cbn [print print_string parse_value].
      rewrite decide_False, decide_False, decide_True by done. by rewrite read_string_print.
    + destruct l as [|x l]; [by cbn|].
      change (print (JArr (x :: l)) rest) with (String "[" (print_list print "]" (x :: l) rest)).
      assert (exists c r, print_list print "]" (x :: l) rest = String c r ∧ opens c)
        as (c & r & Heq & Hc) by apply print_head.
      rewrite Heq, parse_value_array, <- Heq by done. rewrite IHi; [done|done|].
      change (size (JArr (x :: l))) with (S (size_items (x :: l))) in Hs. lia.
    + destruct l as [|x l]; [by cbn|].
      change (print (JObj (x :: l)) rest)
        with (String "{" (print_list print_member "}" (x :: l) rest)).
      assert (exists c r, print_list print_member "}" (x :: l) rest = String c r ∧ opens c)
        as (c & r & Heq & Hc) by apply print_member_head.
      rewrite Heq, parse_value_object, <- Heq by done. rewrite IHm; [done|done|].
      change (size (JObj (x :: l))) with (S (size_members (x :: l))) in Hs. lia.
  - intros [|x l] rest Hne Hs; [done|]. rewrite size_items_cons in Hs.
    cbn [print_list parse_items].
    pose proof (print_list_tail print "]" l rest print_head) as Hf.
    rewrite IHv by (lia || by eapply follows_goes_on; [left|]).
    destruct l as [|y l]; [by cbn|]. rewrite skip_ws_mark by done.
    rewrite decide_True by done.
    assert (exists c r, print_list print "]" (y :: l) rest = String c r ∧ opens c)
      as (c & r & Heq & Hc) by apply print_head.
    rewrite Heq, skip_ws_opens, <- Heq by done. rewrite IHi; [done|done|lia].
  - intros [|[k v] l] rest Hne Hs; [done|]. rewrite size_members_cons in Hs. cbn [snd] in Hs.
    cbn [print_list print_member print_string parse_members fst snd].
    rewrite decide_True, read_string_print by done. rewrite skip_ws_mark by done.
    rewrite decide_True by done. rewrite skip_ws_print.
    pose proof (print_list_tail print_member "}" l rest print_member_head) as Hf.
    rewrite IHv by (lia || by eapply follows_goes_on; [right|]).
    destruct l as [|y l]; [by cbn|]. rewrite skip_ws_mark by done.
    rewrite decide_True by done.
    assert (exists c r, print_list print_member "}" (y :: l) rest = String c r ∧ opens c)
      as (c & r & Heq & Hc) by apply print_member_head.
    rewrite Heq, skip_ws_opens, <- Heq by done. rewrite IHm; [done|done|lia].
Qed.

(** Induction on values. *)
Section induction.
Context (P : json -> Prop).
Hypothesis Hnull : P JNull.
Hypothesis Hbool : ∀ b, P (JBool b).
Hypothesis Hnum : ∀ z, P (JNum z).
Hypothesis Hstr : ∀ s, P (JStr s).
Hypothesis Harr : ∀ l, Forall P l -> P (JArr l).
Hypothesis Hobj : ∀ l, Forall (λ kv, P kv.2) l -> P (JObj l).

Fixpoint json_ind' (j : json) : P j :=
  match j with
  | JNull => Hnull
  | JBool b => Hbool b
  | JNum z => Hnum z
  | JStr s => Hstr s
  | JArr l =>
      Harr l ((fix go (l : list json) : Forall P l :=
                 match l with
                 | [] => Forall_nil_2 P
                 | x :: l' => Forall_cons_2 P x l' (json_ind' x) (go l')
                 end) l)
  | JObj l =>
      Hobj l ((fix go (l : list (string * json)) : Forall (λ kv, P kv.2) l :=
                 match l with
                 | [] => Forall_nil_2 _
                 | kv :: l' => Forall_cons_2 _ kv l' (json_ind' kv.2) (go l')
                 end) l)
  end.
End induction.

Lemma print_number_length z rest :
  (String.length rest < String.length (print_number z rest))%nat.
Proof.
  unfold print_number. case_match; z_bool; cbn [String.length]; rewrite pad_length.
  - lia.
  - destruct (width_spec z ltac:(lia)) as (Hu & _ & Hs).
    destruct (width z); [cbn in Hu; lia|lia].
Qed.

Lemma print_list_length {A} (p : A -> string -> string) (sz : A -> nat) close l rest :
  Forall (λ x, ∀ r, (sz x + String.length r <= String.length (p x r))%nat) l ->
  (foldr (λ x n, S (sz x + n)) 0 l + String.length rest
   <= String.length (print_list p close l rest))%nat.
Proof.
  induction 1 as [|x l Hx Hl IH]; cbn [foldr print_list String.length]; [lia|].
  match goal with |- context [p x ?R] => pose proof (Hx R) as Hp end.
  destruct l; cbn [foldr String.length] in *; lia.
Qed.

(** The length of the text of a value is fuel enough to parse it. *)
Lemma size_length j : ∀ rest, (size j + String.length rest <= String.length (print j rest))%nat.
Proof.
  induction j as [|b|z|s|l IH|l IH] using json_ind'; intros rest.
  - cbn. lia.
  - destruct b; cbn; lia.
  - pose proof (print_number_length z rest). cbn [size print]. lia.
  - pose proof (print_chars_length s rest). cbn [size print print_string String.length]. lia.
  - pose proof (print_list_length print size "]" l rest IH). cbn [size print String.length].
    fold (size_items l). unfold size_items. lia.
  - assert (Forall (λ kv : string * json, ∀ r,
              (size kv.2 + String.length r <= String.length (print_member kv r))%nat) l) as Hm.
    { eapply Forall_impl; [exact IH|]. intros [k v] Hv r. cbn [snd] in *.
      unfold print_member, print_string. cbn [fst snd String.length].
      pose proof (print_chars_length k (String ":" (print v r))). specialize (Hv r).
      cbn [String.length] in *. lia. }
    pose proof (print_list_length print_member (λ kv, size kv.2) "}" l rest Hm) as Hl.
    change (print (JObj l) rest) with (String "{" (print_list print_member "}" l rest)).
    cbn [size String.length]. lia.
Qed.

(** ** Properties of the codec of values *)

(** [JSON.parse(JSON.stringify(j))] is [j]. *)
Theorem JSON_parse_stringify j : JSON_parse (JSON_stringify j) = Returned j.
Proof.
  unfold JSON_parse, JSON_stringify. rewrite skip_ws_print.
  destruct (parse_print (String.length (print j ""))) as (Hv & _).
  rewrite Hv; [done| |done]. pose proof (size_length j ""). cbn in *. lia.
Qed.

Lemma JSON_stringify_nonempty j : JSON_stringify j ≠ EmptyString.
Proof.
  unfold JSON_stringify. destruct (print_head j "") as (c & r & -> & _). done.
Qed.
