(* ===== verification/Dom.v ===== *)
(** * Dom: the markup a component returns

    A React component of [src/app/page.tsx] returns a tree of elements.
    [Node E] is that tree for a component whose handlers raise events of
    type [E]: an element has a tag, attributes and children; a text is a
    child written in the markup or the value of an expression in braces.
    An attribute is a string ([className], [placeholder], [value], ...), a
    flag ([disabled], [checked], which may be [undefined]) or a handler.

    The handler attributes are the functions the markup passes:
    [onClick={...}] raises one event, [onCheckedChange={(v) => ...}] of a
    switch raises an event for the value the switch turns to, and
    [onChange={(e) => ...}] of an input raises an event for the text
    typed.

    - [handlers n] lists the handlers a user can reach in [n]: every
      handler of the tree but those of a disabled element.
    - [fires h e] says that using [h] raises [e]; [raises hs e] that some
      handler of the list [hs] does, and [offers n e] that some handler of
      [n] does.
    - [texts n] is the text content of [n] in document order.
    - [node_map f n] renames the events, for a component rendered inside
      another.

    Not part of the tree: [key], [aria-label], the animation properties of
    [motion.div] and whether a dialog is open (the widget library keeps
    that; the content of a dialog is in the tree as when it is open). *)

From stdpp Require Import base tactics option list strings.
From S2P Require Import Prelude.

(** ** Trees *)

Unset Elimination Schemes.

Inductive Attr (E : Type) : Type :=
  | Str (name value : string)
  | Flag (name : string) (value : option bool)
  | OnClick (e : E)
  | OnCheckedChange (f : bool -> E)
  | OnChange (f : string -> E).

Inductive Node (E : Type) : Type :=
  | Text (s : string)
  | Elem (tag : string) (attrs : list (Attr E)) (children : list (Node E)).

Set Elimination Schemes.

Arguments Str {E} name value.
Arguments Flag {E} name value.
Arguments OnClick {E} e.
Arguments OnCheckedChange {E} f.
Arguments OnChange {E} f.
Arguments Text {E} s.
Arguments Elem {E} tag attrs children.

(** [{cond && <x/>}]: the child is there when the condition holds. *)
Definition when {A : Type} (c : bool) (x : A) : list A := if c then [x] else [].

(** The class attribute. *)
Definition className {E : Type} (c : string) : Attr E := Str "className" c.

(** ** What a user can do with a tree *)

Inductive Handler (E : Type) : Type :=
  | HClick (e : E)
  | HToggle (checked : option bool) (f : bool -> E)
  | HInput (f : string -> E).

Arguments HClick {E} e.
Arguments HToggle {E} checked f.
Arguments HInput {E} f.

(** The value of a flag among the attributes of an element; the first
    one written counts. *)
Fixpoint flag {E : Type} (name : string) (attrs : list (Attr E)) : option bool :=
  match attrs with
  | [] => None
  | Flag n v :: rest => if bool_decide (n = name) then v else flag name rest
  | _ :: rest => flag name rest
  end.

(** The handlers among the attributes of an element. *)
Definition own {E : Type} (attrs : list (Attr E)) : list (Handler E) :=
  attrs ≫= λ a,
    match a with
    | OnClick e => [HClick e]
    | OnCheckedChange f => [HToggle (flag "checked" attrs) f]
    | OnChange f => [HInput f]
    | _ => []
    end.

(** The handlers a user reaches; a disabled element has none. *)
Fixpoint handlers {E : Type} (n : Node E) : list (Handler E) :=
  match n with
  | Text _ => []
  | Elem _ attrs children =>
      if truthy (flag "disabled" attrs) then []
      else own attrs ++ (children ≫= handlers)
  end.

(** Using a handler raises an event: a click its event, a switch the
    event of the value it turns to (of either value when [checked] is
    undefined), an input the event of any text. *)
Definition fires {E : Type} (h : Handler E) (e : E) : Prop :=
  match h with
  | HClick e' => e = e'
  | HToggle (Some b) f => e = f (negb b)
  | HToggle None f => ∃ v, e = f v
  | HInput f => ∃ v, e = f v
  end.

Definition raises {E : Type} (hs : list (Handler E)) (e : E) : Prop :=
  ∃ h, h ∈ hs ∧ fires h e.

Definition offers {E : Type} (n : Node E) (e : E) : Prop := raises (handlers n) e.

(** The events of the click handlers, in document order. *)
Definition clicks {E : Type} (n : Node E) : list E :=
  handlers n ≫= λ h, match h with HClick e => [e] | _ => [] end.

(** The text content, in document order. *)
Fixpoint texts {E : Type} (n : Node E) : list string :=
  match n with
  | Text s => [s]
  | Elem _ _ children => children ≫= texts
  end.

(** ** Renaming events *)

Definition attr_map {E F : Type} (g : E -> F) (a : Attr E) : Attr F :=
  match a with
  | Str n v => Str n v
  | Flag n v => Flag n v
  | OnClick e => OnClick (g e)
  | OnCheckedChange f => OnCheckedChange (g ∘ f)
  | OnChange f => OnChange (g ∘ f)
  end.

Definition handler_map {E F : Type} (g : E -> F) (h : Handler E) : Handler F :=
  match h with
  | HClick e => HClick (g e)
  | HToggle c f => HToggle c (g ∘ f)
  | HInput f => HInput (g ∘ f)
  end.

Fixpoint node_map {E F : Type} (g : E -> F) (n : Node E) : Node F :=
  match n with
  | Text s => Text s
  | Elem tag attrs children => Elem tag (attr_map g <$> attrs) (node_map g <$> children)
  end.

(** ** Induction on trees *)

Section induction.
Context {E : Type} (P : Node E -> Prop).
Hypothesis Htext : ∀ s, P (Text s).
Hypothesis Helem : ∀ tag attrs children, Forall P children -> P (Elem tag attrs children).

Fixpoint Node_ind' (n : Node E) : P n :=
  match n with
  | Text s => Htext s
  | Elem tag attrs children =>
      Helem tag attrs children
        ((fix go (l : list (Node E)) : Forall P l :=
            match l with
            | [] => Forall_nil_2 P
            | x :: l' => Forall_cons_2 P x l' (Node_ind' x) (go l')
            end) children)
  end.
End induction.

(** ** Lemmas *)

Section lemmas.
Context {E F : Type} (g : E -> F).

Lemma flag_map name (attrs : list (Attr E)) : flag name (attr_map g <$> attrs) = flag name attrs.
Proof.
  induction attrs as [|[] attrs IH]; [done|..]; cbn [fmap list_fmap attr_map flag]; try done.
  by rewrite IH.
Qed.

Lemma own_map (attrs : list (Attr E)) : own (attr_map g <$> attrs) = handler_map g <$> own attrs.
Proof.
  unfold own. rewrite flag_map. generalize (flag "checked" attrs). intros c.
  induction attrs as [|a attrs IH]; [done|].
  rewrite fmap_cons, !bind_cons, fmap_app, IH. by destruct a.
Qed.

(** Renaming the events of a tree renames the events of its handlers. *)
Lemma handlers_map (n : Node E) : handlers (node_map g n) = handler_map g <$> handlers n.
Proof.
  induction n as [s|tag attrs children IH] using Node_ind'; [done|].
  cbn [node_map handlers]. rewrite flag_map. case_match; [done|].
  rewrite own_map, fmap_app. f_equal.
  induction IH as [|x l Hx _ IHl]; [done|].
  by rewrite fmap_cons, !bind_cons, fmap_app, Hx, IHl.
Qed.

Lemma texts_map (n : Node E) : texts (node_map g n) = texts n.
Proof.
  induction n as [s|tag attrs children IH] using Node_ind'; [done|].
  cbn [node_map texts]. induction IH as [|x l Hx _ IHl]; [done|].
  by rewrite fmap_cons, !bind_cons, Hx, IHl.
Qed.

Lemma fires_map (h : Handler E) (e : E) : fires h e -> fires (handler_map g h) (g e).
Proof. destruct h as [?|[b|] f|f]; cbn; [by intros ->.. | |]; intros [v ->]; by exists v. Qed.

Lemma fires_map_inv (h : Handler E) (e' : F) :
  fires (handler_map g h) e' -> ∃ e, e' = g e ∧ fires h e.
Proof.
  destruct h as [e|[b|] f|f]; cbn.
  - intros ->. by exists e.
  - intros ->. by eexists.
  - intros [v ->]. exists (f v). eauto.
  - intros [v ->]. exists (f v). eauto.
Qed.

Lemma raises_map (hs : list (Handler E)) (e' : F) :
  raises (handler_map g <$> hs) e' <-> ∃ e, e' = g e ∧ raises hs e.
Proof.
  unfold raises. split.
  - intros (h' & (h & -> & Hh)%list_elem_of_fmap & Hf).
    apply fires_map_inv in Hf as (e & -> & Hf). eauto.
  - intros (e & -> & h & Hh & Hf). exists (handler_map g h).
    split; [by apply list_elem_of_fmap_2 | by apply fires_map].
Qed.

(** A tree with renamed events offers the renamed events of the tree. *)
Lemma offers_map (n : Node E) (e' : F) :
  offers (node_map g n) e' <-> ∃ e, e' = g e ∧ offers n e.
Proof.
  unfold offers. rewrite handlers_map. apply raises_map.
Qed.
End lemmas.

Section offers.
Context {E : Type}.
Implicit Types (n : Node E) (e : E).

(** The handlers of a list of trees built by [map]. *)
Lemma handlers_fmap {A} (f : A -> Node E) (g : A -> list (Handler E)) (l : list A) :
  (∀ x, handlers (f x) = g x) -> (f <$> l) ≫= handlers = l ≫= g.
Proof.
  intros Hf. induction l as [|x l IH]; [done|]. by rewrite fmap_cons, !bind_cons, Hf, IH.
Qed.

Lemma handlers_fmap_nil {A} (f : A -> Node E) (l : list A) :
  (∀ x, handlers (f x) = []) -> (f <$> l) ≫= handlers = [].
Proof. intros Hf. rewrite (handlers_fmap f (λ _, [])) by done. by induction l. Qed.

Lemma handlers_fmap_single {A} (f : A -> Node E) (h : A -> Handler E) (l : list A) :
  (∀ x, handlers (f x) = [h x]) -> (f <$> l) ≫= handlers = h <$> l.
Proof.
  intros Hf. rewrite (handlers_fmap f (λ x, [h x])) by done.
  induction l as [|x l IH]; [done|]. by rewrite bind_cons, fmap_cons, IH.
Qed.

Lemma raises_app (hs1 hs2 : list (Handler E)) e :
  raises (hs1 ++ hs2) e <-> raises hs1 e ∨ raises hs2 e.
Proof. unfold raises. setoid_rewrite elem_of_app. firstorder. Qed.

Lemma raises_nil e : raises (@nil (Handler E)) e <-> False.
Proof. unfold raises. setoid_rewrite elem_of_nil. firstorder. Qed.

Lemma raises_cons h (hs : list (Handler E)) e : raises (h :: hs) e <-> fires h e ∨ raises hs e.
Proof. unfold raises. setoid_rewrite elem_of_cons. firstorder (subst; auto). Qed.

(** Click handlers raise their events. *)
Lemma raises_clicks {A} (c : A -> E) (l : list A) e :
  raises (HClick ∘ c <$> l) e <-> ∃ x, e = c x ∧ x ∈ l.
Proof.
  unfold raises. split.
  - intros (h & (x & -> & Hx)%list_elem_of_fmap & ->). eauto.
  - intros (x & -> & Hx). exists (HClick (c x)). split; [|done].
    by apply (list_elem_of_fmap_2 (HClick ∘ c)).
Qed.

(** A switch raises the event of some value; of the opposite of the
    value shown, when it shows one. *)
Lemma fires_toggle c (f : bool -> E) e : fires (HToggle c f) e -> ∃ v, e = f v.
Proof. destruct c as [b|]; cbn; eauto. Qed.

(** A tree whose handlers are all clicks offers the events of its
    clicks. *)
Lemma offers_clicks n (l : list E) e : handlers n = HClick <$> l -> offers n e <-> e ∈ l.
Proof.
  intros Hn. unfold offers. rewrite Hn, (raises_clicks (λ x, x)). firstorder (subst; auto).
Qed.

Lemma clicks_offered n e : e ∈ clicks n -> offers n e.
Proof.
  unfold clicks. intros (h & He & Hh)%list_elem_of_bind. exists h. split; [done|].
  destruct h; [by apply list_elem_of_singleton in He | by apply elem_of_nil in He..].
Qed.

Lemma handlers_elem tag (attrs : list (Attr E)) children :
  truthy (flag "disabled" attrs) = false ->
  handlers (Elem tag attrs children) = own attrs ++ (children ≫= handlers).
Proof. intros Hd. cbn [handlers]. by rewrite Hd. Qed.

(** An element without handlers of its own that is not disabled offers
    what its children offer. *)
Lemma offers_elem tag (attrs : list (Attr E)) children e :
  truthy (flag "disabled" attrs) = false -> own attrs = [] ->
  offers (Elem tag attrs children) e <-> ∃ c, c ∈ children ∧ offers c e.
Proof.
  intros Hd Ho. unfold offers, raises. rewrite handlers_elem, Ho by done. cbn [app]. split.
  - intros (h & (c & Hh & Hc)%list_elem_of_bind & Hf). eauto.
  - intros (c & Hc & h & Hh & Hf). exists h. split; [|done].
    apply list_elem_of_bind. eauto.
Qed.
End offers.
