(* ===== verification/Scheduler.v ===== *)
(** * Scheduler: the Leitner box arithmetic

    [intervalByBox] and [applyGrade] are the two pure functions of
    [src/app/page.tsx] that decide where a card goes after an answer and how
    many days pass before it is due again.  Boxes and grades are JavaScript
    numbers there and [Z] here: the functions are total on [Z], and the
    theorems say for which inputs the documented behaviour holds.

    [Leitner] is the abstract ladder the documentation describes, over two
    finite types; [applyGrade_refines] and [intervalByBox_refines] show that
    the code implements it on boxes 1..5 and grades 1..4. *)

From Stdlib Require Import ZArith Lia List Bool.
From S2P Require Import Prelude.
Import ListNotations.

#[local] Open Scope Z_scope.

(** ** The functions of the source *)

Definition intervalByBox (box : Z) : Z :=
  if box <=? 1 then 0
  else if box =? 2 then 1
  else if box =? 3 then 3
  else if box =? 4 then 7
  else 14.

Definition applyGrade (currentBox grade : Z) : Z :=
  if grade =? 1 then 1
  else if grade =? 2 then Z.max 1 currentBox
  else if grade =? 3 then Z.min 5 (currentBox + 1)
  else Z.min 5 (currentBox + 2).

(** ** Well-formed boxes and grades *)

Definition box_ok (b : Z) : bool := (1 <=? b) && (b <=? 5).
Definition grade_ok (g : Z) : bool := (1 <=? g) && (g <=? 4).

Lemma box_ok_iff b : box_ok b = true <-> 1 <= b <= 5.
Proof. unfold box_ok. rewrite andb_true_iff, !Z.leb_le. tauto. Qed.

Lemma grade_ok_iff g : grade_ok g = true <-> 1 <= g <= 4.
Proof. unfold grade_ok. rewrite andb_true_iff, !Z.leb_le. tauto. Qed.

(** Unfold the scheduler and split on every comparison. *)
Ltac sched := unfold applyGrade, intervalByBox; z_solve.

(** [grades gs b] answers a card in box [b] with the grades [gs] in order. *)
Definition grades (gs : list Z) (b : Z) : Z := fold_left applyGrade gs b.

(** ** The abstract ladder *)

Module Leitner.
Inductive grade : Set := Again | Hard | Good | Easy.
Inductive box : Set := B1 | B2 | B3 | B4 | B5.

Definition up (b : box) : box :=
    match b with B1 => B2 | B2 => B3 | B3 => B4 | B4 => B5 | B5 => B5 end.

Definition next (b : box) (g : grade) : box :=
    match g with
    | Again => B1
    | Hard => b
    | Good => up b
    | Easy => up (up b)
    end.

Definition days (b : box) : Z :=
    match b with B1 => 0 | B2 => 1 | B3 => 3 | B4 => 7 | B5 => 14 end.

(** The numbers the program stores for a box and passes for a grade. *)
Definition level (b : box) : Z :=
    match b with B1 => 1 | B2 => 2 | B3 => 3 | B4 => 4 | B5 => 5 end.

Definition code (g : grade) : Z :=
    match g with Again => 1 | Hard => 2 | Good => 3 | Easy => 4 end.

Definition of_level (z : Z) : option box :=
    match z with
    | 1 => Some B1 | 2 => Some B2 | 3 => Some B3 | 4 => Some B4 | 5 => Some B5
    | _ => None
    end.

Definition of_code (z : Z) : option grade :=
    match z with
    | 1 => Some Again | 2 => Some Hard | 3 => Some Good | 4 => Some Easy
    | _ => None
    end.

Lemma of_level_level b : of_level (level b) = Some b.
Proof. destruct b; reflexivity. Qed.

Lemma of_code_code g : of_code (code g) = Some g.
Proof. destruct g; reflexivity. Qed.

Lemma level_range b : 1 <= level b <= 5.
Proof. destruct b; simpl; lia. Qed.

Lemma code_range g : 1 <= code g <= 4.
Proof. destruct g; simpl; lia. Qed.

(** Every well-formed number is the level of a box. *)
Lemma of_level_total z : 1 <= z <= 5 -> exists b, of_level z = Some b /\ level b = z.
Proof.
    intros Hz.
    assert (z = 1 \/ z = 2 \/ z = 3 \/ z = 4 \/ z = 5) as Hc by lia.
    destruct Hc as [->|[->|[->|[->| ->]]]]; eexists; split; reflexivity.
Qed.

Lemma of_code_total z : 1 <= z <= 4 -> exists g, of_code z = Some g /\ code g = z.
Proof.
    intros Hz.
    assert (z = 1 \/ z = 2 \/ z = 3 \/ z = 4) as Hc by lia.
    destruct Hc as [->|[->|[->| ->]]]; eexists; split; reflexivity.
Qed.
End Leitner.

(** ** Properties *)

(** C2: a box in 1..5 stays in 1..5 under [applyGrade], whatever number is
    passed as the grade. *)
Theorem applyGrade_in_range (b g : Z) :
  box_ok b = true -> box_ok (applyGrade b g) = true.
Proof. rewrite !box_ok_iff. sched. Qed.

Lemma applyGrade_in_range_witness :
  box_ok 4 = true /\ box_ok (applyGrade 4 4) = true.
Proof. split; [reflexivity | apply (applyGrade_in_range 4 4); reflexivity]. Defined.

(** C3: on boxes 1..5 and grades 1..4 the code computes the abstract ladder:
    Again resets to the first box, Hard stays, Good climbs one box and Easy
    two, never past the fifth. *)
Theorem applyGrade_refines (b : Leitner.box) (g : Leitner.grade) :
  applyGrade (Leitner.level b) (Leitner.code g) = Leitner.level (Leitner.next b g).
Proof. destruct b, g; reflexivity. Qed.

(** The interval table of the code is the table of the ladder: 0, 1, 3,
    7 and 14 days for boxes 1 to 5. *)
Theorem intervalByBox_refines (b : Leitner.box) :
  intervalByBox (Leitner.level b) = Leitner.days b.
Proof. destruct b; reflexivity. Qed.

(** A higher box never has a shorter interval. *)
Theorem intervalByBox_mono (b1 b2 : Z) :
  b1 <= b2 -> intervalByBox b1 <= intervalByBox b2.
Proof. sched. Qed.

Lemma intervalByBox_mono_witness : 2 <= 4 /\ intervalByBox 2 <= intervalByBox 4.
Proof. split; [lia | apply (intervalByBox_mono 2 4); lia]. Defined.

(** A better answer never leaves the card in a lower box: on a box in
    1..5, [applyGrade] is monotone in the grade over 1..4. *)
Theorem applyGrade_mono_grade (b g1 g2 : Z) :
  1 <= b <= 5 -> 1 <= g1 <= g2 -> g2 <= 4 ->
  applyGrade b g1 <= applyGrade b g2.
Proof. sched. Qed.

Lemma applyGrade_mono_grade_witness : applyGrade 3 2 <= applyGrade 3 4.
Proof. apply (applyGrade_mono_grade 3 2 4); lia. Defined.

(** The end-to-end ladder: a card in box 1 answered Good, Good, Good,
    Easy ends in box 5 and is due again 14 days later; answered Again from
    box 3 it is back in box 1 and due the same day. *)
Theorem ladder_scenarios :
  grades [3; 3; 3; 4] 1 = 5 /\ intervalByBox (grades [3; 3; 3; 4] 1) = 14 /\
  grades [1] 3 = 1 /\ intervalByBox (grades [1] 3) = 0.
Proof. vm_compute. repeat split. Qed.

(** Four Good answers in a row bring any card of boxes 1..5 to box 5,
    and box 5 is a fixed point of Hard, Good and Easy. *)
Theorem good_reaches_top (b : Z) :
  1 <= b <= 5 ->
  grades [3; 3; 3; 3] b = 5 /\
  applyGrade 5 2 = 5 /\ applyGrade 5 3 = 5 /\ applyGrade 5 4 = 5.
Proof. intros Hb. unfold grades. simpl. repeat split; sched. Qed.

Lemma good_reaches_top_witness : grades [3; 3; 3; 3] 2 = 5.
Proof. apply (good_reaches_top 2). lia. Defined.

(** The code does not clamp a box that is already out of range: a box
    above 5 (possible only in data read back from storage) survives a Hard
    grade unchanged, so the result is still outside 1..5. *)
Theorem applyGrade_hard_keeps_high_box (b : Z) :
  5 < b -> applyGrade b 2 = b /\ box_ok (applyGrade b 2) = false.
Proof.
  intros Hb. assert (applyGrade b 2 = b) as -> by sched.
  split; [reflexivity|]. unfold box_ok. z_solve.
Qed.

Lemma applyGrade_hard_keeps_high_box_witness : applyGrade 7 2 = 7.
Proof. apply (applyGrade_hard_keeps_high_box 7). lia. Defined.

(** A grade outside 1..3 is handled by the last branch: any number that
    is not 1, 2 or 3 -- 4, but also 0 or 5 -- moves the card like Easy. *)
Theorem applyGrade_other_is_easy (b g : Z) :
  g <> 1 -> g <> 2 -> g <> 3 -> applyGrade b g = applyGrade b 4.
Proof. sched. Qed.

Lemma applyGrade_other_is_easy_witness : applyGrade 1 0 = 3.
Proof. apply (applyGrade_other_is_easy 1 0); lia. Defined.

(** C38: outside the ladder the code follows its branches, not the
    ladder: a box above 5, which only data read back from storage can hold,
    survives a Hard grade unchanged and out of range; and every grade that
    is not 1, 2 or 3 -- 4, but also 0, 5 or a negative number -- moves the
    card like Easy. *)
Theorem applyGrade_outside_ladder (b g : Z) :
  (5 < b -> applyGrade b 2 = b /\ box_ok (applyGrade b 2) = false) /\
  (g <> 1 -> g <> 2 -> g <> 3 -> applyGrade b g = applyGrade b 4).
Proof.
  split; [|sched]. intros Hb. assert (applyGrade b 2 = b) as -> by sched.
  split; [reflexivity|]. unfold box_ok. z_solve.
Qed.

Lemma applyGrade_outside_ladder_witness :
  (applyGrade 7 2 = 7 /\ box_ok (applyGrade 7 2) = false) /\ applyGrade 1 0 = applyGrade 1 4.
Proof.
  split; [apply (proj1 (applyGrade_outside_ladder 7 0)) | apply (proj2 (applyGrade_outside_ladder 1 0))];
    lia.
Defined.

(** ** Lemmas for the other components *)

Lemma applyGrade_bounds b g : 1 <= b <= 5 -> 1 <= applyGrade b g <= 5.
Proof. sched. Qed.

Lemma intervalByBox_bounds b : 0 <= intervalByBox b <= 14.
Proof. sched. Qed.

Lemma grades_app gs1 gs2 b : grades (gs1 ++ gs2) b = grades gs2 (grades gs1 b).
Proof. apply fold_left_app. Qed.

Lemma grades_bounds gs b : 1 <= b <= 5 -> 1 <= grades gs b <= 5.
Proof.
  revert b. induction gs as [|g gs IH]; intros b Hb; simpl; [assumption|].
  apply IH, applyGrade_bounds, Hb.
Qed.

(** The refinement through the abstraction functions: a number that reads
    as a box, graded by a number that reads as a grade, reads as the next
    box of the ladder, and its interval is the ladder's. *)
Lemma of_level_Some z b : Leitner.of_level z = Some b -> z = Leitner.level b.
Proof.
  unfold Leitner.of_level. destruct z as [|p|p]; try discriminate.
  repeat (destruct p as [p|p|]; try discriminate); intros [= <-]; reflexivity.
Qed.

Lemma of_code_Some z g : Leitner.of_code z = Some g -> z = Leitner.code g.
Proof.
  unfold Leitner.of_code. destruct z as [|p|p]; try discriminate.
  repeat (destruct p as [p|p|]; try discriminate); intros [= <-]; reflexivity.
Qed.

Lemma applyGrade_of_level z g b ag :
  Leitner.of_level z = Some b -> Leitner.of_code g = Some ag ->
  Leitner.of_level (applyGrade z g) = Some (Leitner.next b ag) /\
  intervalByBox (applyGrade z g) = Leitner.days (Leitner.next b ag).
Proof.
  intros ->%of_level_Some ->%of_code_Some. destruct b, ag; split; reflexivity.
Qed.

#[export] Hint Resolve applyGrade_bounds intervalByBox_bounds grades_bounds : radicals.
