(* ===== verification/Catalog.v ===== *)
(** * Catalog: the 60 radicals

    The table [RADICALS] of [src/app/page.tsx], entry for entry and in the
    order of the source.  It is read-only at run time; the rest of the
    program uses it in three ways, modelled here: the list of all
    identifiers ([idsAll], [RADICALS.map((r) => r.id)]), the lookup of a
    card by identifier with the first entry as fallback ([findCard],
    [RADICALS.find(...) || RADICALS[0]]) and the pool of all other entries
    ([othersOf], [RADICALS.filter((r) => r.id !== card.id)]).

    The table is given in four parts of fifteen entries so that each part
    stays a readable unit; [RADICALS] is their concatenation.  Strings are
    the UTF-8 bytes of the source text.  The facts about the table
    (sixty entries, identifiers 1..60 in order, pairwise distinct meanings)
    are proved by evaluation. *)

From Stdlib Require Import ZArith Lia.
From stdpp Require Import base tactics option list strings.
From S2P Require Import Prelude.

#[local] Open Scope string_scope.

(** ** The entries *)

Record Radical := {
  id : nat;
  vn : string;
  radical : string;
  pinyin : string;
  meaning : string;
  mnemonic : string;
  examples : list string;
}.

Definition RADICALS_01_15 : list Radical := [
  {| id := 1; vn := "Nhân"; radical := "人 / 亻"; pinyin := "rén";
     meaning := "con người; việc liên quan người";
     mnemonic := "nhìn như người đang đứng";
     examples := ["你"; "他"; "住"; "作"; "休"] |};
  {| id := 2; vn := "Khẩu"; radical := "口"; pinyin := "kǒu";
     meaning := "miệng; nói; ăn uống";
     mnemonic := "cái miệng vuông đang mở";
     examples := ["吃"; "喝"; "問"; "叫"; "呢"] |};
  {| id := 3; vn := "Đao"; radical := "刀 / 刂"; pinyin := "dāo";
     meaning := "dao; cắt; xử lý";
     mnemonic := "lưỡi dao có tay cầm";
     examples := ["到"; "別"; "利"; "刻"; "刪"] |};
  {| id := 4; vn := "Lực"; radical := "力"; pinyin := "lì";
     meaning := "sức; lực; cố gắng";
     mnemonic := "cánh tay đang gồng";
     examples := ["動"; "努"; "加"; "助"; "勞"] |};
  {| id := 5; vn := "Thổ"; radical := "土"; pinyin := "tǔ";
     meaning := "đất; nền; địa phương";
     mnemonic := "mặt đất + cọc đứng";
     examples := ["地"; "在"; "城"; "場"; "境"] |};
  {| id := 6; vn := "Đại"; radical := "大"; pinyin := "dà";
     meaning := "to; lớn";
     mnemonic := "người dang tay chân thật rộng";
     examples := ["天"; "太"; "夫"; "央"; "奇"] |};
  {| id := 7; vn := "Nữ"; radical := "女"; pinyin := "nǚ";
     meaning := "phụ nữ; nữ";
     mnemonic := "người phụ nữ ngồi";
     examples := ["好"; "媽"; "姐"; "妹"; "姓"] |};
  {| id := 8; vn := "Tử"; radical := "子"; pinyin := "zǐ";
     meaning := "con; trẻ em";
     mnemonic := "em bé dang tay";
     examples := ["字"; "孩"; "孔"; "孫"; "學"] |};
  {| id := 9; vn := "Miên"; radical := "宀"; pinyin := "mián";
     meaning := "mái nhà; trong nhà";
     mnemonic := "mái che phía trên";
     examples := ["家"; "安"; "室"; "客"; "宿"] |};
  {| id := 10; vn := "Sơn"; radical := "山"; pinyin := "shān";
     meaning := "núi";
     mnemonic := "ba đỉnh núi";
     examples := ["出"; "島"; "岩"; "峰"; "岸"] |};
  {| id := 11; vn := "Nhật"; radical := "日"; pinyin := "rì";
     meaning := "mặt trời; ngày";
     mnemonic := "mặt trời hình ô vuông";
     examples := ["明"; "時"; "早"; "晚"; "星"] |};
  {| id := 12; vn := "Nguyệt"; radical := "月"; pinyin := "yuè";
     meaning := "mặt trăng; tháng (đôi khi gợi bộ phận cơ thể)";
     mnemonic := "mặt trăng cong";
     examples := ["服"; "期"; "朋"; "腦"; "腳"] |};
  {| id := 13; vn := "Mộc"; radical := "木"; pinyin := "mù";
     meaning := "cây; gỗ";
     mnemonic := "thân cây + cành";
     examples := ["林"; "森"; "桌"; "校"; "杯"] |};
  {| id := 14; vn := "Thủy"; radical := "水 / 氵"; pinyin := "shuǐ";
     meaning := "nước; chất lỏng";
     mnemonic := "dòng nước chảy";
     examples := ["河"; "海"; "洗"; "酒"; "游"] |};
  {| id := 15; vn := "Hỏa"; radical := "火 / 灬"; pinyin := "huǒ";
     meaning := "lửa; nóng; nấu";
     mnemonic := "ngọn lửa bốc lên";
     examples := ["熱"; "燈"; "煮"; "然"; "煙"] |}
].

Definition RADICALS_16_30 : list Radical := [
  {| id := 16; vn := "Ngưu"; radical := "牛"; pinyin := "niú";
     meaning := "trâu/bò";
     mnemonic := "đầu bò có sừng";
     examples := ["物"; "特"; "牽"; "牧"; "犧"] |};
  {| id := 17; vn := "Khuyển"; radical := "犬 / 犭"; pinyin := "quǎn";
     meaning := "chó; thú";
     mnemonic := "con chó có đuôi";
     examples := ["狗"; "獨"; "獎"; "猶"; "獵"] |};
  {| id := 18; vn := "Điền"; radical := "田"; pinyin := "tián";
     meaning := "ruộng; ô/khu";
     mnemonic := "ruộng chia 4 ô";
     examples := ["男"; "界"; "留"; "當"; "畫"] |};
  {| id := 19; vn := "Mục"; radical := "目"; pinyin := "mù";
     meaning := "mắt; nhìn";
     mnemonic := "con mắt có đồng tử";
     examples := ["看"; "相"; "眼"; "直"; "睡"] |};
  {| id := 20; vn := "Thạch"; radical := "石"; pinyin := "shí";
     meaning := "đá; cứng; khoáng";
     mnemonic := "hòn đá dưới chân núi";
     examples := ["硬"; "破"; "碗"; "礦"; "碼"] |};
  {| id := 21; vn := "Hòa"; radical := "禾"; pinyin := "hé";
     meaning := "lúa; mùa vụ";
     mnemonic := "bông lúa có hạt";
     examples := ["秋"; "種"; "科"; "稅"; "穩"] |};
  {| id := 22; vn := "Trúc"; radical := "竹 / ⺮"; pinyin := "zhú";
     meaning := "tre; đồ tre; bút/sách";
     mnemonic := "hai thân tre song song";
     examples := ["筆"; "笑"; "等"; "箱"; "簡"] |};
  {| id := 23; vn := "Mễ"; radical := "米"; pinyin := "mǐ";
     meaning := "gạo; hạt; bột";
     mnemonic := "hạt gạo tỏa ra";
     examples := ["粉"; "糖"; "精"; "糧"; "粥"] |};
  {| id := 24; vn := "Thảo"; radical := "艸 / 艹"; pinyin := "cǎo";
     meaning := "cỏ; thảo mộc";
     mnemonic := "cỏ mọc trên đầu chữ";
     examples := ["花"; "茶"; "菜"; "藥"; "草"] |};
  {| id := 25; vn := "Trùng"; radical := "虫"; pinyin := "chóng";
     meaning := "côn trùng; sâu";
     mnemonic := "con sâu có đầu";
     examples := ["蛇"; "蝦"; "蜂"; "蚊"; "蛋"] |};
  {| id := 26; vn := "Y"; radical := "衣 / 衤"; pinyin := "yī";
     meaning := "quần áo; mặc";
     mnemonic := "áo choàng phủ người";
     examples := ["被"; "褲"; "裙"; "裝"; "補"] |};
  {| id := 27; vn := "Ngôn"; radical := "言 / 訁"; pinyin := "yán";
     meaning := "lời nói; ngôn ngữ";
     mnemonic := "miệng phát ra lời";
     examples := ["話"; "說"; "謝"; "請"; "認"] |};
  {| id := 28; vn := "Tâm"; radical := "心 / 忄"; pinyin := "xīn";
     meaning := "tim; cảm xúc; nghĩ";
     mnemonic := "trái tim 3 nhịp";
     examples := ["想"; "忙"; "快"; "愛"; "情"] |};
  {| id := 29; vn := "Bối"; radical := "貝"; pinyin := "bèi";
     meaning := "tiền; của cải";
     mnemonic := "vỏ sò cổ đại = tiền";
     examples := ["買"; "貴"; "財"; "費"; "貿"] |};
  {| id := 30; vn := "Túc"; radical := "足 / ⻊"; pinyin := "zú";
     meaning := "chân; đi; đủ";
     mnemonic := "bàn chân bước đi";
     examples := ["路"; "跑"; "跟"; "距"; "跳"] |}
].

Definition RADICALS_31_45 : list Radical := [
  {| id := 31; vn := "Xa"; radical := "車"; pinyin := "chē";
     meaning := "xe; phương tiện";
     mnemonic := "khung xe + bánh";
     examples := ["開"; "軍"; "轉"; "輪"; "輕"] |};
  {| id := 32; vn := "Sước"; radical := "辶"; pinyin := "chuò";
     meaning := "đi lại; đường; đến";
     mnemonic := "đường cong + bước";
     examples := ["這"; "進"; "近"; "遠"; "還"] |};
  {| id := 33; vn := "Ấp"; radical := "邑 / 阝(phải)"; pinyin := "yì";
     meaning := "làng/thành; nơi chốn";
     mnemonic := "khu dân cư có tường";
     examples := ["都"; "郵"; "郊"; "鄉"; "鄰"] |};
  {| id := 34; vn := "Phụ"; radical := "阜 / 阝(trái)"; pinyin := "fù";
     meaning := "gò/đồi; bậc";
     mnemonic := "bậc thềm/đống đất";
     examples := ["陸"; "階"; "降"; "隊"; "陽"] |};
  {| id := 35; vn := "Kim"; radical := "金"; pinyin := "jīn";
     meaning := "kim loại; vàng";
     mnemonic := "kim loại lấp lánh";
     examples := ["錢"; "銀"; "鐵"; "鐘"; "銷"] |};
  {| id := 36; vn := "Môn"; radical := "門"; pinyin := "mén";
     meaning := "cửa; cổng";
     mnemonic := "hai cánh cửa";
     examples := ["開"; "間"; "聞"; "閃"; "閉"] |};
  {| id := 37; vn := "Vũ"; radical := "雨"; pinyin := "yǔ";
     meaning := "mưa; thời tiết";
     mnemonic := "mây + giọt mưa";
     examples := ["雪"; "雷"; "雲"; "霧"; "露"] |};
  {| id := 38; vn := "Thực"; radical := "食 / 飠"; pinyin := "shí";
     meaning := "ăn; thức ăn";
     mnemonic := "miệng + đồ ăn";
     examples := ["飯"; "餓"; "館"; "飲"; "餅"] |};
  {| id := 39; vn := "Mã"; radical := "馬"; pinyin := "mǎ";
     meaning := "ngựa";
     mnemonic := "ngựa có bờm";
     examples := ["騎"; "驚"; "駕"; "驗"; "驛"] |};
  {| id := 40; vn := "Ngư"; radical := "魚"; pinyin := "yú";
     meaning := "cá";
     mnemonic := "cá có vây";
     examples := ["鮮"; "鯨"; "鰻"; "鱗"; "魯"] |};
  {| id := 41; vn := "Điểu"; radical := "鳥"; pinyin := "niǎo";
     meaning := "chim";
     mnemonic := "chim có mỏ";
     examples := ["鳴"; "鴨"; "雞"; "鷹"; "鴿"] |};
  {| id := 42; vn := "Quảng"; radical := "广"; pinyin := "guǎng";
     meaning := "mái che; tòa nhà";
     mnemonic := "mái nghiêng";
     examples := ["店"; "床"; "庫"; "廳"; "府"] |};
  {| id := 43; vn := "Hiệt"; radical := "頁"; pinyin := "yè";
     meaning := "đầu; mặt";
     mnemonic := "đầu người nghiêng";
     examples := ["顏"; "額"; "順"; "題"; "頭"] |};
  {| id := 44; vn := "Công"; radical := "工"; pinyin := "gōng";
     meaning := "công việc; kỹ thuật";
     mnemonic := "khung dụng cụ";
     examples := ["作"; "功"; "江"; "紅"; "巧"] |};
  {| id := 45; vn := "Phộc"; radical := "攴 / 攵"; pinyin := "pū";
     meaning := "đánh/tác động; sửa đổi";
     mnemonic := "tay cầm que gõ";
     examples := ["改"; "教"; "收"; "攻"; "政"] |}
].

Definition RADICALS_46_60 : list Radical := [
  {| id := 46; vn := "Thị"; radical := "示 / 礻"; pinyin := "shì";
     meaning := "lễ; thờ; phúc";
     mnemonic := "bàn thờ nhỏ";
     examples := ["神"; "福"; "祝"; "禮"; "祖"] |};
  {| id := 47; vn := "Ty"; radical := "糸 / 糹"; pinyin := "mì";
     meaning := "sợi; dệt; liên kết";
     mnemonic := "cuộn chỉ";
     examples := ["經"; "線"; "結"; "級"; "續"] |};
  {| id := 48; vn := "Tẩu"; radical := "走"; pinyin := "zǒu";
     meaning := "đi; chạy";
     mnemonic := "người chạy nghiêng";
     examples := ["起"; "超"; "赴"; "趕"; "越"] |};
  {| id := 49; vn := "Thập"; radical := "十"; pinyin := "shí";
     meaning := "mười; dấu cộng";
     mnemonic := "cắt ngang ở giữa";
     examples := ["千"; "協"; "博"; "南"; "十"] |};
  {| id := 50; vn := "Bát"; radical := "八"; pinyin := "bā";
     meaning := "tách ra; chia";
     mnemonic := "hai nét tách đôi";
     examples := ["分"; "公"; "共"; "兵"; "其"] |};
  {| id := 51; vn := "Hựu"; radical := "又"; pinyin := "yòu";
     meaning := "tay; lại nữa";
     mnemonic := "bàn tay phải";
     examples := ["友"; "取"; "受"; "雙"; "反"] |};
  {| id := 52; vn := "Nhục"; radical := "肉 / ⺼"; pinyin := "ròu";
     meaning := "thịt; thân thể";
     mnemonic := "miếng thịt có vân";
     examples := ["肥"; "腸"; "胃"; "腳"; "腦"] |};
  {| id := 53; vn := "Cân"; radical := "巾"; pinyin := "jīn";
     meaning := "khăn; vải";
     mnemonic := "khăn treo xuống";
     examples := ["布"; "帽"; "帆"; "帳"; "幫"] |};
  {| id := 54; vn := "Huyệt"; radical := "穴"; pinyin := "xué";
     meaning := "hang; lỗ; chỗ trống";
     mnemonic := "mái che + lỗ";
     examples := ["空"; "窗"; "究"; "穿"; "窄"] |};
  {| id := 55; vn := "Phương"; radical := "方"; pinyin := "fāng";
     meaning := "hướng; cách; phương";
     mnemonic := "tấm bảng vuông";
     examples := ["房"; "旅"; "族"; "放"; "方法"] |};
  {| id := 56; vn := "Lão"; radical := "老"; pinyin := "lǎo";
     meaning := "già; cũ";
     mnemonic := "người già chống gậy";
     examples := ["考"; "者"; "老師"; "孝"] |};
  {| id := 57; vn := "Thần"; radical := "辰"; pinyin := "chén";
     meaning := "buổi sớm; thời điểm";
     mnemonic := "mặt trời vừa nhú";
     examples := ["晨"; "農"; "辱"] |};
  {| id := 58; vn := "Cung"; radical := "弓"; pinyin := "gōng";
     meaning := "cung; kéo";
     mnemonic := "cây cung cong";
     examples := ["強"; "張"; "引"; "彈"] |};
  {| id := 59; vn := "Bạch"; radical := "白"; pinyin := "bái";
     meaning := "trắng; sáng; rõ";
     mnemonic := "ánh sáng trong ô";
     examples := ["明白"; "百"; "皆"; "皂"] |};
  {| id := 60; vn := "Hộ"; radical := "戶"; pinyin := "hù";
     meaning := "cửa nhà; hộ gia đình";
     mnemonic := "cánh cửa nhìn nghiêng";
     examples := ["所"; "房"; "扇"; "戶口"] |}
].

Definition RADICALS : list Radical :=
  RADICALS_01_15 ++ RADICALS_16_30 ++ RADICALS_31_45 ++ RADICALS_46_60.

(** ** How the program reads the table *)

(** [RADICALS.map((r) => r.id)] *)
Definition idsAll : list nat := id <$> RADICALS.

(** The value the model gives to [RADICALS[0]] of an empty table.  The
    table is a non-empty constant, so no execution reaches it
    ([findCard_in_table]). *)
Definition noCard : Radical :=
  {| id := 0; vn := ""; radical := ""; pinyin := ""; meaning := "";
     mnemonic := ""; examples := [] |}.

(** [RADICALS.find((r) => r.id === id) || RADICALS[0]] *)
Definition findCard (i : nat) : Radical :=
  match List.find (fun r => bool_decide (id r = i)) RADICALS with
  | Some r => r
  | None => List.hd noCard RADICALS
  end.

(** [RADICALS.filter((r) => r.id !== card.id)] *)
Definition othersOf (card : Radical) : list Radical :=
  List.filter (fun r => bool_decide (id r ≠ id card)) RADICALS.

#[export] Instance Radical_eq_dec : EqDecision Radical.
Proof. solve_decision. Defined.

(** ** Facts about the table, by evaluation *)

Lemma RADICALS_length : length RADICALS = 60.
Proof. reflexivity. Qed.

Lemma idsAll_seq : idsAll = seq 1 60.
Proof. reflexivity. Qed.

Lemma idsAll_length : length idsAll = 60.
Proof. reflexivity. Qed.

Lemma idsAll_NoDup : NoDup idsAll.
Proof. rewrite idsAll_seq. apply NoDup_seq. Qed.

Lemma idsAll_elem i : i ∈ idsAll <-> 1 <= i <= 60.
Proof. rewrite idsAll_seq, elem_of_seq. lia. Qed.

Lemma idsAll_nonempty : idsAll ≠ [].
Proof. done. Qed.

Lemma meanings_NoDup : NoDup (meaning <$> RADICALS).
Proof. apply (bool_decide_unpack _). by vm_compute. Qed.

Lemma radicals_NoDup : NoDup (radical <$> RADICALS).
Proof. apply (bool_decide_unpack _). by vm_compute. Qed.

(** A decidable property of identifiers that evaluation confirms on
    1..60 holds of every identifier of the table. *)
Lemma ids_check (P : nat -> Prop) `{!∀ i, Decision (P i)} :
  bool_decide (Forall P (seq 1 60)) = true -> ∀ i, 1 <= i <= 60 -> P i.
Proof.
  intros Hc%bool_decide_eq_true i Hi.
  rewrite Forall_forall in Hc. apply Hc, elem_of_seq. lia.
Qed.

Lemma cards_check (P : Radical -> Prop) `{!∀ r, Decision (P r)} :
  bool_decide (Forall P RADICALS) = true -> ∀ r, r ∈ RADICALS -> P r.
Proof. intros Hc%bool_decide_eq_true r Hr. rewrite Forall_forall in Hc. by apply Hc. Qed.

Lemma findCard_id i : 1 <= i <= 60 -> id (findCard i) = i.
Proof. revert i. apply (ids_check (λ i, id (findCard i) = i)). by vm_compute. Qed.

Lemma findCard_in_table i : findCard i ∈ RADICALS.
Proof.
  unfold findCard. destruct (List.find _ _) as [r|] eqn:Hf.
  - apply list_elem_of_In. by apply find_some in Hf as [? _].
  - by left.
Qed.

Lemma findCard_fallback i : ¬ (1 <= i <= 60) -> findCard i = findCard 1.
Proof.
  intros Hi. unfold findCard at 1.
  destruct (List.find _ _) as [r|] eqn:Hf; [|done].
  apply find_some in Hf as [Hin Hid%bool_decide_eq_true].
  assert (id r ∈ idsAll) as Hr%idsAll_elem; [|lia].
  apply list_elem_of_fmap. exists r. split; [done|]. by apply list_elem_of_In.
Qed.

Lemma card_id_range r : r ∈ RADICALS -> 1 <= id r <= 60.
Proof. intros Hr. apply idsAll_elem, list_elem_of_fmap. eauto. Qed.

Lemma findCard_of_id r : r ∈ RADICALS -> findCard (id r) = r.
Proof. revert r. apply (cards_check (λ r, findCard (id r) = r)). by vm_compute. Qed.

Lemma othersOf_length r : r ∈ RADICALS -> length (othersOf r) = 59.
Proof. revert r. apply (cards_check (λ r, length (othersOf r) = 59)). by vm_compute. Qed.

Lemma othersOf_elem card r : r ∈ othersOf card <-> r ∈ RADICALS ∧ id r ≠ id card.
Proof.
  unfold othersOf. rewrite list_elem_of_In, filter_In, <- list_elem_of_In.
  by rewrite bool_decide_eq_true.
Qed.

(** Cards with different identifiers have different meanings. *)
Lemma meaning_inj r1 r2 :
  r1 ∈ RADICALS -> r2 ∈ RADICALS -> meaning r1 = meaning r2 -> r1 = r2.
Proof.
  intros H1 H2 Hm.
  apply list_elem_of_lookup in H1 as [i1 H1], H2 as [i2 H2].
  assert (i1 = i2) as ->; [|congruence].
  eapply NoDup_lookup; [apply meanings_NoDup|..]; rewrite list_lookup_fmap.
  - by rewrite H1.
  - by rewrite H2, Hm.
Qed.

#[export] Hint Resolve idsAll_NoDup findCard_in_table card_id_range : radicals.

(** The table is a large constant: proofs go through the lemmas above, and
    evaluation ([vm_compute]) still sees it. *)
#[global] Opaque RADICALS.
