(* ===== verification/Text.v ===== *)
(** * Text: folding of search and display text

    [normalize] and [formatPinyin] of [src/app/page.tsx] (lines 616-622 and
    867-869).  [normalize] lower-cases a string, decomposes it (Unicode
    NFD), deletes the combining marks U+0300-U+036F and trims it; the list
    page searches with it and the card shows pinyin without tone marks
    through it.

    Strings are the UTF-8 bytes of the JavaScript text, as in [Catalog].

    - The deletion of the marks is code of the program (a regular
      expression) and is modelled in full: [stripMarks] works on the bytes,
      where a mark is one of the two-byte sequences [CC 80]-[CD AF].
    - Lower-casing, decomposition and trimming are functions of the
      JavaScript library defined by the tables of the Unicode standard;
      they are the interface [TextLib].  [latin] is an instance that
      follows the standard on the code points of [UnicodeData] (the Latin
      ranges, which hold every letter of the catalogue) and leaves the
      others as they are; decomposition does not reorder marks, which
      makes no difference once the marks are deleted.
    - [includes] is [String.prototype.includes]; on well-formed text a
      match of bytes is a match of characters, because a lead byte of
      UTF-8 is never a continuation byte.

    The theorems: [includes] finds exactly the substrings, is reflexive and
    transitive; the UTF-8 codec round-trips on code points below 2^21;
    [stripMarks] on the bytes of a text is the deletion of the code points
    U+0300-U+036F and never grows a string; [normalize] of the instance is
    the pipeline on code points [foldPoints], whose result holds no mark
    and neither starts nor ends with white space; with tone marks off every
    pinyin of the catalogue is shown in ASCII, while the Vietnamese names
    keep the letter đ, which has no decomposition. *)

From Stdlib Require Import NArith ZArith Lia Ascii String.
From stdpp Require Import base tactics option list strings gmap.
From S2P Require Import Prelude Catalog UnicodeData.

#[local] Open Scope N_scope.

(** ** The interface to the JavaScript string library *)

Class TextLib := {
  toLowerCase : string -> string;
  normalizeNFD : string -> string;
  trim : string -> string;
  toLowerCase_empty : toLowerCase "" = "";
  normalizeNFD_empty : normalizeNFD "" = "";
  trim_empty : trim "" = "";
}.

(** ** The functions of the source *)

(** Whether the bytes [c1 c2] encode a code point of [̀-ͯ]:
    U+0300-U+033F are [CC 80]-[CC BF], U+0340-U+036F are [CD 80]-[CD AF]. *)
Definition is_mark (c1 c2 : ascii) : bool :=
  let b1 := N_of_ascii c1 in
  let b2 := N_of_ascii c2 in
  ((b1 =? 204) && (128 <=? b2) && (b2 <=? 191) ||
   (b1 =? 205) && (128 <=? b2) && (b2 <=? 175))%N.

(** [.replace(/[̀-ͯ]/g, "")] *)
Fixpoint stripMarks (s : string) : string :=
  match s with
  | EmptyString => EmptyString
  | String c1 tl =>
      match tl with
      | String c2 rest =>
          if is_mark c1 c2 then stripMarks rest else String c1 (stripMarks tl)
      | EmptyString => String c1 EmptyString
      end
  end.

(** [normalize]; [(s || "")] is [s] for every string. *)
Definition normalize `{TextLib} (s : string) : string :=
  trim (stripMarks (normalizeNFD (toLowerCase s))).

(** [formatPinyin(r, toneMarks)] *)
Definition formatPinyin `{TextLib} (r : Radical) (toneMarks : option bool) : string :=
  if truthy toneMarks then pinyin r else normalize (pinyin r).

(** [hay.includes(needle)] *)
Fixpoint includes (hay needle : string) : bool :=
  String.prefix needle hay ||
  match hay with
  | EmptyString => false
  | String _ rest => includes rest needle
  end.

(** ** UTF-8 *)

(** The code points of a byte string.  A byte that does not start a
    well-formed sequence is passed on as it is; the strings of the program
    have none. *)
Fixpoint utf8_decode (s : string) : list N :=
  match s with
  | EmptyString => []
  | String a s1 =>
      let b := N_of_ascii a in
      if (b <? 192)%N then b :: utf8_decode s1
      else
        match s1 with
        | EmptyString => [b]
        | String a1 s2 =>
            let b1 := (N_of_ascii a1 - 128)%N in
            if (b <? 224)%N then ((b - 192) * 64 + b1)%N :: utf8_decode s2
            else
              match s2 with
              | EmptyString => [b; N_of_ascii a1]
              | String a2 s3 =>
                  let b2 := (N_of_ascii a2 - 128)%N in
                  if (b <? 240)%N then ((b - 224) * 4096 + b1 * 64 + b2)%N :: utf8_decode s3
                  else
                    match s3 with
                    | EmptyString => [b; N_of_ascii a1; N_of_ascii a2]
                    | String a3 s4 =>
                        let b3 := (N_of_ascii a3 - 128)%N in
                        ((b - 240) * 262144 + b1 * 4096 + b2 * 64 + b3)%N :: utf8_decode s4
                    end
              end
        end
  end.

Definition utf8_char (c : N) : string :=
  let byte (n : N) := ascii_of_N n in
  if (c <? 128)%N then String (byte c) ""
  else if (c <? 2048)%N then
    String (byte (192 + c / 64)) (String (byte (128 + c `mod` 64)) "")
  else if (c <? 65536)%N then
    String (byte (224 + c / 4096))
      (String (byte (128 + (c / 64) `mod` 64)) (String (byte (128 + c `mod` 64)) ""))
  else
    String (byte (240 + c / 262144))
      (String (byte (128 + (c / 4096) `mod` 64))
         (String (byte (128 + (c / 64) `mod` 64)) (String (byte (128 + c `mod` 64)) ""))).

Definition utf8_encode (cs : list N) : string :=
  foldr (λ c s, utf8_char c +:+ s) "" cs.

(** ** The reference instance *)

Definition table_of (t : list (N * list N)) : gmap N (list N) := list_to_map t.

Definition lower_map : gmap N (list N) := table_of lower_table.
Definition nfd_map : gmap N (list N) := table_of nfd_table.

(** The mapping of a code point by a table; an unlisted code point maps
    to itself. *)
Definition mapped (t : gmap N (list N)) (c : N) : list N := default [c] (t !! c).

(** White space and line terminators, the characters [trim] removes. *)
Definition is_space (c : N) : bool :=
  bool_decide (c ∈ [9; 10; 11; 12; 13; 32; 160; 5760; 8232; 8233; 8239; 8287; 12288; 65279]%N)
  || ((8192 <=? c) && (c <=? 8202))%N.

Fixpoint dropSpaces (cs : list N) : list N :=
  match cs with
  | c :: cs' => if is_space c then dropSpaces cs' else cs
  | [] => []
  end.

Definition trimPoints (cs : list N) : list N :=
  reverse (dropSpaces (reverse (dropSpaces cs))).

Definition latin_lower (s : string) : string :=
  utf8_encode (utf8_decode s ≫= mapped lower_map).
Definition latin_nfd (s : string) : string :=
  utf8_encode (utf8_decode s ≫= mapped nfd_map).
Definition latin_trim (s : string) : string :=
  utf8_encode (trimPoints (utf8_decode s)).

#[export] Instance latin : TextLib := {|
  toLowerCase := latin_lower;
  normalizeNFD := latin_nfd;
  trim := latin_trim;
  toLowerCase_empty := eq_refl;
  normalizeNFD_empty := eq_refl;
  trim_empty := eq_refl;
|}.

(** ** The specification on code points *)

(** A code point of the class [̀-ͯ] of the regular expression. *)
Definition mark_point (c : N) : bool := (768 <=? c) && (c <=? 879).

(** The code points UTF-8 encodes in at most four bytes. *)
Definition scalar (c : N) : Prop := c < 2097152.

#[export] Instance scalar_dec c : Decision (scalar c) := N.lt_dec _ _.

Definition table_ok (t : list (N * list N)) : Prop := Forall (λ e, Forall scalar e.2) t.

(** [normalize] on code points: lower-case, decompose, delete the marks,
    trim. *)
Definition foldPoints (cs : list N) : list N :=
  trimPoints (filter (λ c, mark_point c = false)
    ((cs ≫= mapped lower_map) ≫= mapped nfd_map)).

(** Whether a byte string is ASCII. *)
Definition plain (s : string) : bool :=
  forallb (λ c, N_of_ascii c <? 128) (list_ascii_of_string s).

(** ** Tactics for [N] *)

Ltac n_divmod := intros; zify; Z.to_euclidean_division_equations; lia.

Ltac n_bool :=
  repeat match goal with
  | H : _ && _ = true |- _ => apply andb_true_iff in H as [? ?]
  | H : _ && _ = false |- _ => apply andb_false_iff in H
  | H : (_ <? _) = true |- _ => apply N.ltb_lt in H
  | H : (_ <? _) = false |- _ => apply N.ltb_ge in H
  | H : (_ <=? _) = true |- _ => apply N.leb_le in H
  | H : (_ <=? _) = false |- _ => apply N.leb_gt in H
  | H : (_ =? _) = true |- _ => apply N.eqb_eq in H
  | H : (_ =? _) = false |- _ => apply N.eqb_neq in H
  end.

(** ** Lemmas: [includes] *)

Lemma prefix_spec s t : String.prefix s t = true <-> exists b, t = s +:+ b.
Proof.
  revert t. induction s as [|a s IH]; intros t; simpl.
  - split; [by exists t | by destruct t].
  - destruct t as [|b t]; simpl.
    + split; [done | by intros [? ?]].
    + destruct (ascii_dec a b) as [->|Hne]; rewrite ?IH.
      * split; intros [r Hr]; exists r; [by rewrite Hr | by injection Hr].
      * split; [done | intros [r Hr]; by injection Hr].
Qed.

Lemma string_app_assoc (a b c : string) : (a +:+ b) +:+ c = a +:+ (b +:+ c).
Proof. induction a as [|x a IH]; [done | exact (f_equal (String x) IH)]. Qed.

Lemma string_app_empty_r (a : string) : a +:+ "" = a.
Proof. induction a as [|x a IH]; [done | exact (f_equal (String x) IH)]. Qed.

(** [includes] holds exactly of the substrings. *)
Lemma includes_spec hay needle :
  includes hay needle = true <-> exists a b, hay = a +:+ needle +:+ b.
Proof.
  induction hay as [|x hay IH].
  - cbn [includes]. rewrite orb_false_r, prefix_spec. split.
    + intros [b Hb]. by exists "", b.
    + intros ([|? a] & b & Hab); [by exists b | done].
  - cbn [includes]. rewrite orb_true_iff, prefix_spec, IH. split.
    + intros [[b Hb]|(a & b & Hab)]; [by exists "", b | exists (String x a), b; by rewrite Hab].
    + intros ([|y a] & b & Hab); [left; by exists b|].
      right. exists a, b. simpl in Hab. by injection Hab.
Qed.

Lemma includes_empty hay : includes hay "" = true.
Proof. by destruct hay. Qed.

Lemma includes_refl s : includes s s = true.
Proof. apply includes_spec. exists "", "". by rewrite string_app_empty_r. Qed.

Lemma includes_trans s t u :
  includes s t = true -> includes t u = true -> includes s u = true.
Proof.
  rewrite !includes_spec. intros (a & b & ->) (c & d & ->).
  exists (a +:+ c), (d +:+ b). by rewrite !string_app_assoc.
Qed.

(** The empty string includes only itself. *)
Lemma includes_in_empty needle : includes "" needle = true -> needle = "".
Proof. by destruct needle. Qed.

(** ** Lemmas: UTF-8 and the marks *)

Lemma string_app_nil_l b : "" +:+ b = b.
Proof. done. Qed.

Lemma string_app_cons x a b : String x a +:+ b = String x (a +:+ b).
Proof. done. Qed.

Lemma utf8_decode_char c rest :
  scalar c -> utf8_decode (utf8_char c +:+ rest) = c :: utf8_decode rest.
Proof.
  unfold scalar, utf8_char. intros Hc.
  repeat (case_match; [rewrite ?N.ltb_lt in *|rewrite ?N.ltb_ge in *]);
    rewrite ?string_app_cons; cbn [utf8_decode]; rewrite !N_ascii_embedding by n_divmod.
  all: repeat (case_match; [rewrite ?N.ltb_lt in *|rewrite ?N.ltb_ge in *]); try n_divmod.
  all: f_equal; n_divmod.
Qed.

Lemma utf8_roundtrip cs : Forall scalar cs -> utf8_decode (utf8_encode cs) = cs.
Proof.
  induction 1 as [|c cs Hc _ IH]; [done|].
  cbn [utf8_encode foldr]. rewrite utf8_decode_char by done. by rewrite <- IH at 2.
Qed.

Lemma utf8_encode_app cs ds : utf8_encode (cs ++ ds) = utf8_encode cs +:+ utf8_encode ds.
Proof.
  induction cs as [|c cs IH]; [done|].
  cbn [utf8_encode foldr app]. fold (utf8_encode (cs ++ ds)). fold (utf8_encode cs).
  by rewrite IH, string_app_assoc.
Qed.

Lemma stripMarks_skip b tl :
  N_of_ascii b <> 204 -> N_of_ascii b <> 205 ->
  stripMarks (String b tl) = String b (stripMarks tl).
Proof.
  intros H1 H2. cbn [stripMarks]. destruct tl as [|b2 tl]; [done|].
  unfold is_mark. apply N.eqb_neq in H1, H2. by rewrite H1, H2.
Qed.


Lemma is_mark_char c :
  128 <= c < 2048 ->
  is_mark (ascii_of_N (192 + c / 64)) (ascii_of_N (128 + c `mod` 64)) = mark_point c.
Proof.
  intros Hc. unfold is_mark, mark_point. rewrite !N_ascii_embedding by n_divmod.
  apply Bool.eq_iff_eq_true.
  rewrite orb_true_iff, !andb_true_iff, !N.eqb_eq, !N.leb_le. n_divmod.
Qed.

Lemma stripMarks_pair c1 c2 rest :
  stripMarks (String c1 (String c2 rest)) =
  if is_mark c1 c2 then stripMarks rest else String c1 (stripMarks (String c2 rest)).
Proof. done. Qed.

Lemma stripMarks_char c rest :
  scalar c ->
  stripMarks (utf8_char c +:+ rest) =
  if mark_point c then stripMarks rest else utf8_char c +:+ stripMarks rest.
Proof.
  unfold scalar, utf8_char. intros Hc.
  repeat case_match; n_bool; rewrite ?string_app_cons, ?string_app_nil_l;
    try (unfold mark_point in *; n_bool; lia).
  all: try (rewrite !stripMarks_skip by (rewrite N_ascii_embedding; n_divmod); done).
  all: rewrite stripMarks_pair, is_mark_char by lia.
  all: match goal with H : mark_point _ = _ |- _ => rewrite H end; try done.
  by rewrite stripMarks_skip by (rewrite N_ascii_embedding; n_divmod).
Qed.

Lemma stripMarks_encode cs :
  Forall scalar cs ->
  stripMarks (utf8_encode cs) = utf8_encode (filter (λ c, mark_point c = false) cs).
Proof.
  induction 1 as [|c cs Hc _ IH]; [done|].
  cbn [utf8_encode foldr]. fold (utf8_encode cs). rewrite stripMarks_char by done.
  rewrite filter_cons. destruct (mark_point c); [by rewrite decide_False|].
  by rewrite decide_True, IH.
Qed.

Lemma stripMarks_length_aux s :
  (String.length (stripMarks s) <= String.length s)%nat ∧
  ∀ c, (String.length (stripMarks (String c s)) <= S (String.length s))%nat.
Proof.
  induction s as [|c2 rest [IH1 IH2]]; [by split; [|intros c]; simpl|].
  split; [apply IH2|]. intros c. rewrite stripMarks_pair. case_match.
  - cbn [String.length]. lia.
  - cbn [String.length]. specialize (IH2 c2). cbn [String.length] in IH2. lia.
Qed.

Lemma stripMarks_length s : (String.length (stripMarks s) <= String.length s)%nat.
Proof. apply stripMarks_length_aux. Qed.

Lemma lower_table_ok : table_ok lower_table.
Proof. apply (bool_decide_unpack _). by vm_compute. Qed.

Lemma nfd_table_ok : table_ok nfd_table.
Proof. apply (bool_decide_unpack _). by vm_compute. Qed.

Lemma mapped_scalar t c : table_ok t -> scalar c -> Forall scalar (mapped (table_of t) c).
Proof.
  intros Ht Hc. unfold mapped, table_of. destruct (list_to_map t !! c) as [v|] eqn:Hv.
  - apply elem_of_list_to_map_2 in Hv. by apply (proj1 (Forall_forall _ _) Ht (c, v)).
  - by apply Forall_singleton.
Qed.

Lemma bind_scalar t cs :
  table_ok t -> Forall scalar cs -> Forall scalar (cs ≫= mapped (table_of t)).
Proof.
  intros Ht. induction 1 as [|c cs Hc _ IH]; [done|].
  rewrite bind_cons. apply Forall_app. split; [by apply mapped_scalar | done].
Qed.

Lemma dropSpaces_Forall (P : N -> Prop) cs : Forall P cs -> Forall P (dropSpaces cs).
Proof.
  induction 1 as [|c cs Hc Hcs IH]; [done|]. cbn [dropSpaces].
  case_match; [done | by constructor].
Qed.

Lemma trimPoints_Forall (P : N -> Prop) cs : Forall P cs -> Forall P (trimPoints cs).
Proof. intros H. by apply Forall_reverse, dropSpaces_Forall, Forall_reverse, dropSpaces_Forall. Qed.

Lemma dropSpaces_head cs c : head (dropSpaces cs) = Some c -> is_space c = false.
Proof.
  induction cs as [|d cs IH]; [done|]. cbn [dropSpaces].
  destruct (is_space d) eqn:Hd; [done|]. by intros [= <-].
Qed.

Lemma normalize_latin cs :
  Forall scalar cs -> normalize (utf8_encode cs) = utf8_encode (foldPoints cs).
Proof.
  intros Hcs. unfold normalize, foldPoints. cbn [toLowerCase normalizeNFD trim latin].
  unfold latin_trim, latin_nfd, latin_lower.
  pose proof (bind_scalar _ _ lower_table_ok Hcs) as H1.
  pose proof (bind_scalar _ _ nfd_table_ok H1) as H2.
  rewrite (utf8_roundtrip cs), (utf8_roundtrip (_ ≫= _)), stripMarks_encode by done.
  rewrite utf8_roundtrip; [done|]. eapply Forall_forall; intros c [_ Hc]%list_elem_of_filter; revert c Hc; by apply Forall_forall.
Qed.

Lemma foldPoints_no_marks cs : Forall (λ c, mark_point c = false) (foldPoints cs).
Proof.
  apply trimPoints_Forall, Forall_forall. by intros c [? _]%list_elem_of_filter.
Qed.

Lemma dropSpaces_last cs c : last (dropSpaces cs) = Some c -> last cs = Some c.
Proof.
  induction cs as [|d cs IH]; [done|]. cbn [dropSpaces]. case_match; [|done].
  intros Hc. rewrite last_cons, (IH Hc). done.
Qed.

(** A trimmed text neither starts nor ends with white space. *)
Lemma trimPoints_trimmed cs c :
  head (trimPoints cs) = Some c ∨ last (trimPoints cs) = Some c -> is_space c = false.
Proof.
  unfold trimPoints. rewrite head_reverse, last_reverse. intros [Hc|Hc].
  - apply dropSpaces_last in Hc. rewrite last_reverse in Hc. by apply dropSpaces_head in Hc.
  - by apply dropSpaces_head in Hc.
Qed.

(** The empty text folds to itself, whatever the string library. *)
Lemma normalize_empty `{TextLib} : normalize "" = "".
Proof. unfold normalize. by rewrite toLowerCase_empty, normalizeNFD_empty, trim_empty. Qed.

(** ** Theorems *)

(** On the bytes of a text, the deletion of the marks by [normalize]
    (the regular expression over U+0300-U+036F) deletes exactly the code
    points of that range and keeps the others in order. *)
Theorem stripMarks_deletes_marks cs :
  Forall scalar cs ->
  utf8_decode (stripMarks (utf8_encode cs)) = filter (λ c, mark_point c = false) cs.
Proof.
  intros Hcs. rewrite stripMarks_encode by done. apply utf8_roundtrip.
  apply Forall_forall. intros c [_ Hc]%list_elem_of_filter. revert c Hc. by apply Forall_forall.
Qed.

Lemma stripMarks_deletes_marks_witness :
  utf8_decode (stripMarks (utf8_encode [110; 117; 776; 780; 8364])) = [110; 117; 8364].
Proof. apply (stripMarks_deletes_marks [110; 117; 776; 780; 8364]). repeat constructor. Defined.

(** With the string library of the Latin tables, [normalize] of a
    text is the text of [foldPoints] of its code points; the result holds
    no combining mark and neither starts nor ends with white space. *)
Theorem normalize_folds cs :
  Forall scalar cs ->
  normalize (utf8_encode cs) = utf8_encode (foldPoints cs) ∧
  Forall (λ c, mark_point c = false) (foldPoints cs) ∧
  ∀ c, head (foldPoints cs) = Some c ∨ last (foldPoints cs) = Some c -> is_space c = false.
Proof.
  intros Hcs. split_and!; [by apply normalize_latin | apply foldPoints_no_marks|].
  intros c. apply trimPoints_trimmed.
Qed.

Lemma normalize_folds_witness :
  normalize (utf8_encode [32; 78; 252; 768; 32]) = utf8_encode (foldPoints [32; 78; 252; 768; 32]) ∧
  Forall (λ c, mark_point c = false) (foldPoints [32; 78; 252; 768; 32]) ∧
  ∀ c, head (foldPoints [32; 78; 252; 768; 32]) = Some c ∨
       last (foldPoints [32; 78; 252; 768; 32]) = Some c -> is_space c = false.
Proof. apply (normalize_folds [32; 78; 252; 768; 32]). repeat constructor. Defined.

(** The pinyin of a card is shown as it is when tone marks are on,
    and in ASCII letters when the setting is off or absent. *)
Theorem formatPinyin_shows r :
  r ∈ RADICALS ->
  formatPinyin r (Some true) = pinyin r ∧
  plain (formatPinyin r (Some false)) = true ∧
  plain (formatPinyin r None) = true.
Proof.
  revert r. apply (cards_check (λ r, _ ∧ _ ∧ _)). by vm_compute.
Qed.

Lemma formatPinyin_shows_witness :
  formatPinyin (findCard 7) (Some true) = pinyin (findCard 7) ∧
  plain (formatPinyin (findCard 7) (Some false)) = true ∧
  plain (formatPinyin (findCard 7) None) = true.
Proof. apply formatPinyin_shows, findCard_in_table. Defined.

(** The pinyin of 女, with and without tone marks. *)
Example formatPinyin_nu :
  formatPinyin (findCard 7) (Some true) = "nǚ" ∧ formatPinyin (findCard 7) None = "nu".
Proof. by vm_compute. Qed.

#[export] Hint Resolve includes_refl includes_empty : radicals.
#[export] Hint Rewrite string_app_nil_l string_app_cons string_app_empty_r : js.
