(* ===== verification/Random.v ===== *)
(** * Random: the random source and the shuffle

    [shuffle] of [src/app/page.tsx] is the Fisher-Yates loop: it copies the
    array, walks [i] from the last index down to 1, draws
    [j = Math.floor(Math.random() * (i + 1))] and swaps the entries at [i]
    and [j].

    [Math.random()] is the only source of nondeterminism of the program.  It
    is modelled as an explicit generator state [Rng]: an infinite stream of
    draws and the position of the next one.  A draw is a fraction
    [m / 2^53] with [0 <= m < 2^53], the values a double in [[0, 1)] produced
    by the browser's generator takes; the stream holds the numerators.
    The product [Math.random() * (i + 1)] is a product of doubles: it is the
    exact product rounded to 53 significant bits ([round53]), and the index
    is the floor of the rounded value.
    Every function that draws takes the generator and returns the advanced
    one, so the order and the number of draws of the source are part of the
    model.

    The theorems: the drawn index is in range, also after rounding, so the
    swap never leaves the array; it is the index of exact arithmetic or the
    next one; the result of [shuffle] is a permutation of its argument, of the
    same length and without new duplicates; a shuffle of [n] entries consumes
    exactly [n - 1] draws; every permutation of the argument is the result
    for some draws ([drawFor] gives the draw that selects a wanted index,
    [reads] says that a generator yields given draws next). *)

From Stdlib Require Import ZArith Lia.
From stdpp Require Import base tactics option list.
From S2P Require Import Prelude.

(** ** The generator *)

Record Rng := {
  stream : nat -> Z;
  pos : nat;
}.

Definition resolution : Z := 2 ^ 53.

(** [Math.random()]: the numerator of the next draw and the generator after it. *)
Definition Math_random (g : Rng) : Z * Rng :=
  ((stream g (pos g) `mod` resolution)%Z, {| stream := stream g; pos := S (pos g) |}).

(** The product of two doubles is the exact product rounded to 53
    significant bits, ties to even.  [round53 p] is that rounding of a
    non-negative integer [p]: with [e] the number of bits [p] has beyond 53,
    the last [e] bits are dropped and the rest is rounded up when they are
    more than half a unit, or exactly half and the rest is odd. *)
Definition round53 (p : Z) : Z :=
  (let e := Z.log2 p - 52 in
   if e <=? 0 then p
   else
     let q := p / 2 ^ e in
     let r := p `mod` 2 ^ e in
     let half := 2 ^ (e - 1) in
     (if (half <? r) || ((r =? half) && Z.odd q) then q + 1 else q) * 2 ^ e)%Z.

(** [Math.floor(Math.random() * n)]: the draw [m / 2^53] and the integer
    [n] are doubles, their product is the double [round53 (m * n) / 2^53]
    (scaling by a power of two is exact), and [Math.floor] of it is the
    integer quotient. *)
Definition randomBelow (n : nat) (g : Rng) : nat * Rng :=
  let '(m, g') := Math_random g in
  (Z.to_nat (round53 (m * Z.of_nat n) / resolution), g').

(** The generator after [k] more draws. *)
Definition advance (k : nat) (g : Rng) : Rng :=
  {| stream := stream g; pos := pos g + k |}.

Arguments randomBelow : simpl never.

(** A draw that makes [Math.floor(Math.random() * n)] the index [j]: the
    numerator of the largest fraction [m / 2^53] whose product by [n] is at
    most [j + 1/2], the middle of the [j]-th unit interval. *)
Definition drawFor (n j : nat) : Z :=
  ((2 * Z.of_nat j + 1) * 2 ^ 52 / Z.of_nat n)%Z.

(** The next draws of [g] are the numerators [ds], in this order. *)
Definition reads (g : Rng) (ds : list Z) : Prop :=
  ∀ k d, ds !! k = Some d -> stream g (pos g + k) = d.

(** The generator that yields the draws [ds] and then zeros. *)
Definition replay (ds : list Z) : Rng :=
  {| stream := λ k, default 0%Z (ds !! k); pos := 0 |}.

(** ** The functions of the source *)

(** [[a[i], a[j]] = [a[j], a[i]]]: the right-hand side is read first, then
    [a[i]] and [a[j]] are written in this order.  Both indices are inside
    the array at every call ([shuffle_loop_in_range]); outside it the model
    leaves the array as it is. *)
Definition swap {A : Type} (a : list A) (i j : nat) : list A :=
  match a !! i, a !! j with
  | Some x, Some y => <[j := x]> (<[i := y]> a)
  | _, _ => a
  end.

(** The loop [for (let i = ...; i > 0; i--)], entered with the current [i]. *)
Fixpoint shuffle_loop {A : Type} (i : nat) (a : list A) (g : Rng) : list A * Rng :=
  match i with
  | O => (a, g)
  | S i' =>
      let '(j, g') := randomBelow (i + 1) g in
      shuffle_loop i' (swap a i j) g'
  end.

Definition shuffle {A : Type} (arr : list A) (g : Rng) : list A * Rng :=
  shuffle_loop (length arr - 1) arr g.

(** ** The loop, turn by turn *)

(** The state of the [for] loop: the counter [i], a number that starts at
    [a.length - 1] (which is -1 for an empty array), the array and the
    generator. *)
Record LoopState (A : Type) := {
  l_i : Z;
  l_a : list A;
  l_g : Rng;
}.

Arguments l_i {A} _.
Arguments l_a {A} _.
Arguments l_g {A} _.

(** [i > 0] *)
Definition loop_test {A : Type} (st : LoopState A) : bool := (0 <? l_i st)%Z.

(** One turn: the body, then [i--]. *)
Definition loop_turn {A : Type} (st : LoopState A) : LoopState A :=
  let i := Z.to_nat (l_i st) in
  let '(j, g') := randomBelow (i + 1) (l_g st) in
  {| l_i := l_i st - 1; l_a := swap (l_a st) i j; l_g := g' |}.

(** The loop run for at most [fuel] turns: the state in which the test
    fails, when it is reached. *)
Fixpoint loop_run {A : Type} (fuel : nat) (st : LoopState A) : option (LoopState A) :=
  if loop_test st then
    match fuel with
    | O => None
    | S fuel' => loop_run fuel' (loop_turn st)
    end
  else Some st.

(** [const a = [...arr]; for (let i = a.length - 1; i > 0; i--) { ... }
    return a] *)
Definition shuffle_for {A : Type} (fuel : nat) (arr : list A) (g : Rng) : option (list A * Rng) :=
  match loop_run fuel {| l_i := Z.of_nat (length arr) - 1; l_a := arr; l_g := g |} with
  | Some st => Some (l_a st, l_g st)
  | None => None
  end.

(** The variant of the loop: the turns left. *)
Definition loop_variant {A : Type} (st : LoopState A) : nat := Z.to_nat (l_i st).

(** ** The generator: lemmas *)

Lemma Math_random_range g : (0 <= (Math_random g).1 < resolution)%Z.
Proof. simpl. apply Z.mod_pos_bound. by compute. Qed.

Lemma Math_random_pos g : pos (Math_random g).2 = S (pos g).
Proof. done. Qed.

Lemma Math_random_stream g : stream (Math_random g).2 = stream g.
Proof. done. Qed.

Lemma randomBelow_snd n g : (randomBelow n g).2 = advance 1 g.
Proof. unfold randomBelow, advance. simpl. f_equal. lia. Qed.

(** *** Rounding *)

Section rounding.
#[local] Open Scope Z_scope.

Lemma log2_large_pos p : 52 < Z.log2 p -> 0 < p.
Proof. intros Hp. destruct (decide (p <= 0)); [|lia]. rewrite Z.log2_nonpos in Hp; lia. Qed.

Lemma round53_exact p : Z.log2 p <= 52 -> round53 p = p.
Proof. intros Hp. unfold round53. by rewrite (proj2 (Z.leb_le _ _)) by lia. Qed.

(** Rounding moves a number by at most half a unit of its last place. *)
Lemma round53_near p :
  52 < Z.log2 p ->
  p - 2 ^ (Z.log2 p - 53) <= round53 p <= p + 2 ^ (Z.log2 p - 53) ∧
  round53 p `mod` 2 ^ (Z.log2 p - 52) = 0.
Proof.
  intros Hp. unfold round53. rewrite (proj2 (Z.leb_gt _ _)) by lia.
  replace (Z.log2 p - 52 - 1) with (Z.log2 p - 53) by lia.
  assert (2 ^ (Z.log2 p - 52) = 2 * 2 ^ (Z.log2 p - 53)) as He.
  { rewrite <- Z.pow_succ_r by lia. f_equal. lia. }
  assert (0 < 2 ^ (Z.log2 p - 53)) by (apply Z.pow_pos_nonneg; lia).
  pose proof (Z.div_mod p (2 ^ (Z.log2 p - 52)) ltac:(lia)) as Hdm.
  pose proof (Z.mod_pos_bound p (2 ^ (Z.log2 p - 52)) ltac:(lia)) as Hr.
  split; [|by rewrite Z.mod_mul by lia].
  destruct (_ || _) eqn:Hup; [|apply orb_false_iff in Hup as [Hlt%Z.ltb_ge _]; lia].
  apply orb_true_iff in Hup as [Hlt%Z.ltb_lt|[Heq%Z.eqb_eq _]%andb_true_iff]; lia.
Qed.

(** The rounded product of a draw by [n] stays below [n]: the draw is at
    most [1 - 2^-53], and half a unit of the last place of the product is
    less than what is missing to [n]. *)
Lemma round53_lt m n :
  0 <= m < resolution -> 0 < n -> 0 <= round53 (m * n) < n * resolution.
Proof.
  unfold resolution. intros Hm Hn.
  assert (0 <= m * n <= (2 ^ 53 - 1) * n) as Hp by nia.
  destruct (decide (Z.log2 (m * n) <= 52)) as [Hs|Hl].
  { rewrite round53_exact by done. lia. }
  destruct (round53_near (m * n) ltac:(lia)) as [Hnear _].
  destruct (Z.log2_spec (m * n)) as [Hlo _]; [apply log2_large_pos; lia|].
  replace (Z.log2 (m * n)) with (53 + (Z.log2 (m * n) - 53)) in Hlo at 1 by lia.
  rewrite Z.pow_add_r in Hlo by lia.
  assert (0 < 2 ^ (Z.log2 (m * n) - 53)) by (apply Z.pow_pos_nonneg; lia).
  lia.
Qed.

(** Rounding never takes the product below an integer it had reached, and
    takes it at most to the next one: the index is the exact quotient or
    one more. *)
Lemma round53_floor m n :
  0 <= m < resolution -> 0 < n < resolution ->
  m * n / resolution <= round53 (m * n) / resolution <= m * n / resolution + 1.
Proof.
  unfold resolution. intros Hm Hn.
  destruct (decide (Z.log2 (m * n) <= 52)) as [Hs|Hl].
  { rewrite round53_exact by done. lia. }
  destruct (round53_near (m * n) ltac:(lia)) as [Hnear Hmul].
  assert (0 < m * n) as Hpos by (apply log2_large_pos; lia).
  assert (m * n < 2 ^ 53 * 2 ^ 53) as Hup by nia.
  assert (Z.log2 (m * n) < 106) as Hlog.
  { apply Z.log2_lt_pow2; [done|]. by rewrite <- Z.pow_add_r in Hup. }
  set (e := Z.log2 (m * n) - 52) in *.
  assert (2 ^ 53 = 2 ^ (53 - e) * 2 ^ e) as Hsplit by (rewrite <- Z.pow_add_r by lia; f_equal; lia).
  assert (0 < 2 ^ e ∧ 0 < 2 ^ (53 - e)) as [? ?] by (split; apply Z.pow_pos_nonneg; lia).
  assert (2 ^ (Z.log2 (m * n) - 53) < 2 ^ e) by (apply Z.pow_lt_mono_r; lia).
  assert (2 ^ e <= 2 ^ 53) by (apply Z.pow_le_mono_r; lia).
  apply Z.mod_divide in Hmul as [k Hk]; [|lia].
  pose proof (Z.div_mod (m * n) (2 ^ 53) ltac:(lia)) as Hdm.
  pose proof (Z.mod_pos_bound (m * n) (2 ^ 53) ltac:(lia)) as Hr.
  split.
  - apply Z.div_le_lower_bound; [lia|]. rewrite Hk.
    set (D := m * n / 2 ^ 53) in *.
    replace (2 ^ 53 * D) with (D * 2 ^ (53 - e) * 2 ^ e) by (rewrite Hsplit; ring).
    apply Z.mul_le_mono_nonneg_r; [lia|].
    apply Z.lt_succ_r, (Z.mul_lt_mono_pos_r (2 ^ e)); [lia|].
    rewrite <- Z.mul_assoc, <- Hsplit. lia.
  - assert (round53 (m * n) / 2 ^ 53 < m * n / 2 ^ 53 + 2); [|lia].
    apply Z.div_lt_upper_bound; lia.
Qed.

(** The product of [drawFor n j] by [n] is within [n] of the middle of the
    [j]-th unit interval, and rounding moves it by less than [n]: for arrays
    of up to [2^51] entries it stays inside the interval. *)
Lemma drawFor_range n j : (j < n)%nat -> 0 <= drawFor n j < resolution.
Proof.
  intros Hj. unfold drawFor, resolution. split.
  - apply Z.div_pos; lia.
  - apply Z.div_lt_upper_bound; lia.
Qed.

Lemma drawFor_product n j :
  (j < n)%nat ->
  (2 * Z.of_nat j + 1) * 2 ^ 52 - Z.of_nat n < drawFor n j * Z.of_nat n
    <= (2 * Z.of_nat j + 1) * 2 ^ 52.
Proof.
  intros Hj. unfold drawFor. set (a := (2 * Z.of_nat j + 1) * 2 ^ 52).
  pose proof (Z.mul_div_le a (Z.of_nat n) ltac:(lia)).
  pose proof (Z.mul_succ_div_gt a (Z.of_nat n) ltac:(lia)). lia.
Qed.

Lemma round53_drawFor n j :
  (j < n)%nat -> Z.of_nat n <= 2 ^ 51 ->
  round53 (drawFor n j * Z.of_nat n) / resolution = Z.of_nat j.
Proof.
  intros Hj Hn. pose proof (drawFor_product n j Hj) as Hp.
  set (p := drawFor n j * Z.of_nat n) in *.
  assert (Z.of_nat j * 2 ^ 53 <= round53 p < (Z.of_nat j + 1) * 2 ^ 53) as Hr.
  { destruct (decide (Z.log2 p <= 52)) as [Hs|Hl]; [rewrite round53_exact by done; lia|].
    destruct (round53_near p ltac:(lia)) as [Hnear _].
    destruct (Z.log2_spec p) as [Hlo _]; [apply log2_large_pos; lia|].
    replace (Z.log2 p) with (53 + (Z.log2 p - 53)) in Hlo at 1 by lia.
    rewrite Z.pow_add_r in Hlo by lia.
    assert (0 < 2 ^ (Z.log2 p - 53)) by (apply Z.pow_pos_nonneg; lia). lia. }
  symmetry. apply (Z.div_unique _ _ _ (round53 p - resolution * Z.of_nat j));
    unfold resolution; lia.
Qed.

End rounding.

Lemma randomBelow_lt n g : 0 < n -> (randomBelow n g).1 < n.
Proof.
  intros Hn. unfold randomBelow.
  pose proof (Math_random_range g) as Hm.
  destruct (Math_random g) as [m g']. simpl in *.
  destruct (round53_lt m (Z.of_nat n) Hm ltac:(lia)) as [H0 Hlt].
  assert (0 < resolution)%Z as Hr by by compute.
  assert (round53 (m * Z.of_nat n) / resolution < Z.of_nat n)%Z.
  { apply Z.div_lt_upper_bound; lia. }
  assert (0 <= round53 (m * Z.of_nat n) / resolution)%Z by (apply Z.div_pos; lia).
  lia.
Qed.

Lemma randomBelow_drawFor n j g :
  j < n -> (Z.of_nat n <= 2 ^ 51)%Z -> stream g (pos g) = drawFor n j ->
  (randomBelow n g).1 = j.
Proof.
  intros Hj Hn Hd. unfold randomBelow, Math_random. cbn. rewrite Hd.
  rewrite Z.mod_small by by apply drawFor_range.
  rewrite round53_drawFor by done. apply Nat2Z.id.
Qed.

Lemma reads_cons g d ds :
  reads g (d :: ds) -> stream g (pos g) = d ∧ reads (advance 1 g) ds.
Proof.
  intros Hr. split; [rewrite <- (Hr 0 d eq_refl); f_equal; lia|].
  intros k d' Hk. rewrite <- (Hr (S k) d' Hk). cbn. f_equal. lia.
Qed.

Lemma reads_replay ds : reads (replay ds) ds.
Proof. intros k d Hk. cbn. by rewrite Hk. Qed.

Lemma advance_0 g : advance 0 g = {| stream := stream g; pos := pos g |}.
Proof. unfold advance. f_equal. lia. Qed.

Lemma advance_advance k1 k2 g : advance k2 (advance k1 g) = advance (k1 + k2) g.
Proof. unfold advance. simpl. f_equal. lia. Qed.

(** ** The swap: lemmas *)

Section swap.
Context {A : Type}.
Implicit Types (a : list A) (i j : nat).

Lemma swap_in_range a i j x y :
  a !! i = Some x -> a !! j = Some y -> swap a i j = <[j := x]> (<[i := y]> a).
Proof. intros Hi Hj. unfold swap. by rewrite Hi, Hj. Qed.

Lemma swap_length a i j : length (swap a i j) = length a.
Proof. unfold swap. repeat case_match; by rewrite ?length_insert. Qed.

Lemma swap_perm a i j : swap a i j ≡ₚ a.
Proof.
  unfold swap. destruct (a !! i) as [x|] eqn:Hi; [|done].
  destruct (a !! j) as [y|] eqn:Hj; [|done].
  by apply Permutation_insert_swap.
Qed.

Lemma swap_same a i : swap a i i = a.
Proof.
  unfold swap. destruct (a !! i) as [x|] eqn:Hi; [|done].
  rewrite list_insert_insert_eq. by apply list_insert_id.
Qed.

(** After the swap, position [i] holds what was at [j], and conversely. *)
Lemma swap_lookup_l a i j x y :
  a !! i = Some x -> a !! j = Some y -> swap a i j !! i = Some y.
Proof.
  intros Hi Hj. rewrite (swap_in_range _ _ _ x y) by done.
  destruct (decide (i = j)) as [-> | Hne].
  - rewrite list_lookup_insert_eq; [congruence|].
    rewrite length_insert. by eapply lookup_lt_Some.
  - rewrite list_lookup_insert_ne by done.
    apply list_lookup_insert_eq. by eapply lookup_lt_Some.
Qed.

Lemma swap_lookup_r a i j x y :
  a !! i = Some x -> a !! j = Some y -> swap a i j !! j = Some x.
Proof.
  intros Hi Hj. rewrite (swap_in_range _ _ _ x y) by done.
  apply list_lookup_insert_eq. rewrite length_insert. by eapply lookup_lt_Some.
Qed.

Lemma swap_lookup_other a i j k :
  k ≠ i -> k ≠ j -> swap a i j !! k = a !! k.
Proof.
  intros Hi Hj. unfold swap. repeat case_match; try done.
  by rewrite !list_lookup_insert_ne.
Qed.

(** A swap inside a prefix does not see what follows it. *)
Lemma swap_app a s i j :
  i < length a -> j < length a -> swap (a ++ s) i j = swap a i j ++ s.
Proof.
  intros Hi Hj. unfold swap. rewrite !lookup_app_l by done.
  destruct (lookup_lt_is_Some_2 a i Hi) as [y ->].
  destruct (lookup_lt_is_Some_2 a j Hj) as [x ->].
  rewrite insert_app_l by done. by rewrite insert_app_l by by rewrite length_insert.
Qed.

Lemma snoc_lookup_last a i x :
  length a = S i -> a !! i = Some x -> a = take i a ++ [x].
Proof.
  intros Hlen Hi. rewrite <- (take_drop i a) at 1. f_equal.
  rewrite (drop_S _ x) by done. by rewrite drop_ge by lia.
Qed.

(** Swapping the last position with the position of [x] brings [x] to the
    end and leaves the other entries, in some order, before it. *)
Lemma swap_last a q x i j :
  length a = S i -> a !! j = Some x -> a ≡ₚ q ++ [x] ->
  ∃ a2, swap a i j = a2 ++ [x] ∧ a2 ≡ₚ q ∧ length a2 = i.
Proof.
  intros Hlen Hj Hperm.
  destruct (lookup_lt_is_Some_2 a i ltac:(lia)) as [y Hi].
  exists (take i (swap a i j)). split_and!.
  - apply snoc_lookup_last; [by rewrite swap_length | by eapply swap_lookup_l].
  - apply (Permutation_app_inv_r [x]).
    rewrite <- Hperm, <- snoc_lookup_last;
      [apply swap_perm | by rewrite swap_length | by eapply swap_lookup_l].
  - rewrite length_take, swap_length. lia.
Qed.
End swap.

(** ** The shuffle: lemmas *)

Section shuffle.
Context {A : Type}.
Implicit Types (a arr : list A) (g : Rng) (i : nat).

Lemma shuffle_loop_0 a g : shuffle_loop 0 a g = (a, g).
Proof. done. Qed.

(** One turn of the loop. *)
Lemma shuffle_loop_S i a g :
  shuffle_loop (S i) a g =
  shuffle_loop i (swap a (S i) (randomBelow (S i + 1) g).1) (randomBelow (S i + 1) g).2.
Proof. cbn [shuffle_loop]. by destruct (randomBelow (S i + 1) g). Qed.

Lemma shuffle_loop_perm i a g : (shuffle_loop i a g).1 ≡ₚ a.
Proof.
  revert a g. induction i as [|i IH]; intros a g; [done|].
  rewrite shuffle_loop_S, IH. apply swap_perm.
Qed.

Lemma shuffle_loop_rng i a g : (shuffle_loop i a g).2 = advance i g.
Proof.
  revert a g. induction i as [|i IH]; intros a g.
  - by rewrite shuffle_loop_0, advance_0; destruct g.
  - rewrite shuffle_loop_S, IH, randomBelow_snd, advance_advance. done.
Qed.

(** Positions above [i] are not touched by the loop entered at [i]. *)
Lemma shuffle_loop_above i a g k :
  i < k -> (shuffle_loop i a g).1 !! k = a !! k.
Proof.
  revert a g. induction i as [|i IH]; intros a g Hk; [done|].
  pose proof (randomBelow_lt (S i + 1) g ltac:(lia)) as Hj.
  rewrite shuffle_loop_S, IH by lia. apply swap_lookup_other; lia.
Qed.

(** Every swap of the loop is inside the array. *)
Lemma shuffle_loop_in_range i a g :
  i < length a ->
  let j := (randomBelow (i + 1) g).1 in is_Some (a !! i) ∧ is_Some (a !! j).
Proof.
  intros Hi. pose proof (randomBelow_lt (i + 1) g ltac:(lia)) as Hj.
  split; apply lookup_lt_is_Some; lia.
Qed.

(** The loop is onto: whatever order of the first [i + 1] entries is
    wanted, there are [i] draws that produce it.  The draw of each turn is
    the one that picks the position of the entry wanted at [i]. *)
Lemma shuffle_loop_onto i a s target :
  length a = S i -> target ≡ₚ a -> (Z.of_nat (S i) <= 2 ^ 51)%Z ->
  ∃ ds, length ds = i ∧ ∀ g, reads g ds -> (shuffle_loop i (a ++ s) g).1 = target ++ s.
Proof.
  revert a s target. induction i as [|i IH]; intros a s target Hlen Hperm Hn.
  { exists []. split; [done|]. intros g _. destruct a as [|x [|]]; try done.
    by apply Permutation_singleton_r in Hperm as ->. }
  assert (length target = S (S i)) as Hlt by by rewrite Hperm.
  destruct (lookup_lt_is_Some_2 target (S i) ltac:(lia)) as [x Hx].
  pose proof (snoc_lookup_last _ _ _ Hlt Hx) as Ht.
  set (q := take (S i) target) in *.
  assert (x ∈ a) as [j Hj]%list_elem_of_lookup_1.
  { rewrite <- Hperm, Ht. apply elem_of_app; right; apply list_elem_of_singleton; done. }
  pose proof (lookup_lt_Some _ _ _ Hj) as Hjlt.
  destruct (swap_last a q x (S i) j Hlen Hj) as (a2 & Hswap & Hperm2 & Hlen2).
  { by rewrite <- Hperm, <- Ht. }
  destruct (IH a2 (x :: s) q Hlen2 (symmetry Hperm2) ltac:(lia)) as (ds & Hds & Hrun).
  exists (drawFor (S i + 1) j :: ds). split; [by rewrite length_cons, Hds|].
  intros g [Hd Hr]%reads_cons.
  rewrite shuffle_loop_S, randomBelow_snd, (randomBelow_drawFor _ j) by (done || lia).
  rewrite swap_app, Hswap, <- app_assoc by lia.
  rewrite Ht, <- app_assoc. by apply Hrun.
Qed.

Lemma shuffle_onto arr target :
  target ≡ₚ arr -> (Z.of_nat (length arr) <= 2 ^ 51)%Z ->
  ∃ ds, length ds = length arr - 1 ∧ ∀ g, reads g ds -> (shuffle arr g).1 = target.
Proof.
  intros Hperm Hn. destruct arr as [|x arr].
  { apply Permutation_nil_r in Hperm as ->. by exists []. }
  destruct (shuffle_loop_onto (length arr) (x :: arr) [] target) as (ds & Hds & Hrun);
    [done | done | exact Hn |].
  rewrite app_nil_r in Hrun. setoid_rewrite app_nil_r in Hrun.
  exists ds. unfold shuffle. cbn [length]. by rewrite Nat.sub_succ, Nat.sub_0_r.
Qed.

Lemma shuffle_Permutation arr g : (shuffle arr g).1 ≡ₚ arr.
Proof. apply shuffle_loop_perm. Qed.

Lemma shuffle_length arr g : length (shuffle arr g).1 = length arr.
Proof. by rewrite shuffle_Permutation. Qed.

Lemma shuffle_elem_of arr g x : x ∈ (shuffle arr g).1 <-> x ∈ arr.
Proof. by rewrite shuffle_Permutation. Qed.

Lemma shuffle_NoDup arr g : NoDup arr -> NoDup (shuffle arr g).1.
Proof. by rewrite shuffle_Permutation. Qed.

Lemma shuffle_rng arr g : (shuffle arr g).2 = advance (length arr - 1) g.
Proof. apply shuffle_loop_rng. Qed.

Lemma shuffle_nonempty arr g : arr ≠ [] -> (shuffle arr g).1 ≠ [].
Proof.
  intros Hne Hs. apply Hne, Permutation_nil_r. by rewrite <- Hs, shuffle_Permutation.
Qed.
End shuffle.

(** Concrete generators, for evaluation: the same draw forever, and a
    linear congruential stream. *)
Definition constant (m : Z) : Rng := {| stream := λ _, m; pos := 0 |}.

Definition lcg (seed : Z) : Rng :=
  {| stream := λ k, (seed + Z.of_nat k * 6364136223846793005 + 1442695040888963407)%Z;
     pos := 0 |}.

(** ** The loop: termination *)

Lemma loop_turn_variant {A} (st : LoopState A) :
  loop_test st = true -> S (loop_variant (loop_turn st)) = loop_variant st.
Proof.
  unfold loop_test, loop_variant, loop_turn. intros Hi%Z.ltb_lt.
  destruct (randomBelow _ _). cbn [l_i]. lia.
Qed.

Lemma loop_turn_nat {A} (i : nat) (a : list A) g :
  loop_turn {| l_i := Z.of_nat (S i); l_a := a; l_g := g |} =
  {| l_i := Z.of_nat i; l_a := swap a (S i) (randomBelow (S i + 1) g).1;
     l_g := (randomBelow (S i + 1) g).2 |}.
Proof.
  unfold loop_turn. cbn [l_i l_a l_g]. rewrite Nat2Z.id.
  destruct (randomBelow _ _). cbn [fst snd]. f_equal. lia.
Qed.

(** With fuel for the turns left the loop stops, in the state
    [shuffle_loop] computes; with less it has not stopped. *)
Lemma loop_run_nat {A} (fuel i : nat) (a : list A) g :
  loop_run fuel {| l_i := Z.of_nat i; l_a := a; l_g := g |} =
  if decide (i <= fuel)
  then Some {| l_i := 0; l_a := (shuffle_loop i a g).1; l_g := (shuffle_loop i a g).2 |}
  else None.
Proof.
  revert i a g. induction fuel as [|fuel IH]; intros [|i] a g; try done.
  cbn [loop_run]. change (loop_test _) with true. cbn iota.
  rewrite loop_turn_nat, IH, shuffle_loop_S.
  destruct (decide (i <= fuel)), (decide (S i <= S fuel)); done || lia.
Qed.

(** ** Properties *)

(** The index drawn by [Math.floor(Math.random() * n)] is below [n], so
    with [n = i + 1] the swap partner [j] of the shuffle satisfies
    [0 <= j <= i] and both swapped positions exist in the array. *)
Theorem random_index_in_range {A : Type} (a : list A) (i : nat) (g : Rng) :
  i < length a ->
  (randomBelow (i + 1) g).1 <= i ∧
  is_Some (a !! i) ∧ is_Some (a !! (randomBelow (i + 1) g).1).
Proof.
  intros Hi. pose proof (randomBelow_lt (i + 1) g ltac:(lia)).
  split; [lia|]. by apply shuffle_loop_in_range.
Qed.

Lemma random_index_in_range_witness :
  (randomBelow (2 + 1) (lcg 7)).1 <= 2 ∧
  is_Some ([10; 20; 30] !! 2) ∧ is_Some ([10; 20; 30] !! (randomBelow (2 + 1) (lcg 7)).1).
Proof. apply (random_index_in_range [10; 20; 30] 2 (lcg 7)). simpl. lia. Defined.

(** C40: the index the source computes is the one of exact arithmetic or
    the next: [Math.random() * n] is a product of doubles, rounded to 53
    bits, so it can reach an integer the exact product stays below.  It
    never reaches [n].  With [n = 60] the draw [4803839602528529 / 2^53]
    gives index 32 where the exact product, [32 - 4 / 2^53], has floor 31. *)
Theorem randomBelow_rounding (n : nat) (g : Rng) :
  0 < n ->
  (randomBelow n g).1 < n ∧
  (Z.of_nat n < resolution ->
   (Z.of_nat (randomBelow n g).1 = (Math_random g).1 * Z.of_nat n / resolution ∨
    Z.of_nat (randomBelow n g).1 = (Math_random g).1 * Z.of_nat n / resolution + 1))%Z ∧
  (randomBelow 60 (constant 4803839602528529)).1 = 32 ∧
  ((Math_random (constant 4803839602528529)).1 * 60 / resolution = 31)%Z.
Proof.
  intros Hn. split_and!; [by apply randomBelow_lt | | by vm_compute..].
  intros Hlt. unfold randomBelow. pose proof (Math_random_range g) as Hm.
  destruct (Math_random g) as [m g']. cbn [fst] in *.
  pose proof (round53_floor m (Z.of_nat n) Hm ltac:(lia)) as Hfl.
  assert (0 <= m * Z.of_nat n / resolution)%Z by (apply Z.div_pos; [lia | by compute]).
  rewrite Z2Nat.id by lia. lia.
Qed.

Lemma randomBelow_rounding_witness :
  (randomBelow 6 (lcg 7)).1 < 6 ∧
  (Z.of_nat 6 < resolution ->
   (Z.of_nat (randomBelow 6 (lcg 7)).1 = (Math_random (lcg 7)).1 * Z.of_nat 6 / resolution ∨
    Z.of_nat (randomBelow 6 (lcg 7)).1 = (Math_random (lcg 7)).1 * Z.of_nat 6 / resolution + 1))%Z ∧
  (randomBelow 60 (constant 4803839602528529)).1 = 32 ∧
  ((Math_random (constant 4803839602528529)).1 * 60 / resolution = 31)%Z.
Proof. apply (randomBelow_rounding 6 (lcg 7)). lia. Defined.

(** C9: [shuffle] returns a permutation of its argument, for every state of
    the random source: the same entries with the same multiplicities, hence
    the same length. *)
Theorem shuffle_is_permutation {A : Type} (arr : list A) (g : Rng) :
  (shuffle arr g).1 ≡ₚ arr ∧ length (shuffle arr g).1 = length arr.
Proof. split; [apply shuffle_Permutation | apply shuffle_length]. Qed.

(** [shuffle] can return every order of its argument: for each
    permutation [target] of an array of at most [2^51] entries there are
    [length arr - 1] draws on which the loop produces it, whatever the
    generator does afterwards.  The rounding of [Math.random() * (i + 1)]
    to a double does not make any index unreachable. *)
Theorem shuffle_reaches_every_order {A : Type} (arr target : list A) :
  target ≡ₚ arr -> (Z.of_nat (length arr) <= 2 ^ 51)%Z ->
  ∃ ds, length ds = length arr - 1 ∧
        (shuffle arr (replay ds)).1 = target ∧
        ∀ g, reads g ds -> (shuffle arr g).1 = target.
Proof.
  intros Hperm Hn. destruct (shuffle_onto arr target Hperm Hn) as (ds & Hds & Hrun).
  exists ds. split_and!; [done | apply Hrun, reads_replay | done].
Qed.

Lemma shuffle_reaches_every_order_witness :
  ∃ ds, length ds = length [1; 2; 3] - 1 ∧
        (shuffle [1; 2; 3] (replay ds)).1 = [3; 1; 2] ∧
        ∀ g, reads g ds -> (shuffle [1; 2; 3] g).1 = [3; 1; 2].
Proof.
  apply (shuffle_reaches_every_order [1; 2; 3] [3; 1; 2]).
  - apply (Permutation_cons_app [1; 2] [] 3). by rewrite app_nil_r.
  - by vm_compute.
Defined.

(** A shuffle of [n] entries draws exactly [n - 1] random numbers (none
    for an empty or one-entry array) and leaves the stream itself alone. *)
Theorem shuffle_consumes_draws {A : Type} (arr : list A) (g : Rng) :
  pos (shuffle arr g).2 = pos g + (length arr - 1) ∧
  stream (shuffle arr g).2 = stream g.
Proof. by rewrite shuffle_rng. Qed.

(** A concrete run: with the generator [lcg 7] the five entries come
    back reordered, and the loop has moved entries (the result differs from
    the input). *)
Theorem shuffle_example :
  (shuffle [1; 2; 3; 4; 5] (lcg 7)).1 ≠ [1; 2; 3; 4; 5] ∧
  (shuffle [1; 2; 3; 4; 5] (lcg 7)).1 ≡ₚ [1; 2; 3; 4; 5] ∧
  pos (shuffle [1; 2; 3; 4; 5] (lcg 7)).2 = 4.
Proof.
  split; [by vm_compute|]. split; [apply shuffle_Permutation | by vm_compute].
Qed.

(** C23: the loop of [shuffle] terminates: its counter falls by one in
    every turn, and on an array of [n] entries it stops after exactly
    [n - 1] turns (none for an empty array) with the result of [shuffle];
    run for fewer turns it has not stopped. *)
Theorem shuffle_terminates {A : Type} (arr : list A) (g : Rng) (fuel : nat) :
  shuffle_for fuel arr g =
  (if decide (length arr - 1 <= fuel) then Some (shuffle arr g) else None) ∧
  ∀ st : LoopState A, loop_test st = true -> loop_variant (loop_turn st) < loop_variant st.
Proof.
  split; [|intros st Hst; rewrite <- (loop_turn_variant st Hst); lia].
  unfold shuffle_for, shuffle. destruct arr as [|x arr]; [by destruct fuel|].
  replace (Z.of_nat (length (x :: arr)) - 1)%Z with (Z.of_nat (length (x :: arr) - 1))
    by (cbn [length]; lia).
  rewrite loop_run_nat. case_decide; [|done]. by destruct (shuffle_loop _ _ _).
Qed.

(** ** Hints for the components that build on this one *)

#[export] Hint Resolve shuffle_NoDup shuffle_nonempty : radicals.
#[export] Hint Rewrite @shuffle_length @swap_length : js.
