(* ===== verification/Uniform.v ===== *)
(** * Uniform: which order the shuffle returns, and how often

    [shuffle] (source lines 607-614) returns an order of its argument that
    depends on the draws of [Math.random] only through the index each turn
    of the loop computes from its draw.  This file separates the two
    steps and counts.

    - [index_of n m] is [Math.floor(Math.random() * n)] for the draw with
      numerator [m]; [swaps i js a] is the loop entered at [i] with the
      indices [js] of its turns given, and [drawn i g] are the indices the
      loop computes from the generator [g] ([shuffle_loop_swaps]).
    - [choices i] lists the index vectors of the loop entered at [i]: one
      index for each turn, at most the counter of the turn.  There are
      [(i + 1)!] of them, and on an array without duplicates the loop is a
      bijection from them to the orders of the array: every order is the
      result of exactly one index vector.  So indices that are uniform and
      independent give every order the same probability.
    - [hits n j N] counts the numerators below [N] that select the index
      [j] of [n].  Over the grid of the doubles ([grid], the [2^53]
      numerators) the counts of the [n] indices add up to [2^53]: they are
      equal when [n] is a power of two and cannot all be equal when it is
      not, and each is within 2 of [2^53 / n].
    - [ways arr target N] counts the vectors of draws below [N] for which
      [shuffle arr] is [target]; it is the product of the counts of the
      indices that lead to [target] ([weight]).  Over the grid the orders
      of an array of three or more entries do not all have the same count,
      and the count of each lies between the products of
      [2^53 / k - 1] and of [2^53 / k + 2] over the lengths [k] of the
      turns.

    The counts are lengths of filtered lists and evaluate on small
    inputs; over the grid they are reasoned about, never evaluated. *)

From Stdlib Require Import ZArith Lia Factorial.
From stdpp Require Import base tactics option list.
From S2P Require Import Prelude Random.

(** ** The index of a draw and the loop on given indices *)

(** [Math.floor(m / 2^53 * n)] in double precision. *)
Definition index_of (n : nat) (m : Z) : nat :=
  Z.to_nat (round53 (m * Z.of_nat n) / resolution).

(** The loop of [shuffle] entered at [i], with the index of each turn
    given: [js] holds them, the first turn first. *)
Fixpoint swaps {A : Type} (i : nat) (js : list nat) (a : list A) : list A :=
  match i, js with
  | S i', j :: js' => swaps i' js' (swap a i j)
  | _, _ => a
  end.

(** The indices the loop entered at [i] computes from the generator. *)
Fixpoint drawn (i : nat) (g : Rng) : list nat :=
  match i with
  | O => []
  | S i' => (randomBelow (i + 1) g).1 :: drawn i' (randomBelow (i + 1) g).2
  end.

(** The indices of given numerators. *)
Fixpoint indices (i : nat) (ds : list Z) : list nat :=
  match i, ds with
  | S i', d :: ds' => index_of (i + 1) (d `mod` resolution) :: indices i' ds'
  | _, _ => []
  end.

(** ** Index vectors *)

(** [js] has one index for each turn of the loop entered at [i], each at
    most the counter of its turn. *)
Fixpoint valid (i : nat) (js : list nat) : bool :=
  match i, js with
  | O, [] => true
  | S i', j :: js' => (j <=? i) && valid i' js'
  | _, _ => false
  end.

(** All of them. *)
Fixpoint choices (i : nat) : list (list nat) :=
  match i with
  | O => [[]]
  | S i' => j ← seq 0 (S i); cons j <$> choices i'
  end.

(** ** Counting *)

(** The numerators of the doubles in [[0, 1)]. *)
Definition grid : nat := Z.to_nat resolution.

(** How many of the numerators below [N] select the index [j] of [n]. *)
Definition hits (n j N : nat) : nat :=
  length (filter (λ m, index_of n (Z.of_nat m) = j) (seq 0 N)).

(** The vectors of [i] numerators below [N]. *)
Fixpoint vectors (i N : nat) : list (list Z) :=
  match i with
  | O => [[]]
  | S i' => m ← seq 0 N; cons (Z.of_nat m) <$> vectors i' N
  end.

(** For how many of them the shuffle of [arr] is [target]. *)
Definition ways {A : Type} `{EqDecision A} (arr target : list A) (N : nat) : nat :=
  length (filter (λ ds, (shuffle arr (replay ds)).1 = target) (vectors (length arr - 1) N)).

(** The product of the counts of the indices of a vector. *)
Fixpoint weight (i : nat) (js : list nat) (N : nat) : nat :=
  match i, js with
  | S i', j :: js' => hits (i + 1) j N * weight i' js' N
  | _, _ => 1
  end.

(** The products that bound the count of an order: over the turns, the
    quotient of the grid by the length of the turn, less 1 and plus 2. *)
Fixpoint below (i : nat) : Z :=
  match i with
  | O => 1
  | S i' => (resolution / Z.of_nat (i + 1) - 1) * below i'
  end.

Fixpoint above (i : nat) : Z :=
  match i with
  | O => 1
  | S i' => (resolution / Z.of_nat (i + 1) + 2) * above i'
  end.

(** ** Lists: counting lemmas *)

Lemma filter_length_fmap {X Y : Type} (f : X -> Y) (P : Y -> Prop) `{!∀ y, Decision (P y)} (l : list X) :
  length (filter P (f <$> l)) = length (filter (λ x, P (f x)) l).
Proof.
  induction l as [|x l IH]; [done|]. rewrite fmap_cons, !filter_cons.
  case_decide; cbn; by rewrite IH.
Qed.

Section counting.
Context {X : Type}.
Implicit Types (l : list X).

Lemma filter_length_mono (P Q : X -> Prop) `{!∀ x, Decision (P x)} `{!∀ x, Decision (Q x)} l :
  (∀ x, x ∈ l -> P x -> Q x) -> length (filter P l) <= length (filter Q l).
Proof.
  induction l as [|x l IH]; intros HPQ; [done|].
  rewrite !filter_cons.
  assert (length (filter P l) <= length (filter Q l)) by (apply IH; intros y Hy; apply HPQ; by constructor).
  destruct (decide (P x)) as [HP|]; destruct (decide (Q x)) as [|HQ]; cbn; try lia.
  destruct HQ. apply HPQ; [constructor|done].
Qed.

Lemma filter_length_ext (P Q : X -> Prop) `{!∀ x, Decision (P x)} `{!∀ x, Decision (Q x)} l :
  (∀ x, x ∈ l -> P x <-> Q x) -> length (filter P l) = length (filter Q l).
Proof.
  intros HPQ. apply Nat.le_antisymm; apply filter_length_mono; intros x Hx; by apply HPQ.
Qed.

(** Of a list without duplicates, a property that holds of one entry has
    count 1. *)
Lemma filter_length_one (P : X -> Prop) `{!∀ x, Decision (P x)} l x :
  NoDup l -> x ∈ l -> P x -> (∀ y, y ∈ l -> P y -> y = x) -> length (filter P l) = 1.
Proof.
  intros Hnd Hx HP Huniq.
  assert (filter P l ≡ₚ [x]) as ->; [|done].
  apply NoDup_Permutation; [by apply NoDup_filter | apply NoDup_singleton |].
  intros y. rewrite list_elem_of_filter, list_elem_of_singleton.
  split; [intros [? ?]; auto | by intros ->].
Qed.

(** The values of [f] split a list: the counts of the values below [n]
    add up to the count of the entries whose value is below [n]. *)
Lemma filter_length_split (f : X -> nat) n l :
  length (filter (λ x, f x < S n) l) =
  length (filter (λ x, f x < n) l) + length (filter (λ x, f x = n) l).
Proof.
  induction l as [|x l IH]; [done|]. rewrite !filter_cons.
  repeat case_decide; cbn; lia.
Qed.

Lemma count_by_value (f : X -> nat) n l :
  sum_list_with (λ j, length (filter (λ x, f x = j) l)) (seq 0 n) =
  length (filter (λ x, f x < n) l).
Proof.
  induction n as [|n IH].
  - cbn. induction l as [|x l IHl]; [done|]. rewrite filter_cons. case_decide; [lia|done].
  - rewrite seq_S, sum_list_with_app, IH, filter_length_split. cbn. lia.
Qed.

Lemma filter_length_all (P : X -> Prop) `{!∀ x, Decision (P x)} l :
  Forall P l -> length (filter P l) = length l.
Proof.
  induction 1 as [|x l HP _ IH]; [done|]. rewrite filter_cons, decide_True by done. cbn. lia.
Qed.

Lemma filter_length_none (P : X -> Prop) `{!∀ x, Decision (P x)} l :
  (∀ x, x ∈ l -> ¬ P x) -> length (filter P l) = 0.
Proof.
  intros HP. induction l as [|x l IH]; [done|].
  rewrite filter_cons, decide_False by (apply HP; constructor).
  apply IH. intros y Hy. apply HP. by constructor.
Qed.

End counting.

(** The count of a property of the head and of the tail, over the lists
    made of a head and a tail, is the product of the counts. *)
Lemma count_product {X Y : Type} (f : X -> Y) (P : X -> Prop) (R S : list Y -> Prop)
    `{!∀ x, Decision (P x)} `{!∀ v, Decision (R v)} `{!∀ v, Decision (S v)}
    (l : list X) (vs : list (list Y)) :
  (∀ x v, x ∈ l -> S (f x :: v) <-> P x ∧ R v) ->
  length (filter S (x ← l; cons (f x) <$> vs)) = length (filter P l) * length (filter R vs).
Proof.
  intros HS. induction l as [|x l IH]; [done|].
  rewrite bind_cons, filter_app, length_app, filter_cons.
  rewrite IH by (intros y v Hy; apply HS; by constructor).
  assert (length (filter S (cons (f x) <$> vs)) =
          if decide (P x) then length (filter R vs) else 0) as ->.
  { rewrite filter_length_fmap. destruct (decide (P x)) as [HP|HP].
    - apply filter_length_ext. intros v _. pose proof (HS x v (list_elem_of_here x l)). tauto.
    - apply filter_length_none. intros v _. pose proof (HS x v (list_elem_of_here x l)). tauto. }
  destruct (decide (P x)); cbn; lia.
Qed.

Lemma sum_list_with_bind {X Y Z : Type} (g : Z -> nat) (f : X -> Y -> Z) (l : list X) (vs : list Y) :
  sum_list_with g (x ← l; f x <$> vs) =
  sum_list_with (λ x, sum_list_with (λ v, g (f x v)) vs) l.
Proof.
  induction l as [|x l IH]; [done|]. rewrite bind_cons, sum_list_with_app, IH. cbn. f_equal.
  clear IH. induction vs as [|v vs IHv]; [done|]. rewrite fmap_cons. cbn [sum_list_with]. by rewrite IHv.
Qed.

Lemma sum_list_with_eq {X : Type} (f h : X -> nat) (l : list X) :
  (∀ x, f x = h x) -> sum_list_with f l = sum_list_with h l.
Proof. intros Hf. induction l as [|x l IH]; [done|]. cbn. by rewrite Hf, IH. Qed.

Lemma sum_list_with_scale {X : Type} (h : X -> nat) c (l : list X) :
  sum_list_with (λ x, c * h x) l = c * sum_list_with h l.
Proof. induction l as [|x l IH]; cbn; [lia|]. rewrite IH. lia. Qed.

Lemma sum_list_with_scale_r {X : Type} (h : X -> nat) c (l : list X) :
  sum_list_with (λ x, h x * c) l = sum_list_with h l * c.
Proof. induction l as [|x l IH]; cbn; [lia|]. rewrite IH. lia. Qed.

Lemma bind_fmap_length {X Y Z : Type} (f : X -> Y -> Z) (l : list X) (vs : list Y) :
  length (x ← l; f x <$> vs) = length l * length vs.
Proof.
  induction l as [|x l IH]; [done|]. rewrite bind_cons, length_app, length_fmap, IH. cbn. lia.
Qed.

(** The numbers of an interval among the first [N]. *)
Lemma filter_seq_interval lo hi N :
  filter (λ m, lo <= m < hi) (seq 0 N) = seq lo (Nat.min hi N - lo).
Proof.
  induction N as [|N IH]; [by replace (Nat.min hi 0 - lo) with 0 by lia|].
  rewrite seq_S, filter_app, IH, filter_cons, filter_nil. cbn [Nat.add].
  case_decide.
  - replace (Nat.min hi (S N) - lo) with (S (Nat.min hi N - lo)) by lia.
    rewrite seq_S. do 2 f_equal. lia.
  - rewrite app_nil_r. f_equal. lia.
Qed.

Lemma count_within (P : nat -> Prop) `{!∀ m, Decision (P m)} lo hi N :
  (∀ m, m < N -> P m -> lo <= m < hi) -> length (filter P (seq 0 N)) <= hi - lo.
Proof.
  intros HP. etrans.
  - apply (filter_length_mono P (λ m, lo <= m < hi)).
    intros m Hm%elem_of_seq. apply HP. lia.
  - rewrite filter_seq_interval, length_seq. lia.
Qed.

Lemma count_interval (P : nat -> Prop) `{!∀ m, Decision (P m)} lo hi N :
  hi <= N -> (∀ m, m < N -> P m <-> lo <= m < hi) -> length (filter P (seq 0 N)) = hi - lo.
Proof.
  intros Hhi HP. rewrite (filter_length_ext P (λ m, lo <= m < hi)).
  - rewrite filter_seq_interval, length_seq. lia.
  - intros m Hm%elem_of_seq. apply HP. lia.
Qed.

Lemma sum_list_with_const {X : Type} (f : X -> nat) c (l : list X) :
  (∀ x, x ∈ l -> f x = c) -> sum_list_with f l = length l * c.
Proof.
  induction l as [|x l IH]; intros Hf; [done|].
  cbn. rewrite Hf, IH; [done| |constructor]. intros y Hy. apply Hf. by constructor.
Qed.

Lemma count_at_least (P : nat -> Prop) `{!∀ m, Decision (P m)} lo hi N :
  hi <= N -> (∀ m, lo <= m < hi -> P m) -> hi - lo <= length (filter P (seq 0 N)).
Proof.
  intros Hhi HP. etrans; [|apply (filter_length_mono (λ m, lo <= m < hi) P); auto].
  rewrite filter_seq_interval, length_seq. lia.
Qed.

(** ** The loop on given indices *)

Lemma randomBelow_index n g : (randomBelow n g).1 = index_of n (Math_random g).1.
Proof. done. Qed.

Lemma index_of_lt n m : 0 < n -> (0 <= m < resolution)%Z -> index_of n m < n.
Proof.
  intros Hn Hm. unfold index_of.
  destruct (round53_lt m (Z.of_nat n) Hm ltac:(lia)) as [H0 Hlt].
  assert (0 < resolution)%Z as Hr by by compute.
  assert (round53 (m * Z.of_nat n) / resolution < Z.of_nat n)%Z
    by (apply Z.div_lt_upper_bound; lia).
  assert (0 <= round53 (m * Z.of_nat n) / resolution)%Z by (apply Z.div_pos; lia).
  lia.
Qed.

Section loop.
Context {A : Type}.
Implicit Types (a arr target : list A) (js : list nat) (i j : nat).

(** The loop of the source is the loop on the indices it draws. *)
Lemma shuffle_loop_swaps i a g : (shuffle_loop i a g).1 = swaps i (drawn i g) a.
Proof.
  revert a g. induction i as [|i IH]; intros a g; [done|].
  rewrite shuffle_loop_S. cbn [drawn swaps]. replace (S i + 1) with (S (S i)) by lia.
  replace (S i + 1) with (S (S i)) in IH by lia. apply IH.
Qed.

Lemma swaps_perm i js a : swaps i js a ≡ₚ a.
Proof.
  revert js a. induction i as [|i IH]; intros [|j js] a; try done.
  cbn. rewrite IH. apply swap_perm.
Qed.

Lemma swaps_length i js a : length (swaps i js a) = length a.
Proof. by rewrite swaps_perm. Qed.

(** The turns below a position leave it alone. *)
Lemma swaps_above i js a k :
  valid i js = true -> i < k -> swaps i js a !! k = a !! k.
Proof.
  revert js a. induction i as [|i IH]; intros [|j js] a Hv Hk; try done.
  cbn in Hv. apply andb_true_iff in Hv as [Hj%Nat.leb_le Hv].
  cbn. rewrite IH by (done || lia). apply swap_lookup_other; lia.
Qed.

(** What the first turn puts at its position stays there. *)
Lemma swaps_lookup_top i j js a x :
  valid (S i) (j :: js) = true -> S i < length a -> a !! j = Some x ->
  swaps (S i) (j :: js) a !! S i = Some x.
Proof.
  intros Hv Hi Hj. cbn in Hv. apply andb_true_iff in Hv as [_ Hv].
  cbn. rewrite swaps_above by (done || lia).
  destruct (lookup_lt_is_Some_2 a (S i) Hi) as [y Hy]. by eapply swap_lookup_l.
Qed.

(** Different index vectors give different orders. *)
Lemma swaps_inj i js js' a :
  NoDup a -> i <= length a - 1 -> valid i js = true -> valid i js' = true ->
  swaps i js a = swaps i js' a -> js = js'.
Proof.
  revert js js' a. induction i as [|i IH]; intros [|j js] [|j' js'] a Hnd Hi Hv Hv' Heq; try done.
  assert (j <= S i ∧ j' <= S i ∧ valid i js = true ∧ valid i js' = true) as (Hj & Hj' & Hvs & Hvs').
  { cbn in Hv, Hv'. apply andb_true_iff in Hv as [?%Nat.leb_le ?].
    apply andb_true_iff in Hv' as [?%Nat.leb_le ?]. done. }
  destruct (lookup_lt_is_Some_2 a j ltac:(lia)) as [x Hx].
  destruct (lookup_lt_is_Some_2 a j' ltac:(lia)) as [x' Hx'].
  assert (j = j') as <-.
  { pose proof (swaps_lookup_top i j js a x Hv ltac:(lia) Hx) as H1.
    pose proof (swaps_lookup_top i j' js' a x' Hv' ltac:(lia) Hx') as H2.
    rewrite Heq, H2 in H1. injection H1 as ->. by eapply NoDup_lookup. }
  f_equal. apply (IH js js' (swap a (S i) j)); try done.
  - by rewrite swap_perm.
  - rewrite swap_length. lia.
Qed.

(** Every order has its index vector: the index of each turn is the
    position of the entry wanted at the counter. *)
Lemma swaps_onto i a s target :
  length a = S i -> target ≡ₚ a ->
  ∃ js, valid i js = true ∧ swaps i js (a ++ s) = target ++ s.
Proof.
  revert a s target. induction i as [|i IH]; intros a s target Hlen Hperm.
  { exists []. split; [done|]. destruct a as [|x [|]]; try done.
    by apply Permutation_singleton_r in Hperm as ->. }
  assert (length target = S (S i)) as Hlt by by rewrite Hperm.
  destruct (lookup_lt_is_Some_2 target (S i) ltac:(lia)) as [x Hx].
  pose proof (snoc_lookup_last _ _ _ Hlt Hx) as Ht.
  set (q := take (S i) target) in *.
  assert (x ∈ a) as [j Hj]%list_elem_of_lookup_1.
  { rewrite <- Hperm, Ht. apply elem_of_app; right; apply list_elem_of_singleton; done. }
  pose proof (lookup_lt_Some _ _ _ Hj) as Hjlt.
  destruct (swap_last a q x (S i) j Hlen Hj) as (a2 & Hswap & Hperm2 & Hlen2).
  { by rewrite <- Hperm, <- Ht. }
  destruct (IH a2 (x :: s) q Hlen2 (symmetry Hperm2)) as (js & Hjs & Hrun).
  exists (j :: js). split.
  - cbn. rewrite Hjs, andb_true_r. apply Nat.leb_le. lia.
  - cbn [swaps]. rewrite swap_app, Hswap, <- app_assoc by lia.
    rewrite Ht, <- app_assoc. apply Hrun.
Qed.

Lemma swaps_reaches arr target :
  target ≡ₚ arr ->
  ∃ js, valid (length arr - 1) js = true ∧ swaps (length arr - 1) js arr = target.
Proof.
  intros Hperm. destruct arr as [|x arr].
  { apply Permutation_nil_r in Hperm as ->. by exists []. }
  destruct (swaps_onto (length arr) (x :: arr) [] target) as (js & Hjs & Hrun); [done..|].
  rewrite !app_nil_r in Hrun. exists js. cbn [length]. by rewrite Nat.sub_succ, Nat.sub_0_r.
Qed.
End loop.

(** ** The index vectors *)

Lemma elem_of_choices i js : js ∈ choices i <-> valid i js = true.
Proof.
  revert js. induction i as [|i IH]; intros js.
  - cbn. rewrite list_elem_of_singleton. by destruct js.
  - cbn [choices]. rewrite list_elem_of_bind. split.
    + intros (j & (js' & -> & Hjs)%list_elem_of_fmap & Hj%elem_of_seq).
      cbn [valid]. apply andb_true_iff. split; [apply Nat.leb_le; lia | by apply IH].
    + destruct js as [|j js']; [done|]. cbn [valid]. intros [Hj%Nat.leb_le Hv]%andb_true_iff.
      exists j. split; [|apply elem_of_seq; lia].
      apply list_elem_of_fmap. exists js'. split; [done | by apply IH].
Qed.

Lemma choices_length i : length (choices i) = fact (S i).
Proof.
  induction i as [|i IH]; [done|].
  cbn [choices]. rewrite bind_fmap_length, length_seq, IH. done.
Qed.

Lemma choices_NoDup i : NoDup (choices i).
Proof.
  induction i as [|i IH]; [apply NoDup_singleton|].
  cbn [choices]. apply NoDup_bind; [| |apply NoDup_seq].
  - intros j1 j2 js _ _ (? & -> & _)%list_elem_of_fmap (? & [= -> _] & _)%list_elem_of_fmap. done.
  - intros j _. apply NoDup_fmap_2; [|done]. by intros ?? [= ->].
Qed.

Lemma drawn_valid i g : valid i (drawn i g) = true.
Proof.
  revert g. induction i as [|i IH]; intros g; [done|].
  cbn. rewrite IH, andb_true_r. apply Nat.leb_le.
  pose proof (randomBelow_lt (S (i + 1)) g ltac:(lia)). lia.
Qed.

Lemma indices_valid i ds : length ds = i -> valid i (indices i ds) = true.
Proof.
  revert ds. induction i as [|i IH]; intros [|d ds] Hlen; try done.
  cbn. rewrite IH, andb_true_r by (cbn in Hlen; lia). apply Nat.leb_le.
  pose proof (index_of_lt (S (i + 1)) (d `mod` resolution) ltac:(lia)
                (Z.mod_pos_bound d resolution ltac:(by compute))). lia.
Qed.

(** The indices the loop draws from a generator that yields given
    numerators. *)
Lemma drawn_reads i g ds : reads g ds -> length ds = i -> drawn i g = indices i ds.
Proof.
  revert g ds. induction i as [|i IH]; intros g [|d ds] Hr Hlen; try done.
  apply reads_cons in Hr as [Hd Hr]. cbn [drawn indices].
  rewrite randomBelow_snd, (IH _ ds) by (done || (cbn in Hlen; lia)).
  f_equal. rewrite randomBelow_index. cbn. by rewrite Hd.
Qed.

(** ** The draws that select an index *)

Section hits.
#[local] Open Scope Z_scope.

Lemma grid_resolution : Z.of_nat grid = resolution.
Proof. unfold grid. by rewrite Z2Nat.id by by compute. Qed.

Lemma below_grid (N m : nat) : (N <= grid)%nat -> (m < N)%nat -> 0 <= Z.of_nat m < resolution.
Proof. rewrite <- grid_resolution. lia. Qed.

(** Rounding takes the product of a draw by [n] to less than the product
    of the next draw. *)
Lemma round53_next m n :
  0 <= m < resolution -> 0 < n -> round53 (m * n) < (m + 1) * n.
Proof.
  unfold resolution. intros Hm Hn.
  destruct (decide (Z.log2 (m * n) <= 52)) as [Hs|Hl].
  { rewrite round53_exact by done. lia. }
  destruct (round53_near (m * n) ltac:(lia)) as [Hnear _].
  destruct (Z.log2_spec (m * n)) as [Hlo _]; [apply log2_large_pos; lia|].
  replace (Z.log2 (m * n)) with (53 + (Z.log2 (m * n) - 53)) in Hlo at 1 by lia.
  rewrite Z.pow_add_r in Hlo by lia.
  assert (0 < 2 ^ (Z.log2 (m * n) - 53)) by (apply Z.pow_pos_nonneg; lia).
  nia.
Qed.

(** The draws of an index: between the draws whose exact product reaches
    the index and those whose next product passes it. *)
Lemma index_of_inv (n : nat) m (j : nat) :
  (0 < n)%nat -> Z.of_nat n < resolution -> 0 <= m < resolution ->
  index_of n m = j ->
  m * Z.of_nat n < (Z.of_nat j + 1) * resolution ∧ Z.of_nat j * resolution < (m + 1) * Z.of_nat n.
Proof.
  intros Hn Hn' Hm <-. unfold index_of.
  pose proof (round53_floor m (Z.of_nat n) Hm ltac:(lia)) as [Hlo _].
  pose proof (round53_next m (Z.of_nat n) Hm ltac:(lia)) as Hnext.
  destruct (round53_lt m (Z.of_nat n) Hm ltac:(lia)) as [H0 _].
  assert (0 < resolution) as Hr by by compute.
  rewrite Z2Nat.id by (apply Z.div_pos; lia).
  pose proof (Z.mul_div_le (round53 (m * Z.of_nat n)) resolution Hr).
  pose proof (Z.mul_succ_div_gt (m * Z.of_nat n) resolution Hr).
  set (q := round53 (m * Z.of_nat n) / resolution) in *.
  set (q0 := m * Z.of_nat n / resolution) in *. nia.
Qed.

Lemma index_of_intro (n : nat) m (j : nat) :
  (0 < n)%nat -> Z.of_nat n < resolution -> 0 <= m < resolution ->
  Z.of_nat j * resolution <= m * Z.of_nat n ->
  (m + 1) * Z.of_nat n <= (Z.of_nat j + 1) * resolution ->
  index_of n m = j.
Proof.
  intros Hn Hn' Hm Hlo Hhi. unfold index_of.
  pose proof (round53_floor m (Z.of_nat n) Hm ltac:(lia)) as [Hfl _].
  pose proof (round53_next m (Z.of_nat n) Hm ltac:(lia)) as Hnext.
  assert (0 < resolution) as Hr by by compute.
  assert (round53 (m * Z.of_nat n) / resolution = Z.of_nat j) as ->; [|apply Nat2Z.id].
  apply Z.le_antisymm.
  - apply Z.lt_succ_r, Z.div_lt_upper_bound; lia.
  - etrans; [|apply Hfl]. apply Z.div_le_lower_bound; lia.
Qed.

(** Every draw selects one index: the counts of the indices add up to the
    number of draws. *)
Lemma hits_total (n N : nat) :
  (0 < n)%nat -> (N <= grid)%nat -> sum_list_with (λ j, hits n j N) (seq 0 n) = N.
Proof.
  intros Hn HN. unfold hits.
  rewrite (count_by_value (λ m, index_of n (Z.of_nat m))), filter_length_all, length_seq; [done|].
  apply Forall_forall. intros m Hm%elem_of_seq. apply index_of_lt; [done|].
  apply (below_grid N); lia.
Qed.

(** When the length divides the grid, every index has the same number of
    draws. *)
Lemma hits_divisor (n j : nat) :
  (0 < n)%nat -> Z.of_nat n < resolution -> (Z.of_nat n | resolution) -> (j < n)%nat ->
  Z.of_nat (hits n j grid) = resolution / Z.of_nat n.
Proof.
  intros Hn Hn' [B HB] Hj. rewrite HB, Z.div_mul by lia.
  assert (0 < B) by (assert (0 < resolution) by (by compute); nia).
  unfold hits.
  rewrite (count_interval _ (Z.to_nat (Z.of_nat j * B)) (Z.to_nat ((Z.of_nat j + 1) * B))).
  - rewrite Nat2Z.inj_sub, !Z2Nat.id by nia. lia.
  - apply Nat2Z.inj_le. rewrite grid_resolution, Z2Nat.id by nia. nia.
  - intros m Hm. pose proof (below_grid grid m ltac:(done) Hm) as Hm'. split.
    + intros [H1 H2]%index_of_inv; [|done..]. rewrite HB in H1, H2.
      split; [apply Nat2Z.inj_le | apply Nat2Z.inj_lt]; rewrite Z2Nat.id by nia; nia.
    + intros [H1%Nat2Z.inj_le H2%Nat2Z.inj_lt]. rewrite Z2Nat.id in H1, H2 by nia.
      apply index_of_intro; [done..| |]; rewrite HB; nia.
Qed.

(** When all the indices have the same number of draws, the length
    divides the grid. *)
Lemma hits_equal_divides (n c : nat) :
  (0 < n)%nat -> (∀ j, (j < n)%nat -> hits n j grid = c) -> (Z.of_nat n | resolution).
Proof.
  intros Hn Hc. exists (Z.of_nat c).
  rewrite <- grid_resolution, <- (hits_total n grid) by done.
  rewrite (sum_list_with_const _ c), length_seq by (intros j Hj%elem_of_seq; apply Hc; lia).
  lia.
Qed.

(** Every index has the quotient of the grid by the length, less 1 to
    plus 2, draws. *)
Lemma hits_bounds (n j : nat) :
  (0 < n)%nat -> Z.of_nat n < resolution -> (j < n)%nat ->
  resolution / Z.of_nat n - 1 <= Z.of_nat (hits n j grid) <= resolution / Z.of_nat n + 2.
Proof.
  intros Hn Hn' Hj. assert (0 < resolution) as Hr by by compute.
  set (nz := Z.of_nat n) in *. set (jz := Z.of_nat j).
  assert (0 <= jz < nz) as Hjz by lia.
  pose proof (Z.div_mod resolution nz ltac:(lia)) as Hq.
  pose proof (Z.mod_pos_bound resolution nz ltac:(lia)) as Hq'.
  pose proof (Z.div_mod (jz * resolution) nz ltac:(lia)) as Ha.
  pose proof (Z.mod_pos_bound (jz * resolution) nz ltac:(lia)) as Ha'.
  pose proof (Z.div_mod ((jz + 1) * resolution) nz ltac:(lia)) as Hb.
  pose proof (Z.mod_pos_bound ((jz + 1) * resolution) nz ltac:(lia)) as Hb'.
  set (q := resolution / nz) in *. set (a := jz * resolution / nz) in *.
  set (b := (jz + 1) * resolution / nz) in *.
  assert (0 <= a ∧ a <= b ∧ b <= resolution) as (Ha0 & Hab & Hbr) by nia.
  assert (q <= b - a <= q + 1) as Hba by nia.
  split.
  - etrans; [|apply Nat2Z.inj_le, (count_at_least _ (Z.to_nat (a + 1)) (Z.to_nat b))].
    + lia.
    + apply Nat2Z.inj_le. rewrite grid_resolution. lia.
    + intros m Hm. apply index_of_intro; [done|done|lia| |]; fold nz jz; nia.
  - etrans; [apply Nat2Z.inj_le, (count_within _ (Z.to_nat a) (Z.to_nat (b + 1)))|lia].
    intros m Hm [H1 H2]%index_of_inv; [|done|done|by apply (below_grid grid)].
    fold nz jz in H1, H2. split; [apply Nat2Z.inj_le | apply Nat2Z.inj_lt]; nia.
Qed.
End hits.

(** ** The draws that give an order *)

Lemma elem_of_vectors i N ds :
  ds ∈ vectors i N -> length ds = i ∧ Forall (λ d, 0 <= d < Z.of_nat N)%Z ds.
Proof.
  revert ds. induction i as [|i IH]; intros ds.
  - cbn. by intros ->%list_elem_of_singleton.
  - cbn [vectors]. intros (m & (ds' & -> & Hds)%list_elem_of_fmap & Hm%elem_of_seq)%list_elem_of_bind.
    destruct (IH _ Hds) as [Hlen Hall]. split; [by rewrite length_cons, Hlen|].
    constructor; [lia|done].
Qed.

Lemma vectors_length i N : length (vectors i N) = N ^ i.
Proof.
  induction i as [|i IH]; [done|].
  cbn [vectors]. by rewrite bind_fmap_length, length_seq, IH.
Qed.

(** The vectors of draws with given indices: the product of the counts. *)
Lemma count_indices i js N :
  N <= grid -> valid i js = true ->
  length (filter (λ ds, indices i ds = js) (vectors i N)) = weight i js N.
Proof.
  intros HN. revert js. induction i as [|i IH]; intros [|j js] Hv; try done.
  cbn in Hv. apply andb_true_iff in Hv as [_ Hv].
  cbn [vectors weight]. rewrite <- (IH js Hv). unfold hits.
  apply (count_product Z.of_nat (λ m, index_of (S i + 1) (Z.of_nat m) = j)).
  intros m ds Hm%elem_of_seq. cbn [indices].
  rewrite Z.mod_small by (apply (below_grid N); lia). split; [by intros [= ? ?] | intros [? ?]; by f_equal].
Qed.

(** Over all index vectors the counts add up to the number of vectors of
    draws. *)
Lemma weight_total i N :
  N <= grid -> sum_list_with (λ js, weight i js N) (choices i) = N ^ i.
Proof.
  intros HN. induction i as [|i IH]; [done|].
  cbn [choices]. rewrite sum_list_with_bind. cbn [weight].
  rewrite (sum_list_with_eq _ (λ j, hits (S i + 1) j N * N ^ i)).
  - rewrite sum_list_with_scale_r. replace (S (S i)) with (S i + 1) by lia.
    rewrite hits_total by (done || lia). cbn. lia.
  - intros j. by rewrite sum_list_with_scale, IH.
Qed.

Section ways.
Context {A : Type} `{EqDecision A}.
Implicit Types (arr target : list A).

(** The order [shuffle] returns on given draws. *)
Lemma shuffle_replay arr ds :
  length ds = length arr - 1 ->
  (shuffle arr (replay ds)).1 = swaps (length arr - 1) (indices (length arr - 1) ds) arr.
Proof.
  intros Hlen. unfold shuffle. rewrite shuffle_loop_swaps.
  by rewrite (drawn_reads _ _ ds) by (apply reads_replay || done).
Qed.

(** The number of vectors of draws that give an order is the product of
    the counts of the indices of its index vector. *)
Lemma ways_weight arr js N :
  NoDup arr -> N <= grid -> valid (length arr - 1) js = true ->
  ways arr (swaps (length arr - 1) js arr) N = weight (length arr - 1) js N.
Proof.
  intros Hnd HN Hv. unfold ways. rewrite <- count_indices by done.
  apply filter_length_ext. intros ds [Hlen _]%elem_of_vectors.
  rewrite shuffle_replay by done. split; [|by intros ->].
  apply swaps_inj; [done|lia|by apply indices_valid|done].
Qed.
End ways.

(** ** Arithmetic of the grid *)

Section grid.
#[local] Open Scope Z_scope.

Lemma pow2_not_div3 (k : nat) : ¬ (3 | 2 ^ Z.of_nat k).
Proof.
  induction k as [|k IH].
  - change (2 ^ Z.of_nat 0) with 1. intros [?|?]%Z.divide_1_r; lia.
  - rewrite Nat2Z.inj_succ, Z.pow_succ_r by lia. intros Hd. apply IH.
    apply (Z.gauss 3 2); [done | by vm_compute].
Qed.

Lemma fact_div3 (n : nat) : (3 <= n)%nat -> (3 | Z.of_nat (fact n)).
Proof.
  induction n as [|n IH]; [lia|]. intros Hn.
  destruct (decide (n = 2%nat)) as [-> | Hne]; [by exists 2|].
  change (fact (S n)) with (S n * fact n)%nat. rewrite Nat2Z.inj_mul.
  apply Z.divide_mul_r, IH. lia.
Qed.

Lemma below_pos i : Z.of_nat i + 1 <= 2 ^ 52 -> 0 < below i.
Proof.
  induction i as [|i IH]; [done|]. intros Hi. cbn [below].
  apply Z.mul_pos_pos; [|apply IH; lia].
  assert (2 <= resolution / Z.of_nat (S i + 1)); [|lia].
  apply Z.div_le_lower_bound; unfold resolution; lia.
Qed.

(** The product of the counts of an index vector is between the two
    products of quotients. *)
Lemma weight_bounds i js :
  Z.of_nat i + 1 <= 2 ^ 52 -> valid i js = true ->
  below i <= Z.of_nat (weight i js grid) <= above i.
Proof.
  revert js. induction i as [|i IH]; intros [|j js] Hi Hv; try discriminate Hv.
  { cbn [weight below above]. lia. }
  cbn [valid] in Hv. apply andb_true_iff in Hv as [Hj%Nat.leb_le Hv].
  cbn [weight below above]. rewrite Nat2Z.inj_mul.
  pose proof (hits_bounds (S i + 1) j ltac:(lia) ltac:(unfold resolution; lia) ltac:(lia)) as Hh.
  specialize (IH js ltac:(lia) Hv). pose proof (below_pos i ltac:(lia)).
  assert (2 <= resolution / Z.of_nat (S i + 1))
    by (apply Z.div_le_lower_bound; unfold resolution; lia).
  split; apply Z.mul_le_mono_nonneg; lia.
Qed.
End grid.

(** A function on a list is constant on it or takes two values. *)
Lemma constant_or_not {X : Type} (f : X -> nat) (c : nat) (l : list X) :
  (∀ x, x ∈ l -> f x = c) ∨ ∃ x, x ∈ l ∧ f x ≠ c.
Proof.
  induction l as [|x l [IH|(y & Hy & Hne)]].
  - left. by intros x Hx%elem_of_nil.
  - destruct (decide (f x = c)) as [Hx|Hx].
    + left. intros y [-> | Hy]%elem_of_cons; auto.
    + right. exists x. split; [constructor|done].
  - right. exists y. split; [by constructor|done].
Qed.

(** ** Properties *)

(** C10: on an array without duplicates the loop of [shuffle] is a bijection
    from the index vectors to the orders of the array: the order returned
    is the one of the indices drawn, there are as many index vectors as
    orders ([n!]), and every order is the result of exactly one of them.
    Indices that are uniform and independent therefore give every order the
    same probability. *)
Theorem shuffle_unbiased {A : Type} `{EqDecision A} (arr target : list A) :
  NoDup arr -> target ≡ₚ arr ->
  let n := length arr - 1 in
  length (filter (λ js, swaps n js arr = target) (choices n)) = 1 ∧
  length (choices n) = fact (length arr) ∧
  ∀ g, drawn n g ∈ choices n ∧ (shuffle arr g).1 = swaps n (drawn n g) arr.
Proof.
  intros Hnd Hperm n. split_and!.
  - destruct (swaps_reaches arr target Hperm) as (js & Hv & Hjs).
    apply (filter_length_one _ _ js); [apply choices_NoDup | by apply elem_of_choices | done |].
    intros js' Hv'%elem_of_choices Hjs'. apply (swaps_inj n js' js arr); [done|unfold n; lia|done|done|].
    transitivity target; [exact Hjs' | by symmetry].
  - rewrite choices_length. unfold n. destruct arr; cbn [length]; [done|].
    by rewrite Nat.sub_succ, Nat.sub_0_r.
  - intros g. split; [apply elem_of_choices, drawn_valid | apply shuffle_loop_swaps].
Qed.

(** The orders of an array are nearly equally likely.  Of the vectors of
    draws on the grid of the doubles, the number for which [shuffle]
    returns a given order lies between the product of [2^53 / k - 1] and
    the product of [2^53 / k + 2] over the lengths [k] of the turns, and
    the lower product is positive: every order is returned. *)
Lemma ways_bounds {A : Type} `{EqDecision A} (arr target : list A) :
  NoDup arr -> target ≡ₚ arr -> (Z.of_nat (length arr) <= 2 ^ 52)%Z ->
  let n := length arr - 1 in
  (0 < below n ∧ below n <= Z.of_nat (ways arr target grid) <= above n)%Z.
Proof.
  intros Hnd Hperm Hlen n.
  destruct (swaps_reaches arr target Hperm) as (js & Hv & <-).
  split; [apply below_pos; lia|].
  rewrite ways_weight by done. apply weight_bounds; [lia|done].
Qed.

(** The orders of an array of three or more entries are not equally
    likely: two of them are returned for different numbers of the vectors
    of draws on the grid of the doubles, because [n!] does not divide a
    power of two. *)
Lemma ways_differ {A : Type} `{EqDecision A} (arr : list A) :
  NoDup arr -> 3 <= length arr ->
  ∃ t1 t2, t1 ≡ₚ arr ∧ t2 ≡ₚ arr ∧ ways arr t1 grid ≠ ways arr t2 grid.
Proof.
  intros Hnd Hlen. set (n := length arr - 1).
  destruct (swaps_reaches arr arr (reflexivity _)) as (js0 & Hv0 & Hjs0). fold n in Hv0, Hjs0.
  destruct (constant_or_not (λ js, weight n js grid) (weight n js0 grid) (choices n))
    as [Hc|(js & Hjs%elem_of_choices & Hne)].
  - exfalso. pose proof (weight_total n grid ltac:(done)) as Htot.
    rewrite (sum_list_with_const _ _ _ Hc), choices_length in Htot.
    apply (pow2_not_div3 (53 * n)).
    destruct (fact_div3 (S n) ltac:(lia)) as [q Hq]. exists (q * Z.of_nat (weight n js0 grid))%Z.
    apply (f_equal Z.of_nat) in Htot.
    rewrite Nat2Z.inj_mul, Nat2Z.inj_pow, grid_resolution, Hq in Htot.
    rewrite Nat2Z.inj_mul, Z.pow_mul_r by lia. change (2 ^ Z.of_nat 53)%Z with resolution. lia.
  - exists (swaps n js arr), (swaps n js0 arr). split_and!; [apply swaps_perm..|].
    unfold n in *. by rewrite !ways_weight.
Qed.

(** The index of one draw: its values are equally likely exactly when the
    length divides [2^53], that is for the powers of two. *)
Theorem index_uniform_iff (n : nat) :
  0 < n -> (Z.of_nat n < resolution)%Z ->
  (∃ c, ∀ j, j < n -> hits n j grid = c) <-> (Z.of_nat n | resolution)%Z.
Proof.
  intros Hn Hn'. split.
  - intros [c Hc]. by apply (hits_equal_divides n c).
  - intros Hd. exists (Z.to_nat (resolution / Z.of_nat n)). intros j Hj.
    by rewrite <- (hits_divisor n j), Nat2Z.id.
Qed.

(** The first turn of the shuffle of the deck draws one of 60 indices. *)
Example deck_index_not_uniform : ¬ ∃ c, ∀ j, j < 60 -> hits 60 j grid = c.
Proof.
  intros [c Hc]. apply (hits_equal_divides 60 c) in Hc; [|lia].
  apply Z.mod_divide in Hc; [|done]. by vm_compute in Hc.
Qed.

(** For the deck of 60 the two products differ by less than one part in
    [10^12]. *)
Lemma spread_59 : ((above 59 - below 59) * 10 ^ 12 < below 59)%Z.
Proof. by vm_compute. Qed.

(** ** Concrete inputs *)

Example choices_example :
  choices 2 = [[0; 0]; [0; 1]; [1; 0]; [1; 1]; [2; 0]; [2; 1]] ∧
  (λ js, swaps 2 js [1; 2; 3]) <$> choices 2 =
    [[2; 3; 1]; [3; 2; 1]; [3; 1; 2]; [1; 3; 2]; [2; 1; 3]; [1; 2; 3]].
Proof. by vm_compute. Qed.

(** Small numerators all select index 0. *)
Example ways_example :
  ways [1; 2; 3] [2; 3; 1] 4 = 16 ∧ ways [1; 2; 3] [1; 2; 3] 4 = 0 ∧ hits 3 0 4 = 4.
Proof. by vm_compute. Qed.

Lemma shuffle_unbiased_witness :
  let n := length [1; 2; 3] - 1 in
  length (filter (λ js, swaps n js [1; 2; 3] = [3; 1; 2]) (choices n)) = 1 ∧
  length (choices n) = fact (length [1; 2; 3]) ∧
  ∀ g, drawn n g ∈ choices n ∧ (shuffle [1; 2; 3] g).1 = swaps n (drawn n g) [1; 2; 3].
Proof.
  apply (shuffle_unbiased [1; 2; 3] [3; 1; 2]).
  - apply (bool_decide_unpack _). by vm_compute.
  - apply (Permutation_cons_app [1; 2] [] 3). by rewrite app_nil_r.
Defined.
