(* ===== verification/Store.v ===== *)
(** * Store: the progress store

    The durable state of the program: one [ProgressItem] per radical and the
    [Settings], kept in React state by the hook [useProgress] and written to
    the browser's local storage after every change.

    - [ProgressItem], [Settings], [ProgressState] are the types of the
      source.  An object read back from storage may lack any field, so every
      field is an [option]; [None] stands for a missing field, [undefined]
      or [null], which the source never tells apart.
    - [emptyProgress], [loadProgress], [saveProgress], [patchId],
      [patchSettings], [resetAll] translate the functions of the same name;
      [useProgress] is the initial value of the hook followed by its save
      effect and [setProgress] a state update followed by the effect.
    - The browser's [localStorage] is modelled by [LocalStorage] with
      [getItem] and [setItem], which may throw; [JSON.stringify] and
      [JSON.parse] are the interface [JsonLib], whose law is that parsing a
      printed state gives the state back.  The functions and theorems of
      the program are written against the interface.
    - [json_text] implements the interface with the text a browser
      writes.  [encode_state] gives the JSON value of a stored state: the
      records under their identifiers in increasing order, the fields of a
      record in the order [emptyProgress] creates them, a missing field
      left out, the dates as the texts of [Iso.iso].  [decode] reads of a
      parsed value what the program reads of it: [parsed.byId] when it is
      truthy, the records under the canonical decimal keys, their fields
      by name.  A field whose value has not the type the program expects
      (a string for a counter, a due date that is not an ISO text) is read
      as missing: such values are outside the records of this file.

    The theorems: a fresh state is well formed and has the 60 records;
    patches touch one record, or the settings, and nothing else; loading
    never throws and yields nothing on every failure; saving then loading
    gives the state back; a failed save changes nothing. *)

From Stdlib Require Import ZArith Lia Ascii String.
From stdpp Require Import base tactics option list strings gmap sorting.
From S2P Require Import Prelude Clock Iso Json Scheduler Catalog.

#[local] Open Scope Z_scope.
#[local] Open Scope js_scope.

(** ** The types of the source *)

Record ProgressItem := {
  box : option Z;
  learned : option bool;
  correct : option Z;
  wrong : option Z;
  lastReviewed : option Z;
  due : option Z;
}.

Record Settings := {
  showExamples : option bool;
  showMnemonic : option bool;
  toneMarks : option bool;
  shuffleLearn : option bool;
  keyboardShortcuts : option bool;
}.

Record ProgressState := {
  byId : gmap nat ProgressItem;
  settings : option Settings;
}.

#[export] Instance ProgressItem_eq_dec : EqDecision ProgressItem.
Proof. solve_decision. Defined.
#[export] Instance Settings_eq_dec : EqDecision Settings.
Proof. solve_decision. Defined.
#[export] Instance ProgressState_eq_dec : EqDecision ProgressState.
Proof. solve_decision. Defined.

(** ** Object spread on the two record types *)

(** The object [{}]. *)
Definition emptyItem : ProgressItem :=
  {| box := None; learned := None; correct := None; wrong := None;
     lastReviewed := None; due := None |}.

Definition emptySettings : Settings :=
  {| showExamples := None; showMnemonic := None; toneMarks := None;
     shuffleLearn := None; keyboardShortcuts := None |}.

(** [{...base, ...patch}] *)
Definition spreadItem (base patch : ProgressItem) : ProgressItem :=
  {| box := box base <<< box patch;
     learned := learned base <<< learned patch;
     correct := correct base <<< correct patch;
     wrong := wrong base <<< wrong patch;
     lastReviewed := lastReviewed base <<< lastReviewed patch;
     due := due base <<< due patch |}.

Definition spreadSettings (base patch : Settings) : Settings :=
  {| showExamples := showExamples base <<< showExamples patch;
     showMnemonic := showMnemonic base <<< showMnemonic patch;
     toneMarks := toneMarks base <<< toneMarks patch;
     shuffleLearn := shuffleLearn base <<< shuffleLearn patch;
     keyboardShortcuts := keyboardShortcuts base <<< keyboardShortcuts patch |}.

(** ** The browser's storage and JSON *)

Definition LS_KEY : string := "radicals60_progress_v2".

(** [denied]: the browser refuses access to the storage (every call
    throws).  [capacity]: the longest value the storage accepts. *)
Record LocalStorage := {
  items : gmap string string;
  denied : bool;
  capacity : nat;
}.

Definition getItem (key : string) (ls : LocalStorage) : outcome (option string) :=
  if denied ls then Thrown SecurityError else Returned (items ls !! key).

Definition setItem (key value : string) (ls : LocalStorage) : outcome LocalStorage :=
  if denied ls then Thrown SecurityError
  else if bool_decide (String.length value ≤ capacity ls)%nat
  then Returned {| items := <[key := value]> (items ls);
                   denied := denied ls; capacity := capacity ls |}
  else Thrown QuotaExceededError.

(** What [JSON.parse] yields, as far as the program looks at it: the
    [byId] member when the value is an object that has one, and the
    [settings] member. *)
Record Parsed := {
  parsed_byId : option (gmap nat ProgressItem);
  parsed_settings : option Settings;
}.

Definition parsed_of (s : ProgressState) : Parsed :=
  {| parsed_byId := Some (byId s); parsed_settings := settings s |}.

Class JsonLib := {
  stringify : ProgressState -> string;
  parse : string -> outcome Parsed;
  parse_stringify s : parse (stringify s) = Returned (parsed_of s);
  stringify_nonempty s : stringify s ≠ "";
}.

(** ** The functions of the source *)

Definition freshItem (t : Z) : ProgressItem :=
  {| box := Some 1; learned := Some false; correct := Some 0; wrong := Some 0;
     lastReviewed := None; due := Some t |}.

Definition defaultSettings : Settings :=
  {| showExamples := Some true; showMnemonic := Some true; toneMarks := Some true;
     shuffleLearn := Some false; keyboardShortcuts := Some true |}.

Definition emptyProgress `{DateLib} (now : Z) : ProgressState :=
  let t := todayStart now in
  {| byId := foldl (λ base r, <[id r := freshItem t]> base) ∅ RADICALS;
     settings := Some defaultSettings |}.

Definition loadProgress `{JsonLib} (ls : LocalStorage) : option ProgressState :=
  catch
    (try! raw := getItem LS_KEY ls in
     match raw with
     | None => Returned None
     | Some raw =>
         if bool_decide (raw = "") then Returned None
         else
           try! parsed := parse raw in
           match parsed_byId parsed with
           | None => Returned None
           | Some m => Returned (Some {| byId := m; settings := parsed_settings parsed |})
           end
     end)
    None.

Definition saveProgress `{JsonLib} (state : ProgressState) (ls : LocalStorage) : LocalStorage :=
  catch (setItem LS_KEY (stringify state) ls) ls.

(** The hook's state with the storage it writes to. *)
Record Store := {
  progress : ProgressState;
  storage : LocalStorage;
}.

(** [useEffect(() => saveProgress(progress), [progress])] *)
Definition saveEffect `{JsonLib} (st : Store) : Store :=
  {| progress := progress st; storage := saveProgress (progress st) (storage st) |}.

(** The first render of [useProgress]: the initial state, then the effect. *)
Definition useProgress `{DateLib} `{JsonLib} (now : Z) (ls : LocalStorage) : Store :=
  saveEffect {| progress := default (emptyProgress now) (loadProgress ls); storage := ls |}.

(** [setProgress(f)]: the new state, then the effect. *)
Definition setProgress `{JsonLib} (f : ProgressState -> ProgressState) (st : Store) : Store :=
  saveEffect {| progress := f (progress st); storage := storage st |}.

(** The updater of [patchId(id, patch)]. *)
Definition patchId (i : nat) (patch : ProgressItem) (p : ProgressState) : ProgressState :=
  {| byId := <[i := spreadItem (default emptyItem (byId p !! i)) patch]> (byId p);
     settings := settings p |}.

(** The updater of [patchSettings(patch)]. *)
Definition patchSettings (patch : Settings) (p : ProgressState) : ProgressState :=
  {| byId := byId p;
     settings := Some (spreadSettings (default emptySettings (settings p)) patch) |}.

Definition resetAll `{DateLib} (now : Z) (p : ProgressState) : ProgressState :=
  emptyProgress now.

(** ** Well-formed stored data *)

Definition wf_item (it : ProgressItem) : bool :=
  match box it, learned it, correct it, wrong it, due it with
  | Some b, Some _, Some c, Some w, Some _ => box_ok b && (0 <=? c) && (0 <=? w)
  | _, _, _, _, _ => false
  end.

Definition wf_settings (s : Settings) : bool :=
  match showExamples s, showMnemonic s, toneMarks s, shuffleLearn s, keyboardShortcuts s with
  | Some _, Some _, Some _, Some _, Some _ => true
  | _, _, _, _, _ => false
  end.

(** Every radical has a well-formed record and the settings are complete. *)
Definition wf_progress (p : ProgressState) : bool :=
  forallb (λ i, from_option wf_item false (byId p !! i)) idsAll
  && from_option wf_settings false (settings p).

(** ** Lemmas: maps built by a loop of insertions *)

Lemma foldl_insert_lookup {A V : Type} (k : A -> nat) (v : V) (l : list A)
    (m : gmap nat V) (i : nat) :
  foldl (λ base x, <[k x := v]> base) m l !! i =
  if decide (i ∈ k <$> l) then Some v else m !! i.
Proof.
  revert m. induction l as [|x l IH]; intros m.
  - case_decide as Hin; [by apply elem_of_nil in Hin | done].
  - cbn [foldl]. rewrite IH, fmap_cons.
    destruct (decide (i ∈ k <$> l)) as [Hin|Hnin].
    + rewrite decide_True; [done | by right].
    + destruct (decide (i = k x)) as [-> | Hne].
      * rewrite lookup_insert_eq, decide_True; [done | by left].
      * rewrite lookup_insert_ne by done.
        rewrite decide_False; [done|]. by intros [?|?]%elem_of_cons.
Qed.

(** ** Lemmas: spread *)

Lemma spreadItem_emptyItem_l patch : spreadItem emptyItem patch = patch.
Proof. destruct patch. unfold spreadItem. simpl. by rewrite !spread_None_l. Qed.

Lemma spreadItem_emptyItem_r base : spreadItem base emptyItem = base.
Proof. by destruct base. Qed.

Lemma spreadSettings_emptySettings_r base : spreadSettings base emptySettings = base.
Proof. by destruct base. Qed.

Lemma spreadItem_assoc a b c :
  spreadItem (spreadItem a b) c = spreadItem a (spreadItem b c).
Proof. unfold spreadItem. simpl. by rewrite !spread_assoc. Qed.

(** A patch that names every field but [lastReviewed] overrides the base
    on those fields. *)
Lemma spreadItem_full base patch :
  is_Some (box patch) -> is_Some (learned patch) -> is_Some (correct patch) ->
  is_Some (wrong patch) -> is_Some (due patch) -> is_Some (lastReviewed patch) ->
  spreadItem base patch = patch.
Proof.
  destruct patch; simpl. intros [? ->] [? ->] [? ->] [? ->] [? ->] [? ->]. done.
Qed.

Lemma wf_settings_spread base patch :
  wf_settings base = true -> wf_settings (spreadSettings base patch) = true.
Proof.
  destruct base as [[] [] [] [] []], patch as [[] [] [] [] []]; by simpl.
Qed.

(** ** Lemmas: well-formedness *)

Lemma wf_item_iff it :
  wf_item it = true <->
  exists b l c w d,
    box it = Some b ∧ learned it = Some l ∧ correct it = Some c ∧
    wrong it = Some w ∧ due it = Some d ∧ 1 <= b <= 5 ∧ 0 <= c ∧ 0 <= w.
Proof.
  unfold wf_item. split.
  - destruct (box it) as [b|], (learned it) as [l|], (correct it) as [c|],
      (wrong it) as [w|], (due it) as [d|]; try done.
    rewrite !andb_true_iff, box_ok_iff, !Z.leb_le. intros [[? ?] ?].
    by exists b, l, c, w, d.
  - intros (b & l & c & w & d & -> & -> & -> & -> & -> & ? & ? & ?).
    rewrite !andb_true_iff, box_ok_iff, !Z.leb_le. done.
Qed.

Lemma wf_freshItem t : wf_item (freshItem t) = true.
Proof. done. Qed.

Lemma wf_progress_iff p :
  wf_progress p = true <->
  (∀ i, (1 <= i <= 60)%nat -> exists it, byId p !! i = Some it ∧ wf_item it = true) ∧
  (exists s, settings p = Some s ∧ wf_settings s = true).
Proof.
  unfold wf_progress. rewrite andb_true_iff, forallb_forall. split.
  - intros [Hit Hs]. split.
    + intros i Hi. specialize (Hit i). rewrite <- list_elem_of_In, idsAll_elem in Hit.
      specialize (Hit Hi). destruct (byId p !! i) as [it|]; [eauto | done].
    + destruct (settings p) as [s|]; [eauto | done].
  - intros [Hit (s & -> & Hs)]. split; [|done].
    intros i Hi%list_elem_of_In%idsAll_elem.
    by destruct (Hit i Hi) as (it & -> & ?).
Qed.

Lemma wf_progress_lookup p i :
  wf_progress p = true -> (1 <= i <= 60)%nat ->
  exists it, byId p !! i = Some it ∧ wf_item it = true.
Proof. intros [Hit _]%wf_progress_iff. apply Hit. Qed.

Lemma wf_progress_settings p :
  wf_progress p = true -> exists s, settings p = Some s ∧ wf_settings s = true.
Proof. by intros [_ Hs]%wf_progress_iff. Qed.

(** ** Lemmas: the operations *)

Section store.
Context `{DateLib} `{JsonLib}.
Implicit Types (p : ProgressState) (ls : LocalStorage) (st : Store) (i j : nat).

Lemma emptyProgress_lookup now i :
  byId (emptyProgress now) !! i =
  if decide (1 <= i <= 60)%nat then Some (freshItem (todayStart now)) else None.
Proof.
  unfold emptyProgress. cbn [byId]. rewrite foldl_insert_lookup, lookup_empty.
  change (id <$> RADICALS) with idsAll.
  destruct (decide (i ∈ idsAll)) as [Hi|Hi]; rewrite idsAll_elem in Hi.
  - by rewrite decide_True.
  - by rewrite decide_False.
Qed.

Lemma emptyProgress_settings now : settings (emptyProgress now) = Some defaultSettings.
Proof. done. Qed.

Lemma emptyProgress_wf_progress now : wf_progress (emptyProgress now) = true.
Proof.
  apply wf_progress_iff. split; [|by eexists].
  intros i Hi. rewrite emptyProgress_lookup, decide_True by done. by eexists.
Qed.

Lemma patchId_lookup_eq i patch p :
  byId (patchId i patch p) !! i =
  Some (spreadItem (default emptyItem (byId p !! i)) patch).
Proof. apply lookup_insert_eq. Qed.

Lemma patchId_lookup_ne i j patch p :
  i ≠ j -> byId (patchId i patch p) !! j = byId p !! j.
Proof. intros. by apply lookup_insert_ne. Qed.

Lemma patchId_settings i patch p : settings (patchId i patch p) = settings p.
Proof. done. Qed.

Lemma patchSettings_byId patch p : byId (patchSettings patch p) = byId p.
Proof. done. Qed.

Lemma patchId_wf_progress i patch p :
  wf_progress p = true ->
  wf_item (spreadItem (default emptyItem (byId p !! i)) patch) = true ->
  wf_progress (patchId i patch p) = true.
Proof.
  rewrite !wf_progress_iff. intros [Hit Hs] Hnew. split; [|done].
  intros j Hj. destruct (decide (i = j)) as [<- | Hne].
  - rewrite patchId_lookup_eq. eauto.
  - rewrite patchId_lookup_ne by done. by apply Hit.
Qed.

Lemma patchSettings_wf_progress patch p :
  wf_progress p = true -> wf_progress (patchSettings patch p) = true.
Proof.
  rewrite !wf_progress_iff. intros [Hit (s & Hs & Hwf)]. split; [done|].
  eexists. split; [done|]. rewrite Hs. by apply wf_settings_spread.
Qed.

Lemma getItem_ok key ls : denied ls = false -> getItem key ls = Returned (items ls !! key).
Proof. unfold getItem. by intros ->. Qed.

Lemma setItem_ok key value ls :
  denied ls = false -> (String.length value ≤ capacity ls)%nat ->
  setItem key value ls =
  Returned {| items := <[key := value]> (items ls); denied := false; capacity := capacity ls |}.
Proof. unfold setItem. intros -> Hc. by rewrite bool_decide_eq_true_2. Qed.

Lemma setItem_full key value ls :
  (capacity ls < String.length value)%nat -> returns (setItem key value ls) = false.
Proof.
  unfold setItem. intros Hc. destruct (denied ls); [done|].
  rewrite bool_decide_eq_false_2; [done | lia].
Qed.

Lemma setItem_denied key value ls :
  denied ls = true -> setItem key value ls = Thrown SecurityError.
Proof. unfold setItem. by intros ->. Qed.

Lemma saveProgress_ok p ls :
  denied ls = false -> (String.length (stringify p) ≤ capacity ls)%nat ->
  saveProgress p ls =
  {| items := <[LS_KEY := stringify p]> (items ls); denied := false; capacity := capacity ls |}.
Proof. intros Hd Hc. unfold saveProgress. by rewrite setItem_ok. Qed.

Lemma saveProgress_failed p ls :
  returns (setItem LS_KEY (stringify p) ls) = false -> saveProgress p ls = ls.
Proof. unfold saveProgress. by destruct (setItem _ _ _). Qed.

(** The storage keeps its access rights and capacity across a save. *)
Lemma saveProgress_env p ls :
  denied (saveProgress p ls) = denied ls ∧ capacity (saveProgress p ls) = capacity ls.
Proof.
  unfold saveProgress, setItem. destruct (denied ls) eqn:Hd; simpl; [by rewrite ?Hd|].
  case_bool_decide; simpl; by rewrite ?Hd.
Qed.

(** What [loadProgress] returns when the storage holds the text [raw]. *)
Lemma loadProgress_raw ls raw :
  denied ls = false -> items ls !! LS_KEY = Some raw -> raw ≠ "" ->
  loadProgress ls =
  match parse raw with
  | Returned parsed =>
      m ← parsed_byId parsed; Some {| byId := m; settings := parsed_settings parsed |}
  | Thrown _ => None
  end.
Proof.
  intros Hd Hraw Hne. unfold loadProgress. rewrite getItem_ok by done.
  rewrite Hraw. simpl. rewrite bool_decide_eq_false_2 by done.
  destruct (parse raw) as [parsed|e]; simpl; [|done].
  by destruct (parsed_byId parsed).
Qed.

Lemma loadProgress_stored p ls :
  denied ls = false -> items ls !! LS_KEY = Some (stringify p) -> loadProgress ls = Some p.
Proof.
  intros Hd Hraw. rewrite (loadProgress_raw ls (stringify p)); try done.
  - rewrite parse_stringify. simpl. by destruct p.
  - apply stringify_nonempty.
Qed.

Lemma save_load_roundtrip_aux p ls :
  denied ls = false -> (String.length (stringify p) ≤ capacity ls)%nat ->
  loadProgress (saveProgress p ls) = Some p.
Proof.
  intros Hd Hc. rewrite saveProgress_ok by done.
  apply loadProgress_stored; [done|]. apply lookup_insert_eq.
Qed.

Lemma setProgress_progress f st : progress (setProgress f st) = f (progress st).
Proof. done. Qed.

Lemma useProgress_progress now ls :
  progress (useProgress now ls) = default (emptyProgress now) (loadProgress ls).
Proof. done. Qed.
End store.

(** ** The text of the stored state

    The stored state as a JSON value and back, and the instance of
    [JsonLib] that writes and reads the text of a browser. *)

(** A member that is there when the field is. *)
Definition opt_member {A : Type} (name : string) (f : A -> json) (x : option A)
    : list (string * json) :=
  match x with
  | Some a => [(name, f a)]
  | None => []
  end.

Definition JDate (t : Z) : json := JStr (iso t).

(** A record: the fields in the order [emptyProgress] creates them;
    [lastReviewed] is [null] until the first answer. *)
Definition encode_item (it : ProgressItem) : json :=
  JObj (opt_member "box" JNum (box it) ++ opt_member "learned" JBool (learned it) ++
        opt_member "correct" JNum (correct it) ++ opt_member "wrong" JNum (wrong it) ++
        [("lastReviewed", from_option JDate JNull (lastReviewed it))] ++
        opt_member "due" JDate (due it)).

Definition encode_settings (s : Settings) : json :=
  JObj (opt_member "showExamples" JBool (showExamples s) ++
        opt_member "showMnemonic" JBool (showMnemonic s) ++
        opt_member "toneMarks" JBool (toneMarks s) ++
        opt_member "shuffleLearn" JBool (shuffleLearn s) ++
        opt_member "keyboardShortcuts" JBool (keyboardShortcuts s)).

(** The key of a record: its identifier in decimal. *)
Definition key (i : nat) : string := print_number (Z.of_nat i) EmptyString.

Definition by_key (a b : nat * ProgressItem) : Prop := (a.1 <= b.1)%nat.

#[local] Instance by_key_dec a b : Decision (by_key a b) := decide (a.1 <= b.1)%nat.

(** The records, in the order of their identifiers. *)
Definition records (m : gmap nat ProgressItem) : list (nat * ProgressItem) :=
  merge_sort by_key (map_to_list m).

Definition encode_record (r : nat * ProgressItem) : string * json :=
  (key r.1, encode_item r.2).

Definition encode_state (p : ProgressState) : json :=
  JObj ([("byId", JObj (encode_record <$> records (byId p)))] ++
        opt_member "settings" encode_settings (settings p)).

(** A parsed value as the program reads it. *)

(** [obj[name]]: the last member of that name. *)
Fixpoint member (name : string) (l : list (string * json)) : option json :=
  match l with
  | [] => None
  | kv :: l' =>
      match member name l' with
      | Some v => Some v
      | None => if String.eqb kv.1 name then Some kv.2 else None
      end
  end.

Definition as_num (j : option json) : option Z :=
  match j with Some (JNum z) => Some z | _ => None end.

Definition as_bool (j : option json) : option bool :=
  match j with Some (JBool b) => Some b | _ => None end.

Definition as_date (j : option json) : option Z :=
  match j with Some (JStr s) => parseDate s | _ => None end.

(** Whether a value is truthy. *)
Definition truthy_json (j : json) : bool :=
  match j with
  | JNull | JBool false => false
  | JNum z => negb (z =? 0)
  | JStr s => negb (bool_decide (s = EmptyString))
  | _ => true
  end.

(** [byId[id]] as a record: a falsy value is replaced by the default of
    the reader, as a missing one is; a truthy value that is not an object
    has none of the fields. *)
Definition decode_item (j : json) : option ProgressItem :=
  match j with
  | JObj l =>
      Some {| box := as_num (member "box" l); learned := as_bool (member "learned" l);
              correct := as_num (member "correct" l); wrong := as_num (member "wrong" l);
              lastReviewed := as_date (member "lastReviewed" l);
              due := as_date (member "due" l) |}
  | _ => if truthy_json j then Some emptyItem else None
  end.

(** The identifier a key stands for: the key is its decimal text. *)
Definition key_of (k : string) : option nat :=
  match parse_digits k with
  | Some (v, EmptyString) => Some (Z.to_nat v)
  | _ => None
  end.

Definition put (m : gmap nat ProgressItem) (kv : string * json) : gmap nat ProgressItem :=
  match key_of kv.1 with
  | Some i =>
      match decode_item kv.2 with
      | Some it => <[i := it]> m
      | None => delete i m
      end
  | None => m
  end.

(** [parsed.byId] when it is truthy: the records of an object or an
    array; a string has its characters under its indices, which are
    truthy and have no fields; a number and [true] have nothing. *)
Definition decode_byId (j : json) : option (gmap nat ProgressItem) :=
  match j with
  | JObj l => Some (foldl put ∅ l)
  | JArr l =>
      Some (list_to_map (omap (λ ij, pair ij.1 <$> decode_item ij.2) (imap pair l)))
  | JStr s =>
      if truthy_json j then Some (list_to_map ((λ i, (i, emptyItem)) <$> seq 0 (String.length s)))
      else None
  | _ => if truthy_json j then Some ∅ else None
  end.

(** [parsed.settings]: reading a field of [null] or of a missing value
    throws, reading one of any other value does not. *)
Definition decode_settings (j : option json) : option Settings :=
  match j with
  | Some (JObj l) =>
      Some {| showExamples := as_bool (member "showExamples" l);
              showMnemonic := as_bool (member "showMnemonic" l);
              toneMarks := as_bool (member "toneMarks" l);
              shuffleLearn := as_bool (member "shuffleLearn" l);
              keyboardShortcuts := as_bool (member "keyboardShortcuts" l) |}
  | Some JNull | None => None
  | Some _ => Some emptySettings
  end.

Definition decode (j : json) : Parsed :=
  match j with
  | JObj l =>
      {| parsed_byId := member "byId" l ≫= decode_byId;
         parsed_settings := decode_settings (member "settings" l) |}
  | _ => {| parsed_byId := None; parsed_settings := None |}
  end.

Definition text_stringify (p : ProgressState) : string := JSON_stringify (encode_state p).

Definition text_parse (text : string) : outcome Parsed :=
  (try! j := JSON_parse text in Returned (decode j))%js.

(** The codec inverts. *)

Lemma decode_item_encode it : decode_item (encode_item it) = Some it.
Proof.
  destruct it as [[b|] [l|] [c|] [w|] [r|] [d|]]; cbn -[iso parseDate];
    unfold iso; by rewrite ?read_toISOString.
Qed.

Lemma decode_settings_encode s : decode_settings (Some (encode_settings s)) = Some s.
Proof. by destruct s as [[a|] [b|] [c|] [d|] [e|]]. Qed.

Lemma key_of_key i : key_of (key i) = Some i.
Proof.
  unfold key_of, key, print_number. rewrite (proj2 (Z.ltb_ge _ _)) by lia.
  rewrite parse_digits_pad by (lia || done). by rewrite Nat2Z.id.
Qed.

Lemma put_encode m r : put m (encode_record r) = <[r.1 := r.2]> m.
Proof. unfold put, encode_record. cbn [fst snd]. by rewrite key_of_key, decode_item_encode. Qed.

Lemma foldl_put m l :
  foldl put m (encode_record <$> l) = foldr (λ r, <[r.1 := r.2]>) m (reverse l).
Proof.
  revert m. induction l as [|r l IH]; intros m; [done|].
  rewrite reverse_cons, foldr_app. cbn [fmap list_fmap foldl foldr]. by rewrite put_encode, IH.
Qed.

Lemma records_map m : list_to_map (reverse (records m)) = m.
Proof.
  rewrite <- (list_to_map_to_list m) at 2. apply list_to_map_proper.
  - rewrite reverse_Permutation. unfold records. rewrite merge_sort_Permutation.
    apply NoDup_fst_map_to_list.
  - rewrite reverse_Permutation. apply merge_sort_Permutation.
Qed.

Lemma decode_byId_encode m : decode_byId (JObj (encode_record <$> records m)) = Some m.
Proof.
  cbn [decode_byId]. rewrite foldl_put. f_equal.
  transitivity (list_to_map (M := gmap nat ProgressItem) (reverse (records m)));
    [|apply records_map].
  generalize (reverse (records m)). intros l.
  induction l as [|[i it] l IH]; [done|]. cbn. by rewrite IH.
Qed.

(** What the program reads of the value of a state is the state. *)
Lemma decode_encode_state p : decode (encode_state p) = parsed_of p.
Proof.
  unfold encode_state, parsed_of.
  destruct (settings p) as [s|]; cbn -[decode_byId decode_settings encode_settings].
  - by rewrite decode_byId_encode, decode_settings_encode.
  - by rewrite decode_byId_encode.
Qed.

(** C13: parsing the text of a state gives the state: the fields that are
    there with their values, the dates through their ISO texts. *)
Theorem parse_stringify_text p : text_parse (text_stringify p) = Returned (parsed_of p).
Proof.
  unfold text_parse, text_stringify. rewrite JSON_parse_stringify. cbn [outcome_bind].
  by rewrite decode_encode_state.
Qed.

Lemma text_parse_inverts p : text_parse (text_stringify p) = Returned (parsed_of p).
Proof.
  unfold text_parse, text_stringify.
  by rewrite JSON_parse_stringify; cbn [outcome_bind]; rewrite decode_encode_state.
Qed.

#[export] Instance json_text : JsonLib := {|
  stringify := text_stringify;
  parse := text_parse;
  parse_stringify := text_parse_inverts;
  stringify_nonempty p := JSON_stringify_nonempty (encode_state p);
|}.

(** A storage that accepts everything, holding [cells]. *)
Definition open_storage (cells : gmap string string) (cap : nat) : LocalStorage :=
  {| items := cells; denied := false; capacity := cap |}.

(** ** Properties *)

Section properties.
Context `{DateLib} `{JsonLib}.
Implicit Types (p : ProgressState) (ls : LocalStorage) (st : Store) (i j : nat).

(** A fresh state holds exactly one record per radical, each in box 1,
    not learned, with zero counters, never reviewed and due at the start of
    the current day; the settings have their defaults; the state is well
    formed. *)
Theorem emptyProgress_fresh (now : Z) :
  dom (byId (emptyProgress now)) = list_to_set idsAll ∧
  map_Forall (λ _ it, it = freshItem (todayStart now)) (byId (emptyProgress now)) ∧
  settings (emptyProgress now) = Some defaultSettings ∧
  wf_progress (emptyProgress now) = true.
Proof.
  split_and!; [| |done|apply emptyProgress_wf_progress].
  - apply set_eq. intros i. rewrite elem_of_dom, elem_of_list_to_set, idsAll_elem.
    rewrite emptyProgress_lookup. case_decide; [by split | split; [by intros [] | done]].
  - intros i it. rewrite emptyProgress_lookup. case_decide; congruence.
Qed.

(** [patchId] replaces the record of one identifier and leaves every
    other record and the settings as they were. *)
Theorem patchId_frame (i j : nat) (patch : ProgressItem) (p : ProgressState) :
  i ≠ j ->
  byId (patchId i patch p) !! j = byId p !! j ∧
  settings (patchId i patch p) = settings p.
Proof. intros Hne. split; [by apply patchId_lookup_ne | done]. Qed.

(** [patchId] merges: the fields the patch names are overwritten and
    the others are kept, so patching with an empty patch changes nothing of
    a stored record and two patches in a row equal one patch with the
    second spread over the first. *)
Theorem patchId_merge (i : nat) (q r : ProgressItem) (p : ProgressState) :
  patchId i r (patchId i q p) = patchId i (spreadItem q r) p ∧
  (is_Some (byId p !! i) -> patchId i emptyItem p = p).
Proof.
  split.
  - unfold patchId. cbn [byId settings]. f_equal.
    rewrite lookup_insert_eq, insert_insert_eq. simpl.
    by rewrite spreadItem_assoc.
  - intros [it Hit]. destruct p as [m s]. unfold patchId. cbn [byId settings] in *.
    f_equal. rewrite Hit. cbn. rewrite spreadItem_emptyItem_r. by apply insert_id.
Qed.

(** [patchSettings] leaves every record alone, overrides exactly the
    settings the patch names and keeps a well-formed state well formed. *)
Theorem patchSettings_frame (patch : Settings) (p : ProgressState) :
  wf_progress p = true ->
  byId (patchSettings patch p) = byId p ∧
  wf_progress (patchSettings patch p) = true ∧
  patchSettings emptySettings p = p.
Proof.
  intros Hwf. split_and!; [done | by apply patchSettings_wf_progress |].
  destruct (wf_progress_settings p Hwf) as (s & Hs & _).
  destruct p as [m o]. unfold patchSettings. cbn [byId settings] in *. subst o.
  cbn. by rewrite spreadSettings_emptySettings_r.
Qed.

(** C28: [loadProgress] never throws and returns nothing exactly when the
    storage cannot be read, holds no text or the empty text under the key,
    holds text that does not parse, or holds a value without [byId]. *)
Theorem loadProgress_none_iff (ls : LocalStorage) :
  loadProgress ls = None <->
  denied ls = true ∨ items ls !! LS_KEY = None ∨ items ls !! LS_KEY = Some "" ∨
  exists raw, items ls !! LS_KEY = Some raw ∧
    (returns (parse raw) = false ∨
     exists parsed, parse raw = Returned parsed ∧ parsed_byId parsed = None).
Proof.
  unfold loadProgress, getItem. destruct (denied ls); [by split; auto|].
  cbn [outcome_bind]. destruct (items ls !! LS_KEY) as [raw|]; [|by split; auto].
  case_bool_decide as Hraw; [subst; by split; auto|].
  destruct (parse raw) as [parsed|e] eqn:Hp; cbn [outcome_bind catch].
  - destruct (parsed_byId parsed) as [m|] eqn:Hm; cbn [catch].
    + split; [done|]. intros [?|[?|[?|(raw' & ? & Hc)]]]; simplify_eq.
      destruct Hc as [Hc|(parsed' & ? & ?)]; [by rewrite Hp in Hc | congruence].
    + split; [|done]. intros _. do 3 right. exists raw. eauto.
  - split; [|done]. intros _. do 3 right. exists raw. rewrite Hp. eauto.
Qed.

(** C11: round trip: when the storage accepts the write, the state saved by
    [saveProgress] is the state [loadProgress] returns. *)
Theorem save_load_roundtrip (p : ProgressState) (ls : LocalStorage) :
  denied ls = false -> (String.length (stringify p) ≤ capacity ls)%nat ->
  loadProgress (saveProgress p ls) = Some p.
Proof. apply save_load_roundtrip_aux. Qed.

(** C32: a failed write is swallowed: when the storage refuses access or the
    text does not fit, [saveProgress] returns the storage unchanged, and
    [setProgress] still installs the new state in memory. *)
Theorem save_failure_swallowed (f : ProgressState -> ProgressState) (st : Store) :
  denied (storage st) = true ∨
    (capacity (storage st) < String.length (stringify (f (progress st))))%nat ->
  storage (setProgress f st) = storage st ∧
  progress (setProgress f st) = f (progress st).
Proof.
  intros Hfail. split; [|done]. unfold setProgress, saveEffect. cbn [storage progress].
  apply saveProgress_failed. destruct Hfail as [Hd|Hc].
  - by rewrite setItem_denied.
  - by apply setItem_full.
Qed.

(** After every state change whose write succeeds the storage holds
    the state in memory: loading it gives back exactly that state. *)
Theorem setProgress_persists (f : ProgressState -> ProgressState) (st : Store) :
  denied (storage st) = false ->
  (String.length (stringify (f (progress st))) ≤ capacity (storage st))%nat ->
  loadProgress (storage (setProgress f st)) = Some (progress (setProgress f st)).
Proof.
  intros Hd Hc. unfold setProgress, saveEffect. cbn [storage progress].
  by apply save_load_roundtrip_aux.
Qed.

(** Start-up recovers from unusable storage: whenever [loadProgress]
    yields nothing the hook starts from the fresh state, which is well
    formed. *)
Theorem useProgress_recovers (now : Z) (ls : LocalStorage) :
  loadProgress ls = None ->
  progress (useProgress now ls) = emptyProgress now ∧
  wf_progress (progress (useProgress now ls)) = true.
Proof.
  intros Hl. rewrite useProgress_progress, Hl. split; [done|].
  apply emptyProgress_wf_progress.
Qed.

(** The check made on load is only that [byId] is present: a stored
    value with an empty [byId] and no [settings] is accepted as the state,
    although it is not well formed. *)
Theorem loadProgress_accepts_incomplete (ls : LocalStorage) :
  let bad := {| byId := ∅; settings := None |} in
  denied ls = false -> (String.length (stringify bad) ≤ capacity ls)%nat ->
  loadProgress (saveProgress bad ls) = Some bad ∧ wf_progress bad = false.
Proof. intros bad Hd Hc. split; [by apply save_load_roundtrip_aux | done]. Qed.
End properties.

(** ** The properties at concrete inputs *)

Definition sample_state : ProgressState :=
  {| byId := {[ 1%nat := freshItem 0 ]}; settings := Some defaultSettings |}.

Definition corrupt_storage : LocalStorage :=
  open_storage {[ LS_KEY := "{not json"%string ]} 5000.

Lemma patchId_frame_witness :
  byId (patchId 1 (freshItem 5) sample_state) !! 2%nat = byId sample_state !! 2%nat ∧
  settings (patchId 1 (freshItem 5) sample_state) = settings sample_state.
Proof. apply (patchId_frame 1 2 (freshItem 5) sample_state). done. Defined.

Lemma patchId_merge_witness : patchId 1 emptyItem sample_state = sample_state.
Proof. apply (patchId_merge 1 emptyItem emptyItem sample_state). by eexists. Defined.

Lemma patchSettings_frame_witness :
  byId (patchSettings emptySettings (emptyProgress (H := fixed_zone 0) 0)) =
    byId (emptyProgress (H := fixed_zone 0) 0) ∧
  wf_progress (patchSettings emptySettings (emptyProgress (H := fixed_zone 0) 0)) = true ∧
  patchSettings emptySettings (emptyProgress (H := fixed_zone 0) 0) =
    emptyProgress (H := fixed_zone 0) 0.
Proof. apply (patchSettings_frame emptySettings). apply emptyProgress_wf_progress. Defined.

Lemma save_load_roundtrip_witness :
  loadProgress (saveProgress sample_state (open_storage ∅ 5000)) = Some sample_state.
Proof.
  apply (save_load_roundtrip sample_state (open_storage ∅ 5000)); [done|].
  apply Nat.leb_le. by vm_compute.
Defined.

Lemma save_failure_swallowed_witness :
  let st := {| progress := sample_state;
               storage := {| items := ∅; denied := true; capacity := 5000 |} |} in
  storage (setProgress (patchId 1 (freshItem 5)) st) = storage st ∧
  progress (setProgress (patchId 1 (freshItem 5)) st) = patchId 1 (freshItem 5) sample_state.
Proof. intros st. apply (save_failure_swallowed (patchId 1 (freshItem 5)) st). by left. Defined.

Lemma setProgress_persists_witness :
  let st := {| progress := sample_state; storage := open_storage ∅ 5000 |} in
  loadProgress (storage (setProgress (patchId 1 (freshItem 5)) st)) =
  Some (progress (setProgress (patchId 1 (freshItem 5)) st)).
Proof.
  intros st. apply (setProgress_persists (patchId 1 (freshItem 5)) st); [done|].
  apply Nat.leb_le. by vm_compute.
Defined.

Lemma useProgress_recovers_witness :
  progress (useProgress (H := fixed_zone 0) 1000 corrupt_storage) =
    emptyProgress (H := fixed_zone 0) 1000 ∧
  wf_progress (progress (useProgress (H := fixed_zone 0) 1000 corrupt_storage)) = true.
Proof. apply (useProgress_recovers (H := fixed_zone 0) 1000 corrupt_storage). by vm_compute. Defined.

Lemma loadProgress_accepts_incomplete_witness :
  loadProgress (saveProgress {| byId := ∅; settings := None |} (open_storage ∅ 5000)) =
    Some {| byId := ∅; settings := None |} ∧
  wf_progress {| byId := ∅; settings := None |} = false.
Proof.
  apply (loadProgress_accepts_incomplete (open_storage ∅ 5000)); [done|].
  apply Nat.leb_le. by vm_compute.
Defined.

(** The codec at concrete inputs. *)

(** Texts are written with ['] for the quotation mark. *)
Fixpoint quoted (s : string) : string :=
  match s with
  | EmptyString => EmptyString
  | String c s' => String (if decide (c = "'"%char) then dquote else c) (quoted s')
  end.

(** The storage that holds [text] under the key of the program. *)
Definition holding (text : string) : LocalStorage :=
  open_storage {[LS_KEY := quoted text]} (Z.to_nat 100000).

Definition sample_item : ProgressItem :=
  {| box := Some 3; learned := Some true; correct := Some 2; wrong := Some 1;
     lastReviewed := Some 0; due := Some 259200000 |}.

Definition sample_progress : ProgressState :=
  {| byId := <[12%nat := emptyItem]> (<[5%nat := sample_item]> ∅);
     settings := Some defaultSettings |}.

(** The text of a state, as a browser writes it: the records in the order
    of their identifiers, a record without fields with its [null]. *)
Example stringify_text_example :
  text_stringify sample_progress =
  quoted ("{'byId':{'5':{'box':3,'learned':true,'correct':2,'wrong':1," +:+
          "'lastReviewed':'1970-01-01T00:00:00.000Z','due':'1970-01-04T00:00:00.000Z'}," +:+
          "'12':{'lastReviewed':null}}," +:+
          "'settings':{'showExamples':true,'showMnemonic':true,'toneMarks':true," +:+
          "'shuffleLearn':false,'keyboardShortcuts':true}}").
Proof. by vm_compute. Qed.

(** White space, members in another order, members the program does not
    know and a key that is not an identifier do not matter; of two members
    of the same name the last counts. *)
Example parse_text_example :
  text_parse (quoted (" { 'settings' : { 'toneMarks' : false } , 'version' : [2, 'x'] ," +:+
                      "   'byId' : { '5' : { 'due' : '1970-01-04T00:00:00.000Z', 'box' : 2 ," +:+
                      " 'box' : 3 } , '05' : { 'box' : 1 } , 'x' : null } } ")) =
  Returned
    {| parsed_byId :=
         Some {[5%nat := {| box := Some 3; learned := None; correct := None; wrong := None;
                            lastReviewed := None; due := Some 259200000 |}]};
       parsed_settings :=
         Some {| showExamples := None; showMnemonic := None; toneMarks := Some false;
                 shuffleLearn := None; keyboardShortcuts := None |} |}.
Proof. by vm_compute. Qed.

(** What [loadProgress] makes of what it finds in storage: nothing of a
    text that does not parse, of a value without a truthy [byId]; a state
    without settings of an object that has [byId] only. *)
Example loadProgress_text_examples :
  loadProgress (H := json_text) (holding "{'byId':{'5':{'box':3") = None ∧
  loadProgress (H := json_text) (holding "") = None ∧
  loadProgress (H := json_text) (holding "null") = None ∧
  loadProgress (H := json_text) (holding "[1,2]") = None ∧
  loadProgress (H := json_text) (holding "{'byId':null,'settings':{}}") = None ∧
  loadProgress (H := json_text) (holding "{'byId':0}") = None ∧
  loadProgress (H := json_text) (holding "{'byId':{}}") = Some {| byId := ∅; settings := None |} ∧
  loadProgress (H := json_text) (holding "{'byId':7,'settings':1}") =
    Some {| byId := ∅; settings := Some emptySettings |} ∧
  loadProgress (H := json_text) (holding "{'byId':{'5':{'box':'3','learned':1}}}") =
    Some {| byId := {[5%nat := emptyItem]}; settings := None |}.
Proof. by vm_compute. Qed.

(** The fresh state is a text of 6477 characters; a storage with room
    for them gives it back, a storage with room for one less keeps what
    it had. *)
Example fresh_state_text :
  let fresh := emptyProgress (H := fixed_zone 0) 0 in
  Z.of_nat (String.length (text_stringify fresh)) = 6477 ∧
  loadProgress (H := json_text) (saveProgress (H := json_text) fresh (open_storage ∅ (Z.to_nat 6477))) =
    Some fresh ∧
  saveProgress (H := json_text) fresh (open_storage ∅ (Z.to_nat 6476)) =
    open_storage ∅ (Z.to_nat 6476).
Proof. by vm_compute. Qed.

(** ** Hints for the components that build on this one *)

#[export] Hint Resolve emptyProgress_wf_progress patchSettings_wf_progress wf_freshItem : radicals.
#[export] Hint Rewrite spreadItem_emptyItem_l spreadItem_emptyItem_r : js.
