(* ===== verification/Deck.v ===== *)
(** * Deck: the cards of a session

    [buildDeck] of [src/app/page.tsx] chooses the identifiers a study session
    walks through, from the mode, the stored progress and the shuffle
    setting.  The mode is the string the source compares; the function
    reads the clock (mode "review") and the random source (shuffled modes),
    which are the arguments [now] and [g], and returns the random source it
    leaves behind.  [isDue] is the test the source applies to a radical in
    [buildDeck] and again for the counter of the home page ([dueCount]);
    [learnedCount] is the other counter of that page.

    The theorems: every deck is non-empty, free of duplicates and made of
    catalog identifiers; the unshuffled "learn" deck is 1..60 in order; the
    shuffled decks are permutations of it; the "review" deck is the due
    identifiers in catalog order, or all sixty when none is due. *)

From Stdlib Require Import ZArith Lia.
From stdpp Require Import base tactics option list strings gmap.
From S2P Require Import Prelude Clock Catalog Random Uniform Store.

#[local] Open Scope Z_scope.

(** ** The functions of the source *)

(** [new Date(progress.byId[r.id]?.due || 0) <= t] *)
Definition isDue (p : ProgressState) (t : Z) (r : Radical) : bool :=
  bool_decide (default 0 (byId p !! id r ≫= due) <= t).

(** [RADICALS.filter((r) => isDue ...).map((r) => r.id)]: the due
    identifiers at time [t], in catalog order. *)
Definition dueIds (p : ProgressState) (t : Z) : list nat :=
  id <$> List.filter (isDue p t) RADICALS.

Definition buildDeck `{DateLib} (mode : string) (p : ProgressState)
    (shuffleLearn : option bool) (now : Z) (g : Rng) : list nat * Rng :=
  if decide (mode = "learn"%string) then
    if truthy shuffleLearn then shuffle idsAll g else (idsAll, g)
  else if decide (mode = "review"%string) then
    let t := todayStart now in
    let due := dueIds p t in
    (match due with [] => idsAll | _ :: _ => due end, g)
  else shuffle idsAll g.

(** The counters of the home page. *)
Definition dueCount `{DateLib} (p : ProgressState) (now : Z) : nat :=
  length (List.filter (isDue p (todayStart now)) RADICALS).

Definition learnedCount (p : ProgressState) : nat :=
  length (List.filter (λ r, truthy (byId p !! id r ≫= learned)) RADICALS).

(** In how many of the vectors of 59 draws with numerators below [N] the
    deck is the order [target]. *)
Definition deckWays `{DateLib} (mode : string) (p : ProgressState) (sh : option bool)
    (now : Z) (target : list nat) (N : nat) : nat :=
  length (filter (λ ds, (buildDeck mode p sh now (replay ds)).1 = target) (vectors 59 N)).

(** ** Lemmas *)

Lemma elem_of_dueIds p t i :
  i ∈ dueIds p t <-> (1 <= i <= 60)%nat ∧ default 0 (byId p !! i ≫= due) <= t.
Proof.
  unfold dueIds. rewrite list_elem_of_fmap. split.
  - intros (r & -> & Hr). rewrite list_elem_of_In, filter_In, <- list_elem_of_In in Hr.
    destruct Hr as [Hr Hd]. split; [by apply card_id_range|].
    by apply bool_decide_eq_true in Hd.
  - intros [Hi Hd]. exists (findCard i). rewrite findCard_id by done. split; [done|].
    rewrite list_elem_of_In, filter_In, <- list_elem_of_In. split; [auto with radicals|].
    unfold isDue. rewrite findCard_id by done. by apply bool_decide_eq_true.
Qed.

Lemma dueIds_sublist p t : dueIds p t `sublist_of` idsAll.
Proof.
  unfold dueIds, idsAll. apply fmap_sublist.
  induction RADICALS as [|r l IH]; simpl; [done|].
  destruct (isDue p t r); by constructor.
Qed.

Lemma dueIds_NoDup p t : NoDup (dueIds p t).
Proof. eapply sublist_NoDup; [auto with radicals | apply dueIds_sublist]. Qed.

Lemma dueIds_all p t :
  (∀ i, (1 <= i <= 60)%nat -> default 0 (byId p !! i ≫= due) <= t) -> dueIds p t = idsAll.
Proof.
  intros Hall. unfold dueIds, idsAll. f_equal.
  apply forallb_filter_id, forallb_forall. intros r Hr%list_elem_of_In.
  apply bool_decide_eq_true, Hall. by apply card_id_range.
Qed.

Lemma dueIds_none p t :
  (∀ i, (1 <= i <= 60)%nat -> t < default 0 (byId p !! i ≫= due)) -> dueIds p t = [].
Proof.
  intros Hnone. destruct (dueIds p t) as [|i l] eqn:Hd; [done|].
  assert (i ∈ dueIds p t) as [Hi Hle]%elem_of_dueIds by (rewrite Hd; by left).
  specialize (Hnone i Hi). lia.
Qed.

Section deck.
Context `{DateLib}.
Implicit Types (p : ProgressState) (g : Rng) (mode : string).

Lemma buildDeck_learn p sh now g :
  buildDeck "learn" p sh now g = if truthy sh then shuffle idsAll g else (idsAll, g).
Proof. done. Qed.

Lemma buildDeck_review p sh now g :
  buildDeck "review" p sh now g =
  (match dueIds p (todayStart now) with [] => idsAll | _ :: _ => dueIds p (todayStart now) end, g).
Proof. done. Qed.

Lemma buildDeck_other mode p sh now g :
  mode ≠ "learn"%string -> mode ≠ "review"%string ->
  buildDeck mode p sh now g = shuffle idsAll g.
Proof. intros. unfold buildDeck. by rewrite !decide_False. Qed.

(** The modes that shuffle. *)
Lemma buildDeck_is_shuffle mode p sh now g :
  (mode = "learn"%string ∧ truthy sh = true) ∨
    (mode ≠ "learn"%string ∧ mode ≠ "review"%string) ->
  buildDeck mode p sh now g = shuffle idsAll g.
Proof.
  intros [[-> Hsh]|[? ?]]; [by rewrite buildDeck_learn, Hsh | by apply buildDeck_other].
Qed.

Lemma deckWays_ways mode p sh now target N :
  (mode = "learn"%string ∧ truthy sh = true) ∨
    (mode ≠ "learn"%string ∧ mode ≠ "review"%string) ->
  deckWays mode p sh now target N = ways idsAll target N.
Proof.
  intros Hm. unfold deckWays, ways. rewrite idsAll_length.
  apply filter_length_ext. intros ds _. by rewrite buildDeck_is_shuffle.
Qed.

(** The three shapes a deck can have. *)
Lemma buildDeck_cases mode p sh now g :
  let deck := (buildDeck mode p sh now g).1 in
  deck = idsAll ∨ deck ≡ₚ idsAll ∨
  (deck = dueIds p (todayStart now) ∧ deck ≠ []).
Proof.
  unfold buildDeck. repeat case_decide; subst.
  - destruct (truthy sh); [right; left; apply shuffle_Permutation | by left].
  - cbn [fst]. destruct (dueIds p (todayStart now)) eqn:Hd; [by left | by right; right].
  - right; left. apply shuffle_Permutation.
Qed.

Lemma buildDeck_NoDup mode p sh now g : NoDup (buildDeck mode p sh now g).1.
Proof.
  destruct (buildDeck_cases mode p sh now g) as [->|[->|[-> _]]];
    auto using idsAll_NoDup, dueIds_NoDup.
Qed.

Lemma buildDeck_nonempty mode p sh now g : (buildDeck mode p sh now g).1 ≠ [].
Proof.
  destruct (buildDeck_cases mode p sh now g) as [->|[Hp|[_ ?]]]; [done| |done].
  intros Hnil. rewrite Hnil in Hp. by apply Permutation_nil in Hp.
Qed.

Lemma buildDeck_subseteq mode p sh now g : (buildDeck mode p sh now g).1 ⊆ idsAll.
Proof.
  destruct (buildDeck_cases mode p sh now g) as [->|[->|[-> _]]]; [done..|].
  apply sublist_subseteq, dueIds_sublist.
Qed.

Lemma buildDeck_length mode p sh now g :
  (0 < length (buildDeck mode p sh now g).1 <= 60)%nat.
Proof.
  pose proof (buildDeck_nonempty mode p sh now g) as Hne.
  split; [destruct (buildDeck _ _ _ _ _).1; [done | simpl; lia]|].
  destruct (buildDeck_cases mode p sh now g) as [->|[->|[-> _]]]; [done..|].
  change 60%nat with (length idsAll). apply sublist_length, dueIds_sublist.
Qed.

Lemma buildDeck_elem mode p sh now g i :
  i ∈ (buildDeck mode p sh now g).1 -> (1 <= i <= 60)%nat.
Proof. intros Hi. by apply idsAll_elem, (buildDeck_subseteq mode p sh now g). Qed.
End deck.

(** A duplicate-free list whose only possible element is [x] and that
    contains it is [[x]]. *)
Lemma NoDup_singleton_eq {A : Type} (l : list A) (x : A) :
  NoDup l -> x ∈ l -> (∀ y, y ∈ l -> y = x) -> l = [x].
Proof.
  intros Hnd Hx Hall. destruct l as [|a l]; [by apply elem_of_nil in Hx|].
  assert (a = x) as -> by (apply Hall; by left).
  destruct l as [|b l]; [done|]. exfalso.
  assert (b = x) as -> by (apply Hall; right; by left).
  apply NoDup_cons in Hnd as [Hnin _]. apply Hnin. by left.
Qed.

Lemma List_filter_none {A : Type} (f : A -> bool) (l : list A) :
  (∀ x, x ∈ l -> f x = false) -> List.filter f l = [].
Proof.
  induction l as [|a l IH]; intros Hf; simpl; [done|].
  rewrite (Hf a) by by left. apply IH. intros x Hx. apply Hf. by right.
Qed.

Lemma dueCount_dueIds `{DateLib} p now : dueCount p now = length (dueIds p (todayStart now)).
Proof. unfold dueCount, dueIds. by rewrite length_fmap. Qed.

(** ** Properties *)

Section properties.
Context `{DateLib}.
Implicit Types (p : ProgressState) (g : Rng) (mode : string).

(** C8: every deck [buildDeck] returns, for any mode string, stored
    progress, setting, clock and random source, is non-empty, has no
    identifier twice, holds only identifiers of the catalog and has at most
    60 entries. *)
Theorem buildDeck_valid (mode : string) (p : ProgressState) (sh : option bool)
    (now : Z) (g : Rng) :
  (buildDeck mode p sh now g).1 ≠ [] ∧
  NoDup (buildDeck mode p sh now g).1 ∧
  (buildDeck mode p sh now g).1 ⊆ seq 1 60 ∧
  (length (buildDeck mode p sh now g).1 <= 60)%nat.
Proof.
  split_and!.
  - apply buildDeck_nonempty.
  - apply buildDeck_NoDup.
  - rewrite <- idsAll_seq. apply buildDeck_subseteq.
  - apply buildDeck_length.
Qed.

(** In mode "learn" without the shuffle setting (off or missing) the
    deck is the identifiers 1..60 in catalog order and no random number is
    drawn. *)
Theorem buildDeck_learn_in_order (p : ProgressState) (sh : option bool) (now : Z) (g : Rng) :
  truthy sh = false -> buildDeck "learn" p sh now g = (seq 1 60, g).
Proof. intros Hsh. by rewrite buildDeck_learn, Hsh, idsAll_seq. Qed.

(** In mode "learn" with the shuffle setting, and in mode "quiz" or any
    other mode string, the deck is a permutation of 1..60, 59 random
    numbers are drawn, and every permutation of 1..60 is the deck for some
    draws of the random source. *)
Theorem buildDeck_shuffled (mode : string) (p : ProgressState) (sh : option bool)
    (now : Z) (g : Rng) :
  (mode = "learn"%string ∧ truthy sh = true) ∨
    (mode ≠ "learn"%string ∧ mode ≠ "review"%string) ->
  (buildDeck mode p sh now g).1 ≡ₚ seq 1 60 ∧
  (buildDeck mode p sh now g).2 = advance 59 g ∧
  ∀ target, target ≡ₚ seq 1 60 ->
    ∃ ds, length ds = 59%nat ∧ (buildDeck mode p sh now (replay ds)).1 = target.
Proof.
  intros Hm. assert (∀ g', buildDeck mode p sh now g' = shuffle idsAll g') as Hb
    by (intros g'; by apply buildDeck_is_shuffle).
  rewrite Hb, <- idsAll_seq.
  split_and!; [apply shuffle_Permutation | by rewrite shuffle_rng |].
  intros target Ht. destruct (shuffle_onto idsAll target Ht) as (ds & Hds & Hrun).
  { by rewrite idsAll_length. }
  exists ds. rewrite Hb. split; [by rewrite Hds, idsAll_length | apply Hrun, reads_replay].
Qed.

(** C17: the orders of a shuffled deck are nearly equally likely.  When the
    draws of [Math.random] are uniform on the grid of the doubles and
    independent, the number of vectors of 59 draws for which the deck is a
    given order of 1..60 lies between two products that differ by less
    than one part in [10^12], and the lower one is positive: every order
    is dealt, with nearly the same probability. *)
Theorem shuffled_deck_nearly_uniform (mode : string) (p : ProgressState) (sh : option bool)
    (now : Z) (target : list nat) :
  (mode = "learn"%string ∧ truthy sh = true) ∨
    (mode ≠ "learn"%string ∧ mode ≠ "review"%string) ->
  target ≡ₚ seq 1 60 ->
  below 59 <= Z.of_nat (deckWays mode p sh now target grid) <= above 59 ∧
  0 < below 59 ∧ (above 59 - below 59) * 10 ^ 12 < below 59.
Proof.
  intros Hm Ht. rewrite deckWays_ways by done. rewrite <- idsAll_seq in Ht.
  destruct (ways_bounds idsAll target idsAll_NoDup Ht) as [Hpos Hb].
  { by rewrite idsAll_length. }
  rewrite idsAll_length in Hpos, Hb. split_and!; [apply Hb.. | done | apply spread_59].
Qed.

(** C39: the orders of a shuffled deck are not equally likely: there are
    two orders of 1..60 that are dealt for different numbers of the
    vectors of 59 draws on the grid of the doubles. *)
Theorem shuffled_deck_not_uniform (mode : string) (p : ProgressState) (sh : option bool)
    (now : Z) :
  (mode = "learn"%string ∧ truthy sh = true) ∨
    (mode ≠ "learn"%string ∧ mode ≠ "review"%string) ->
  ∃ t1 t2, t1 ≡ₚ seq 1 60 ∧ t2 ≡ₚ seq 1 60 ∧
    deckWays mode p sh now t1 grid ≠ deckWays mode p sh now t2 grid.
Proof.
  intros Hm. destruct (ways_differ idsAll idsAll_NoDup) as (t1 & t2 & H1 & H2 & Hne).
  { rewrite idsAll_length. lia. }
  exists t1, t2. rewrite !deckWays_ways, <- idsAll_seq by done. done.
Qed.

(** C31: in mode "review", when some radical is due, the deck is the due
    radicals in catalog order: an identifier is in the deck exactly when it
    is in 1..60 and its due date (the epoch when the record or the date is
    missing) is not after the start of today. *)
Theorem buildDeck_review_due (p : ProgressState) (sh : option bool) (now : Z) (g : Rng) :
  dueIds p (todayStart now) ≠ [] ->
  (buildDeck "review" p sh now g).1 `sublist_of` seq 1 60 ∧
  (buildDeck "review" p sh now g).2 = g ∧
  ∀ i, i ∈ (buildDeck "review" p sh now g).1 <->
       (1 <= i <= 60)%nat ∧ default 0 (byId p !! i ≫= due) <= todayStart now.
Proof.
  intros Hne. rewrite buildDeck_review. cbn [fst snd].
  destruct (dueIds p (todayStart now)) as [|i l] eqn:Hd; [done|]. rewrite <- Hd.
  split_and!; [rewrite <- idsAll_seq; apply dueIds_sublist | done |].
  intros j. apply elem_of_dueIds.
Qed.

(** In mode "review", when no radical is due, the deck falls back to
    all 60 identifiers in catalog order. *)
Theorem buildDeck_review_fallback (p : ProgressState) (sh : option bool) (now : Z) (g : Rng) :
  (∀ i, (1 <= i <= 60)%nat -> todayStart now < default 0 (byId p !! i ≫= due)) ->
  buildDeck "review" p sh now g = (seq 1 60, g).
Proof. intros Hnone. by rewrite buildDeck_review, dueIds_none, idsAll_seq. Qed.

(** On a fresh state every radical is due at once and stays due: the
    "review" deck built at any later time is all 60 identifiers, and the
    home page counts 60 due and 0 learned. *)
Theorem review_of_fresh_state (now now' : Z) (sh : option bool) (g : Rng) :
  now <= now' ->
  buildDeck "review" (emptyProgress now) sh now' g = (seq 1 60, g) ∧
  dueCount (emptyProgress now) now' = 60%nat ∧
  learnedCount (emptyProgress now) = 0%nat.
Proof.
  intros Hle.
  assert (dueIds (emptyProgress now) (todayStart now') = idsAll) as Hall.
  { apply dueIds_all. intros i Hi. rewrite emptyProgress_lookup, decide_True by done.
    simpl. by apply todayStart_mono. }
  split_and!.
  - by rewrite buildDeck_review, Hall.
  - by rewrite dueCount_dueIds, Hall.
  - unfold learnedCount. rewrite List_filter_none; [done|].
    intros r Hr%card_id_range. by rewrite emptyProgress_lookup, decide_True.
Qed.

(** In mode "review", when exactly one radical is due, the deck is that
    one identifier. *)
Theorem buildDeck_review_single (p : ProgressState) (sh : option bool) (now : Z)
    (g : Rng) (i : nat) :
  (1 <= i <= 60)%nat ->
  default 0 (byId p !! i ≫= due) <= todayStart now ->
  (∀ j, (1 <= j <= 60)%nat -> j ≠ i -> todayStart now < default 0 (byId p !! j ≫= due)) ->
  buildDeck "review" p sh now g = ([i], g).
Proof.
  intros Hi Hdue Hothers. rewrite buildDeck_review.
  assert (dueIds p (todayStart now) = [i]) as ->; [|done].
  apply NoDup_singleton_eq; [apply dueIds_NoDup | by apply elem_of_dueIds |].
  intros j [Hj Hd]%elem_of_dueIds. destruct (decide (j = i)) as [|Hne]; [done|].
  specialize (Hothers j Hj Hne). lia.
Qed.
End properties.

(** ** The properties at concrete inputs *)

(** A state in which only radical 5 has a record, due long before the
    epoch, looked at just before the epoch in UTC. *)
Definition only_five_due : ProgressState :=
  {| byId := {[ 5%nat := freshItem (-200000000) ]}; settings := None |}.

Lemma only_five_due_others j :
  j ≠ 5%nat -> todayStart (H := fixed_zone 0) (-1) < default 0 (byId only_five_due !! j ≫= due).
Proof. intros Hj. unfold only_five_due. cbn [byId]. by rewrite lookup_singleton_ne. Qed.

Lemma buildDeck_learn_in_order_witness :
  buildDeck (H := fixed_zone 0) "learn" only_five_due (Some false) 0 (lcg 1) = (seq 1 60, lcg 1).
Proof. by apply (buildDeck_learn_in_order (H := fixed_zone 0)). Defined.

Lemma buildDeck_shuffled_witness :
  (buildDeck (H := fixed_zone 0) "quiz" only_five_due None 0 (lcg 1)).1 ≡ₚ seq 1 60 ∧
  (buildDeck (H := fixed_zone 0) "quiz" only_five_due None 0 (lcg 1)).2 = advance 59 (lcg 1) ∧
  ∀ target, target ≡ₚ seq 1 60 ->
    ∃ ds, length ds = 59%nat ∧
          (buildDeck (H := fixed_zone 0) "quiz" only_five_due None 0 (replay ds)).1 = target.
Proof. apply (buildDeck_shuffled (H := fixed_zone 0)). by right. Defined.

Lemma shuffled_deck_nearly_uniform_witness :
  below 59 <=
    Z.of_nat (deckWays (H := fixed_zone 0) "quiz" only_five_due None 0 (seq 1 60) grid)
    <= above 59 ∧
  0 < below 59 ∧ (above 59 - below 59) * 10 ^ 12 < below 59.
Proof. apply (shuffled_deck_nearly_uniform (H := fixed_zone 0)); [by right | done]. Defined.

Lemma shuffled_deck_not_uniform_witness :
  ∃ t1 t2, t1 ≡ₚ seq 1 60 ∧ t2 ≡ₚ seq 1 60 ∧
    deckWays (H := fixed_zone 0) "quiz" only_five_due None 0 t1 grid ≠
    deckWays (H := fixed_zone 0) "quiz" only_five_due None 0 t2 grid.
Proof. apply (shuffled_deck_not_uniform (H := fixed_zone 0)). by right. Defined.

Lemma buildDeck_review_due_witness :
  (buildDeck (H := fixed_zone 0) "review" only_five_due None (-1) (lcg 1)).1
    `sublist_of` seq 1 60 ∧
  (buildDeck (H := fixed_zone 0) "review" only_five_due None (-1) (lcg 1)).2 = lcg 1 ∧
  ∀ i, i ∈ (buildDeck (H := fixed_zone 0) "review" only_five_due None (-1) (lcg 1)).1 <->
       (1 <= i <= 60)%nat ∧
       default 0 (byId only_five_due !! i ≫= due) <= todayStart (H := fixed_zone 0) (-1).
Proof. apply (buildDeck_review_due (H := fixed_zone 0)). by vm_compute. Defined.

Lemma buildDeck_review_fallback_witness :
  buildDeck (H := fixed_zone 0) "review" {| byId := ∅; settings := None |} None (-1) (lcg 1)
  = (seq 1 60, lcg 1).
Proof.
  apply (buildDeck_review_fallback (H := fixed_zone 0)). intros i _.
  cbn [byId]. by rewrite lookup_empty.
Defined.

Lemma review_of_fresh_state_witness :
  buildDeck (H := fixed_zone 0) "review" (emptyProgress (H := fixed_zone 0) 1000) None 2000 (lcg 1)
    = (seq 1 60, lcg 1) ∧
  dueCount (H := fixed_zone 0) (emptyProgress (H := fixed_zone 0) 1000) 2000 = 60%nat ∧
  learnedCount (emptyProgress (H := fixed_zone 0) 1000) = 0%nat.
Proof. apply (review_of_fresh_state (H := fixed_zone 0) 1000 2000). lia. Defined.

Lemma buildDeck_review_single_witness :
  buildDeck (H := fixed_zone 0) "review" only_five_due None (-1) (lcg 1) = ([5%nat], lcg 1).
Proof.
  apply (buildDeck_review_single (H := fixed_zone 0)); [lia | by vm_compute |].
  intros j _. apply only_five_due_others.
Defined.

(** ** Hints for the components that build on this one *)

#[export] Hint Resolve buildDeck_NoDup buildDeck_nonempty buildDeck_subseteq : radicals.
