(* ===== verification/Quiz.v ===== *)
(** * Quiz: the multiple-choice options

    In mode "quiz" the session shows four meanings for the current radical:
    its own and three distractors.  The source computes them in a [useMemo]
    of [StudySession]: the pool is every other radical, a shuffle of the
    pool gives the three distractors (its first three entries), and a second
    shuffle orders the four options.  [makeQuiz] is that computation with
    the random source made explicit: it draws 58 numbers for the pool and 3
    for the options, in this order.

    The theorems are about the table of the catalog as it is: the options
    are four distinct meanings, the correct one is among them, and the three
    others are meanings of other radicals. *)

From Stdlib Require Import ZArith Lia.
From stdpp Require Import base tactics option list strings.
From S2P Require Import Prelude Catalog Random.

Module Quiz.

Record Question := {
  correct : string;
  options : list string;
}.

(** The distractors: [shuffle(pool).slice(0, 3).map((r) => r.meaning)]. *)
Definition distractors (card : Radical) (g : Rng) : list string * Rng :=
  let pool := othersOf card in
  let '(shuffled, g') := shuffle pool g in
  (meaning <$> take 3 shuffled, g').

Definition makeQuiz (card : Radical) (g : Rng) : Question * Rng :=
  let correct := meaning card in
  let '(opts, g1) := distractors card g in
  let '(options, g2) := shuffle (correct :: opts) g1 in
  ({| correct := correct; options := options |}, g2).

(** ** Lemmas *)

Lemma othersOf_NoDup card : NoDup (othersOf card).
Proof.
  unfold othersOf. apply NoDup_ListNoDup, List.NoDup_filter, NoDup_ListNoDup.
  eapply NoDup_fmap_1 with (f := id). change (id <$> RADICALS) with idsAll.
  auto with radicals.
Qed.

Lemma distractors_fst card g :
  (distractors card g).1 = meaning <$> take 3 (shuffle (othersOf card) g).1.
Proof. unfold distractors. by destruct (shuffle _ g). Qed.

Lemma distractors_snd card g :
  card ∈ RADICALS -> (distractors card g).2 = advance 58 g.
Proof.
  intros Hin. unfold distractors. pose proof (shuffle_rng (othersOf card) g) as Hg.
  destruct (shuffle _ g) as [sh g']. simpl in *. subst g'.
  by rewrite othersOf_length.
Qed.

Lemma distractors_length card g : card ∈ RADICALS -> length (distractors card g).1 = 3.
Proof.
  intros Hin. rewrite distractors_fst, length_fmap, length_take, shuffle_length.
  rewrite othersOf_length by done. lia.
Qed.

(** Every distractor is the meaning of another radical of the table. *)
Lemma distractors_elem card g m :
  m ∈ (distractors card g).1 ->
  exists r, r ∈ RADICALS ∧ id r ≠ id card ∧ meaning r = m.
Proof.
  rewrite distractors_fst. intros (r & -> & Hr)%list_elem_of_fmap.
  apply elem_of_take in Hr as (i & Hr & _).
  apply list_elem_of_lookup_2, shuffle_elem_of, othersOf_elem in Hr as [? ?].
  by exists r.
Qed.

Lemma distractors_NoDup card g : NoDup (distractors card g).1.
Proof.
  rewrite distractors_fst. apply NoDup_fmap_2_strong.
  - intros r1 r2 H1 H2 Hm.
    apply elem_of_take in H1 as (i1 & H1 & _), H2 as (i2 & H2 & _).
    apply list_elem_of_lookup_2, shuffle_elem_of, othersOf_elem in H1 as [H1 _].
    apply list_elem_of_lookup_2, shuffle_elem_of, othersOf_elem in H2 as [H2 _].
    by apply meaning_inj.
  - eapply sublist_NoDup; [|apply sublist_take]. auto using othersOf_NoDup with radicals.
Qed.

Lemma correct_not_distractor card g :
  card ∈ RADICALS -> meaning card ∉ (distractors card g).1.
Proof.
  intros Hc (r & Hr & Hid & Hm)%distractors_elem.
  apply Hid. f_equal. by apply meaning_inj.
Qed.

Lemma makeQuiz_correct card g : correct (makeQuiz card g).1 = meaning card.
Proof.
  unfold makeQuiz. destruct (distractors card g) as [opts g1].
  by destruct (shuffle _ g1).
Qed.

Lemma makeQuiz_options card g :
  options (makeQuiz card g).1 ≡ₚ meaning card :: (distractors card g).1.
Proof.
  unfold makeQuiz. destruct (distractors card g) as [opts g1]. simpl.
  pose proof (shuffle_Permutation (meaning card :: opts) g1).
  by destruct (shuffle _ g1).
Qed.

Lemma makeQuiz_rng card g :
  card ∈ RADICALS -> (makeQuiz card g).2 = advance 61 g.
Proof.
  intros Hin. unfold makeQuiz.
  pose proof (distractors_snd card g Hin) as H2. pose proof (distractors_length card g Hin) as H3.
  destruct (distractors card g) as [opts g1]. simpl in *. subst g1.
  pose proof (shuffle_rng (meaning card :: opts) (advance 58 g)) as Hg.
  destruct (shuffle _ (advance 58 g)) as [o g2]. simpl in *. subst g2.
  rewrite H3, advance_advance. done.
Qed.

Lemma makeQuiz_NoDup card g : card ∈ RADICALS -> NoDup (options (makeQuiz card g).1).
Proof.
  intros Hin. rewrite makeQuiz_options. apply NoDup_cons. split.
  - by apply correct_not_distractor.
  - apply distractors_NoDup.
Qed.

Lemma makeQuiz_length card g : card ∈ RADICALS -> length (options (makeQuiz card g).1) = 4.
Proof. intros Hin. rewrite makeQuiz_options. simpl. by rewrite distractors_length. Qed.

Lemma makeQuiz_correct_in card g : correct (makeQuiz card g).1 ∈ options (makeQuiz card g).1.
Proof. rewrite makeQuiz_options, makeQuiz_correct. by left. Qed.

(** ** Properties *)

(** C16: for every radical of the table the quiz has exactly four options,
    pairwise distinct; the correct answer is the radical's own meaning and
    is one of the options; every other option is the meaning of a different
    radical.  Sixty-one random numbers are drawn. *)
Theorem makeQuiz_valid (card : Radical) (g : Rng) :
  card ∈ RADICALS ->
  correct (makeQuiz card g).1 = meaning card ∧
  length (options (makeQuiz card g).1) = 4 ∧
  NoDup (options (makeQuiz card g).1) ∧
  correct (makeQuiz card g).1 ∈ options (makeQuiz card g).1 ∧
  (∀ m, m ∈ options (makeQuiz card g).1 -> m ≠ meaning card ->
        exists r, r ∈ RADICALS ∧ id r ≠ id card ∧ meaning r = m) ∧
  (makeQuiz card g).2 = advance 61 g.
Proof.
  intros Hin. split_and!.
  - apply makeQuiz_correct.
  - by apply makeQuiz_length.
  - by apply makeQuiz_NoDup.
  - apply makeQuiz_correct_in.
  - intros m Hm Hne. rewrite makeQuiz_options in Hm.
    apply elem_of_cons in Hm as [?|Hm]; [done|]. by eapply distractors_elem.
  - by apply makeQuiz_rng.
Qed.

Lemma makeQuiz_valid_witness :
  correct (makeQuiz (findCard 7) (lcg 3)).1 = meaning (findCard 7) ∧
  length (options (makeQuiz (findCard 7) (lcg 3)).1) = 4 ∧
  NoDup (options (makeQuiz (findCard 7) (lcg 3)).1) ∧
  correct (makeQuiz (findCard 7) (lcg 3)).1 ∈ options (makeQuiz (findCard 7) (lcg 3)).1 ∧
  (∀ m, m ∈ options (makeQuiz (findCard 7) (lcg 3)).1 -> m ≠ meaning (findCard 7) ->
        exists r, r ∈ RADICALS ∧ id r ≠ id (findCard 7) ∧ meaning r = m) ∧
  (makeQuiz (findCard 7) (lcg 3)).2 = advance 61 (lcg 3).
Proof. apply (makeQuiz_valid (findCard 7) (lcg 3)). apply findCard_in_table. Defined.
End Quiz.
