(* ===== verification/Session.v ===== *)
(** * Session: the study session

    The component [StudySession] of [src/app/page.tsx]: its React state
    ([deck], [index], [flipped], [quizChoice], [quizReveal], [seconds]), the
    values derived from it on every render (the current card, its record,
    the memoised quiz), its handlers ([grade], [handleFlip], [submitQuiz],
    [nextQuiz], the option and answer buttons, the keyboard listener, the
    timer tick) and its effects.

    ** How React is modelled

    - [World] is what a handler can read or change: the progress store, the
      session state and the random source.  The clock is the argument [now]
      of whatever reads it.
    - A handler is a function on [World]; after it React renders again,
      which is [render]: the quiz is recomputed when the card changed
      ([memoQuiz], the [useMemo] with dependencies [mode, card.id]), the
      deck is rebuilt when the shuffle setting changed ([deckEffect], the
      effect with dependencies [mode, settings.shuffleLearn]) and the
      keyboard listener is registered again when one of its dependencies
      changed ([registerKeys]).  The dependencies of the previous render
      are part of the session state ([lastCardId], [lastShuffle], the
      fields of [listener]).
    - The keyboard listener calls the [grade] of the render that registered
      it, so it sees the record and the deck length of that render.
      [KeyListener] holds this snapshot and [gradeWith] is [grade] with the
      snapshot as arguments; the buttons call [grade], which takes it from
      the current state.
    - A render reads [progress.settings.shuffleLearn]; when the stored state
      has no settings this throws, which is the [Thrown TypeError] of
      [render] and [startSession].*)

From Stdlib Require Import ZArith Lia.
From stdpp Require Import base tactics option list strings gmap.
From S2P Require Import Prelude Clock Scheduler Catalog Random Store Deck Quiz.

#[local] Open Scope Z_scope.

(** ** State *)

(** The keyboard listener as registered by the effect: its dependencies
    ([k_enabled], [k_flipped], the identifier of [k_card]) and what its
    closure captured ([k_card], [k_pr], [k_deckLength]). *)
Record KeyListener := {
  k_enabled : bool;
  k_flipped : bool;
  k_card : Radical;
  k_pr : ProgressItem;
  k_deckLength : nat;
}.

Record Session := {
  mode : string;
  deck : list nat;
  index : nat;
  flipped : bool;
  quizChoice : option string;
  quizReveal : bool;
  seconds : nat;
  quiz : option Quiz.Question;
  lastCardId : option nat;
  lastShuffle : option (option bool);
  listener : KeyListener;
}.

Record World := {
  store : Store;
  session : Session;
  rng : Rng;
}.

(** Field updates. *)
Definition withSession (f : Session -> Session) (w : World) : World :=
  {| store := store w; session := f (session w); rng := rng w |}.

Definition setFlipped (b : bool) (s : Session) : Session :=
  {| mode := mode s; deck := deck s; index := index s; flipped := b;
     quizChoice := quizChoice s; quizReveal := quizReveal s; seconds := seconds s;
     quiz := quiz s; lastCardId := lastCardId s; lastShuffle := lastShuffle s;
     listener := listener s |}.

Definition setQuizChoice (c : option string) (s : Session) : Session :=
  {| mode := mode s; deck := deck s; index := index s; flipped := flipped s;
     quizChoice := c; quizReveal := quizReveal s; seconds := seconds s;
     quiz := quiz s; lastCardId := lastCardId s; lastShuffle := lastShuffle s;
     listener := listener s |}.

Definition setQuizReveal (b : bool) (s : Session) : Session :=
  {| mode := mode s; deck := deck s; index := index s; flipped := flipped s;
     quizChoice := quizChoice s; quizReveal := b; seconds := seconds s;
     quiz := quiz s; lastCardId := lastCardId s; lastShuffle := lastShuffle s;
     listener := listener s |}.

Definition setIndex (f : nat -> nat) (s : Session) : Session :=
  {| mode := mode s; deck := deck s; index := f (index s); flipped := flipped s;
     quizChoice := quizChoice s; quizReveal := quizReveal s; seconds := seconds s;
     quiz := quiz s; lastCardId := lastCardId s; lastShuffle := lastShuffle s;
     listener := listener s |}.

Definition setDeck (d : list nat) (s : Session) : Session :=
  {| mode := mode s; deck := d; index := index s; flipped := flipped s;
     quizChoice := quizChoice s; quizReveal := quizReveal s; seconds := seconds s;
     quiz := quiz s; lastCardId := lastCardId s; lastShuffle := lastShuffle s;
     listener := listener s |}.

Definition setSeconds (f : nat -> nat) (s : Session) : Session :=
  {| mode := mode s; deck := deck s; index := index s; flipped := flipped s;
     quizChoice := quizChoice s; quizReveal := quizReveal s; seconds := f (seconds s);
     quiz := quiz s; lastCardId := lastCardId s; lastShuffle := lastShuffle s;
     listener := listener s |}.

Definition setQuiz (q : option Quiz.Question) (c : option nat) (s : Session) : Session :=
  {| mode := mode s; deck := deck s; index := index s; flipped := flipped s;
     quizChoice := quizChoice s; quizReveal := quizReveal s; seconds := seconds s;
     quiz := q; lastCardId := c; lastShuffle := lastShuffle s;
     listener := listener s |}.

Definition setLastShuffle (sh : option bool) (s : Session) : Session :=
  {| mode := mode s; deck := deck s; index := index s; flipped := flipped s;
     quizChoice := quizChoice s; quizReveal := quizReveal s; seconds := seconds s;
     quiz := quiz s; lastCardId := lastCardId s; lastShuffle := Some sh;
     listener := listener s |}.

Definition setListener (l : KeyListener) (s : Session) : Session :=
  {| mode := mode s; deck := deck s; index := index s; flipped := flipped s;
     quizChoice := quizChoice s; quizReveal := quizReveal s; seconds := seconds s;
     quiz := quiz s; lastCardId := lastCardId s; lastShuffle := lastShuffle s;
     listener := l |}.

(** ** Values derived on every render *)

(** [deck[index] ?? deck[0]] *)
Definition currentId (s : Session) : option nat :=
  match deck s !! index s with
  | Some i => Some i
  | None => deck s !! 0%nat
  end.

(** [RADICALS.find((r) => r.id === id) || RADICALS[0]] *)
Definition currentCard (s : Session) : Radical :=
  match currentId s with
  | Some i => findCard i
  | None => List.hd noCard RADICALS
  end.

(** The object used when the card has no record. *)
Definition defaultRecord `{DateLib} (now : Z) : ProgressItem :=
  {| box := Some 1; learned := None; correct := Some 0; wrong := Some 0;
     lastReviewed := None; due := Some (todayStart now) |}.

(** [progress.byId[card.id] || { box: 1, ... }] *)
Definition currentRecord `{DateLib} (now : Z) (p : ProgressState) (card : Radical) : ProgressItem :=
  default (defaultRecord now) (byId p !! id card).

(** [deck.length || 1] *)
Definition total (s : Session) : nat :=
  match length (deck s) with O => 1%nat | n => n end.

(** The box of the abstract ladder a stored record stands for. *)
Definition boxOf (p : ProgressState) (i : nat) : option Leitner.box :=
  (byId p !! i ≫= box) ≫= Leitner.of_level.

(** ** The grading handler *)

(** The patch [grade(g)] writes for a card whose record is [pr]. *)
Definition gradePatch `{DateLib} (now : Z) (pr : ProgressItem) (g : Z) : ProgressItem :=
  let currentBox := (box pr || 1)%js in
  let nextBox := applyGrade currentBox g in
  let t := todayStart now in
  let due := addDays t (intervalByBox nextBox) in
  {| box := Some nextBox;
     learned := Some (orb (truthy (learned pr)) (3 <=? g));
     lastReviewed := Some now;
     due := Some due;
     correct := Some ((correct pr || 0)%js + (if 3 <=? g then 1 else 0));
     wrong := Some ((wrong pr || 0)%js + (if g <=? 2 then 1 else 0)) |}.

(** [setIndex((i) => (i + 1 < deck.length ? i + 1 : 0))] *)
Definition nextIndex (len : nat) (i : nat) : nat :=
  if decide (i + 1 < len)%nat then (i + 1)%nat else 0%nat.

(** The state changes of [grade] after the patch. *)
Definition afterGrade (len : nat) (s : Session) : Session :=
  setIndex (nextIndex len) (setQuizReveal false (setQuizChoice None (setFlipped false s))).

(** [grade(g)] as a closure over the record, the card and the deck length
    of one render. *)
Definition gradeWith `{DateLib} `{JsonLib} (now : Z) (pr : ProgressItem) (card : Radical)
    (len : nat) (g : Z) (w : World) : World :=
  {| store := setProgress (patchId (id card) (gradePatch now pr g)) (store w);
     session := afterGrade len (session w);
     rng := rng w |}.

(** [grade(g)] of the current render. *)
Definition grade `{DateLib} `{JsonLib} (now : Z) (g : Z) (w : World) : World :=
  let card := currentCard (session w) in
  gradeWith now (currentRecord now (progress (store w)) card) card
    (length (deck (session w))) g w.

(** ** The other handlers *)

(** [handleFlip], the click on the card. *)
Definition handleFlip (s : Session) : Session :=
  if decide (mode s = "quiz"%string) then s else setFlipped (negb (flipped s)) s.

(** The button that shows the answer: [setFlipped(true)]. *)
Definition showAnswer (s : Session) : Session := setFlipped true s.

(** The click on a quiz option: [!quizReveal && setQuizChoice(opt)]. *)
Definition chooseOption (opt : string) (s : Session) : Session :=
  if quizReveal s then s else setQuizChoice (Some opt) s.

Definition submitQuiz (s : Session) : Session :=
  match quiz s, quizChoice s with
  | Some _, Some _ => setQuizReveal true s
  | _, _ => s
  end.

(** [nextQuiz]: reading [quiz.correct] throws when there is no quiz. *)
Definition nextQuiz `{DateLib} `{JsonLib} (now : Z) (w : World) : outcome World :=
  match quiz (session w) with
  | None => Thrown TypeError
  | Some q =>
      let isCorrect := bool_decide (quizChoice (session w) = Some (Quiz.correct q)) in
      Returned (grade now (if isCorrect then 3 else 1) w)
  end.

(** The timer callback: [setSeconds((s) => s + 1)]. *)
Definition tick (s : Session) : Session := setSeconds S s.

(** The key of a digit shortcut. *)
Definition gradeOfKey (key : string) : option Z :=
  if decide (key = "1"%string) then Some 1
  else if decide (key = "2"%string) then Some 2
  else if decide (key = "3"%string) then Some 3
  else if decide (key = "4"%string) then Some 4
  else None.

(** The keyboard listener [onKey], as registered: the world after the key
    and whether [onExit] was called. *)
Definition onKey `{DateLib} `{JsonLib} (now : Z) (key : string) (w : World) : World * bool :=
  let l := listener (session w) in
  if negb (k_enabled l) then (w, false)
  else if decide (key = "Escape"%string) then (w, true)
  else if decide (key = " "%string) then
    (if decide (mode (session w) = "quiz"%string) then w else withSession (setFlipped true) w,
     false)
  else if decide (mode (session w) = "quiz"%string) then (w, false)
  else if negb (k_flipped l) then (w, false)
  else
    match gradeOfKey key with
    | Some g => (gradeWith now (k_pr l) (k_card l) (k_deckLength l) g w, false)
    | None => (w, false)
    end.

(** ** Rendering *)

(** The [useMemo] of the quiz, dependencies [mode, card.id]. *)
Definition memoQuiz (w : World) : World :=
  let s := session w in
  let card := currentCard s in
  if decide (mode s = "quiz"%string) then
    if decide (lastCardId s = Some (id card)) then w
    else
      let '(q, g') := Quiz.makeQuiz card (rng w) in
      {| store := store w; session := setQuiz (Some q) (Some (id card)) s; rng := g' |}
  else withSession (setQuiz None (Some (id card))) w.

(** The effect with dependencies [mode, settings.shuffleLearn]: a new
    deck and the session back at its first card. *)
Definition deckEffect `{DateLib} (now : Z) (sh : option bool) (w : World) : World :=
  let s := session w in
  let '(d, g') := buildDeck (mode s) (progress (store w)) sh now (rng w) in
  {| store := store w;
     session :=
       setLastShuffle sh
         (setQuizReveal false (setQuizChoice None (setFlipped false
            (setIndex (λ _, 0%nat) (setDeck d s)))));
     rng := g' |}.

(** The effect that registers the keyboard listener, dependencies
    [settings.keyboardShortcuts, flipped, mode, card.id]. *)
Definition registerKeys `{DateLib} (now : Z) (kb : option bool) (w : World) : World :=
  let s := session w in
  let l := listener s in
  let card := currentCard s in
  if decide (k_enabled l = truthy kb ∧ k_flipped l = flipped s ∧ id (k_card l) = id card)
  then w
  else withSession (setListener
         {| k_enabled := truthy kb; k_flipped := flipped s; k_card := card;
            k_pr := currentRecord now (progress (store w)) card;
            k_deckLength := length (deck s) |}) w.

(** One render with its effects, and the render the deck effect causes. *)
Definition render `{DateLib} (now : Z) (w : World) : outcome World :=
  match settings (progress (store w)) with
  | None => Thrown TypeError
  | Some st =>
      let w1 := memoQuiz w in
      let w2 :=
        if decide (lastShuffle (session w1) = Some (shuffleLearn st)) then w1
        else memoQuiz (deckEffect now (shuffleLearn st) w1) in
      Returned (registerKeys now (keyboardShortcuts st) w2)
  end.

(** The state of the first render: the [useState] initialisers. *)
Definition initSession `{DateLib} (now : Z) (m : string) (st : Store) (g : Rng) : outcome World :=
  match settings (progress st) with
  | None => Thrown TypeError
  | Some cfg =>
      let '(d, g') := buildDeck m (progress st) (shuffleLearn cfg) now g in
      Returned
        {| store := st;
           session :=
             {| mode := m; deck := d; index := 0; flipped := false; quizChoice := None;
                quizReveal := false; seconds := 0; quiz := None; lastCardId := None;
                lastShuffle := None;
                listener :=
                  {| k_enabled := false; k_flipped := false; k_card := noCard;
                     k_pr := emptyItem; k_deckLength := 0 |} |};
           rng := g' |}
  end.

(** Mounting the component: the first render and its effects. *)
Definition startSession `{DateLib} (now : Z) (m : string) (st : Store) (g : Rng) : outcome World :=
  (try! w := initSession now m st g in render now w)%js.

(** ** Lemmas: derived values *)

Lemma currentCard_in_table s : currentCard s ∈ RADICALS.
Proof.
  unfold currentCard. destruct (currentId s); [auto with radicals|].
  change (List.hd noCard RADICALS) with (findCard 0). auto with radicals.
Qed.

Lemma currentCard_id_range s : (1 <= id (currentCard s) <= 60)%nat.
Proof. apply card_id_range, currentCard_in_table. Qed.

Lemma currentId_in_range s i :
  deck s !! index s = Some i -> currentId s = Some i.
Proof. unfold currentId. by intros ->. Qed.

(** With the index inside a deck of catalog identifiers, the current card
    is the card of the identifier at the index. *)
Lemma currentCard_lookup s i :
  deck s !! index s = Some i -> (1 <= i <= 60)%nat -> id (currentCard s) = i.
Proof.
  intros Hi Hr. unfold currentCard. rewrite (currentId_in_range s i Hi).
  by apply findCard_id.
Qed.

Lemma nextIndex_lt len i : (0 < len)%nat -> (nextIndex len i < len)%nat.
Proof. intros. unfold nextIndex. case_decide; lia. Qed.

Lemma nextIndex_mod len i :
  (i < len)%nat -> nextIndex len i = ((i + 1) mod len)%nat.
Proof.
  intros Hi. unfold nextIndex. case_decide as Hlt.
  - by rewrite Nat.mod_small.
  - assert (i + 1 = len)%nat as -> by lia. by rewrite Nat.Div0.mod_same.
Qed.

(** Outside quiz mode the memo holds no quiz and draws nothing. *)
Lemma memoQuiz_flash w :
  mode (session w) ≠ "quiz"%string ->
  memoQuiz w = withSession (setQuiz None (Some (id (currentCard (session w))))) w.
Proof. intros Hm. unfold memoQuiz. by rewrite decide_False. Qed.

(** ** Lemmas: the patch of a grade *)

Section grade.
Context `{DateLib} `{JsonLib}.
Implicit Types (w : World) (s : Session) (p : ProgressState) (pr : ProgressItem) (g now : Z).

Lemma gradePatch_full base now pr g :
  spreadItem base (gradePatch now pr g) = gradePatch now pr g.
Proof. apply spreadItem_full; by eexists. Qed.

(** The patch of a grade is a well-formed record as soon as the record it
    starts from reads as a box in 1..5 and non-negative counters. *)
Lemma gradePatch_wf_item now pr g :
  1 <= (box pr || 1)%js <= 5 -> 0 <= (correct pr || 0)%js -> 0 <= (wrong pr || 0)%js ->
  wf_item (gradePatch now pr g) = true.
Proof.
  intros Hb Hc Hw. apply wf_item_iff. do 5 eexists. split_and!; try done.
  all: try by apply applyGrade_bounds.
  all: z_solve.
Qed.

Lemma wf_item_reads it :
  wf_item it = true ->
  1 <= (box it || 1)%js <= 5 ∧ 0 <= (correct it || 0)%js ∧ 0 <= (wrong it || 0)%js.
Proof.
  intros (b & l & c & w & d & -> & _ & -> & -> & _ & Hb & Hc & Hw)%wf_item_iff.
  rewrite !num_or_counter, num_or_Some by lia. done.
Qed.

Lemma defaultRecord_reads now :
  1 <= (box (defaultRecord now) || 1)%js <= 5 ∧
  0 <= (correct (defaultRecord now) || 0)%js ∧ 0 <= (wrong (defaultRecord now) || 0)%js.
Proof. done. Qed.

Lemma currentRecord_wf now p card :
  wf_progress p = true -> card ∈ RADICALS ->
  byId p !! id card = Some (currentRecord now p card) ∧
  wf_item (currentRecord now p card) = true.
Proof.
  intros Hwf Hc. destruct (wf_progress_lookup p (id card) Hwf) as (it & Hit & Hwfi).
  { by apply card_id_range. }
  unfold currentRecord. by rewrite Hit.
Qed.

Lemma gradeWith_progress now pr card len g w :
  progress (store (gradeWith now pr card len g w)) =
  patchId (id card) (gradePatch now pr g) (progress (store w)).
Proof. done. Qed.

Lemma gradeWith_session now pr card len g w :
  session (gradeWith now pr card len g w) = afterGrade len (session w).
Proof. done. Qed.

Lemma gradeWith_lookup now pr card len g w :
  byId (progress (store (gradeWith now pr card len g w))) !! id card =
  Some (gradePatch now pr g).
Proof. by rewrite gradeWith_progress, patchId_lookup_eq, gradePatch_full. Qed.

Lemma gradeWith_lookup_ne now pr card len g w j :
  id card ≠ j ->
  byId (progress (store (gradeWith now pr card len g w))) !! j =
  byId (progress (store w)) !! j.
Proof. intros. by rewrite gradeWith_progress, patchId_lookup_ne. Qed.

Lemma gradeWith_wf_progress now pr card len g w :
  wf_progress (progress (store w)) = true ->
  wf_item (gradePatch now pr g) = true ->
  wf_progress (progress (store (gradeWith now pr card len g w))) = true.
Proof.
  intros Hwf Hit. rewrite gradeWith_progress. apply patchId_wf_progress; [done|].
  by rewrite gradePatch_full.
Qed.

Lemma grade_wf_progress now g w :
  wf_progress (progress (store w)) = true ->
  wf_progress (progress (store (grade now g w))) = true.
Proof.
  intros Hwf. apply gradeWith_wf_progress; [done|].
  destruct (currentRecord_wf now _ _ Hwf (currentCard_in_table (session w))) as [_ Hit].
  destruct (wf_item_reads _ Hit) as (? & ? & ?). by apply gradePatch_wf_item.
Qed.

Lemma afterGrade_fields len s :
  flipped (afterGrade len s) = false ∧ quizChoice (afterGrade len s) = None ∧
  quizReveal (afterGrade len s) = false ∧ deck (afterGrade len s) = deck s ∧
  index (afterGrade len s) = nextIndex len (index s) ∧ mode (afterGrade len s) = mode s ∧
  seconds (afterGrade len s) = seconds s.
Proof. done. Qed.
End grade.

(** ** Lemmas: the index walks around the deck *)

Lemma iter_nextIndex len n i :
  (i < len)%nat -> Nat.iter n (nextIndex len) i = ((i + n) mod len)%nat.
Proof.
  intros Hi. induction n as [|n IH]; simpl.
  - by rewrite Nat.add_0_r, Nat.mod_small.
  - rewrite IH, nextIndex_mod by (apply Nat.mod_upper_bound; lia).
    rewrite Nat.Div0.add_mod_idemp_l. f_equal. lia.
Qed.

Lemma index_iter_afterGrade len n s :
  index (Nat.iter n (afterGrade len) s) = Nat.iter n (nextIndex len) (index s).
Proof. induction n as [|n IH]; simpl; [done|]. by rewrite <- IH. Qed.

Lemma deck_iter_afterGrade len n s : deck (Nat.iter n (afterGrade len) s) = deck s.
Proof. induction n as [|n IH]; simpl; [done|]. by rewrite <- IH. Qed.

(** ** Properties *)

Section properties.
Context `{DateLib} `{JsonLib}.
Implicit Types (w : World) (s : Session) (p : ProgressState) (g now : Z).

(** C14: for every integer grade exactly one of the two counters of the
    current card grows, by one, and a card that was learned stays
    learned. *)
Theorem grade_counts_once (now g : Z) (w : World) (old new : ProgressItem) :
  wf_progress (progress (store w)) = true ->
  byId (progress (store w)) !! id (currentCard (session w)) = Some old ->
  byId (progress (store (grade now g w))) !! id (currentCard (session w)) = Some new ->
  (default 0 (correct new) + default 0 (wrong new) =
     default 0 (correct old) + default 0 (wrong old) + 1) ∧
  default 0 (correct old) <= default 0 (correct new) ∧
  default 0 (wrong old) <= default 0 (wrong new) ∧
  (learned old = Some true -> learned new = Some true).
Proof.
  intros Hwf Hold Hnew.
  destruct (currentRecord_wf now _ _ Hwf (currentCard_in_table (session w))) as [Hcur Hit].
  rewrite Hold in Hcur. injection Hcur as Hcur.
  unfold grade in Hnew. rewrite gradeWith_lookup, <- Hcur in Hnew. injection Hnew as <-.
  apply wf_item_iff in Hit as (b & l & c & x & d & Hb & Hl & Hc & Hx & Hd & Hr & _).
  rewrite <- Hcur in Hb, Hl, Hc, Hx. unfold gradePatch.
  rewrite Hl, Hc, Hx. autorewrite with js. simpl. split_and!.
  - destruct (Z.leb_spec 3 g), (Z.leb_spec g 2); lia.
  - destruct (3 <=? g); lia.
  - destruct (g <=? 2); lia.
  - by intros [= ->].
Qed.

(** C1: what [grade(g)] writes.  On a well-formed state the record of the
    current card becomes: box [applyGrade] of the old box, due date the
    start of today plus the interval of the new box, last review now,
    learned if it was learned or the grade is at least 3, and the counters
    with [correct] one higher for a grade of at least 3 and [wrong] one
    higher for a grade of at most 2. *)
Theorem grade_record (now g : Z) (w : World) :
  wf_progress (progress (store w)) = true ->
  exists b l c x d r,
    byId (progress (store w)) !! id (currentCard (session w)) =
      Some {| box := Some b; learned := Some l; correct := Some c; wrong := Some x;
              lastReviewed := r; due := Some d |} ∧
    byId (progress (store (grade now g w))) !! id (currentCard (session w)) =
      Some {| box := Some (applyGrade b g);
              learned := Some (orb l (3 <=? g));
              correct := Some (c + (if 3 <=? g then 1 else 0));
              wrong := Some (x + (if g <=? 2 then 1 else 0));
              lastReviewed := Some now;
              due := Some (addDays (todayStart now) (intervalByBox (applyGrade b g))) |}.
Proof.
  intros Hwf. set (card := currentCard (session w)).
  destruct (currentRecord_wf now _ card Hwf (currentCard_in_table _)) as [Hold Hit].
  apply wf_item_iff in Hit as (b & l & c & x & d & Hb & Hl & Hc & Hx & Hd & Hr & _).
  exists b, l, c, x, d, (lastReviewed (currentRecord now (progress (store w)) card)).
  split.
  - rewrite Hold. f_equal. destruct (currentRecord _ _ _); simpl in *. congruence.
  - unfold grade. fold card. rewrite gradeWith_lookup. unfold gradePatch.
    rewrite Hb, Hl, Hc, Hx, !num_or_counter, num_or_Some by lia. done.
Qed.

(** [grade] touches nothing else: the records of all other cards, the
    settings, the deck, the mode and the timer are unchanged; the card is
    turned face down and the quiz selection is cleared. *)
Theorem grade_frame (now g : Z) (w : World) (j : nat) :
  j ≠ id (currentCard (session w)) ->
  byId (progress (store (grade now g w))) !! j = byId (progress (store w)) !! j ∧
  settings (progress (store (grade now g w))) = settings (progress (store w)) ∧
  deck (session (grade now g w)) = deck (session w) ∧
  mode (session (grade now g w)) = mode (session w) ∧
  seconds (session (grade now g w)) = seconds (session w) ∧
  flipped (session (grade now g w)) = false ∧
  quizChoice (session (grade now g w)) = None ∧
  quizReveal (session (grade now g w)) = false.
Proof. intros Hj. split_and!; try done. by apply gradeWith_lookup_ne. Qed.

(** C4: [grade] keeps the stored progress well formed, for every integer
    passed as the grade. *)
Theorem grade_preserves_wf (now g : Z) (w : World) :
  wf_progress (progress (store w)) = true ->
  wf_progress (progress (store (grade now g w))) = true.
Proof. apply grade_wf_progress. Qed.

(** The session never ends: after a grade the index is the next
    position of the deck, back at 0 after the last card, so it stays
    inside the deck and after as many grades as the deck has cards it is
    where it started. *)
Theorem grade_wraps_around (now g : Z) (w : World) :
  (index (session w) < length (deck (session w)))%nat ->
  index (session (grade now g w)) =
    ((index (session w) + 1) mod length (deck (session w)))%nat ∧
  (index (session (grade now g w)) < length (deck (session (grade now g w))))%nat ∧
  index (Nat.iter (length (deck (session w)))
           (afterGrade (length (deck (session w)))) (session w)) = index (session w).
Proof.
  intros Hi. unfold grade. rewrite gradeWith_session.
  destruct (afterGrade_fields (length (deck (session w))) (session w))
    as (_ & _ & _ & -> & -> & _).
  split_and!.
  - by apply nextIndex_mod.
  - apply nextIndex_lt. lia.
  - rewrite index_iter_afterGrade, iter_nextIndex by done.
    rewrite <- (Nat.mul_1_l (length _)) at 1. rewrite Nat.Div0.mod_add.
    by apply Nat.mod_small.
Qed.
(** A session starts exactly when the stored state has settings: the
    first render reads [settings.shuffleLearn] and throws a [TypeError]
    when [settings] is missing, whatever [byId] holds. *)
Theorem startSession_needs_settings (now : Z) (m : string) (st : Store) (rg : Rng) :
  returns (startSession now m st rg) = true <-> is_Some (settings (progress st)).
Proof.
  unfold startSession, initSession. destruct (settings (progress st)) as [cfg|] eqn:Hs.
  - split; [by eauto|]. intros _. destruct (buildDeck _ _ _ _ _) as [d rg'].
    cbn [outcome_bind]. unfold render. cbn [memoQuiz store]. by rewrite Hs.
  - split; [done | by intros []].
Qed.
(** The deck a session shows is the second one built.  Mounting the
    component builds a deck in the initialiser of the state and again in
    the effect that runs after the first render, which replaces the first:
    outside quiz mode the session starts on the deck built from the random
    source the first build left, and a shuffled "learn" session has drawn
    118 random numbers, not 59. *)
Theorem startSession_builds_twice (now : Z) (m : string) (st : Store) (g : Rng)
    (cfg : Settings) :
  settings (progress st) = Some cfg -> m ≠ "quiz"%string ->
  exists w,
    startSession now m st g = Returned w ∧
    deck (session w) =
      (buildDeck m (progress st) (shuffleLearn cfg) now
         (buildDeck m (progress st) (shuffleLearn cfg) now g).2).1 ∧
    rng w =
      (buildDeck m (progress st) (shuffleLearn cfg) now
         (buildDeck m (progress st) (shuffleLearn cfg) now g).2).2 ∧
    (m = "learn"%string -> truthy (shuffleLearn cfg) = true -> rng w = advance 118 g).
Proof.
  intros Hs Hm. unfold startSession, initSession. rewrite Hs.
  destruct (buildDeck m (progress st) (shuffleLearn cfg) now g) as [d1 g1] eqn:Hb1.
  cbn [outcome_bind fst snd]. unfold render. cbn [store progress]. rewrite Hs.
  rewrite memoQuiz_flash by done. cbn [withSession session setQuiz lastShuffle].
  destruct (decide (None = Some (shuffleLearn cfg))) as [?|_]; [done|].
  unfold deckEffect. cbn [withSession session store rng mode setQuiz progress].
  destruct (buildDeck m (progress st) (shuffleLearn cfg) now g1) as [d2 g2] eqn:Hb2.
  rewrite memoQuiz_flash by (cbn; done).
  eexists. split; [done|]. unfold registerKeys. case_decide; cbn; split_and!; try done.
  all: intros -> Hsh; rewrite buildDeck_learn, Hsh in Hb1, Hb2.
  all: apply (f_equal snd) in Hb1, Hb2; rewrite shuffle_rng, idsAll_length in Hb1, Hb2.
  all: cbn [snd] in Hb1, Hb2; subst g1 g2; by rewrite advance_advance.
Qed.

(** C5: the session implements the ladder.  Read through [boxOf], the
    stored progress is an assignment of ladder boxes to radicals.  On a
    well-formed state a grade 1..4 moves the box of the current card as
    [Leitner.next] says, leaves the box of every other card, and sets the
    due date [Leitner.days] of the new box after the start of today. *)
Theorem grade_refines_ladder (now g : Z) (w : World) (ag : Leitner.grade) :
  wf_progress (progress (store w)) = true ->
  Leitner.of_code g = Some ag ->
  exists b,
    boxOf (progress (store w)) (id (currentCard (session w))) = Some b ∧
    boxOf (progress (store (grade now g w))) (id (currentCard (session w))) =
      Some (Leitner.next b ag) ∧
    (byId (progress (store (grade now g w))) !! id (currentCard (session w)) ≫= due) =
      Some (addDays (todayStart now) (Leitner.days (Leitner.next b ag))) ∧
    ∀ j, j ≠ id (currentCard (session w)) ->
         boxOf (progress (store (grade now g w))) j = boxOf (progress (store w)) j.
Proof.
  intros Hwf Hg. set (card := currentCard (session w)).
  destruct (currentRecord_wf now _ card Hwf (currentCard_in_table _)) as [Hold Hit].
  apply wf_item_iff in Hit as (z & l & c & x & d & Hb & _ & _ & _ & _ & Hz & _).
  destruct (Leitner.of_level_total z Hz) as (b & Hzb & _).
  destruct (applyGrade_of_level z g b ag Hzb Hg) as [Hnext Hdays].
  exists b. unfold boxOf, grade. fold card.
  rewrite gradeWith_lookup, Hold. cbn [mbind option_bind]. unfold gradePatch.
  cbn [box due]. rewrite Hb, num_or_Some by lia. cbn [mbind option_bind].
  split_and!; [done | done | by rewrite Hdays |].
  intros j Hj. by rewrite gradeWith_lookup_ne.
Qed.

End properties.

(** ** The properties at concrete inputs *)

(** A session in mode "learn" on the last card of a three-card deck, over
    the fresh state of the epoch in UTC and a storage that refuses access. *)
Definition sample_world : World :=
  {| store :=
       {| progress := emptyProgress (H := fixed_zone 0) 0;
          storage := {| items := ∅; denied := true; capacity := 0 |} |};
     session :=
       {| mode := "learn"; deck := [3; 1; 2]%nat; index := 2; flipped := true;
          quizChoice := None; quizReveal := false; seconds := 0; quiz := None;
          lastCardId := Some 2%nat; lastShuffle := Some (Some false);
          listener :=
            {| k_enabled := true; k_flipped := true; k_card := findCard 2;
               k_pr := freshItem 0; k_deckLength := 3 |} |};
     rng := lcg 1 |}.

Lemma sample_world_wf : wf_progress (progress (store sample_world)) = true.
Proof. apply emptyProgress_wf_progress. Qed.

Lemma sample_world_card : id (currentCard (session sample_world)) = 2%nat.
Proof. by vm_compute. Qed.

Lemma sample_world_record :
  byId (progress (store sample_world)) !! id (currentCard (session sample_world)) =
  Some (freshItem 0).
Proof. by vm_compute. Qed.

Lemma grade_record_witness :
  exists b l c x d r,
    byId (progress (store sample_world)) !! id (currentCard (session sample_world)) =
      Some {| box := Some b; learned := Some l; correct := Some c; wrong := Some x;
              lastReviewed := r; due := Some d |} ∧
    byId (progress (store (grade (H := fixed_zone 0) 0 3 sample_world)))
      !! id (currentCard (session sample_world)) =
      Some {| box := Some (applyGrade b 3);
              learned := Some (orb l (3 <=? 3));
              correct := Some (c + (if 3 <=? 3 then 1 else 0));
              wrong := Some (x + (if 3 <=? 2 then 1 else 0));
              lastReviewed := Some 0;
              due := Some (addDays (H := fixed_zone 0) (todayStart (H := fixed_zone 0) 0)
                             (intervalByBox (applyGrade b 3))) |}.
Proof. apply (grade_record (H := fixed_zone 0) 0 3 sample_world). apply sample_world_wf. Defined.

Lemma grade_counts_once_witness :
  let old := freshItem 0 in
  let new := gradePatch (H := fixed_zone 0) 0 (freshItem 0) 3 in
  (default 0 (correct new) + default 0 (wrong new) =
     default 0 (correct old) + default 0 (wrong old) + 1) ∧
  default 0 (correct old) <= default 0 (correct new) ∧
  default 0 (wrong old) <= default 0 (wrong new) ∧
  (learned old = Some true -> learned new = Some true).
Proof.
  intros old new.
  apply (grade_counts_once (H := fixed_zone 0) 0 3 sample_world old new).
  - apply sample_world_wf.
  - apply sample_world_record.
  - unfold grade. rewrite gradeWith_lookup. f_equal.
Defined.

Lemma grade_frame_witness :
  byId (progress (store (grade (H := fixed_zone 0) 0 3 sample_world))) !! 1%nat =
    byId (progress (store sample_world)) !! 1%nat ∧
  settings (progress (store (grade (H := fixed_zone 0) 0 3 sample_world))) =
    settings (progress (store sample_world)) ∧
  deck (session (grade (H := fixed_zone 0) 0 3 sample_world)) = deck (session sample_world) ∧
  mode (session (grade (H := fixed_zone 0) 0 3 sample_world)) = mode (session sample_world) ∧
  seconds (session (grade (H := fixed_zone 0) 0 3 sample_world)) =
    seconds (session sample_world) ∧
  flipped (session (grade (H := fixed_zone 0) 0 3 sample_world)) = false ∧
  quizChoice (session (grade (H := fixed_zone 0) 0 3 sample_world)) = None ∧
  quizReveal (session (grade (H := fixed_zone 0) 0 3 sample_world)) = false.
Proof.
  apply (grade_frame (H := fixed_zone 0) 0 3 sample_world 1). by rewrite sample_world_card.
Defined.

Lemma grade_preserves_wf_witness :
  wf_progress (progress (store (grade (H := fixed_zone 0) 0 3 sample_world))) = true.
Proof. apply (grade_preserves_wf (H := fixed_zone 0) 0 3 sample_world). apply sample_world_wf. Defined.

Lemma grade_wraps_around_witness :
  index (session (grade (H := fixed_zone 0) 0 3 sample_world)) = ((2 + 1) mod 3)%nat ∧
  (index (session (grade (H := fixed_zone 0) 0 3 sample_world)) <
     length (deck (session (grade (H := fixed_zone 0) 0 3 sample_world))))%nat ∧
  index (Nat.iter 3 (afterGrade 3) (session sample_world)) = 2%nat.
Proof. apply (grade_wraps_around (H := fixed_zone 0) 0 3 sample_world). simpl. lia. Defined.

Lemma startSession_builds_twice_witness :
  exists w,
    startSession (H := fixed_zone 0) 0 "learn" (store sample_world) (lcg 1) = Returned w ∧
    deck (session w) =
      (buildDeck (H := fixed_zone 0) "learn" (progress (store sample_world))
         (shuffleLearn defaultSettings) 0
         (buildDeck (H := fixed_zone 0) "learn" (progress (store sample_world))
            (shuffleLearn defaultSettings) 0 (lcg 1)).2).1 ∧
    rng w =
      (buildDeck (H := fixed_zone 0) "learn" (progress (store sample_world))
         (shuffleLearn defaultSettings) 0
         (buildDeck (H := fixed_zone 0) "learn" (progress (store sample_world))
            (shuffleLearn defaultSettings) 0 (lcg 1)).2).2 ∧
    ("learn"%string = "learn"%string -> truthy (shuffleLearn defaultSettings) = true ->
     rng w = advance 118 (lcg 1)).
Proof.
  by apply (startSession_builds_twice (H := fixed_zone 0) 0 "learn" (store sample_world)
              (lcg 1) defaultSettings).
Defined.

Lemma grade_refines_ladder_witness :
  exists b,
    boxOf (progress (store sample_world)) (id (currentCard (session sample_world))) = Some b ∧
    boxOf (progress (store (grade (H := fixed_zone 0) 0 4 sample_world)))
      (id (currentCard (session sample_world))) = Some (Leitner.next b Leitner.Easy) ∧
    (byId (progress (store (grade (H := fixed_zone 0) 0 4 sample_world)))
       !! id (currentCard (session sample_world)) ≫= due) =
      Some (addDays (H := fixed_zone 0) (todayStart (H := fixed_zone 0) 0)
              (Leitner.days (Leitner.next b Leitner.Easy))) ∧
    ∀ j, j ≠ id (currentCard (session sample_world)) ->
         boxOf (progress (store (grade (H := fixed_zone 0) 0 4 sample_world))) j =
         boxOf (progress (store sample_world)) j.
Proof.
  apply (grade_refines_ladder (H := fixed_zone 0) 0 4 sample_world Leitner.Easy);
    [apply sample_world_wf | done].
Defined.

(** ** Hints for the components that build on this one *)

#[export] Hint Resolve currentCard_in_table currentCard_id_range grade_wf_progress : radicals.
