(* ===== verification/Machine.v ===== *)
(** * Machine: the session as a state machine

    The events a mounted [StudySession] can receive -- the clicks its markup
    offers, key presses, timer ticks, and the two actions of the settings
    dialog, which stays reachable during a session -- with the condition
    under which the markup offers each ([offered]), the handler it runs
    ([handle]) and the render that follows ([step]).

    [Inv] is the invariant of the machine.  It holds after [startSession]
    and after every step, for every clock reading and every state of the
    random source: the stored progress is well formed, the deck is a
    non-empty duplicate-free list of catalog identifiers with the index
    inside it, the quiz of mode "quiz" belongs to the current card, a
    revealed quiz has a chosen option out of the four, and the keyboard
    listener was registered for the current card and deck. *)

From Stdlib Require Import ZArith Lia.
From stdpp Require Import base tactics option list strings gmap relations.
From S2P Require Import Prelude Clock Scheduler Catalog Random Store Deck Quiz Session.

#[local] Open Scope Z_scope.

(** ** Events *)

Inductive SettingField : Set :=
  | ShowExamples | ShowMnemonic | ToneMarks | ShuffleLearn | KeyboardShortcuts.

Inductive Event : Type :=
  | ClickCard
  | ClickShow
  | ClickGrade (g : Z)
  | ClickOption (opt : string)
  | ClickSubmit
  | ClickNext
  | KeyDown (key : string)
  | Tick
  | ClickBack
  | SetSetting (f : SettingField) (v : bool)
  | ClickReset.

(** The patch a switch of the settings dialog passes to [patchSettings]. *)
Definition settingPatch (f : SettingField) (v : bool) : Settings :=
  match f with
  | ShowExamples =>
      {| showExamples := Some v; showMnemonic := None; toneMarks := None;
         shuffleLearn := None; keyboardShortcuts := None |}
  | ShowMnemonic =>
      {| showExamples := None; showMnemonic := Some v; toneMarks := None;
         shuffleLearn := None; keyboardShortcuts := None |}
  | ToneMarks =>
      {| showExamples := None; showMnemonic := None; toneMarks := Some v;
         shuffleLearn := None; keyboardShortcuts := None |}
  | ShuffleLearn =>
      {| showExamples := None; showMnemonic := None; toneMarks := None;
         shuffleLearn := Some v; keyboardShortcuts := None |}
  | KeyboardShortcuts =>
      {| showExamples := None; showMnemonic := None; toneMarks := None;
         shuffleLearn := None; keyboardShortcuts := Some v |}
  end.

Definition isQuiz (s : Session) : bool := bool_decide (mode s = "quiz"%string).

(** Whether the markup of the current render offers the event. *)
Definition offered (e : Event) (s : Session) : bool :=
  match e with
  | ClickCard => negb (isQuiz s)
  | ClickShow => negb (isQuiz s) && negb (flipped s)
  | ClickGrade g => negb (isQuiz s) && flipped s && bool_decide (1 <= g <= 4)
  | ClickOption opt =>
      isQuiz s && bool_decide (opt ∈ from_option Quiz.options [] (quiz s))
  | ClickSubmit => isQuiz s && negb (quizReveal s) && bool_decide (is_Some (quizChoice s))
  | ClickNext => isQuiz s && quizReveal s
  | KeyDown _ | Tick | ClickBack | SetSetting _ _ | ClickReset => true
  end.

Definition withStore (f : Store -> Store) (w : World) : World :=
  {| store := f (store w); session := session w; rng := rng w |}.

(** The handler of an event: the world it leaves and whether the session
    is to be left. *)
Definition handle `{DateLib} `{JsonLib} (now : Z) (e : Event) (w : World) : outcome (World * bool) :=
  match e with
  | ClickCard => Returned (withSession handleFlip w, false)
  | ClickShow => Returned (withSession showAnswer w, false)
  | ClickGrade g => Returned (grade now g w, false)
  | ClickOption opt => Returned (withSession (chooseOption opt) w, false)
  | ClickSubmit => Returned (withSession submitQuiz w, false)
  | ClickNext => (try! w' := nextQuiz now w in Returned (w', false))%js
  | KeyDown key => Returned (onKey now key w)
  | Tick => Returned (withSession tick w, false)
  | ClickBack => Returned (w, true)
  | SetSetting f v =>
      Returned (withStore (setProgress (patchSettings (settingPatch f v))) w, false)
  | ClickReset => Returned (withStore (setProgress (resetAll now)) w, false)
  end.

(** One event: the handler, then the render unless the session is left. *)
Definition step `{DateLib} `{JsonLib} (now : Z) (e : Event) (w : World) : outcome (World * bool) :=
  (try! r := handle now e w in
   if r.2 then Returned r
   else try! w' := render now r.1 in Returned (w', false))%js.

(** The transition relation: some offered event, at some time, leads from
    [w] to [w'] without leaving the session. *)
Inductive Step `{DateLib} `{JsonLib} : World -> World -> Prop :=
  | Step_event now e w w' :
      offered e (session w) = true ->
      step now e w = Returned (w', false) ->
      Step w w'.

(** ** The invariant *)

(** The quiz [q] is a quiz for [card]. *)
Definition quiz_for (card : Radical) (q : Quiz.Question) : Prop :=
  Quiz.correct q = meaning card ∧ length (Quiz.options q) = 4%nat ∧
  NoDup (Quiz.options q) ∧ Quiz.correct q ∈ Quiz.options q.

Definition deck_ok (s : Session) : Prop :=
  deck s ≠ [] ∧ NoDup (deck s) ∧ deck s ⊆ idsAll ∧ (index s < length (deck s))%nat.

Definition flags_ok (s : Session) : Prop :=
  (mode s ≠ "quiz"%string -> quizChoice s = None ∧ quizReveal s = false) ∧
  (mode s = "quiz"%string -> flipped s = false) ∧
  (quizReveal s = true -> is_Some (quizChoice s)).

(** The record reads as a box in 1..5 and two non-negative counters. *)
Definition reads_ok (pr : ProgressItem) : Prop :=
  1 <= (box pr || 1)%js <= 5 ∧ 0 <= (correct pr || 0)%js ∧ 0 <= (wrong pr || 0)%js.

(** What holds between a handler and the render after it. *)
Record Handled (w : World) : Prop := {
  h_wf : wf_progress (progress (store w)) = true;
  h_deck : deck_ok (session w);
  h_flags : flags_ok (session w);
  h_memo :
    lastCardId (session w) = Some (id (currentCard (session w))) ->
    if decide (mode (session w) = "quiz"%string)
    then exists q, quiz (session w) = Some q ∧ quiz_for (currentCard (session w)) q
    else quiz (session w) = None;
  h_choice : ∀ c,
    quizChoice (session w) = Some c ->
    lastCardId (session w) = Some (id (currentCard (session w))) ∧
    exists q, quiz (session w) = Some q ∧ c ∈ Quiz.options q;
  h_key_card :
    k_card (listener (session w)) ∈ RADICALS ∨ id (k_card (listener (session w))) = 0%nat;
  h_key_deck :
    k_flipped (listener (session w)) = true -> flipped (session w) = true ->
    k_deckLength (listener (session w)) = length (deck (session w));
  h_key_pr : reads_ok (k_pr (listener (session w)));
}.

(** What holds after every render. *)
Record Inv (w : World) : Prop := {
  inv_handled : Handled w;
  inv_memo : lastCardId (session w) = Some (id (currentCard (session w)));
  inv_shuffle :
    lastShuffle (session w) = Some (settings (progress (store w)) ≫= shuffleLearn);
  inv_key_enabled :
    k_enabled (listener (session w)) =
    truthy (settings (progress (store w)) ≫= keyboardShortcuts);
  inv_key_flipped : k_flipped (listener (session w)) = flipped (session w);
  inv_key_card : k_card (listener (session w)) = currentCard (session w);
}.

(** ** Lemmas: the current card *)

Lemma currentCard_ext s s' :
  deck s = deck s' -> index s = index s' -> currentCard s = currentCard s'.
Proof. intros Hd Hi. unfold currentCard, currentId. by rewrite Hd, Hi. Qed.

(** Two cards of the table with the same identifier are the same card. *)
Lemma card_eq_of_id r1 r2 : r1 ∈ RADICALS -> r2 ∈ RADICALS -> id r1 = id r2 -> r1 = r2.
Proof. intros H1 H2 Hid. by rewrite <- (findCard_of_id r1), <- (findCard_of_id r2), Hid. Qed.

Lemma currentCard_eq_of_id s s' :
  id (currentCard s) = id (currentCard s') -> currentCard s = currentCard s'.
Proof. apply card_eq_of_id; apply currentCard_in_table. Qed.

Lemma quiz_for_makeQuiz card g : card ∈ RADICALS -> quiz_for card (Quiz.makeQuiz card g).1.
Proof.
  intros Hc. split_and!.
  - apply Quiz.makeQuiz_correct.
  - by apply Quiz.makeQuiz_length.
  - by apply Quiz.makeQuiz_NoDup.
  - apply Quiz.makeQuiz_correct_in.
Qed.

Lemma reads_ok_wf it : wf_item it = true -> reads_ok it.
Proof. apply wf_item_reads. Qed.

Lemma reads_ok_gradePatch `{DateLib} now pr g :
  reads_ok pr -> wf_item (gradePatch now pr g) = true.
Proof. intros (? & ? & ?). by apply gradePatch_wf_item. Qed.

(** ** Lemmas: rendering *)

Section render.
Context `{DateLib} `{JsonLib}.
Implicit Types (w : World) (s : Session) (now : Z).

Lemma memoQuiz_fields w :
  store (memoQuiz w) = store w ∧
  deck (session (memoQuiz w)) = deck (session w) ∧
  index (session (memoQuiz w)) = index (session w) ∧
  mode (session (memoQuiz w)) = mode (session w) ∧
  flipped (session (memoQuiz w)) = flipped (session w) ∧
  quizChoice (session (memoQuiz w)) = quizChoice (session w) ∧
  quizReveal (session (memoQuiz w)) = quizReveal (session w) ∧
  seconds (session (memoQuiz w)) = seconds (session w) ∧
  lastShuffle (session (memoQuiz w)) = lastShuffle (session w) ∧
  listener (session (memoQuiz w)) = listener (session w).
Proof.
  unfold memoQuiz. repeat case_decide; try done.
  by destruct (Quiz.makeQuiz _ _).
Qed.

Lemma memoQuiz_card w : currentCard (session (memoQuiz w)) = currentCard (session w).
Proof.
  destruct (memoQuiz_fields w) as (_ & Hd & Hi & _). by apply currentCard_ext.
Qed.

(** After the memo the quiz is the quiz of the current card. *)
Lemma memoQuiz_memo w :
  Handled w ->
  lastCardId (session (memoQuiz w)) = Some (id (currentCard (session w))) ∧
  if decide (mode (session w) = "quiz"%string)
  then exists q, quiz (session (memoQuiz w)) = Some q ∧ quiz_for (currentCard (session w)) q
  else quiz (session (memoQuiz w)) = None.
Proof.
  intros Hw. unfold memoQuiz. destruct (decide (mode _ = _)) as [Hm|Hm]; [|done].
  destruct (decide (lastCardId _ = _)) as [Hl|Hl].
  - split; [done|]. pose proof (h_memo w Hw Hl) as Hq. by rewrite decide_True in Hq.
  - pose proof (quiz_for_makeQuiz (currentCard (session w)) (rng w)
                  (currentCard_in_table _)) as Hq.
    destruct (Quiz.makeQuiz _ _) as [q g']. simpl. eauto.
Qed.

(** A choice made, the memo does not recompute. *)
Lemma memoQuiz_choice w c :
  Handled w -> quizChoice (session w) = Some c -> memoQuiz w = w.
Proof.
  intros Hw Hc. destruct (h_choice w Hw c Hc) as [Hl _].
  destruct (h_flags w Hw) as (Hflash & _ & _).
  unfold memoQuiz. destruct (decide (mode _ = _)) as [Hm|Hm].
  - by rewrite decide_True.
  - destruct (Hflash Hm) as [Hnone _]. congruence.
Qed.

Lemma memoQuiz_Handled w : Handled w -> Handled (memoQuiz w).
Proof.
  intros Hw. destruct (memoQuiz_fields w) as (Hst & Hd & Hi & Hm & Hf & Hc & Hr & _ & _ & Hl).
  destruct (memoQuiz_memo w Hw) as [Hlast Hq].
  pose proof (memoQuiz_card w) as Hcard.
  split; rewrite ?Hst, ?Hd, ?Hi, ?Hm, ?Hf, ?Hc, ?Hr, ?Hl, ?Hcard.
  - apply Hw.
  - destruct (h_deck w Hw) as (? & ? & ? & ?). unfold deck_ok. by rewrite Hd, Hi.
  - destruct (h_flags w Hw) as (? & ? & ?). unfold flags_ok. by rewrite Hm, Hf, Hc, Hr.
  - done.
  - intros c Hch. by rewrite (memoQuiz_choice w c Hw Hch); apply Hw.
  - apply Hw.
  - apply Hw.
  - apply Hw.
Qed.

Lemma deckEffect_fields now sh w :
  store (deckEffect now sh w) = store w ∧
  deck (session (deckEffect now sh w)) =
    (buildDeck (mode (session w)) (progress (store w)) sh now (rng w)).1 ∧
  index (session (deckEffect now sh w)) = 0%nat ∧
  mode (session (deckEffect now sh w)) = mode (session w) ∧
  flipped (session (deckEffect now sh w)) = false ∧
  quizChoice (session (deckEffect now sh w)) = None ∧
  quizReveal (session (deckEffect now sh w)) = false ∧
  quiz (session (deckEffect now sh w)) = quiz (session w) ∧
  lastCardId (session (deckEffect now sh w)) = lastCardId (session w) ∧
  lastShuffle (session (deckEffect now sh w)) = Some sh ∧
  listener (session (deckEffect now sh w)) = listener (session w).
Proof. unfold deckEffect. by destruct (buildDeck _ _ _ _ _). Qed.

Lemma deckEffect_Handled now sh w :
  Handled w -> lastCardId (session w) = Some (id (currentCard (session w))) ->
  Handled (deckEffect now sh w).
Proof.
  intros Hw Hlast.
  destruct (deckEffect_fields now sh w)
    as (Hst & Hd & Hi & Hm & Hf & Hc & Hr & Hq & Hl & _ & Hk).
  split; rewrite ?Hst, ?Hm, ?Hf, ?Hc, ?Hr, ?Hq, ?Hl, ?Hk.
  - apply Hw.
  - unfold deck_ok. rewrite Hd, Hi. split_and!.
    + auto with radicals.
    + auto with radicals.
    + apply buildDeck_subseteq.
    + apply buildDeck_length.
  - unfold flags_ok. by rewrite Hm, Hf, Hc, Hr.
  - intros Hnew. rewrite Hlast in Hnew. injection Hnew as Hnew.
    rewrite <- (currentCard_eq_of_id _ _ Hnew). by apply Hw.
  - done.
  - apply Hw.
  - done.
  - apply Hw.
Qed.

Lemma registerKeys_fields now kb w :
  store (registerKeys now kb w) = store w ∧
  deck (session (registerKeys now kb w)) = deck (session w) ∧
  index (session (registerKeys now kb w)) = index (session w) ∧
  mode (session (registerKeys now kb w)) = mode (session w) ∧
  flipped (session (registerKeys now kb w)) = flipped (session w) ∧
  quizChoice (session (registerKeys now kb w)) = quizChoice (session w) ∧
  quizReveal (session (registerKeys now kb w)) = quizReveal (session w) ∧
  quiz (session (registerKeys now kb w)) = quiz (session w) ∧
  lastCardId (session (registerKeys now kb w)) = lastCardId (session w) ∧
  lastShuffle (session (registerKeys now kb w)) = lastShuffle (session w) ∧
  rng (registerKeys now kb w) = rng w.
Proof. unfold registerKeys. by case_decide. Qed.

(** The listener after the effect: registered for the current render. *)
Lemma registerKeys_listener now kb w :
  Handled w ->
  let l := listener (session (registerKeys now kb w)) in
  k_enabled l = truthy kb ∧ k_flipped l = flipped (session w) ∧
  k_card l = currentCard (session w) ∧
  (flipped (session w) = true -> k_deckLength l = length (deck (session w))) ∧
  reads_ok (k_pr l).
Proof.
  intros Hw. unfold registerKeys. case_decide as Hdeps; simpl.
  - destruct Hdeps as (He & Hf & Hid). split_and!; try done.
    + destruct (h_key_card w Hw) as [Hin|Hz].
      * by apply card_eq_of_id; [|apply currentCard_in_table|].
      * pose proof (currentCard_id_range (session w)). lia.
    + intros Hfl. apply Hw; congruence.
    + apply Hw.
  - split_and!; try done. apply reads_ok_wf.
    by apply (currentRecord_wf now _ _ (h_wf w Hw) (currentCard_in_table _)).
Qed.

Lemma registerKeys_Handled now kb w : Handled w -> Handled (registerKeys now kb w).
Proof.
  intros Hw.
  destruct (registerKeys_fields now kb w)
    as (Hst & Hd & Hi & Hm & Hf & Hc & Hr & Hq & Hl & _ & _).
  destruct (registerKeys_listener now kb w Hw) as (_ & _ & Hcard & Hlen & Hpr).
  assert (currentCard (session (registerKeys now kb w)) = currentCard (session w)) as Hcc
    by by apply currentCard_ext.
  split; rewrite ?Hst, ?Hm, ?Hf, ?Hc, ?Hr, ?Hq, ?Hl, ?Hcc, ?Hd.
  - apply Hw.
  - destruct (h_deck w Hw) as (? & ? & ? & ?). unfold deck_ok. by rewrite Hd, Hi.
  - destruct (h_flags w Hw) as (? & ? & ?). unfold flags_ok. by rewrite Hm, Hf, Hc, Hr.
  - apply Hw.
  - apply Hw.
  - left. rewrite Hcard. auto with radicals.
  - intros _. apply Hlen.
  - done.
Qed.

(** A render from a handled world succeeds and establishes the invariant. *)
Lemma render_Inv now w : Handled w -> exists w', render now w = Returned w' ∧ Inv w'.
Proof.
  intros Hw. unfold render.
  destruct (wf_progress_settings _ (h_wf w Hw)) as (st & Hst & _). rewrite Hst.
  set (w1 := memoQuiz w).
  assert (Handled w1) as H1 by by apply memoQuiz_Handled.
  assert (lastCardId (session w1) = Some (id (currentCard (session w1)))) as Hl1.
  { unfold w1. rewrite memoQuiz_card. by apply memoQuiz_memo. }
  assert (store w1 = store w) as Hs1 by apply memoQuiz_fields.
  set (w2 := if decide (lastShuffle (session w1) = Some (shuffleLearn st)) then w1
             else memoQuiz (deckEffect now (shuffleLearn st) w1)).
  assert (Handled w2 ∧ store w2 = store w ∧
          lastCardId (session w2) = Some (id (currentCard (session w2))) ∧
          lastShuffle (session w2) = Some (shuffleLearn st)) as (H2 & Hs2 & Hl2 & Hsh2).
  { unfold w2. case_decide as Hsh; [done|].
    pose proof (deckEffect_Handled now (shuffleLearn st) w1 H1 Hl1) as Hd.
    split_and!.
    - by apply memoQuiz_Handled.
    - destruct (memoQuiz_fields (deckEffect now (shuffleLearn st) w1)) as (-> & _).
      by destruct (deckEffect_fields now (shuffleLearn st) w1) as (-> & _).
    - rewrite memoQuiz_card. by apply memoQuiz_memo.
    - destruct (memoQuiz_fields (deckEffect now (shuffleLearn st) w1))
        as (_ & _ & _ & _ & _ & _ & _ & _ & -> & _).
      apply deckEffect_fields. }
  eexists. split; [done|].
  destruct (registerKeys_fields now (keyboardShortcuts st) w2)
    as (Hst3 & Hd3 & Hi3 & _ & Hf3 & _ & _ & _ & Hl3 & Hsh3 & _).
  destruct (registerKeys_listener now (keyboardShortcuts st) w2 H2) as (He & Hfl & Hcard & _).
  assert (currentCard (session (registerKeys now (keyboardShortcuts st) w2)) =
          currentCard (session w2)) as Hcc by by apply currentCard_ext.
  split; rewrite ?Hst3, ?Hs2, ?Hst, ?Hcc, ?Hf3.
  - by apply registerKeys_Handled.
  - by rewrite Hl3.
  - by rewrite Hsh3.
  - done.
  - done.
  - done.
Qed.
End render.

(** ** Lemmas: the handlers *)

Section handlers.
Context `{DateLib} `{JsonLib}.
Implicit Types (w : World) (s : Session) (now g : Z).

Lemma Inv_key_deck w :
  Inv w -> k_flipped (listener (session w)) = true ->
  k_deckLength (listener (session w)) = length (deck (session w)).
Proof.
  intros Hw Hk. apply (h_key_deck w (inv_handled w Hw) Hk).
  by rewrite <- (inv_key_flipped w Hw).
Qed.

Lemma Inv_quiz w :
  Inv w ->
  if decide (mode (session w) = "quiz"%string)
  then exists q, quiz (session w) = Some q ∧ quiz_for (currentCard (session w)) q
  else quiz (session w) = None.
Proof. intros Hw. apply (h_memo w (inv_handled w Hw)), Hw. Qed.

(** A handler that changes only the flags of the session. *)
Lemma Handled_flags w s' :
  Inv w ->
  deck s' = deck (session w) -> index s' = index (session w) ->
  mode s' = mode (session w) -> quiz s' = quiz (session w) ->
  lastCardId s' = lastCardId (session w) -> listener s' = listener (session w) ->
  flags_ok s' ->
  (∀ c, quizChoice s' = Some c -> exists q, quiz s' = Some q ∧ c ∈ Quiz.options q) ->
  Handled {| store := store w; session := s'; rng := rng w |}.
Proof.
  intros Hw Hd Hi Hm Hq Hl Hk Hfl Hch.
  assert (currentCard s' = currentCard (session w)) as Hcc by by apply currentCard_ext.
  pose proof (inv_handled w Hw) as Hh.
  split; cbn [store session rng]; rewrite ?Hcc, ?Hl, ?Hk, ?Hm, ?Hq.
  - apply Hh.
  - destruct (h_deck w Hh) as (? & ? & ? & ?). unfold deck_ok. by rewrite Hd, Hi.
  - done.
  - apply Hh.
  - intros c Hc. split; [apply Hw|]. rewrite <- Hq. by apply Hch.
  - apply Hh.
  - intros Hkf _. rewrite Hd. by apply Inv_key_deck.
  - apply Hh.
Qed.

(** A handler that changes only the store. *)
Lemma Handled_store w f :
  Inv w -> wf_progress (progress (f (store w))) = true -> Handled (withStore f w).
Proof.
  intros Hw Hwf. pose proof (inv_handled w Hw) as Hh.
  split; cbn [withStore store session rng].
  - done.
  - apply Hh.
  - apply Hh.
  - apply Hh.
  - apply Hh.
  - apply Hh.
  - intros Hkf _. by apply Inv_key_deck.
  - apply Hh.
Qed.

(** The handler [grade], called with any readable record, any card of the
    table and the length of the deck. *)
Lemma gradeWith_Handled now pr card g w :
  Inv w -> reads_ok pr -> card ∈ RADICALS ->
  Handled (gradeWith now pr card (length (deck (session w))) g w).
Proof.
  intros Hw Hpr Hcard. pose proof (inv_handled w Hw) as Hh.
  destruct (h_deck w Hh) as (Hne & Hnd & Hsub & Hidx).
  set (s' := afterGrade (length (deck (session w))) (session w)).
  split; cbn [gradeWith store session rng]; fold s'.
  - apply patchId_wf_progress; [apply Hh|].
    rewrite gradePatch_full. by apply reads_ok_gradePatch.
  - unfold deck_ok. change (deck s') with (deck (session w)).
    change (index s') with (nextIndex (length (deck (session w))) (index (session w))).
    split_and!; try done. apply nextIndex_lt. lia.
  - by split_and!.
  - intros Hnew. pose proof (Inv_quiz w Hw) as Hq.
    change (lastCardId s') with (lastCardId (session w)) in Hnew.
    rewrite (inv_memo w Hw) in Hnew. injection Hnew as Hnew.
    by rewrite <- (currentCard_eq_of_id _ _ Hnew).
  - done.
  - apply Hh.
  - intros Hkf _. by apply Inv_key_deck.
  - apply Hh.
Qed.

Lemma setFlipped_Handled b w :
  Inv w -> (mode (session w) = "quiz"%string -> b = false) ->
  Handled (withSession (setFlipped b) w).
Proof.
  intros Hw Hb. pose proof (inv_handled w Hw) as Hh.
  destruct (h_flags w Hh) as (Hflash & Hq & Hr).
  apply Handled_flags; [done..| |].
  - by split_and!.
  - intros c Hc. by apply (h_choice w Hh c).
Qed.

Lemma handleFlip_flash s :
  mode s ≠ "quiz"%string -> handleFlip s = setFlipped (negb (flipped s)) s.
Proof. intros Hm. unfold handleFlip. by rewrite decide_False. Qed.

Lemma chooseOption_Handled opt w :
  Inv w -> offered (ClickOption opt) (session w) = true ->
  Handled (withSession (chooseOption opt) w).
Proof.
  intros Hw [Hm%bool_decide_eq_true Hopt%bool_decide_eq_true]%andb_true_iff.
  pose proof (inv_handled w Hw) as Hh. destruct (h_flags w Hh) as (Hflash & Hq & Hr).
  unfold withSession, chooseOption. destruct (quizReveal (session w)) eqn:Hrev.
  { by destruct w as [? [] ?]. }
  apply Handled_flags; [done..| |].
  - split_and!; [done | done | by intros; simplify_eq/=].
  - intros c [= <-]. cbn [setQuizChoice quiz].
    destruct (quiz (session w)) as [q|]; [eauto | by apply elem_of_nil in Hopt].
Qed.

Lemma submitQuiz_Handled w :
  Inv w -> offered ClickSubmit (session w) = true -> Handled (withSession submitQuiz w).
Proof.
  intros Hw Hoff. pose proof (inv_handled w Hw) as Hh.
  destruct (h_flags w Hh) as (Hflash & Hq & Hr).
  unfold withSession, submitQuiz.
  destruct (quiz (session w)) as [q|] eqn:Hquiz, (quizChoice (session w)) as [c|] eqn:Hc;
    try by destruct w as [? [] ?].
  apply Handled_flags; [done..| |].
  - split_and!; [|done|].
    + cbn [setQuizReveal mode quizChoice quizReveal]. intros Hm.
      destruct (Hflash Hm). congruence.
    + intros _. cbn [setQuizReveal quizChoice]. rewrite Hc. eauto.
  - cbn [setQuizReveal quizChoice quiz]. intros c' Hc'.
    apply (h_choice w Hh c'). congruence.
Qed.

Lemma tick_Handled w : Inv w -> Handled (withSession tick w).
Proof.
  intros Hw. pose proof (inv_handled w Hw) as Hh.
  apply Handled_flags; [done..|apply Hh|].
  intros c Hc. by apply (h_choice w Hh c).
Qed.

Lemma onKey_Handled now key w w' :
  Inv w -> onKey now key w = (w', false) -> Handled w'.
Proof.
  intros Hw. pose proof (inv_handled w Hw) as Hh. unfold onKey.
  destruct (k_enabled _); simpl; [|by intros [= <-]].
  repeat case_decide; try (by intros [= <-]); try done.
  - intros [= <-]. by apply setFlipped_Handled.
  - destruct (k_flipped _) eqn:Hkf; simpl; [|by intros [= <-]].
    destruct (gradeOfKey key) as [g|]; intros [= <-]; [|done].
    rewrite (Inv_key_deck w Hw Hkf). apply gradeWith_Handled; [done|apply Hh|].
    rewrite (inv_key_card w Hw). auto with radicals.
Qed.

Lemma grade_Handled now g w : Inv w -> Handled (grade now g w).
Proof.
  intros Hw. apply gradeWith_Handled; [done| |apply currentCard_in_table].
  apply reads_ok_wf.
  by apply (currentRecord_wf now _ _ (h_wf w (inv_handled w Hw)) (currentCard_in_table _)).
Qed.
End handlers.

(** ** Lemmas: steps *)

Section steps.
Context `{DateLib} `{JsonLib}.
Implicit Types (w : World) (s : Session) (now g : Z) (e : Event).

Lemma handle_Handled now e w w' :
  Inv w -> offered e (session w) = true ->
  handle now e w = Returned (w', false) -> Handled w'.
Proof.
  intros Hw Hoff. pose proof (inv_handled w Hw) as Hh.
  destruct e; cbn [handle]; try (intros [= <-]).
  - apply negb_true_iff, bool_decide_eq_false in Hoff.
    unfold withSession. rewrite handleFlip_flash by done.
    by apply (setFlipped_Handled (negb (flipped (session w))) w).
  - apply andb_true_iff in Hoff as [Hoff%negb_true_iff%bool_decide_eq_false _].
    by apply (setFlipped_Handled true w).
  - by apply grade_Handled.
  - by apply chooseOption_Handled.
  - by apply submitQuiz_Handled.
  - unfold nextQuiz. destruct (quiz (session w)); intros [= <-]. by apply grade_Handled.
  - intros [= Hk]. by apply (onKey_Handled now key w w').
  - by apply tick_Handled.
  - apply Handled_store; [done|]. by apply patchSettings_wf_progress, Hh.
  - apply Handled_store; [done|]. auto with radicals.
Qed.

(** No handler throws in a state of the invariant. *)
Lemma handle_returns now e w :
  Inv w -> offered e (session w) = true -> returns (handle now e w) = true.
Proof.
  intros Hw Hoff. destruct e; try done. cbn [handle]. unfold nextQuiz.
  apply andb_true_iff in Hoff as [Hm%bool_decide_eq_true _].
  pose proof (Inv_quiz w Hw) as Hq. rewrite decide_True in Hq by done.
  by destruct Hq as (q & -> & _).
Qed.

(** A step from a state of the invariant does not throw, and unless it
    leaves the session it ends in a state of the invariant. *)
Lemma step_Inv now e w :
  Inv w -> offered e (session w) = true ->
  exists w' x, step now e w = Returned (w', x) ∧ (x = false -> Inv w').
Proof.
  intros Hw Hoff. unfold step.
  pose proof (handle_returns now e w Hw Hoff) as Hret.
  destruct (handle now e w) as [[w1 x]|] eqn:Hh; [|done]. cbn [outcome_bind snd fst].
  destruct x; [by exists w1, true|].
  destruct (render_Inv now w1 (handle_Handled now e w w1 Hw Hoff Hh)) as (w' & -> & Hw').
  by exists w', false.
Qed.

Lemma Step_Inv w w' : Inv w -> Step w w' -> Inv w'.
Proof.
  intros Hw Hs. destruct Hs as [now e w w' Hoff Hstep].
  destruct (step_Inv now e w Hw Hoff) as (w2 & x & Hs & Hinv).
  rewrite Hs in Hstep. injection Hstep as -> ->. by apply Hinv.
Qed.

Lemma rtc_Step_Inv w w' : Inv w -> rtc Step w w' -> Inv w'.
Proof. intros Hw Hsteps. induction Hsteps; eauto using Step_Inv. Qed.

Lemma initSession_Handled now m st rg :
  wf_progress (progress st) = true ->
  exists w, initSession now m st rg = Returned w ∧ Handled w ∧ store w = st ∧
            mode (session w) = m.
Proof.
  intros Hwf. unfold initSession.
  destruct (wf_progress_settings _ Hwf) as (cfg & -> & _).
  pose proof (buildDeck_nonempty m (progress st) (shuffleLearn cfg) now rg) as Hne.
  pose proof (buildDeck_NoDup m (progress st) (shuffleLearn cfg) now rg) as Hnd.
  pose proof (buildDeck_subseteq m (progress st) (shuffleLearn cfg) now rg) as Hsub.
  pose proof (buildDeck_length m (progress st) (shuffleLearn cfg) now rg) as Hlen.
  destruct (buildDeck _ _ _ _ _) as [d rg']. cbn [fst] in *.
  eexists. split; [reflexivity|]. split; [|split; reflexivity].
  split; cbn [store session rng deck index mode flipped quizChoice quizReveal quiz
              lastCardId listener k_card k_flipped k_pr].
  - exact Hwf.
  - unfold deck_ok. cbn [deck index]. split_and!; [exact Hne | exact Hnd | exact Hsub | lia].
  - unfold flags_ok. cbn [mode flipped quizChoice quizReveal]. by split_and!.
  - intros [=].
  - intros c [=].
  - right. reflexivity.
  - intros [=].
  - unfold reads_ok. cbn [emptyItem box correct wrong num_or]. lia.
Qed.

Lemma startSession_Inv now m st rg :
  wf_progress (progress st) = true ->
  exists w, startSession now m st rg = Returned w ∧ Inv w.
Proof.
  intros Hwf. unfold startSession.
  destruct (initSession_Handled now m st rg Hwf) as (w0 & -> & Hh & _).
  cbn [outcome_bind]. exact (render_Inv now w0 Hh).
Qed.
(** *** What a session never changes: its mode; and what a render never
    changes: the store *)

Lemma render_frame now w w' :
  render now w = Returned w' ->
  store w' = store w ∧ mode (session w') = mode (session w).
Proof.
  unfold render. destruct (settings _) as [st|]; [|done]. intros [= <-].
  destruct (registerKeys_fields now (keyboardShortcuts st)
              (if decide (lastShuffle (session (memoQuiz w)) = Some (shuffleLearn st))
               then memoQuiz w
               else memoQuiz (deckEffect now (shuffleLearn st) (memoQuiz w))))
    as (-> & _ & _ & -> & _).
  destruct (memoQuiz_fields w) as (Hs & _ & _ & Hm & _).
  case_decide; [done|].
  destruct (memoQuiz_fields (deckEffect now (shuffleLearn st) (memoQuiz w)))
    as (-> & _ & _ & -> & _).
  destruct (deckEffect_fields now (shuffleLearn st) (memoQuiz w)) as (-> & _ & _ & -> & _).
  done.
Qed.

Lemma startSession_frame now m st rg w :
  startSession now m st rg = Returned w -> store w = st ∧ mode (session w) = m.
Proof.
  unfold startSession, initSession. destruct (settings (progress st)); [|done].
  destruct (buildDeck _ _ _ _ _) as [d g']. cbn [outcome_bind].
  intros [-> ->]%render_frame. done.
Qed.

Lemma handle_mode now e w w' x :
  handle now e w = Returned (w', x) -> mode (session w') = mode (session w).
Proof.
  destruct e; cbn [handle]; try by intros [= <- <-].
  - intros [= <- <-]. cbn. unfold handleFlip. by case_decide.
  - intros [= <- <-]. cbn. unfold chooseOption. by destruct (quizReveal _).
  - intros [= <- <-]. cbn. unfold submitQuiz. by repeat case_match.
  - unfold nextQuiz. destruct (quiz (session w)); [|done]. by intros [= <- <-].
  - unfold onKey. intros [= Hk]. revert Hk.
    repeat (case_decide || case_match); by intros [= <- <-].
Qed.

Lemma step_mode now e w w' x :
  step now e w = Returned (w', x) -> mode (session w') = mode (session w).
Proof.
  unfold step. destruct (handle now e w) as [[wh xh]|] eqn:Hh; [|done].
  apply handle_mode in Hh. cbn [outcome_bind fst snd]. destruct xh.
  - by intros [= <- <-].
  - destruct (render now wh) as [wr|] eqn:Hr; [|done]. intros [= <- <-].
    apply render_frame in Hr as [_ ->]. done.
Qed.
End steps.

(** ** Properties *)

Section properties.
Context `{DateLib} `{JsonLib}.
Implicit Types (w : World) (now : Z) (e : Event).

(** C6: the invariant of the session.  Started on a well-formed store, in
    any mode, the session satisfies [Inv] at once and after every sequence
    of offered events, whatever the clock and the random source: the
    stored progress stays well formed (every box in 1..5), the deck is
    non-empty and duplicate-free with the index inside it, in mode "quiz"
    the four options are distinct and contain the meaning of the current
    card, a revealed quiz has a chosen option, and the keyboard listener is
    the one registered for the current card. *)
Theorem session_invariant (now : Z) (m : string) (st : Store) (rg : Rng) (w0 w : World) :
  wf_progress (progress st) = true ->
  startSession now m st rg = Returned w0 ->
  rtc Step w0 w ->
  Inv w.
Proof.
  intros Hwf Hstart Hsteps.
  destruct (startSession_Inv now m st rg Hwf) as (w0' & Hw0 & Hinv).
  rewrite Hstart in Hw0. injection Hw0 as <-. by eapply rtc_Step_Inv.
Qed.

(** No reachable state throws: from a session started on a
    well-formed store, every event the markup offers is handled and
    rendered without an exception. *)
Theorem session_never_throws (now now' : Z) (m : string) (st : Store) (rg : Rng)
    (w0 w : World) (e : Event) :
  wf_progress (progress st) = true ->
  startSession now m st rg = Returned w0 ->
  rtc Step w0 w ->
  offered e (session w) = true ->
  returns (step now' e w) = true.
Proof.
  intros Hwf Hstart Hsteps Hoff.
  destruct (startSession_Inv now m st rg Hwf) as (w0' & Hw0 & Hinv).
  rewrite Hstart in Hw0. injection Hw0 as <-.
  destruct (step_Inv now' e w (rtc_Step_Inv _ _ Hinv Hsteps) Hoff) as (w' & x & -> & _).
  done.
Qed.
End properties.

(** ** The properties at concrete inputs *)

Definition sample_store : Store :=
  {| progress := emptyProgress (H := fixed_zone 0) 0;
     storage := {| items := ∅; denied := true; capacity := 0 |} |}.

(** The world after mounting a "quiz" session on [sample_store]. *)
Definition started_world : World :=
  match startSession (H := fixed_zone 0) 0 "quiz" sample_store (lcg 2) with
  | Returned w => w
  | Thrown _ => sample_world
  end.

Lemma started_world_eq :
  startSession (H := fixed_zone 0) 0 "quiz" sample_store (lcg 2) = Returned started_world.
Proof.
  unfold started_world.
  destruct (startSession_Inv (H := fixed_zone 0) 0 "quiz" sample_store (lcg 2)) as (w & -> & _);
    [apply emptyProgress_wf_progress | done].
Qed.

Lemma started_world_Inv : Inv started_world.
Proof.
  unfold started_world.
  destruct (startSession_Inv (H := fixed_zone 0) 0 "quiz" sample_store (lcg 2)) as (w & -> & Hw);
    [apply emptyProgress_wf_progress | done].
Qed.

Lemma session_invariant_witness : Inv started_world.
Proof.
  apply (session_invariant (H := fixed_zone 0) 0 "quiz" sample_store (lcg 2)
           started_world started_world).
  - apply emptyProgress_wf_progress.
  - apply started_world_eq.
  - apply rtc_refl.
Defined.

Lemma session_never_throws_witness :
  returns (step (H := fixed_zone 0) 5 Tick started_world) = true.
Proof.
  apply (session_never_throws (H := fixed_zone 0) 0 5 "quiz" sample_store (lcg 2)
           started_world started_world Tick).
  - apply emptyProgress_wf_progress.
  - apply started_world_eq.
  - apply rtc_refl.
  - done.
Defined.
