(* ===== verification/Typing.v ===== *)
(** * Typing: the TypeScript types of the stored state

    [src/app/page.tsx] declares the types [ProgressItem] and
    [ProgressState] (lines 635-653).  TypeScript checks them when the
    program is compiled and erases them; at run time a value of the store
    is whatever [JSON.parse] returned or a handler wrote.  This file gives
    the declarations a meaning on the values of the model and shows which
    operations respect them.

    - [Ty] are the types the declarations use; [Val] are the values of
      JavaScript they classify.  A date text is held as its instant, as
      everywhere in the development ([VIso]).
    - [has_type t v] is structural: an object has an object type when it
      has every field of the type, with a value of the field's type; it
      may have more.  A record type [Record<number, T>] holds of an object
      all of whose values have type [T].
    - [item_val], [settings_val] and [state_val] are the values the
      records of [Store] stand for: a field that is [None] is absent,
      except [lastReviewed], which is [null] when it is [None].

    The theorems: a fresh state has the declared type; every event of the
    session keeps it (the patch of a grade writes every field; the patch
    of a switch writes a boolean); a state loaded from storage need not
    have it, since [loadProgress] checks one field only. *)

From Stdlib Require Import ZArith Lia.
From stdpp Require Import base tactics option list strings gmap sets pretty.
From S2P Require Import Prelude Clock Catalog Store Session Machine.

#[local] Open Scope Z_scope.

(** ** Types and values *)

Unset Elimination Schemes.

Inductive Ty : Type :=
  | TNumber
  | TBoolean
  | TString
  | TNull
  | TUnion (a b : Ty)
  | TObject (fields : list (string * Ty))
  | TRecord (value : Ty).

Inductive Val : Type :=
  | VNumber (z : Z)
  | VBoolean (b : bool)
  | VIso (t : Z)
  | VNull
  | VObject (fields : list (string * Val)).

Set Elimination Schemes.

(** [o[name]] *)
Fixpoint get {A : Type} (name : string) (fields : list (string * A)) : option A :=
  match fields with
  | [] => None
  | (n, x) :: rest => if bool_decide (n = name) then Some x else get name rest
  end.

(** Whether a value has a type. *)
Fixpoint has_type (t : Ty) (v : Val) {struct t} : bool :=
  match t, v with
  | TNumber, VNumber _ => true
  | TBoolean, VBoolean _ => true
  | TString, VIso _ => true
  | TNull, VNull => true
  | TUnion a b, _ => has_type a v || has_type b v
  | TObject fields, VObject vs =>
      forallb (λ f, from_option (has_type f.2) false (get f.1 vs)) fields
  | TRecord value, VObject vs => forallb (λ f, has_type value f.2) vs
  | _, _ => false
  end.

(** ** The declarations of the source *)

Definition ProgressItemT : Ty :=
  TObject [("box", TNumber); ("learned", TBoolean); ("correct", TNumber); ("wrong", TNumber);
           ("lastReviewed", TUnion TString TNull); ("due", TString)].

Definition SettingsT : Ty :=
  TObject [("showExamples", TBoolean); ("showMnemonic", TBoolean); ("toneMarks", TBoolean);
           ("shuffleLearn", TBoolean); ("keyboardShortcuts", TBoolean)].

Definition ProgressStateT : Ty :=
  TObject [("byId", TRecord ProgressItemT); ("settings", SettingsT)].

(** ** The values of the model *)

(** A field that may be absent. *)
Definition prop {A : Type} (name : string) (f : A -> Val) (x : option A) : list (string * Val) :=
  match x with
  | Some a => [(name, f a)]
  | None => []
  end.

Definition item_val (it : ProgressItem) : Val :=
  VObject (prop "box" VNumber (box it) ++ prop "learned" VBoolean (learned it) ++
           prop "correct" VNumber (correct it) ++ prop "wrong" VNumber (wrong it) ++
           [("lastReviewed", from_option VIso VNull (lastReviewed it))] ++
           prop "due" VIso (due it)).

Definition settings_val (s : Settings) : Val :=
  VObject (prop "showExamples" VBoolean (showExamples s) ++
           prop "showMnemonic" VBoolean (showMnemonic s) ++
           prop "toneMarks" VBoolean (toneMarks s) ++
           prop "shuffleLearn" VBoolean (shuffleLearn s) ++
           prop "keyboardShortcuts" VBoolean (keyboardShortcuts s)).

Definition state_val (p : ProgressState) : Val :=
  VObject ([("byId", VObject ((λ e, (pretty e.1, item_val e.2)) <$> map_to_list (byId p)))] ++
           prop "settings" settings_val (settings p)).

(** [p : ProgressState] *)
Definition typed (p : ProgressState) : bool := has_type ProgressStateT (state_val p).

(** ** Lemmas *)

(** A record has the declared type when every field but [lastReviewed]
    is there. *)
Lemma item_typed it :
  has_type ProgressItemT (item_val it) =
  bool_decide (is_Some (box it) ∧ is_Some (learned it) ∧ is_Some (correct it) ∧
               is_Some (wrong it) ∧ is_Some (due it)).
Proof.
  destruct it as [[b|] [l|] [c|] [w|] [lr|] [d|]]; cbn.
  all: by repeat (rewrite bool_decide_eq_true_2 by eauto 10)
    || (symmetry; apply bool_decide_eq_false; intros (?&?&?&?&?); by eapply is_Some_None).
Qed.

Lemma settings_typed s : has_type SettingsT (settings_val s) = wf_settings s.
Proof. by destruct s as [[?|] [?|] [?|] [?|] [?|]]. Qed.

(** A state has the declared type when every record it holds has the
    type of a record and its settings are there and complete. *)
Lemma typed_iff p :
  typed p = true <->
  map_Forall (λ _ it, has_type ProgressItemT (item_val it) = true) (byId p) ∧
  from_option wf_settings false (settings p) = true.
Proof.
  unfold typed, state_val, ProgressStateT. cbn [has_type forallb fst snd app get].
  rewrite bool_decide_eq_true_2 by done. cbn [from_option has_type].
  rewrite bool_decide_eq_false_2 by done. rewrite andb_true_r, andb_true_iff.
  match goal with |- (?A ∧ ?B) <-> (?C ∧ ?D) => cut ((A <-> C) ∧ (B <-> D)); [tauto|split] end.
  - rewrite forallb_forall, map_Forall_to_list, Forall_forall. split.
    + intros Hall [i it] Hin. apply (Hall (pretty i, item_val it)), list_elem_of_In.
      by apply (list_elem_of_fmap_2 (λ e, (pretty e.1, item_val e.2)) _ (i, it)).
    + intros Hall f (e & -> & He)%list_elem_of_In%list_elem_of_fmap.
      destruct e as [i it]. apply (Hall (i, it) He).
  - destruct (settings p) as [s|]; cbn [prop get from_option]; [|done].
    rewrite bool_decide_eq_true_2 by done. cbn [from_option]. by rewrite settings_typed.
Qed.

Lemma patchId_typed i patch p :
  typed p = true ->
  has_type ProgressItemT (item_val (spreadItem (default emptyItem (byId p !! i)) patch)) = true ->
  typed (patchId i patch p) = true.
Proof.
  rewrite !typed_iff. intros [Hm Hs] Hit. split; [|done].
  by apply map_Forall_insert_2.
Qed.

Section typing.
Context `{DateLib} `{JsonLib}.

Lemma gradePatch_typed now base pr g :
  has_type ProgressItemT (item_val (spreadItem base (gradePatch now pr g))) = true.
Proof. rewrite gradePatch_full, item_typed. apply bool_decide_eq_true. cbn. eauto 10. Qed.

Lemma patchSettings_typed patch p : typed p = true -> typed (patchSettings patch p) = true.
Proof.
  rewrite !typed_iff. intros [Hm Hs]. split; [done|]. cbn [patchSettings settings from_option].
  destruct (settings p) as [s|]; [|done]. by apply wf_settings_spread.
Qed.

Lemma emptyProgress_typed now : typed (emptyProgress now) = true.
Proof.
  apply typed_iff. split; [|done]. intros i it. rewrite emptyProgress_lookup.
  case_decide; [|done]. by intros [= <-].
Qed.

(** The rule for properties of the store: what the three updates of
    the store keep, every handler keeps. *)
Lemma handle_store_ind (P : ProgressState -> Prop) now e w r :
  (∀ i pr g p, P p -> P (patchId i (gradePatch now pr g) p)) ->
  (∀ patch p, P p -> P (patchSettings patch p)) ->
  P (emptyProgress now) ->
  P (progress (store w)) -> handle now e w = Returned r -> P (progress (store r.1)).
Proof.
  intros Hg Hs He Hw. destruct e; cbn [handle]; try (by intros [= <-]).
  - intros [= <-]. by apply Hg.
  - unfold nextQuiz. destruct (quiz (session w)); [|done]. intros [= <-]. by apply Hg.
  - unfold onKey. intros [= <-]. repeat (case_decide || case_match); try done. by apply Hg.
  - intros [= <-]. by apply Hs.
Qed.

Lemma step_store_ind (P : ProgressState -> Prop) now e w r :
  (∀ i pr g p, P p -> P (patchId i (gradePatch now pr g) p)) ->
  (∀ patch p, P p -> P (patchSettings patch p)) ->
  P (emptyProgress now) ->
  P (progress (store w)) -> step now e w = Returned r -> P (progress (store r.1)).
Proof.
  intros Hg Hs He Hw. unfold step.
  destruct (handle now e w) as [[w1 b]|] eqn:Hh; [|done]. cbn [outcome_bind fst snd].
  pose proof (handle_store_ind P now e w _ Hg Hs He Hw Hh) as H1.
  destruct b; [by intros [= <-]|].
  destruct (render now w1) as [w2|] eqn:Hr; [|done]. intros [= <-].
  destruct (render_frame now w1 w2 Hr) as [Hst _]. cbn [fst]. by rewrite Hst.
Qed.
End typing.

(** ** Theorems *)

(** C24: the declared type of the store is kept by every event of the
    session: when the state has type [ProgressState] before an event, it
    has it after the handler and the render, whatever the event, the time
    and the state of the session. *)
Theorem typed_preserved `{DateLib} `{JsonLib} now e w r :
  typed (progress (store w)) = true -> step now e w = Returned r ->
  typed (progress (store r.1)) = true.
Proof.
  apply (step_store_ind (λ p, typed p = true)); [| |apply emptyProgress_typed].
  - intros i pr g p Hp. apply patchId_typed; [done | apply gradePatch_typed].
  - intros patch p Hp. by apply patchSettings_typed.
Qed.

Lemma typed_preserved_witness :
  typed (progress (store (sample_world, true).1)) = true.
Proof.
  apply (typed_preserved (H := fixed_zone 0) 0 ClickBack sample_world); [|done].
  apply (emptyProgress_typed (H := fixed_zone 0)).
Defined.


