(* ===== verification/Widgets.v ===== *)
(** * Widgets: the themes and the small components

    [MODE_META], [SmallKbd], [SettingsDialog], [TopBar] and [StatChip] of
    [src/app/page.tsx] (lines 729-865), as functions to the trees of [Dom].

    A component is a function of its properties.  A property that is a
    handler is an event of the caller's type [E]: [SettingsDialog] takes
    the event of a switch and the event of the reset button, where the
    source passes [api] and closes over [patchSettings] and [resetAll].

    [MODE_META[mode]] is the lookup of a key in an object literal; the keys
    every object inherits ([toString], ...) are not modelled, since [mode]
    is only ever one of the three keys written. *)

From stdpp Require Import base tactics option list strings.
From S2P Require Import Prelude Dom Store Machine.

(** ** Themes *)

Record Theme := {
    label : string;
    chip : string;
    solid : string;
    soft : string;
    ring : string;
    icon : string;
    dot : string;
  }.

Module MODE_META.

Definition learn : Theme := {|
  label := "Học";
  chip := "border-sky-200 bg-sky-50 text-sky-700";
  solid := "bg-sky-600 text-white hover:bg-sky-700";
  soft := "bg-sky-50/70";
  ring := "ring-sky-200";
  icon := "text-sky-700";
  dot := "bg-sky-500";
|}.

Definition review : Theme := {|
  label := "Ôn";
  chip := "border-amber-200 bg-amber-50 text-amber-800";
  solid := "bg-amber-600 text-white hover:bg-amber-700";
  soft := "bg-amber-50/70";
  ring := "ring-amber-200";
  icon := "text-amber-700";
  dot := "bg-amber-500";
|}.

Definition quiz : Theme := {|
  label := "Kiểm tra";
  chip := "border-violet-200 bg-violet-50 text-violet-700";
  solid := "bg-violet-600 text-white hover:bg-violet-700";
  soft := "bg-violet-50/70";
  ring := "ring-violet-200";
  icon := "text-violet-700";
  dot := "bg-violet-500";
|}.

(** [MODE_META[mode]] *)
Definition lookup (mode : string) : option Theme :=
  if bool_decide (mode = "learn") then Some learn
  else if bool_decide (mode = "review") then Some review
  else if bool_decide (mode = "quiz") then Some quiz
  else None.

End MODE_META.

(** [MODE_META[mode] || MODE_META.learn] *)
Definition themeOf (mode : string) : Theme :=
  default MODE_META.learn (MODE_META.lookup mode).

(** ** Components *)

(** Whether a string is truthy: the empty string is not. *)
Definition nonempty (s : string) : bool :=
  match s with EmptyString => false | String _ _ => true end.

Definition SmallKbd {E : Type} (children : list (Node E)) : Node E :=
  Elem "span" [className "inline-flex items-center rounded-xl border border-slate-200 bg-white/70 px-2 py-1 text-xs text-slate-600 shadow-sm"]
    children.

Definition SettingsDialog {E : Type} (patchSettings : SettingField -> bool -> E) (resetAll : E)
    (s : Settings) : Node E :=
  Elem "Dialog" []
    [Elem "DialogTrigger" [Flag "asChild" (Some true)]
      [Elem "Button"
        [Str "variant" "secondary";
         className "rounded-2xl gap-2 bg-white/70 hover:bg-white"]
        [Elem "Settings" [className "h-4 w-4"] []; Text "Cài đặt"]];
     Elem "DialogContent" [className "rounded-2xl"]
      [Elem "DialogHeader" []
        [Elem "DialogTitle" [] [Text "Cài đặt"];
         Elem "DialogDescription" []
          [Text "Tùy chỉnh hiển thị và phím tắt. Tiến độ lưu trên trình duyệt."]];
       Elem "div" [className "space-y-3"]
        [Elem "div" [className "flex items-center justify-between gap-3 rounded-2xl border border-slate-200 bg-white px-4 py-3"]
          [Elem "div" []
            [Elem "div" [className "text-sm font-semibold"] [Text "Hiện ví dụ"];
             Elem "div" [className "text-xs text-slate-500"]
              [Text "Hiện các chữ ví dụ khi lật thẻ."]];
           Elem "Switch"
            [Flag "checked" (showExamples s);
             OnCheckedChange (patchSettings ShowExamples)]
            []];
         Elem "div" [className "flex items-center justify-between gap-3 rounded-2xl border border-slate-200 bg-white px-4 py-3"]
          [Elem "div" []
            [Elem "div" [className "text-sm font-semibold"] [Text "Hiện mẹo nhớ"];
             Elem "div" [className "text-xs text-slate-500"] [Text "Bật để thấy mẹo tượng hình."]];
           Elem "Switch"
            [Flag "checked" (showMnemonic s);
             OnCheckedChange (patchSettings ShowMnemonic)]
            []];
         Elem "div" [className "flex items-center justify-between gap-3 rounded-2xl border border-slate-200 bg-white px-4 py-3"]
          [Elem "div" []
            [Elem "div" [className "text-sm font-semibold"] [Text "Pinyin có dấu"];
             Elem "div" [className "text-xs text-slate-500"]
              [Text "Tắt để hiện pinyin không dấu."]];
           Elem "Switch"
            [Flag "checked" (toneMarks s);
             OnCheckedChange (patchSettings ToneMarks)]
            []];
         Elem "div" [className "flex items-center justify-between gap-3 rounded-2xl border border-slate-200 bg-white px-4 py-3"]
          [Elem "div" []
            [Elem "div" [className "text-sm font-semibold"] [Text "Xáo thẻ khi học"];
             Elem "div" [className "text-xs text-slate-500"]
              [Text "Chế độ Học sẽ random 60 thẻ."]];
           Elem "Switch"
            [Flag "checked" (shuffleLearn s);
             OnCheckedChange (patchSettings ShuffleLearn)]
            []];
         Elem "div" [className "flex items-center justify-between gap-3 rounded-2xl border border-slate-200 bg-white px-4 py-3"]
          [Elem "div" []
            [Elem "div" [className "text-sm font-semibold"] [Text "Phím tắt"];
             Elem "div" [className "text-xs text-slate-500"]
              [Text "Space lật thẻ, 1–4 chấm điểm."]];
           Elem "Switch"
            [Flag "checked" (keyboardShortcuts s);
             OnCheckedChange (patchSettings KeyboardShortcuts)]
            []];
         Elem "Separator" [] [];
         Elem "div" [className "rounded-2xl border border-slate-200 bg-white p-4"]
          [Elem "div" [className "text-sm font-semibold"] [Text "Đặt lại tiến độ"];
           Elem "div" [className "mt-1 text-xs text-slate-500"]
            [Text "Xóa Box, điểm đúng/sai, trạng thái đã học."];
           Elem "Button"
            [Str "variant" "destructive";
             className "mt-3 rounded-2xl";
             OnClick resetAll]
            [Text "Đặt lại"]]]]].

Definition TopBar {E : Type} (title subtitle : string) (right : list (Node E)) : Node E :=
  Elem "div" [className "flex flex-wrap items-center justify-between gap-3"]
    [Elem "div" []
      ([Elem "div" [className "text-xl font-semibold tracking-tight text-slate-900"] [Text title]]
       ++ when (nonempty subtitle)
        (Elem "div" [className "mt-1 text-sm text-slate-600"] [Text subtitle]));
     Elem "div" [className "flex items-center gap-2"] right].

Definition StatChip {E : Type} (label value : string) : Node E :=
  Elem "div" [className "rounded-2xl border border-slate-200 bg-white/80 px-3 py-2 text-sm shadow-sm"]
    [Elem "span" [className "text-slate-500"] [Text label];
     Elem "span" [className "mx-2 text-slate-300"] [Text "•"];
     Elem "span" [className "font-semibold text-slate-900"] [Text value]].

(** ** The handlers of the settings dialog *)

(** The five switches and the reset button. *)
Definition dialogHandlers {E : Type} (f : SettingField -> bool -> E) (r : E) (st : Settings) :
    list (Handler E) :=
  [HToggle (showExamples st) (f ShowExamples); HToggle (showMnemonic st) (f ShowMnemonic);
   HToggle (toneMarks st) (f ToneMarks); HToggle (shuffleLearn st) (f ShuffleLearn);
   HToggle (keyboardShortcuts st) (f KeyboardShortcuts); HClick r].

Section dialog.
Context {E : Type} (f : SettingField -> bool -> E) (r : E) (st : Settings).

Lemma SettingsDialog_handlers : handlers (SettingsDialog f r st) = dialogHandlers f r st.
Proof. done. Qed.

(** The dialog raises the event of a switch for some value, or the
    reset. *)
Lemma dialog_raises e : raises (dialogHandlers f r st) e -> (∃ fld v, e = f fld v) ∨ e = r.
Proof.
  unfold dialogHandlers. rewrite !raises_cons, raises_nil. cbn [fires].
  intros [Hf|[Hf|[Hf|[Hf|[Hf|[->|[]]]]]]]; [apply fires_toggle in Hf as [v ->]; eauto..|by right].
Qed.

Lemma dialog_raises_reset : raises (dialogHandlers f r st) r.
Proof. unfold dialogHandlers. rewrite !raises_cons. cbn [fires]. tauto. Qed.

(** A switch that shows a value raises the event of the other value. *)
Lemma dialog_raises_toggle b :
  showExamples st = Some b -> raises (dialogHandlers f r st) (f ShowExamples (negb b)).
Proof. intros Hb. unfold dialogHandlers. rewrite raises_cons, Hb. by left. Qed.
End dialog.

Lemma themeOf_known mode :
  mode ∈ ["learn"; "review"; "quiz"] -> MODE_META.lookup mode = Some (themeOf mode).
Proof.
  rewrite !elem_of_cons, elem_of_nil. unfold themeOf.
  by intros [->|[->|[->|[]]]].
Qed.
