(* ===== verification/View.v ===== *)
(** * View: the values the session displays

    What [StudySession] of [src/app/page.tsx] computes for its markup from
    the session state: the chip with the position in the deck
    ([index + 1] of [Session.total], which is [deck.length || 1]), the box
    chip ([pr.box || 1]), the progress bar
    ([pct = Math.round(((index + 1) / total) * 100)]) and the timer text
    ([timeStr], minutes, a colon and the seconds padded to two digits).

    [pct] is a computation on doubles: the quotient is rounded to a double,
    the product by 100 is rounded again, and [Math.round] takes the result
    to the nearest integer, halves upwards.  It is modelled with the
    binary64 numbers of the kernel ([PrimFloat], the same format
    and rounding mode as a JavaScript number), so the model evaluates to
    the digits the browser shows.  [percent_exact] is the same formula in
    exact arithmetic.

    The theorems: on every deck the program can build (1 to 60 cards) the
    bar shows between 2 and 100, grows with the index, shows 100 exactly
    on the last card, and is the exactly rounded percentage except at card
    23 of 40, where the double product is just below 57.5 and the bar shows
    57 instead of 58; the timer text has a two-digit seconds field and
    determines the number of seconds. *)

From Stdlib Require Import ZArith Lia.
From Corelib Require PrimFloat FloatOps Uint63Axioms.
From stdpp Require Import base tactics option list strings pretty gmap.
From S2P Require Import Prelude Clock Scheduler Catalog Random Store Deck Quiz Session Machine.

#[local] Open Scope Z_scope.

(** ** Numbers *)

(** A non-negative integer as a JavaScript number; exact below [2^53]. *)
Definition Number (n : nat) : PrimFloat.float :=
  PrimFloat.of_uint63 (Uint63Axioms.of_Z (Z.of_nat n)).

(** [Math.round]: the integer nearest to [x], the upper one when [x] is
    half way between two.  A finite double is [± m * 2^e] with integers
    [m] and [e]; the result is the floor of [x + 1/2], computed exactly.
    The program applies it to finite numbers only; on the other doubles
    the model returns 0. *)
Definition Math_round (x : PrimFloat.float) : Z :=
  match FloatOps.Prim2SF x with
  | SpecFloat.S754_finite s m e =>
      let n := if s then - Z.pos m else Z.pos m in
      if 0 <=? e then n * 2 ^ e
      else (2 * n + 2 ^ (- e)) / (2 * 2 ^ (- e))
  | _ => 0
  end.

(** ** The values of a render *)

(** [Math.round(((index + 1) / total) * 100)]. *)
Definition percent (index total : nat) : Z :=
  Math_round
    (PrimFloat.mul (PrimFloat.div (Number (index + 1)) (Number total)) (Number 100)).

Definition pct (s : Session) : Z := percent (index s) (total s).

(** The percentage in exact arithmetic, rounded to the nearest integer,
    halves upwards. *)
Definition percent_exact (index total : nat) : Z :=
  (200 * Z.of_nat (index + 1) + Z.of_nat total) / (2 * Z.of_nat total).

(** [str.padStart(target, pad)]: [pad] is repeated, and cut, to fill the
    [target - str.length] missing characters; nothing is added when the
    string is long enough or [pad] is empty. *)
Fixpoint fill (n : nat) (pad rest : string) : string :=
  match n with
  | O => ""
  | S n' =>
      match rest with
      | String c r => String c (fill n' pad r)
      | EmptyString =>
          match pad with
          | String c r => String c (fill n' pad r)
          | EmptyString => ""
          end
      end
  end.

Definition padStart (target : nat) (pad s : string) : string :=
  fill (target - String.length s) pad pad +:+ s.

(** [`${Math.floor(seconds / 60)}:${String(seconds % 60).padStart(2, "0")}`]. *)
Definition timeStr (seconds : nat) : string :=
  pretty (seconds / 60)%nat +:+ ":" +:+ padStart 2 "0" (pretty (seconds `mod` 60)%nat).

(** [`${index + 1}/${total}`], the chip "Thẻ". *)
Definition cardChip (s : Session) : string :=
  pretty (index s + 1)%nat +:+ "/" +:+ pretty (total s).

(** [pr.box || 1], the chip "Box". *)
Definition boxChip (pr : ProgressItem) : Z := (box pr || 1)%js.

(** ** Lemmas *)

Lemma total_deck s : deck s ≠ [] -> total s = length (deck s).
Proof. intros Hne. unfold total. by destruct (deck s). Qed.

Lemma total_pos s : (1 <= total s)%nat.
Proof. unfold total. destruct (length (deck s)); lia. Qed.

(** A deck without duplicates made of catalog identifiers has at most 60
    cards. *)
Lemma deck_ok_length s : deck_ok s -> (index s < length (deck s) <= 60)%nat.
Proof.
  intros (Hne & Hnd & Hsub & Hi). split; [done|].
  rewrite <- idsAll_length. apply submseteq_length, NoDup_submseteq; auto.
Qed.

(** What evaluation confirms for every position of every deck size. *)
Definition percent_row (t : nat) : Prop :=
  Forall (λ i : nat,
    percent i t = (if decide (i = 22%nat ∧ t = 40%nat) then 57 else percent_exact i t) ∧
    2 <= percent i t <= 100 ∧
    (percent i t = 100 <-> (i + 1)%nat = t) ∧
    ((i + 1 < t)%nat -> percent i t <= percent (i + 1) t)) (seq 0 t).

#[local] Instance percent_row_dec t : Decision (percent_row t).
Proof. unfold percent_row. apply _. Defined.

Lemma percent_rows t : (1 <= t <= 60)%nat -> percent_row t.
Proof. apply (ids_check percent_row). by vm_compute. Qed.

Lemma percent_table i t :
  (1 <= t <= 60)%nat -> (i < t)%nat ->
  percent i t = (if decide (i = 22%nat ∧ t = 40%nat) then 57 else percent_exact i t) ∧
  2 <= percent i t <= 100 ∧
  (percent i t = 100 <-> (i + 1)%nat = t) ∧
  ((i + 1 < t)%nat -> percent i t <= percent (i + 1) t).
Proof.
  intros Ht Hi. pose proof (percent_rows t Ht) as Hrow.
  unfold percent_row in Hrow. rewrite Forall_forall in Hrow.
  apply Hrow, elem_of_seq. lia.
Qed.

Lemma percent_mono t i j :
  (1 <= t <= 60)%nat -> (i <= j < t)%nat -> percent i t <= percent j t.
Proof.
  intros Ht [Hij Hj]. induction Hij as [|j Hij IH]; [done|].
  destruct (percent_table j t Ht ltac:(lia)) as (_ & _ & _ & Hstep).
  etrans; [apply IH; lia|]. replace (S j) with (j + 1)%nat by lia. apply Hstep. lia.
Qed.

(** Strings: a suffix of known length splits off in one way. *)
Lemma string_app_length s t : String.length (s +:+ t) = (String.length s + String.length t)%nat.
Proof. induction s as [|c s IH]; [done|]. simpl. by rewrite IH. Qed.

Lemma string_app_inj s1 s2 t1 t2 :
  String.length t1 = String.length t2 -> s1 +:+ t1 = s2 +:+ t2 -> s1 = s2 ∧ t1 = t2.
Proof.
  revert s2. induction s1 as [|c s1 IH]; intros [|c2 s2] Hl Heq.
  - done.
  - apply (f_equal String.length) in Heq. rewrite !string_app_length in Heq. simpl in Heq. lia.
  - apply (f_equal String.length) in Heq. rewrite !string_app_length in Heq. simpl in Heq. lia.
  - simpl in Heq. injection Heq as -> Heq. by destruct (IH s2 Hl Heq) as [-> ->].
Qed.

(** The seconds field: two characters, different for different seconds. *)
Definition field (k : nat) : string := padStart 2 "0" (pretty k).

Lemma field_length k : (k < 60)%nat -> String.length (field k) = 2%nat.
Proof.
  intros Hk. assert (Forall (λ k, String.length (field k) = 2%nat) (seq 0 60)) as Hall.
  { apply (bool_decide_unpack _). by vm_compute. }
  rewrite Forall_forall in Hall. apply Hall, elem_of_seq. lia.
Qed.

Lemma field_inj k1 k2 : (k1 < 60)%nat -> (k2 < 60)%nat -> field k1 = field k2 -> k1 = k2.
Proof.
  intros H1 H2 Heq. assert (NoDup (field <$> seq 0 60)) as Hnd.
  { apply (bool_decide_unpack _). by vm_compute. }
  apply (NoDup_lookup _ k1 k2 (field k1) Hnd); rewrite list_lookup_fmap, lookup_seq_lt by lia;
    cbn; by rewrite ?Heq.
Qed.

Lemma timeStr_eq seconds :
  timeStr seconds = pretty (seconds / 60)%nat +:+ ":" +:+ field (seconds `mod` 60).
Proof. done. Qed.

(** A stored state in which the cards 41 to 60 are due far in the future
    and the others have no record: a review session on it has 40 cards. *)
Definition forty_due : ProgressState :=
  {| byId := list_to_map ((λ i : nat, (i, freshItem 4102444800000)) <$> seq 41 20);
     settings := Some defaultSettings |}.

(** ** Properties *)

(** On every deck a session can hold (no duplicates, catalog
    identifiers, the index inside) the progress bar shows a whole number
    between 2 and 100, shows 100 exactly on the last card, and is the
    percentage [(index + 1) / total] rounded to the nearest integer, except
    on card 23 of a deck of 40, where it shows 57: the product of doubles is
    57.49999999999999 where the exact value is 57.5. *)
Theorem pct_in_session (s : Session) :
  deck_ok s ->
  2 <= pct s <= 100 ∧
  (pct s = 100 <-> (index s + 1)%nat = length (deck s)) ∧
  pct s = if decide (index s = 22%nat ∧ length (deck s) = 40%nat) then 57
          else percent_exact (index s) (length (deck s)).
Proof.
  intros Hok. destruct (deck_ok_length s Hok) as [Hi Hlen].
  unfold pct. rewrite total_deck by apply Hok.
  destruct (percent_table (index s) (length (deck s))) as (Heq & Hr & H100 & _); [lia..|].
  by rewrite <- Heq.
Qed.

Lemma pct_in_session_witness :
  2 <= pct (session started_world) <= 100 ∧
  (pct (session started_world) = 100 <->
   (index (session started_world) + 1)%nat = length (deck (session started_world))) ∧
  pct (session started_world) =
    if decide (index (session started_world) = 22%nat ∧
               length (deck (session started_world)) = 40%nat) then 57
    else percent_exact (index (session started_world)) (length (deck (session started_world))).
Proof. apply pct_in_session, (h_deck _ (inv_handled _ started_world_Inv)). Defined.

(** The deck on which the bar is off by one exists: a review on a state
    where 40 cards are due has 40 cards, and on its 23rd the bar shows 57
    where the rounded percentage is 58.  The bar never goes back while the
    index grows. *)
Theorem pct_card_23_of_40 :
  (buildDeck (H := fixed_zone 0) "review" forty_due None 0 (lcg 1)).1 = seq 1 40 ∧
  percent 22 40 = 57 ∧ percent_exact 22 40 = 58 ∧
  ∀ t i j, (1 <= t <= 60)%nat -> (i <= j < t)%nat -> percent i t <= percent j t.
Proof. split_and!; [by vm_compute.. | apply percent_mono]. Qed.

(** The timer text is the minutes, a colon and a two-digit seconds field;
    it has no hours, and two numbers of seconds never share a text. *)
Theorem timeStr_faithful (a b : nat) :
  (timeStr a = timeStr b <-> a = b) ∧
  String.length (timeStr a) = (String.length (pretty (a / 60)%nat) + 3)%nat ∧
  timeStr 0 = "0:00" ∧ timeStr 65 = "1:05" ∧ timeStr 3725 = "62:05".
Proof.
  pose proof (Nat.mod_upper_bound a 60 ltac:(lia)) as Ha.
  pose proof (Nat.mod_upper_bound b 60 ltac:(lia)) as Hb.
  split_and!; [split; [|by intros ->] | | by vm_compute..].
  - rewrite !timeStr_eq. intros Heq.
    apply string_app_inj in Heq as [Hm Hs%(string_app_inj ":" ":")].
    + apply (inj pretty) in Hm. destruct Hs as [_ Hs%field_inj]; [|done..].
      rewrite (Nat.div_mod_eq a 60), (Nat.div_mod_eq b 60). lia.
    + by rewrite !field_length.
    + rewrite !string_app_length, !field_length; done.
  - rewrite timeStr_eq, !string_app_length, field_length; done.
Qed.
