(* ===== verification/SessionView.v ===== *)
(** * SessionView: the markup of a study session

    What [StudySession] of [src/app/page.tsx] returns (lines 1000-1247): the
    bar with the back button and the three chips, the progress bar, the
    card (a button that flips it, or the quiz), the grade buttons and the
    side panel.  [sessionMarkup] is the tree, with the handlers as the
    events of [Machine]; [sessionView] evaluates it in a world as a render
    does, after the hooks.

    - [quiz.correct] is read when the quiz is revealed; without a question
      that read throws, which [sessionView] reports.  In the tree the text
      read is the parameter [answer].
    - [new Date(pr.due).toLocaleDateString()] is the text of a date in the
      locale of the browser: the interface [LocaleLib].

    The theorems: the events the tree offers are exactly the click events
    [Machine.offered] allows in the state shown; a card that is face down
    is drawn from its identifier and its glyph alone, and a quiz that is
    not revealed does not depend on which option is correct; in a world
    that satisfies the invariant of the session the view does not throw. *)

From Stdlib Require Import ZArith Lia.
From stdpp Require Import base tactics option list strings gmap pretty.
From S2P Require Import Prelude Clock Dom Catalog Text Store Quiz Session Machine Widgets View.

#[local] Open Scope Z_scope.

(** ** The interface to the locale *)

Class LocaleLib := {
    (** [new Date(due).toLocaleDateString()]; [due] may be undefined. *)
    toLocaleDateString : option Z -> string;
  }.

(** A locale that writes the instant in digits, for the examples. *)
Definition digits_locale : LocaleLib :=
  {| toLocaleDateString d := from_option pretty "Invalid Date" d |}.

(** ** The markup *)

Section markup.
Context `{TextLib} `{LocaleLib}.

(** The parts of the tree, inside out.  [theme], [settings], [card] and
    [pr] are the constants of the render; [s] holds the state of the
    hooks; [answer] is [quiz.correct]. *)

(** The answer, under the glyph of a card that is face up. *)
Definition answerPanel (settings : Settings) (card : Radical) : Node Event :=
  Elem "motion.div" [className "mt-6 space-y-3"]
    ([Elem "Separator" [] [];
     Elem "div" [className "grid gap-3 md:grid-cols-2"]
      [Elem "div" [className "rounded-2xl border border-slate-200 bg-sky-50/60 p-4"]
        [Elem "div" [className "text-xs text-slate-600"] [Text "Tên bộ (VN)"];
         Elem "div" [className "mt-1 text-lg font-semibold text-slate-900"] [Text (vn card)]];
       Elem "div" [className "rounded-2xl border border-slate-200 bg-violet-50/50 p-4"]
        [Elem "div" [className "text-xs text-slate-600"] [Text "Pinyin"];
         Elem "div" [className "mt-1 text-lg font-semibold text-slate-900"]
          [Text (formatPinyin card (toneMarks settings))]]];
     Elem "div" [className "rounded-2xl border border-slate-200 bg-amber-50/50 p-4"]
      [Elem "div" [className "text-xs text-slate-600"] [Text "Ý nghĩa"];
       Elem "div" [className "mt-1 text-slate-900"] [Text (meaning card)]]]
     ++ when (truthy (showMnemonic settings))
      (Elem "div" [className "rounded-2xl border border-slate-200 bg-emerald-50/40 p-4"]
        [Elem "div" [className "text-xs text-slate-600"] [Text "Mẹo nhớ"];
         Elem "div" [className "mt-1 text-slate-900"] [Text (mnemonic card)]])
     ++ when (truthy (showExamples settings))
      (Elem "div" [className "rounded-2xl border border-slate-200 bg-slate-50 p-4"]
        [Elem "div" [className "text-xs text-slate-600"] [Text "Ví dụ"];
         Elem "div" [className "mt-2 flex flex-wrap gap-2"]
          ((λ e,
              Elem "Badge" [className "rounded-2xl border border-slate-200 bg-white text-base text-slate-800"]
                [Text e])
            <$> examples card)])).

(** The card of the modes "learn" and "review": a button that flips it. *)
Definition cardFace (theme : Theme) (settings : Settings) (card : Radical)
  (pr : ProgressItem) (s : Session) : Node Event :=
  Elem "button" [OnClick ClickCard; className "w-full text-left"]
    [Elem "div" [className "flex items-start justify-between gap-4"]
      [Elem "div" []
        [Elem "div" [className "text-sm text-slate-600"] [Text "Bộ thủ"];
         Elem "div" [className "mt-2 text-5xl md:text-6xl font-semibold tracking-wide text-slate-900"]
          [Text (radical card)];
         Elem "div" [className "mt-3 text-sm text-slate-600"]
          [Text (if flipped s then "Đáp án" else "Tự nhớ: tên VN, pinyin, ý nghĩa")]];
       Elem "div" [className "hidden md:block"]
        [Elem "Badge" [className ("rounded-2xl border " +:+ chip theme)]
          [Text "Box "; Text (pretty (boxChip pr))]]];
     Elem "AnimatePresence" []
      (when (flipped s)
        (answerPanel settings card))].

(** One option of the quiz. *)
Definition optionButton (s : Session) (answer opt : string) : Node Event :=
  let picked := bool_decide (quizChoice s = Some opt) in
  let correct := quizReveal s && bool_decide (opt = answer) in
  let wrong := quizReveal s && picked && negb (bool_decide (opt = answer)) in
  Elem "button"
    [OnClick (ClickOption opt);
     className ("rounded-2xl border p-3 text-left transition " +:+ (if picked && negb (quizReveal s) then "border-slate-300 bg-white" else "border-slate-200 bg-white") +:+ (if correct then " border-emerald-200 bg-emerald-50" else "") +:+ (if wrong then " border-rose-200 bg-rose-50" else ""))]
    [Elem "div" [className "flex items-center justify-between gap-3"]
      ([Elem "div" [className "text-sm md:text-base text-slate-900"] [Text opt]]
       ++ when correct
        (Elem "CheckCircle2" [className "h-5 w-5 text-emerald-600"] []))].

(** The card of the mode "quiz": the options, then the button that
    submits the choice or the answer and the button to the next card. *)
Definition quizPanel (theme : Theme) (card : Radical) (s : Session) (answer : string) :
  Node Event :=
  Elem "div" [className "space-y-4"]
    [Elem "div" []
      [Elem "div" [className "text-sm text-slate-600"] [Text "Bộ thủ"];
       Elem "div" [className "mt-2 text-5xl md:text-6xl font-semibold tracking-wide text-slate-900"]
        [Text (radical card)]];
     Elem "div" [className "rounded-2xl border border-slate-200 bg-slate-50 p-4"]
      [Elem "div" [className "text-sm text-slate-800"] [Text "Chọn ý nghĩa gần đúng nhất"];
       Elem "div" [className "mt-3 grid gap-2"]
        (optionButton s answer <$> from_option Quiz.options [] (quiz s))];
     if negb (quizReveal s)
      then
        Elem "Button"
          [className ("rounded-2xl " +:+ solid theme);
           Flag "disabled" (Some (bool_decide (quizChoice s = None)));
           OnClick ClickSubmit]
          [Text "Nộp"]
      else
        Elem "div" [className "space-y-2"]
          [Elem "div" [className "text-sm text-slate-600"] [Text "Đáp án đúng"];
           Elem "div" [className "font-semibold text-slate-900"] [Text answer];
           Elem "Button" [className ("rounded-2xl " +:+ solid theme); OnClick ClickNext]
            [Text "Tiếp"]]].

(** Under the card: the button that shows the answer, or the grades. *)
Definition gradeBar (theme : Theme) (settings : Settings) (s : Session) : Node Event :=
  Elem "div" [className "mt-4"]
    [if negb (flipped s)
      then
        Elem "div" [className "flex flex-wrap items-center gap-2"]
          ([Elem "Button" [className ("rounded-2xl " +:+ solid theme); OnClick ClickShow]
            [Text "Hiện đáp án"]]
           ++ when (truthy (keyboardShortcuts settings))
            (Elem "div" [className "text-sm text-slate-600"]
              [SmallKbd [Text "Space"]; Text " để lật"]))
      else
        Elem "div" [className "grid gap-2 md:grid-cols-4"]
          ([Elem "Button"
            [Str "variant" "secondary";
             className "rounded-2xl bg-white hover:bg-slate-50";
             OnClick (ClickGrade 1)]
            [Text "1 Again"];
           Elem "Button"
            [Str "variant" "secondary";
             className "rounded-2xl bg-white hover:bg-slate-50";
             OnClick (ClickGrade 2)]
            [Text "2 Hard"];
           Elem "Button" [className ("rounded-2xl " +:+ solid theme); OnClick (ClickGrade 3)]
            [Text "3 Good"];
           Elem "Button" [className ("rounded-2xl " +:+ solid theme); OnClick (ClickGrade 4)]
            [Text "4 Easy"]]
           ++ when (truthy (keyboardShortcuts settings))
            (Elem "div" [className "md:col-span-4 mt-2 text-sm text-slate-600"]
              [Text "Phím tắt: ";
               SmallKbd [Text "1"];
               Text " ";
               SmallKbd [Text "2"];
               Text " ";
               SmallKbd [Text "3"];
               Text " ";
               SmallKbd [Text "4"];
               Elem "span" [className "mx-2"] [Text "•"];
               SmallKbd [Text "Esc"];
               Text " để thoát"]))].

(** The panel beside the card. *)
Definition sidePanel (theme : Theme) (pr : ProgressItem) : Node Event :=
  Elem "Card" [className "rounded-2xl shadow-sm border-slate-200 bg-white/80"]
    [Elem "CardHeader" [className "space-y-2"]
      [Elem "CardTitle" [className "flex items-center gap-2 text-lg"]
        [Elem "Timer" [className ("h-5 w-5 " +:+ icon theme)] []; Text "Thông tin"];
       Elem "div" [className "text-sm text-slate-600"]
        [Text "Nhẹ, tập trung, nhưng có màu để dễ nhìn hơn."]];
     Elem "CardContent" [className "space-y-3"]
      [Elem "div" [className "rounded-2xl border border-slate-200 bg-white p-4"]
        [Elem "div" [className "text-sm text-slate-600"] [Text "Hạn ôn"];
         Elem "div" [className "mt-1 text-base font-semibold text-slate-900"]
          [Text (toLocaleDateString (due pr))]];
       Elem "div" [className "rounded-2xl border border-slate-200 bg-white p-4"]
        [Elem "div" [className "text-sm text-slate-600"] [Text "Thống kê thẻ này"];
         Elem "div" [className "mt-2 flex flex-wrap gap-2"]
          [Elem "Badge" [className "rounded-2xl border border-slate-200 bg-emerald-50 text-emerald-700"]
            [Text "Đúng: "; Text (pretty (Store.correct pr || 0)%js)];
           Elem "Badge" [className "rounded-2xl border border-slate-200 bg-rose-50 text-rose-700"]
            [Text "Sai: "; Text (pretty (wrong pr || 0)%js)];
           Elem "Badge" [className "rounded-2xl border border-slate-200 bg-slate-50 text-slate-700"]
            [Text "Learned: "; Text (if truthy (learned pr) then "Yes" else "No")]]];
       Elem "div" [className "rounded-2xl border border-slate-200 bg-white p-4"]
        [Elem "div" [className "text-sm text-slate-600"] [Text "Mẹo dùng nhanh"];
         Elem "div" [className "mt-2 space-y-2 text-sm text-slate-800"]
          [Elem "div" [className "flex items-center gap-2"]
            [Elem "KeyRound" [className "h-4 w-4 text-slate-600"] [];
             Elem "span" []
              [SmallKbd [Text "Space"]; Text " lật, "; SmallKbd [Text "1–4"]; Text " chấm"]];
           Elem "div" [className "flex items-center gap-2"]
            [Elem "RefreshCcw" [className "h-4 w-4 text-slate-600"] [];
             Elem "span" [] [Text "Nếu ôn hết vòng, hệ thống quay lại thẻ đầu"]]]]]].

(** The tree [StudySession] returns. *)
Definition sessionMarkup (theme : Theme) (settings : Settings) (card : Radical)
  (pr : ProgressItem) (s : Session) (answer : string) : Node Event :=
  Elem "div" [className "space-y-4"]
    [Elem "div" [className "flex flex-wrap items-center justify-between gap-2"]
      [Elem "div" [className "flex items-center gap-2"]
        [Elem "Button"
          [Str "variant" "secondary";
           className "rounded-2xl gap-2 bg-white/70 hover:bg-white";
           OnClick ClickBack]
          [Elem "ArrowLeft" [className "h-4 w-4"] []; Text "Quay lại"];
         Elem "Badge" [className ("rounded-2xl border " +:+ chip theme)] [Text (label theme)]];
       Elem "div" [className "flex items-center gap-2"]
        [StatChip "Thẻ" (cardChip s);
         StatChip "Box" (pretty (boxChip pr));
         StatChip "Time" (timeStr (seconds s))]];
     Elem "div" [className "rounded-2xl border border-slate-200 bg-white/70 p-2"]
      [Elem "Progress" [Str "value" (pretty (pct s))] []];
     Elem "div" [className "grid gap-4 lg:grid-cols-[1fr_360px]"]
      [Elem "Card" [className "rounded-2xl shadow-sm overflow-hidden border-slate-200 bg-white/80"]
        [Elem "CardHeader" [className "space-y-2"]
          [Elem "CardTitle" [className "flex items-center justify-between gap-3 text-lg"]
            [Elem "span" [className "flex items-center gap-2"]
              [Elem "Sparkles" [className ("h-5 w-5 " +:+ icon theme)] [];
               Text (if isQuiz s then "Chọn đáp án" else "Flashcard")];
             Elem "Badge"
              [Str "variant" "outline";
               className "rounded-2xl border-slate-200 text-slate-700"]
              [Text "ID "; Text (pretty (id card))]];
           Elem "div" [className "text-sm text-slate-600"]
            [Text (if isQuiz s then "Bộ thủ → Ý nghĩa" else "Space để lật, 1–4 để chấm")]];
         Elem "CardContent" [className "p-4"]
          ([Elem "motion.div" [className ("relative rounded-3xl border border-slate-200 bg-gradient-to-b from-white to-slate-50 p-6 md:p-10 ring-1 " +:+ ring theme)]
            [if negb (isQuiz s)
              then
                cardFace theme settings card pr s
              else
                quizPanel theme card s answer]]
           ++ when (negb (isQuiz s))
            (gradeBar theme settings s))];
       sidePanel theme pr]].

(** The render: the constants, then the tree. *)
Definition sessionView `{DateLib} (now : Z) (w : World) : outcome (Node Event) :=
  match settings (progress (store w)) with
  | None => Thrown TypeError
  | Some st =>
      let s := session w in
      let card := currentCard s in
      let pr := currentRecord now (progress (store w)) card in
      match quiz s with
      | None =>
          if isQuiz s && quizReveal s then Thrown TypeError
          else Returned (sessionMarkup (themeOf (mode s)) st card pr s EmptyString)
      | Some qz => Returned (sessionMarkup (themeOf (mode s)) st card pr s (Quiz.correct qz))
      end
  end.

End markup.

(** ** The events of the markup *)

(** The click events of a render, in document order. *)
Definition sessionClicks (s : Session) : list Event :=
  ClickBack ::
  if isQuiz s then
    (ClickOption <$> from_option Quiz.options [] (quiz s)) ++
    (if quizReveal s then [ClickNext]
     else match quizChoice s with None => [] | Some _ => [ClickSubmit] end)
  else ClickCard :: (if flipped s then ClickGrade <$> [1; 2; 3; 4] else [ClickShow]).

(** The events a handler of the markup raises, as opposed to those of the
    keyboard, the timer and the settings dialog. *)
Definition isClick (e : Event) : bool :=
  match e with
  | KeyDown _ | Tick | SetSetting _ _ | ClickReset => false
  | _ => true
  end.

(** A card with the identifier and the glyph of [card] and nothing else. *)
Definition front (card : Radical) : Radical :=
  {| id := id card; vn := EmptyString; radical := radical card; pinyin := EmptyString;
     meaning := EmptyString; mnemonic := EmptyString; examples := [] |}.

(** ** Lemmas: the handlers of each part *)

Section handlers.
Context `{TextLib} `{LocaleLib}.

Lemma answerPanel_handlers st card : handlers (answerPanel st card) = [].
Proof.
  unfold answerPanel. destruct (truthy (showMnemonic st)), (truthy (showExamples st)); try done.
  all: cbn; by rewrite handlers_fmap_nil.
Qed.

Lemma cardFace_handlers th st card pr s :
  handlers (cardFace th st card pr s) = [HClick ClickCard].
Proof.
  unfold cardFace. destruct (flipped s); [|done].
  cbn -[answerPanel]. by rewrite answerPanel_handlers.
Qed.

Lemma optionButton_handlers s ans opt :
  handlers (optionButton s ans opt) = [HClick (ClickOption opt)].
Proof. unfold optionButton. by destruct (quizReveal s && bool_decide (opt = ans)). Qed.

Lemma quizPanel_handlers th card s ans :
  handlers (quizPanel th card s ans) =
  HClick <$> ((ClickOption <$> from_option Quiz.options [] (quiz s)) ++
    (if quizReveal s then [ClickNext]
     else match quizChoice s with None => [] | Some _ => [ClickSubmit] end)).
Proof.
  unfold quizPanel. rewrite fmap_app, <- list_fmap_compose.
  destruct (quizReveal s), (quizChoice s); cbn -[optionButton].
  all: rewrite (handlers_fmap_single _ _ _ (optionButton_handlers s ans)); by rewrite ?app_nil_r.
Qed.

Lemma gradeBar_handlers th st s :
  handlers (gradeBar th st s) =
  HClick <$> (if flipped s then ClickGrade <$> [1; 2; 3; 4] else [ClickShow]).
Proof. unfold gradeBar. by destruct (flipped s), (truthy (keyboardShortcuts st)). Qed.

Lemma sidePanel_handlers th pr : handlers (sidePanel th pr) = [].
Proof. done. Qed.

(** Every handler of the markup is a click, and the clicks are
    [sessionClicks]. *)
Lemma sessionMarkup_handlers th st card pr s ans :
  handlers (sessionMarkup th st card pr s ans) = HClick <$> sessionClicks s.
Proof.
  unfold sessionMarkup, sessionClicks. destruct (isQuiz s).
  all: cbn -[cardFace quizPanel gradeBar sidePanel].
  all: rewrite ?cardFace_handlers, ?quizPanel_handlers, ?gradeBar_handlers, ?sidePanel_handlers.
  all: by rewrite ?app_nil_r.
Qed.

Lemma optionButton_hidden s ans ans' (opts : list string) :
  quizReveal s = false -> optionButton s ans <$> opts = optionButton s ans' <$> opts.
Proof.
  intros Hr. apply list_fmap_ext. intros _ opt _. unfold optionButton. by rewrite Hr.
Qed.

Lemma quizPanel_hidden th card card' s ans ans' :
  quizReveal s = false -> radical card = radical card' ->
  quizPanel th card s ans = quizPanel th card' s ans'.
Proof.
  intros Hr Hrad. unfold quizPanel.
  by rewrite Hr, Hrad, (optionButton_hidden s ans ans').
Qed.
End handlers.

Lemma grade_elem g : ClickGrade g ∈ ClickGrade <$> [1; 2; 3; 4] <-> 1 <= g <= 4.
Proof.
  rewrite list_elem_of_fmap. split.
  - intros (x & [= ->] & Hx). rewrite !elem_of_cons, elem_of_nil in Hx. lia.
  - intros Hg. exists g. split; [done|]. rewrite !elem_of_cons. lia.
Qed.

Lemma sessionClicks_spec s e : e ∈ sessionClicks s <-> isClick e = true ∧ offered e s = true.
Proof.
  unfold sessionClicks, offered.
  destruct (isQuiz s), (flipped s), (quizReveal s), (quizChoice s), e; cbn [isClick negb andb].
  all: rewrite ?elem_of_cons, ?elem_of_app, ?grade_elem, ?list_elem_of_fmap, ?elem_of_cons.
  all: rewrite ?elem_of_nil, ?andb_true_iff, ?bool_decide_eq_true, ?is_Some_alt.
  all: clear; firstorder congruence.
Qed.

Lemma sessionMarkup_raises `{TextLib} `{LocaleLib} th st card pr s ans e :
  raises (handlers (sessionMarkup th st card pr s ans)) e <->
  isClick e = true ∧ offered e s = true.
Proof.
  rewrite <- sessionClicks_spec. apply offers_clicks, sessionMarkup_handlers.
Qed.

(** ** Theorems *)

Section theorems.
Context `{TextLib} `{LocaleLib} `{DateLib}.

(** C20: the controls of the session markup raise exactly the click events
  the machine allows in the state shown: the back button always, the
  card and the show button or the four grades outside the quiz, the
  options of the question and the submit button (once an option is
  chosen) or the next button in the quiz. *)
Theorem sessionMarkup_offers th st card pr s ans e :
  offers (sessionMarkup th st card pr s ans) e <-> isClick e = true ∧ offered e s = true.
Proof. apply sessionMarkup_raises. Qed.

(** C27: a card that is face down shows nothing of its answer: the tree is
  the same for any two cards with the same identifier and glyph,
  whatever their names, pinyin, meanings, mnemonics and examples. *)
Theorem face_down_hides_answer th st st' card card' pr s ans ans' :
  isQuiz s = false -> flipped s = false ->
  id card = id card' -> radical card = radical card' ->
  keyboardShortcuts st = keyboardShortcuts st' ->
  sessionMarkup th st card pr s ans = sessionMarkup th st' card' pr s ans'.
Proof.
intros Hq Hf Hid Hr Hk. unfold sessionMarkup, cardFace, gradeBar.
by rewrite Hq, Hf, Hid, Hr, Hk.
Qed.

(** A question that is not revealed shows its options and not which
  of them is correct: the tree does not depend on [quiz.correct], nor on
  the answer fields of the card. *)
Theorem quiz_hides_answer th st st' card card' pr s ans ans' :
  isQuiz s = true -> quizReveal s = false ->
  id card = id card' -> radical card = radical card' ->
  sessionMarkup th st card pr s ans = sessionMarkup th st' card' pr s ans'.
Proof.
intros Hq Hr Hid Hrad. unfold sessionMarkup.
by rewrite Hq, Hid, (quizPanel_hidden th card card' s ans ans').
Qed.

(** In a world that satisfies the invariant of the session the
  render does not throw: the settings are there, and in the quiz the
  question is. *)
Theorem sessionView_returns now w :
  Inv w ->
  sessionView now w =
  Returned (sessionMarkup (themeOf (mode (session w)))
    (default emptySettings (settings (progress (store w))))
    (currentCard (session w))
    (currentRecord now (progress (store w)) (currentCard (session w)))
    (session w) (from_option Quiz.correct EmptyString (quiz (session w)))).
Proof.
intros Hw. unfold sessionView.
destruct (wf_progress_settings _ (h_wf _ (inv_handled _ Hw))) as (st & -> & _). cbn [default].
pose proof (Inv_quiz w Hw) as Hquiz. unfold isQuiz.
case_decide as Hm; [destruct Hquiz as (q & -> & _); done|].
rewrite Hquiz. by rewrite bool_decide_eq_false_2.
Qed.

End theorems.

(** ** The theorems at concrete inputs *)

Lemma face_down_hides_answer_witness :
  sessionMarkup (H0 := digits_locale) MODE_META.learn defaultSettings (findCard 7)
    (freshItem 0) (setFlipped false (session sample_world)) "nữ" =
  sessionMarkup (H0 := digits_locale) MODE_META.learn defaultSettings (front (findCard 7))
    (freshItem 0) (setFlipped false (session sample_world)) EmptyString.
Proof. by apply face_down_hides_answer. Defined.

Lemma quiz_hides_answer_witness :
  sessionMarkup (H0 := digits_locale) MODE_META.quiz defaultSettings (findCard 7)
    (freshItem 0) (session started_world) "nữ" =
  sessionMarkup (H0 := digits_locale) MODE_META.quiz defaultSettings (front (findCard 7))
    (freshItem 0) (session started_world) EmptyString.
Proof. apply quiz_hides_answer; by vm_compute. Defined.

Lemma sessionView_returns_witness :
  sessionView (H0 := digits_locale) (H1 := fixed_zone 0) 0 started_world =
  Returned (sessionMarkup (H0 := digits_locale) (themeOf (mode (session started_world)))
    (default emptySettings (settings (progress (store started_world))))
    (currentCard (session started_world))
    (currentRecord (H := fixed_zone 0) 0 (progress (store started_world))
       (currentCard (session started_world)))
    (session started_world)
    (from_option Quiz.correct EmptyString (quiz (session started_world)))).
Proof. apply sessionView_returns, started_world_Inv. Defined.
