(* ===== verification/ListPage.v ===== *)
(** * ListPage: the list of the radicals and its search

    [ManageList] of [src/app/page.tsx] (lines 1251-1346): a search box, the
    rows that match it and a badge with their number.  The state of the
    component is the text [q] of the search box; [listMemo q] are the rows,
    filtered with [Text.normalize] and [Text.includes] (the memo [list] of the
    source is [listMemo] here, [list] being the type of lists); [ManageList] is the
    tree, whose events are [SetQ] (typing) and [Back].

    The theorems hold for every string library ([TextLib]) unless they
    name the instance of the Latin tables: the rows are entries of the
    table in the order of the table; an empty or blank search shows all
    sixty; a row is shown exactly when the folded search text occurs in
    the folded text of the row; a search that contains another finds no
    more than it; the tree offers the two events and its badge counts its
    rows.  With the Latin tables the search finds a name written without
    its tone and vowel marks, but not a name that starts with Đ when it is
    written with D. *)

From Stdlib Require Import ZArith Lia.
From stdpp Require Import base tactics option list strings gmap sets pretty.
From S2P Require Import Prelude Dom Catalog Text Store Machine Widgets View.

(** ** State and events *)

Inductive ListEvent : Type :=
  | SetQ (v : string)
  | Back.

(** [useState("")] *)
Definition initialQ : string := EmptyString.

(** [setQ(e.target.value)] and [onBack]: the text of the box, or [None]
    when the page is left. *)
Definition listHandle (e : ListEvent) (q : string) : option string :=
  match e with
  | SetQ v => Some v
  | Back => None
  end.

(** ** The rows *)

(** [arr.join(sep)] *)
Fixpoint join (sep : string) (l : list string) : string :=
  match l with
  | [] => EmptyString
  | [x] => x
  | x :: rest => x +:+ sep +:+ join sep rest
  end.

(** [[r.vn, r.radical, r.pinyin, r.meaning, r.examples.join(" ")].join(" ")] *)
Definition haystack (r : Radical) : string :=
  join " " [vn r; radical r; pinyin r; meaning r; join " " (examples r)].

Section list.
Context `{TextLib}.

(** The callback of [RADICALS.filter]. *)
Definition matches (qq : string) (r : Radical) : bool :=
  if negb (nonempty qq) then true
  else includes (normalize (haystack r)) qq.

(** The memo [list]: [RADICALS.filter(...)]. *)
Definition listMemo (q : string) : list Radical :=
  let qq := normalize q in
  filter (matches qq) RADICALS.

End list.

(** ** The markup *)

(** [progress.byId[r.id] || { box: 1, learned: false }] *)
Definition listRecord (p : ProgressState) (r : Radical) : ProgressItem :=
  default {| box := Some 1%Z; learned := Some false; correct := None; wrong := None;
             lastReviewed := None; due := None |}
    (byId p !! id r).

(** One row. *)
Definition listRow (p : ProgressState) (r : Radical) : Node ListEvent :=
  let pr := listRecord p r in
  Elem "div" [className ("rounded-2xl border border-slate-200 bg-white p-3 " +:+ (if truthy (learned pr) then "ring-1 ring-emerald-100" else ""))]
    [Elem "div" [className "flex flex-wrap items-start justify-between gap-3"]
      [Elem "div" []
        [Elem "div" [className "text-sm font-semibold text-slate-900"]
          [Text (pretty (id r));
           Text ". ";
           Text (vn r);
           Text " ";
           Elem "span" [className "ml-2 font-semibold"] [Text (radical r)]];
         Elem "div" [className "mt-1 text-sm text-slate-600"]
          [Text (pinyin r); Text " • "; Text (meaning r)];
         Elem "div" [className "mt-2 flex flex-wrap gap-2"]
          ((λ e,
              Elem "Badge" [className "rounded-2xl border border-slate-200 bg-slate-50 text-slate-700"]
                [Text e])
            <$> take 5 (examples r))];
       Elem "div" [className "flex items-center gap-2"]
        [Elem "Badge" [className "rounded-2xl border border-slate-200 bg-white text-slate-700"]
          [Text "Box "; Text (pretty (boxChip pr))];
         Elem "Badge" [className ("rounded-2xl border " +:+ (if truthy (learned pr) then "border-emerald-200 bg-emerald-50 text-emerald-700" else "border-slate-200 bg-slate-50 text-slate-700"))]
          [Text (if truthy (learned pr) then "Đã học" else "Chưa")]]]].

(** The tree [ManageList] returns. *)
Definition ManageList `{TextLib} (p : ProgressState) (q : string) : Node ListEvent :=
  Elem "div" [className "space-y-4"]
    [TopBar
      "Danh sách 60 bộ thủ"
      "Tìm nhanh theo bộ thủ, pinyin, ý nghĩa, ví dụ"
      [Elem "Button"
        [Str "variant" "secondary";
         className "rounded-2xl gap-2 bg-white/70 hover:bg-white";
         OnClick Back]
        [Elem "ArrowLeft" [className "h-4 w-4"] []; Text "Quay lại"]];
     Elem "div" [className "relative"]
      [Elem "Input"
        [Str "value" q;
         OnChange SetQ;
         Str "placeholder" "Tìm… (vd: 氵, shuǐ, nước, 路)";
         className "rounded-2xl bg-white/80"]
        []];
     Elem "Card" [className "rounded-2xl shadow-sm border-slate-200 bg-white/80"]
      [Elem "CardHeader" [className "space-y-2"]
        [Elem "CardTitle" [className "flex items-center justify-between gap-3 text-lg"]
          [Elem "span" [className "flex items-center gap-2"]
            [Elem "BookOpen" [className "h-5 w-5 text-sky-700"] []; Text "Tất cả"];
           Elem "Badge" [className "rounded-2xl border border-slate-200 bg-slate-50 text-slate-700"]
            [Text (pretty (length (listMemo q))); Text "/60"]]];
       Elem "CardContent" [className "max-h-[560px] overflow-auto"]
        [Elem "div" [className "space-y-2"] (listRow p <$> listMemo q)]]].

(** ** Lemmas *)

Lemma filter_all {A} (P : A -> Prop) `{!∀ x, Decision (P x)} (l : list A) :
  Forall P l -> filter P l = l.
Proof.
  induction 1 as [|x l Hx _ IH]; [done|]. by rewrite filter_cons, decide_True, IH.
Qed.

Section list_lemmas.
Context `{TextLib}.

Lemma matches_spec qq r :
  matches qq r = true <->
  qq = EmptyString ∨ ∃ a b, normalize (haystack r) = a +:+ qq +:+ b.
Proof.
  unfold matches. destruct qq as [|c qq]; cbn [nonempty negb]; [by split; eauto|].
  rewrite includes_spec. split; [eauto | by intros [|]].
Qed.

Lemma listMemo_elem q r : r ∈ listMemo q <-> r ∈ RADICALS ∧ matches (normalize q) r = true.
Proof. unfold listMemo. rewrite list_elem_of_filter, Is_true_true. tauto. Qed.

(** A search text that contains another matches no more rows. *)
Lemma matches_mono qq qq' r :
  includes qq' qq = true -> matches qq' r = true -> matches qq r = true.
Proof.
  intros Hin. rewrite !matches_spec. intros [->|(a & b & Hr)].
  - left. by apply includes_in_empty.
  - right. apply includes_spec. apply (includes_trans _ qq'); [|done].
    apply includes_spec. eauto.
Qed.

Lemma listRow_handlers p r : handlers (listRow p r) = [].
Proof. unfold listRow. cbn. by rewrite handlers_fmap_nil. Qed.

Lemma ManageList_handlers p q : handlers (ManageList p q) = [HClick Back; HInput SetQ].
Proof.
  unfold ManageList. cbn -[listRow listMemo].
  by rewrite (handlers_fmap_nil _ _ (listRow_handlers p)).
Qed.
End list_lemmas.

(** ** Theorems *)

Section list_theorems.
Context `{TextLib}.

(** C22: the rows of the list are entries of the table, in the order of
  the table, and an entry is a row exactly when the folded search text
  is empty or occurs in the folded text of the entry (its name, glyph,
  pinyin, meaning and examples, separated by blanks). *)
Theorem listMemo_shows q :
  listMemo q `sublist_of` RADICALS ∧
  ∀ r, r ∈ listMemo q <->
       r ∈ RADICALS ∧
       (normalize q = EmptyString ∨
        ∃ a b, normalize (haystack r) = a +:+ normalize q +:+ b).
Proof.
split; [apply sublist_filter|]. intros r. by rewrite listMemo_elem, matches_spec.
Qed.

(** A search text that folds to the empty string, as the text of the
  box when the page opens does, shows all sixty entries. *)
Theorem listMemo_blank q : normalize q = EmptyString -> listMemo q = RADICALS.
Proof.
intros Hq. unfold listMemo. rewrite Hq. apply filter_all, Forall_forall. by intros r _.
Qed.

(** Typing more narrows the list: when the folded text of a search
  contains the folded text of another, its rows are rows of the other. *)
Theorem listMemo_narrows q q' :
  includes (normalize q') (normalize q) = true -> listMemo q' ⊆ listMemo q.
Proof.
intros Hin r. rewrite !listMemo_elem. intros [Hr Hm]. split; [done|].
by apply (matches_mono _ (normalize q')).
Qed.

(** The tree of the list page offers the back button and the typing
  of any text, and nothing else; its badge shows the number of its
  rows. *)
Theorem ManageList_offers p q e :
  offers (ManageList p q) e ∧
  pretty (length (listMemo q)) ∈ texts (ManageList p q) ∧
  length (handlers (ManageList p q)) = 2%nat.
Proof.
unfold offers, raises. rewrite ManageList_handlers. split_and!; [|cbn; set_solver|done].
destruct e as [v|].
- exists (HInput SetQ). split; [set_solver | by exists v].
- exists (HClick Back). split; [set_solver | done].
Qed.

End list_theorems.


(** ** The theorems at concrete inputs *)

Lemma listMemo_blank_witness : listMemo initialQ = RADICALS.
Proof. apply listMemo_blank, normalize_empty. Defined.

Lemma listMemo_narrows_witness : listMemo "nhân" ⊆ listMemo "Nh".
Proof. apply listMemo_narrows. by vm_compute. Defined.
