(* ===== verification/Trace.v ===== *)
(** * Trace: sequences of events

    The browser dispatches the events of a session one at a time, each
    handler followed by the render it causes.  [run] is that loop over a
    list of events with the clock reading of each; an event the current
    markup does not offer cannot be dispatched and is skipped, and the run
    ends when a handler asks to leave the session.

    The theorems follow the rounds of a session through [run]: every trace
    returns and ends in a state that satisfies the invariant; the keyboard
    shortcuts do what the buttons do; a quiz round changes the stored
    progress only when the user proceeds, by a Good or an Again; a card
    answered Good, Good, Good, Easy ends in box 5, due in 14 days.  One
    theorem records where the shortcuts and the buttons part: after a reset
    made while a card is face up, a digit key grades with the record the
    listener captured before the reset. *)

From Stdlib Require Import ZArith Lia.
From stdpp Require Import base tactics option list strings gmap relations.
From S2P Require Import Prelude Clock Scheduler Catalog Random Store Deck Quiz Session Machine.

#[local] Open Scope Z_scope.

(** ** The event loop *)

Fixpoint run `{DateLib} `{JsonLib} (es : list (Z * Event)) (w : World) : outcome (World * bool) :=
  match es with
  | [] => Returned (w, false)
  | (now, e) :: es' =>
      if offered e (session w) then
        (try! r := step now e w in
         if r.2 then Returned r else run es' r.1)%js
      else run es' w
  end.

(** The snapshot the keyboard effect takes of a render. *)
Definition snapshot `{DateLib} (now : Z) (kb : option bool) (w : World) : KeyListener :=
  {| k_enabled := truthy kb; k_flipped := flipped (session w);
     k_card := currentCard (session w);
     k_pr := currentRecord now (progress (store w)) (currentCard (session w));
     k_deckLength := length (deck (session w)) |}.

(** ** Lemmas: one render *)

Section render.
Context `{DateLib} `{JsonLib}.
Implicit Types (w : World) (s : Session) (now : Z) (e : Event).

(** A handler that asks to leave has changed nothing. *)
Lemma handle_exit now e w w' : handle now e w = Returned (w', true) -> w' = w.
Proof.
  destruct e; simpl; try by intros [= <-].
  - unfold nextQuiz. by destruct (quiz (session w)).
  - unfold onKey. intros [= Hk]. revert Hk.
    repeat (case_decide || case_match); by intros [= <-].
Qed.

Lemma step_exit now e w w' : step now e w = Returned (w', true) -> w' = w.
Proof.
  unfold step. destruct (handle now e w) as [[w1 x]|] eqn:Hh; [|done].
  cbn [outcome_bind snd fst]. destruct x.
  - intros [= <-]. by apply (handle_exit now e).
  - by destruct (render now w1).
Qed.

(** With the shuffle setting unchanged a render is the quiz memo followed
    by the keyboard effect. *)
Lemma render_eq now w st :
  settings (progress (store w)) = Some st ->
  lastShuffle (session w) = Some (shuffleLearn st) ->
  render now w = Returned (registerKeys now (keyboardShortcuts st) (memoQuiz w)).
Proof.
  intros Hs Hl. unfold render. rewrite Hs.
  destruct (memoQuiz_fields w) as (_ & _ & _ & _ & _ & _ & _ & _ & Hls & _).
  by rewrite decide_True by by rewrite Hls.
Qed.

(** The keyboard effect runs when the card was turned since the listener
    was registered, and takes a snapshot of the render. *)
Lemma registerKeys_fresh now kb w :
  k_flipped (listener (session w)) ≠ flipped (session w) ->
  listener (session (registerKeys now kb w)) = snapshot now kb w.
Proof.
  intros Hf. unfold registerKeys. rewrite decide_False; [done|]. by intros (_ & ? & _).
Qed.

(** It does not run when its dependencies are what they were. *)
Lemma registerKeys_kept now kb w :
  k_enabled (listener (session w)) = truthy kb ->
  k_flipped (listener (session w)) = flipped (session w) ->
  k_card (listener (session w)) = currentCard (session w) ->
  registerKeys now kb w = w.
Proof. intros He Hf Hc. unfold registerKeys. rewrite decide_True; [done|]. by rewrite Hc. Qed.

(** The record of a card of the table does not depend on the clock when
    the progress is well formed: the fallback record is not used. *)
Lemma currentRecord_now now now' p card :
  wf_progress p = true -> card ∈ RADICALS ->
  currentRecord now p card = currentRecord now' p card.
Proof.
  intros Hwf Hc.
  destruct (currentRecord_wf now p card Hwf Hc) as [H1 _].
  destruct (currentRecord_wf now' p card Hwf Hc) as [H2 _]. congruence.
Qed.
(** What a render without the deck effect leaves as it was. *)
Lemma rendered_fields now kb w :
  let w' := registerKeys now kb (memoQuiz w) in
  store w' = store w ∧ deck (session w') = deck (session w) ∧
  index (session w') = index (session w) ∧ mode (session w') = mode (session w) ∧
  flipped (session w') = flipped (session w) ∧
  quizChoice (session w') = quizChoice (session w) ∧
  quizReveal (session w') = quizReveal (session w) ∧
  lastShuffle (session w') = lastShuffle (session w) ∧
  currentCard (session w') = currentCard (session w).
Proof.
  cbv zeta.
  destruct (registerKeys_fields now kb (memoQuiz w))
    as (-> & Hd & Hi & -> & -> & -> & -> & _ & _ & -> & _).
  destruct (memoQuiz_fields w) as (-> & Hd' & Hi' & -> & -> & -> & -> & _ & -> & _).
  split_and!; try done; try congruence.
  apply currentCard_ext; congruence.
Qed.

(** One step when the handler leaves the shuffle setting alone. *)
Lemma step_eq now e w wh st :
  handle now e w = Returned (wh, false) ->
  settings (progress (store wh)) = Some st ->
  lastShuffle (session wh) = Some (shuffleLearn st) ->
  step now e w = Returned (registerKeys now (keyboardShortcuts st) (memoQuiz wh), false).
Proof.
  intros Hh Hs Hl. unfold step. rewrite Hh. cbn [outcome_bind snd fst].
  by rewrite (render_eq now wh st).
Qed.

(** The settings a state of the invariant has, and what the deck effect
    and the keyboard effect last saw of them. *)
Lemma Inv_settings w :
  Inv w ->
  exists st, settings (progress (store w)) = Some st ∧
             lastShuffle (session w) = Some (shuffleLearn st) ∧
             k_enabled (listener (session w)) = truthy (keyboardShortcuts st).
Proof.
  intros Hw. destruct (wf_progress_settings _ (h_wf w (inv_handled w Hw))) as (st & Hs & _).
  exists st. split_and!; [done | |].
  - by rewrite (inv_shuffle w Hw), Hs.
  - by rewrite (inv_key_enabled w Hw), Hs.
Qed.

(** *** The keyboard listener *)

Lemma gradeOfKey_Some key g :
  gradeOfKey key = Some g ->
  1 <= g <= 4 ∧ key ≠ "Escape"%string ∧ key ≠ " "%string.
Proof. unfold gradeOfKey. repeat case_decide; intros [= <-]; by subst. Qed.

Lemma onKey_space now w :
  k_enabled (listener (session w)) = true -> mode (session w) ≠ "quiz"%string ->
  onKey now " " w = (withSession showAnswer w, false).
Proof. intros He Hm. unfold onKey. rewrite He. simpl. by rewrite decide_False. Qed.

Lemma onKey_digit now key g w :
  k_enabled (listener (session w)) = true -> mode (session w) ≠ "quiz"%string ->
  k_flipped (listener (session w)) = true -> gradeOfKey key = Some g ->
  onKey now key w =
  (gradeWith now (k_pr (listener (session w))) (k_card (listener (session w)))
     (k_deckLength (listener (session w))) g w, false).
Proof.
  intros He Hm Hf Hk. destruct (gradeOfKey_Some key g Hk) as (_ & Hesc & Hsp).
  unfold onKey. rewrite He, Hf, Hk. simpl. by rewrite !decide_False.
Qed.

(** A listener that holds the record of the current card grades as the
    buttons do. *)
Lemma gradeWith_listener now now' g w :
  Inv w -> k_flipped (listener (session w)) = true ->
  k_pr (listener (session w)) =
    currentRecord now' (progress (store w)) (currentCard (session w)) ->
  gradeWith now (k_pr (listener (session w))) (k_card (listener (session w)))
    (k_deckLength (listener (session w))) g w = grade now g w.
Proof.
  intros Hw Hf Hpr. unfold grade.
  rewrite Hpr, (inv_key_card w Hw), (Inv_key_deck w Hw Hf).
  by rewrite (currentRecord_now now' now) by (apply Hw || apply currentCard_in_table).
Qed.
End render.

(** ** Lemmas: traces *)

Section traces.
Context `{DateLib} `{JsonLib}.
Implicit Types (w : World) (now : Z) (e : Event) (es : list (Z * Event)).

Lemma run_cons now e es w :
  offered e (session w) = true ->
  run ((now, e) :: es) w =
  (try! r := step now e w in if r.2 then Returned r else run es r.1)%js.
Proof. intros Ho. simpl. by rewrite Ho. Qed.

Lemma run_step now e es w w' :
  offered e (session w) = true -> step now e w = Returned (w', false) ->
  run ((now, e) :: es) w = run es w'.
Proof. intros Ho Hs. by rewrite run_cons, Hs. Qed.

(** A trace in two parts: the second part runs from where the first ended,
    unless the first left the session. *)
Lemma run_app es1 es2 w :
  run (es1 ++ es2) w =
  (try! r := run es1 w in if r.2 then Returned r else run es2 r.1)%js.
Proof.
  revert w. induction es1 as [|[now e] es1 IH]; intros w; [done|].
  simpl. destruct (offered e (session w)); [|apply IH].
  destruct (step now e w) as [[w' x]|]; [|done]. cbn [outcome_bind snd fst].
  destruct x; [done | apply IH].
Qed.

Lemma run_app_Returned es1 es2 w w' :
  run es1 w = Returned (w', false) -> run (es1 ++ es2) w = run es2 w'.
Proof. intros Hr. by rewrite run_app, Hr. Qed.

(** Every trace from a state of the invariant returns, in a state of the
    invariant. *)
Lemma run_Inv es w : Inv w -> exists w' x, run es w = Returned (w', x) ∧ Inv w'.
Proof.
  revert w. induction es as [|[now e] es IH]; intros w Hw; [by exists w, false|].
  simpl. destruct (offered e (session w)) eqn:Ho; [|by apply IH].
  destruct (step_Inv now e w Hw Ho) as (w' & x & Hs & Hi). rewrite Hs.
  cbn [outcome_bind snd fst]. destruct x; [|by apply IH, Hi].
  apply step_exit in Hs as ->. by exists w, true.
Qed.
End traces.

(** ** Lemmas: the steps of a round *)

Section rounds.
Context `{DateLib} `{JsonLib}.
Implicit Types (w : World) (now : Z) (e : Event) (g : Z) (old : ProgressItem).

Lemma offered_show w :
  mode (session w) ≠ "quiz"%string -> flipped (session w) = false ->
  offered ClickShow (session w) = true.
Proof. intros Hm Hf. unfold offered, isQuiz. by rewrite Hf, bool_decide_eq_false_2. Qed.

Lemma offered_grade g w :
  mode (session w) ≠ "quiz"%string -> flipped (session w) = true -> 1 <= g <= 4 ->
  offered (ClickGrade g) (session w) = true.
Proof.
  intros Hm Hf Hg. unfold offered, isQuiz.
  by rewrite Hf, bool_decide_eq_false_2, bool_decide_eq_true_2.
Qed.

(** Showing the answer: the card is face up, nothing stored changes, and
    the keyboard listener is registered again, with the record of the
    card. *)
Lemma step_show now w :
  Inv w -> mode (session w) ≠ "quiz"%string -> flipped (session w) = false ->
  exists w1,
    step now ClickShow w = Returned (w1, false) ∧ Inv w1 ∧ store w1 = store w ∧
    deck (session w1) = deck (session w) ∧ index (session w1) = index (session w) ∧
    mode (session w1) = mode (session w) ∧ flipped (session w1) = true ∧
    currentCard (session w1) = currentCard (session w) ∧
    k_flipped (listener (session w1)) = true ∧
    k_pr (listener (session w1)) =
      currentRecord now (progress (store w)) (currentCard (session w)).
Proof.
  intros Hw Hm Hf. destruct (Inv_settings w Hw) as (st & Hs & Hl & He).
  pose proof (step_eq now ClickShow w (withSession showAnswer w) st eq_refl Hs Hl) as Hstep.
  destruct (step_Inv now ClickShow w Hw (offered_show w Hm Hf)) as (w1 & x & Hs1 & Hi).
  rewrite Hstep in Hs1. injection Hs1 as <- <-.
  eexists. split; [exact Hstep|]. split; [by apply Hi|].
  destruct (rendered_fields now (keyboardShortcuts st) (withSession showAnswer w))
    as (-> & -> & -> & -> & -> & _ & _ & _ & ->).
  rewrite registerKeys_fresh.
  - destruct (memoQuiz_fields (withSession showAnswer w)) as (Hst & _ & _ & _ & Hfl & _).
    split_and!; try done. cbn [snapshot k_pr]. by rewrite Hst, memoQuiz_card.
  - destruct (memoQuiz_fields (withSession showAnswer w))
      as (_ & _ & _ & _ & -> & _ & _ & _ & _ & ->).
    cbn. by rewrite (inv_key_flipped w Hw), Hf.
Qed.

(** A step whose handler is [grade(g)]: the record of the card is
    replaced by the patch, the other records and the settings stay, the
    card is face down and the index has moved on. *)
Lemma step_graded now e g w old :
  Inv w -> offered e (session w) = true ->
  handle now e w = Returned (grade now g w, false) ->
  byId (progress (store w)) !! id (currentCard (session w)) = Some old ->
  exists w2,
    step now e w = Returned (w2, false) ∧ Inv w2 ∧
    progress (store w2) =
      patchId (id (currentCard (session w))) (gradePatch now old g) (progress (store w)) ∧
    deck (session w2) = deck (session w) ∧ mode (session w2) = mode (session w) ∧
    index (session w2) = nextIndex (length (deck (session w))) (index (session w)) ∧
    flipped (session w2) = false ∧ quizChoice (session w2) = None ∧
    quizReveal (session w2) = false.
Proof.
  intros Hw Ho Hh Hold. destruct (Inv_settings w Hw) as (st & Hs & Hl & He).
  pose proof (step_eq now e w (grade now g w) st Hh Hs Hl) as Hstep.
  destruct (step_Inv now e w Hw Ho) as (w2 & x & Hs2 & Hi).
  rewrite Hstep in Hs2. injection Hs2 as <- <-.
  eexists. split; [exact Hstep|]. split; [by apply Hi|].
  destruct (rendered_fields now (keyboardShortcuts st) (grade now g w))
    as (-> & -> & -> & -> & -> & -> & -> & _).
  split_and!; try done. unfold grade. rewrite gradeWith_progress. do 2 f_equal.
  destruct (currentRecord_wf now _ _ (h_wf w (inv_handled w Hw))
              (currentCard_in_table (session w))) as [Hcur _].
  congruence.
Qed.

(** One round of a flashcard: show the answer, then grade. *)
Lemma flash_round ts tg g w old :
  Inv w -> mode (session w) ≠ "quiz"%string -> flipped (session w) = false ->
  1 <= g <= 4 ->
  byId (progress (store w)) !! id (currentCard (session w)) = Some old ->
  exists w2,
    run [(ts, ClickShow); (tg, ClickGrade g)] w = Returned (w2, false) ∧ Inv w2 ∧
    progress (store w2) =
      patchId (id (currentCard (session w))) (gradePatch tg old g) (progress (store w)) ∧
    deck (session w2) = deck (session w) ∧ mode (session w2) = mode (session w) ∧
    index (session w2) = nextIndex (length (deck (session w))) (index (session w)) ∧
    flipped (session w2) = false.
Proof.
  intros Hw Hm Hf Hg Hold.
  destruct (step_show ts w Hw Hm Hf)
    as (w1 & Hs1 & Hw1 & Hst & Hd & Hi & Hm1 & Hf1 & Hc & _).
  assert (offered (ClickGrade g) (session w1) = true) as Ho
    by (apply offered_grade; [by rewrite Hm1 | done..]).
  destruct (step_graded tg (ClickGrade g) g w1 old Hw1 Ho eq_refl)
    as (w2 & Hs2 & Hw2 & Hp & Hd2 & Hm2 & Hi2 & Hf2 & _); [by rewrite Hst, Hc|].
  exists w2. rewrite (run_step ts ClickShow _ w w1) by auto using offered_show.
  rewrite (run_step tg (ClickGrade g) _ w1 w2) by done.
  rewrite Hp, Hd2, Hm2, Hi2, Hst, Hc, Hd, Hi, Hm1. done.
Qed.
(** The round on a deck of one card: the same card comes back. *)
Lemma one_card_round ts tg g es w i old :
  Inv w -> mode (session w) ≠ "quiz"%string -> flipped (session w) = false ->
  1 <= g <= 4 -> deck (session w) = [i] ->
  byId (progress (store w)) !! i = Some old ->
  exists w2,
    run ((ts, ClickShow) :: (tg, ClickGrade g) :: es) w = run es w2 ∧ Inv w2 ∧
    mode (session w2) ≠ "quiz"%string ∧ flipped (session w2) = false ∧
    deck (session w2) = [i] ∧
    byId (progress (store w2)) !! i = Some (gradePatch tg old g).
Proof.
  intros Hw Hm Hf Hg Hd Hold.
  assert (id (currentCard (session w)) = i) as Hc.
  { destruct (h_deck w (inv_handled w Hw)) as (_ & _ & Hsub & Hi). rewrite Hd in Hi, Hsub.
    assert (index (session w) = 0%nat) as Hi0 by (simpl in Hi; lia).
    apply currentCard_lookup; [by rewrite Hd, Hi0|].
    apply idsAll_elem, Hsub. by left. }
  destruct (flash_round ts tg g w old Hw Hm Hf Hg) as (w2 & Hr & Hw2 & Hp & Hd2 & Hm2 & _ & Hf2);
    [by rewrite Hc|].
  exists w2. split_and!; try done; try congruence.
  - by apply (run_app_Returned [_; _]).
  - by rewrite Hp, Hc, patchId_lookup_eq, gradePatch_full.
Qed.

Lemma gradePatch_box now old g b :
  box old = Some b -> 1 <= b -> box (gradePatch now old g) = Some (applyGrade b g).
Proof. intros Hb Hpos. unfold gradePatch. cbn [box]. by rewrite Hb, num_or_Some by lia. Qed.
(** The record a round leaves for the card it graded. *)
Lemma flash_round_record ts tg g w old :
  Inv w -> mode (session w) ≠ "quiz"%string -> flipped (session w) = false ->
  1 <= g <= 4 ->
  byId (progress (store w)) !! id (currentCard (session w)) = Some old ->
  exists w2,
    run [(ts, ClickShow); (tg, ClickGrade g)] w = Returned (w2, false) ∧ Inv w2 ∧
    byId (progress (store w2)) !! id (currentCard (session w)) = Some (gradePatch tg old g).
Proof.
  intros Hw Hm Hf Hg Hold.
  destruct (flash_round ts tg g w old Hw Hm Hf Hg Hold) as (w2 & Hr & Hw2 & Hp & _).
  exists w2. split_and!; [done..|]. by rewrite Hp, patchId_lookup_eq, gradePatch_full.
Qed.

(** The box a stored record of a state of the invariant holds. *)
Lemma Inv_box w i old b :
  Inv w -> (1 <= i <= 60)%nat -> byId (progress (store w)) !! i = Some old ->
  box old = Some b -> 1 <= b <= 5.
Proof.
  intros Hw Hi Hold Hb.
  destruct (wf_progress_lookup _ i (h_wf w (inv_handled w Hw)) Hi) as (it & Hit & Hwf).
  rewrite Hold in Hit. injection Hit as <-.
  apply wf_item_iff in Hwf as (b' & _ & _ & _ & _ & Hb' & _ & _ & _ & _ & ? & _).
  congruence.
Qed.

Lemma due_gradePatch now old g b :
  box old = Some b -> 1 <= b ->
  due (gradePatch now old g) =
  Some (addDays (todayStart now) (intervalByBox (applyGrade b g))).
Proof. intros Hb Hpos. unfold gradePatch. cbn [due]. by rewrite Hb, num_or_Some by lia. Qed.
(** The reset, with default settings in force before it: the progress is
    the fresh one and no effect runs, so the keyboard listener stays the
    one registered before. *)
Lemma step_reset now w st :
  Inv w -> settings (progress (store w)) = Some st ->
  shuffleLearn st = Some false -> keyboardShortcuts st = Some true ->
  mode (session w) ≠ "quiz"%string ->
  exists w2,
    step now ClickReset w = Returned (w2, false) ∧ Inv w2 ∧
    progress (store w2) = emptyProgress now ∧
    listener (session w2) = listener (session w) ∧
    mode (session w2) = mode (session w) ∧ flipped (session w2) = flipped (session w) ∧
    currentCard (session w2) = currentCard (session w).
Proof.
  intros Hw Hs Hsh Hkb Hm. destruct (Inv_settings w Hw) as (st' & Hs' & Hl & He).
  assert (st' = st) as -> by congruence.
  assert (lastShuffle (session (withStore (setProgress (resetAll now)) w)) =
          Some (shuffleLearn defaultSettings)) as Hl' by (cbn; by rewrite Hl, Hsh).
  pose proof (step_eq now ClickReset w (withStore (setProgress (resetAll now)) w)
                defaultSettings eq_refl eq_refl Hl') as Hstep.
  rewrite memoQuiz_flash, registerKeys_kept in Hstep; try done.
  - destruct (step_Inv now ClickReset w Hw eq_refl) as (w2 & x & Hs2 & Hi).
    rewrite Hstep in Hs2. injection Hs2 as <- <-.
    eexists. split; [exact Hstep|]. split; [by apply Hi|]. done.
  - cbn. by rewrite He, Hkb.
  - cbn. apply Hw.
  - cbn. apply Hw.
Qed.

(** A digit key on a card that is face up: the record of the card becomes
    the patch computed from the record the listener holds. *)
Lemma step_key_grade now key g w :
  Inv w -> mode (session w) ≠ "quiz"%string -> flipped (session w) = true ->
  truthy (settings (progress (store w)) ≫= keyboardShortcuts) = true ->
  gradeOfKey key = Some g ->
  exists w3,
    step now (KeyDown key) w = Returned (w3, false) ∧ Inv w3 ∧
    byId (progress (store w3)) !! id (currentCard (session w)) =
      Some (gradePatch now (k_pr (listener (session w))) g).
Proof.
  intros Hw Hm Hf Hkb Hk. destruct (Inv_settings w Hw) as (st & Hs & Hl & He).
  assert (handle now (KeyDown key) w =
          Returned (gradeWith now (k_pr (listener (session w))) (k_card (listener (session w)))
                      (k_deckLength (listener (session w))) g w, false)) as Hh.
  { cbn [handle]. rewrite (onKey_digit now key g); try done.
    - by rewrite (inv_key_enabled w Hw).
    - by rewrite (inv_key_flipped w Hw). }
  pose proof (step_eq now (KeyDown key) w _ st Hh Hs Hl) as Hstep.
  destruct (step_Inv now (KeyDown key) w Hw eq_refl) as (w3 & x & Hs3 & Hi).
  rewrite Hstep in Hs3. injection Hs3 as <- <-.
  eexists. split; [exact Hstep|]. split; [by apply Hi|].
  destruct (rendered_fields now (keyboardShortcuts st)
              (gradeWith now (k_pr (listener (session w))) (k_card (listener (session w)))
                 (k_deckLength (listener (session w))) g w)) as (-> & _).
  rewrite <- (inv_key_card w Hw). apply gradeWith_lookup.
Qed.

(** In quiz mode a handler that only touches the selection causes no
    effect: the memo and the listener stay. *)
Lemma step_selection now e f w :
  Inv w -> mode (session w) = "quiz"%string ->
  handle now e w = Returned (withSession f w, false) ->
  deck (f (session w)) = deck (session w) ∧ index (f (session w)) = index (session w) ∧
  mode (f (session w)) = mode (session w) ∧ flipped (f (session w)) = flipped (session w) ∧
  lastCardId (f (session w)) = lastCardId (session w) ∧
  lastShuffle (f (session w)) = lastShuffle (session w) ∧
  listener (f (session w)) = listener (session w) ->
  step now e w = Returned (withSession f w, false).
Proof.
  intros Hw Hm Hh (Hd & Hi & Hmf & Hf & Hlc & Hls & Hl).
  destruct (Inv_settings w Hw) as (st & Hs & Hsh & He).
  rewrite (step_eq now e w _ st Hh Hs) by (cbn; congruence).
  assert (currentCard (f (session w)) = currentCard (session w)) as Hc
    by by apply currentCard_ext.
  assert (memoQuiz (withSession f w) = withSession f w) as ->.
  { unfold memoQuiz. cbn [session withSession]. rewrite Hmf, Hlc, Hc.
    by rewrite !decide_True by (done || apply Hw). }
  rewrite registerKeys_kept; [done|cbn [session withSession]; rewrite Hl, ?Hf, ?Hc..].
  - done.
  - apply Hw.
  - apply Hw.
Qed.

End rounds.

(** ** Properties *)

Section properties.
Context `{DateLib} `{JsonLib}.
Implicit Types (w : World) (now : Z) (e : Event) (g : Z) (old : ProgressItem).

(** C18: no trace crashes.  A session mounted on a well-formed store starts,
    and every sequence of events, at any clock readings, returns: no
    handler and no render throws, and the state the trace ends in satisfies
    the invariant of the session. *)
Theorem session_runs (now : Z) (m : string) (st : Store) (rg : Rng) (es : list (Z * Event)) :
  wf_progress (progress st) = true ->
  exists w0 w x,
    startSession now m st rg = Returned w0 ∧ run es w0 = Returned (w, x) ∧ Inv w.
Proof.
  intros Hwf. destruct (startSession_Inv now m st rg Hwf) as (w0 & Hs & Hw0).
  destruct (run_Inv es w0 Hw0) as (w & x & Hr & Hw). by exists w0, w, x.
Qed.

(** The keyboard shortcuts are the buttons.  With shortcuts enabled,
    on a card that is face down outside quiz mode, the space key followed
    by a digit key 1..4 leaves the session in the state the button "show
    answer" followed by the grade button of that digit leaves it in. *)
Theorem keys_as_buttons (ts tg : Z) (key : string) (g : Z) (w : World) :
  Inv w -> mode (session w) ≠ "quiz"%string -> flipped (session w) = false ->
  truthy (settings (progress (store w)) ≫= keyboardShortcuts) = true ->
  gradeOfKey key = Some g ->
  run [(ts, KeyDown " "); (tg, KeyDown key)] w =
  run [(ts, ClickShow); (tg, ClickGrade g)] w.
Proof.
  intros Hw Hm Hf Hkb Hk. destruct (gradeOfKey_Some key g Hk) as (Hg & _).
  assert (step ts (KeyDown " ") w = step ts ClickShow w) as Hsame.
  { unfold step. cbn [handle]. rewrite onKey_space; [done| |done].
    by rewrite (inv_key_enabled w Hw). }
  destruct (step_show ts w Hw Hm Hf)
    as (w1 & Hs1 & Hw1 & Hst & _ & _ & Hm1 & Hf1 & Hc & Hkf & Hpr).
  rewrite (run_step ts (KeyDown " ") _ w w1), (run_step ts ClickShow _ w w1);
    [|by auto using offered_show..|done|by rewrite Hsame].
  rewrite !run_cons by (done || apply offered_grade; congruence). f_equal.
  unfold step. cbn [handle].
  rewrite (onKey_digit tg key g), (gradeWith_listener tg ts); try done; try congruence.
  by rewrite (inv_key_enabled w1 Hw1), Hst.
Qed.

(** The ladder, end to end.  A card in box 1 that is alone in its deck
    and is answered Good, Good, Good, Easy through the buttons ends in box
    5, learned, with four more correct answers and no more wrong ones, last
    reviewed at the time of the last answer and due 14 days after the
    start of that day. *)
Theorem good_good_good_easy (ts t1 t2 t3 t4 : Z) (w : World) (i : nat) (old : ProgressItem) :
  Inv w -> mode (session w) ≠ "quiz"%string -> flipped (session w) = false ->
  deck (session w) = [i] ->
  byId (progress (store w)) !! i = Some old -> box old = Some 1 ->
  exists w',
    run [(ts, ClickShow); (t1, ClickGrade 3); (ts, ClickShow); (t2, ClickGrade 3);
         (ts, ClickShow); (t3, ClickGrade 3); (ts, ClickShow); (t4, ClickGrade 4)] w
      = Returned (w', false) ∧
    byId (progress (store w')) !! i =
      Some {| box := Some 5; learned := Some true;
              correct := Some ((correct old || 0)%js + 4);
              wrong := Some (wrong old || 0)%js;
              lastReviewed := Some t4;
              due := Some (addDays (todayStart t4) 14) |}.
Proof.
  intros Hw Hm Hf Hd Hold Hb.
  destruct (one_card_round ts t1 3 [(ts, ClickShow); (t2, ClickGrade 3); (ts, ClickShow);
              (t3, ClickGrade 3); (ts, ClickShow); (t4, ClickGrade 4)] w i old)
    as (w1 & -> & Hw1 & Hm1 & Hf1 & Hd1 & Ho1); [done || lia..|].
  destruct (one_card_round ts t2 3 [(ts, ClickShow); (t3, ClickGrade 3); (ts, ClickShow);
              (t4, ClickGrade 4)] w1 i _ Hw1 Hm1 Hf1 ltac:(lia) Hd1 Ho1)
    as (w2 & -> & Hw2 & Hm2 & Hf2 & Hd2 & Ho2).
  destruct (one_card_round ts t3 3 [(ts, ClickShow); (t4, ClickGrade 4)] w2 i _
              Hw2 Hm2 Hf2 ltac:(lia) Hd2 Ho2)
    as (w3 & -> & Hw3 & Hm3 & Hf3 & Hd3 & Ho3).
  destruct (one_card_round ts t4 4 [] w3 i _ Hw3 Hm3 Hf3 ltac:(lia) Hd3 Ho3)
    as (w4 & -> & Hw4 & _ & _ & _ & Ho4).
  exists w4. split; [done|]. rewrite Ho4. unfold gradePatch.
  cbn [box learned correct wrong lastReviewed due]. rewrite Hb. autorewrite with js.
  cbn. rewrite !orb_true_r. do 2 f_equal; f_equal; lia.
Qed.
(** C29: when a graded card comes back.  After a card is shown and graded
    at time [tg], it is among the due cards of a later day exactly when
    that day has reached the start of the day of the answer plus the
    interval of the box the card moved to.  So a card answered Again is due
    at once, and a card answered Good or Easy is not due any more on the
    day of the answer. *)
Theorem graded_card_due_again (ts tg now' g : Z) (w : World) (old : ProgressItem) (b : Z) :
  Inv w -> mode (session w) ≠ "quiz"%string -> flipped (session w) = false ->
  1 <= g <= 4 ->
  byId (progress (store w)) !! id (currentCard (session w)) = Some old ->
  box old = Some b ->
  exists w2,
    run [(ts, ClickShow); (tg, ClickGrade g)] w = Returned (w2, false) ∧
    (id (currentCard (session w)) ∈ dueIds (progress (store w2)) (todayStart now') <->
     addDays (todayStart tg) (intervalByBox (applyGrade b g)) <= todayStart now') ∧
    (g = 1 -> tg <= now' ->
     id (currentCard (session w)) ∈ dueIds (progress (store w2)) (todayStart now')) ∧
    (3 <= g -> todayStart now' <= todayStart tg ->
     id (currentCard (session w)) ∉ dueIds (progress (store w2)) (todayStart now')).
Proof.
  intros Hw Hm Hf Hg Hold Hb.
  pose proof (currentCard_id_range (session w)) as Hid.
  pose proof (Inv_box w _ old b Hw Hid Hold Hb) as Hrange.
  destruct (flash_round_record ts tg g w old Hw Hm Hf Hg Hold) as (w2 & Hr & _ & Hnew).
  assert (id (currentCard (session w)) ∈ dueIds (progress (store w2)) (todayStart now') <->
          addDays (todayStart tg) (intervalByBox (applyGrade b g)) <= todayStart now') as Hiff.
  { rewrite elem_of_dueIds, Hnew. cbn [mbind option_bind].
    rewrite (due_gradePatch tg old g b) by (done || lia). cbn [default]. tauto. }
  exists w2. split_and!; [done..| |].
  - intros -> Hle. apply Hiff. change (intervalByBox (applyGrade b 1)) with 0.
    rewrite addDays_0. by apply todayStart_mono.
  - intros Hg3 Hle Hin%Hiff.
    pose proof (applyGrade_bounds b g ltac:(lia)) as Hnb.
    assert (1 <= intervalByBox (applyGrade b g)) as Hn by sched.
    pose proof (addDays_lt (todayStart tg) (intervalByBox (applyGrade b g)) ltac:(lia)). lia.
Qed.
(** Where the keys and the buttons part.  The keyboard effect lists
    [settings.keyboardShortcuts, flipped, mode, card.id] as dependencies,
    not the progress.  When the progress is reset while a card is face up
    (with the default settings in force), the listener is not registered
    again: a digit key then grades with the record captured before the
    reset, while the button grades with the fresh record.  The record of
    the card after the key carries the counters of before the reset. *)
Theorem reset_leaves_listener_stale (ts tr tg : Z) (w : World) (st : Settings)
    (old : ProgressItem) :
  Inv w -> mode (session w) ≠ "quiz"%string -> flipped (session w) = false ->
  settings (progress (store w)) = Some st ->
  shuffleLearn st = Some false -> keyboardShortcuts st = Some true ->
  byId (progress (store w)) !! id (currentCard (session w)) = Some old ->
  exists wk wb,
    run [(ts, ClickShow); (tr, ClickReset); (tg, KeyDown "3")] w = Returned (wk, false) ∧
    run [(ts, ClickShow); (tr, ClickReset); (tg, ClickGrade 3)] w = Returned (wb, false) ∧
    byId (progress (store wk)) !! id (currentCard (session w)) =
      Some (gradePatch tg old 3) ∧
    byId (progress (store wb)) !! id (currentCard (session w)) =
      Some (gradePatch tg (freshItem (todayStart tr)) 3) ∧
    ((correct old || 0)%js ≠ 0 ->
     byId (progress (store wk)) !! id (currentCard (session w)) ≠
     byId (progress (store wb)) !! id (currentCard (session w))).
Proof.
  intros Hw Hm Hf Hs Hsh Hkb Hold.
  destruct (step_show ts w Hw Hm Hf)
    as (w1 & Hs1 & Hw1 & Hst1 & _ & _ & Hm1 & Hf1 & Hc1 & _ & Hpr).
  destruct (step_reset tr w1 st Hw1) as (w2 & Hs2 & Hw2 & Hp2 & Hl2 & Hm2 & Hf2 & Hc2);
    [congruence..|].
  assert (byId (progress (store w2)) !! id (currentCard (session w2)) =
          Some (freshItem (todayStart tr))) as Hfresh.
  { rewrite Hp2, emptyProgress_lookup. apply decide_True, currentCard_id_range. }
  destruct (step_key_grade tg "3" 3 w2 Hw2) as (wk & Hsk & _ & Hk); [congruence.. | by rewrite Hp2 | done |].
  destruct (step_graded tg (ClickGrade 3) 3 w2 _ Hw2
              ltac:(apply offered_grade; [congruence.. | lia]) eq_refl Hfresh)
    as (wb & Hsb & _ & Hb & _).
  assert (k_pr (listener (session w2)) = old) as Hstale.
  { rewrite Hl2, Hpr.
    destruct (currentRecord_wf ts _ _ (h_wf w (inv_handled w Hw))
                (currentCard_in_table (session w))) as [Hcur _]. congruence. }
  rewrite Hc2, Hc1, Hstale in Hk.
  assert (byId (progress (store wb)) !! id (currentCard (session w)) =
          Some (gradePatch tg (freshItem (todayStart tr)) 3)) as Hb'
    by (by rewrite Hb, Hc2, Hc1, patchId_lookup_eq, gradePatch_full).
  exists wk, wb. split_and!; [| |done..|].
  - by rewrite (run_step ts ClickShow _ w w1), (run_step tr ClickReset _ w1 w2),
      (run_step tg (KeyDown "3") _ w2 wk) by auto using offered_show.
  - rewrite (run_step ts ClickShow _ w w1), (run_step tr ClickReset _ w1 w2),
      (run_step tg (ClickGrade 3) _ w2 wb); auto using offered_show.
    apply offered_grade; [congruence.. | lia].
  - intros Hc. rewrite Hk, Hb'. intros [= _ _ Heq _]. lia.
Qed.
(** C30: a quiz round.  Choosing one of the four options and submitting it
    changes nothing that is stored and keeps the card; proceeding then
    grades the card Good when the chosen option is the meaning of the
    radical and Again otherwise, clears the selection and moves on. *)
Theorem quiz_round (t1 t2 t3 : Z) (opt : string) (w : World) (q : Quiz.Question)
    (old : ProgressItem) :
  Inv w -> mode (session w) = "quiz"%string -> quizReveal (session w) = false ->
  quiz (session w) = Some q -> opt ∈ Quiz.options q ->
  byId (progress (store w)) !! id (currentCard (session w)) = Some old ->
  exists w2 w3,
    run [(t1, ClickOption opt); (t2, ClickSubmit)] w = Returned (w2, false) ∧
    store w2 = store w ∧ index (session w2) = index (session w) ∧
    quizChoice (session w2) = Some opt ∧ quizReveal (session w2) = true ∧
    run [(t1, ClickOption opt); (t2, ClickSubmit); (t3, ClickNext)] w = Returned (w3, false) ∧
    progress (store w3) =
      patchId (id (currentCard (session w)))
        (gradePatch t3 old (if bool_decide (opt = meaning (currentCard (session w))) then 3 else 1))
        (progress (store w)) ∧
    index (session w3) = nextIndex (length (deck (session w))) (index (session w)) ∧
    quizChoice (session w3) = None ∧ quizReveal (session w3) = false.
Proof.
  intros Hw Hm Hr Hq Hopt Hold.
  assert (Quiz.correct q = meaning (currentCard (session w))) as Hcorrect.
  { pose proof (Inv_quiz w Hw) as Hiq. rewrite decide_True in Hiq by done.
    destruct Hiq as (q' & Hq' & Hfor & _). congruence. }
  assert (offered (ClickOption opt) (session w) = true) as Ho1.
  { unfold offered, isQuiz. rewrite Hq, !bool_decide_eq_true_2; done. }
  assert (step t1 (ClickOption opt) w =
          Returned (withSession (setQuizChoice (Some opt)) w, false)) as Hs1.
  { apply step_selection; [done..| |done]. cbn [handle]. unfold withSession, chooseOption. by rewrite Hr. }
  set (w1 := withSession (setQuizChoice (Some opt)) w) in *.
  assert (Inv w1) as Hw1.
  { destruct (step_Inv t1 _ w Hw Ho1) as (? & ? & Hs & Hi). rewrite Hs1 in Hs.
    injection Hs as <- <-. by apply Hi. }
  assert (offered ClickSubmit (session w1) = true) as Ho2.
  { unfold offered, isQuiz. cbn. rewrite Hr, bool_decide_eq_true_2 by done. done. }
  assert (step t2 ClickSubmit w1 = Returned (withSession (setQuizReveal true) w1, false)) as Hs2.
  { apply step_selection; [done..| |done]. cbn [handle]. unfold withSession, submitQuiz. cbn. by rewrite Hq. }
  set (w2 := withSession (setQuizReveal true) w1) in *.
  assert (Inv w2) as Hw2.
  { destruct (step_Inv t2 _ w1 Hw1 Ho2) as (? & ? & Hs & Hi). rewrite Hs2 in Hs.
    injection Hs as <- <-. by apply Hi. }
  destruct (step_graded t3 ClickNext
              (if bool_decide (opt = meaning (currentCard (session w))) then 3 else 1)
              w2 old Hw2) as (w3 & Hs3 & _ & Hp & _ & _ & Hi3 & _ & Hc3 & Hr3); [| |done|].
  { unfold offered, isQuiz. cbn. by rewrite bool_decide_eq_true_2. }
  { cbn [handle]. unfold nextQuiz. cbn. rewrite Hq, Hcorrect. cbn.
    by rewrite (bool_decide_ext (Some opt = Some _) (opt = meaning (currentCard (session w))))
      by naive_solver. }
  exists w2, w3. split_and!; try done.
  - by rewrite (run_step t1 _ _ w w1), (run_step t2 _ _ w1 w2).
  - by rewrite (run_step t1 _ _ w w1), (run_step t2 _ _ w1 w2), (run_step t3 _ _ w2 w3)
      by (done || by unfold offered, isQuiz; cbn; rewrite bool_decide_eq_true_2).
Qed.
End properties.

(** ** The properties at concrete inputs *)

(** A card that was studied before, and one that was not. *)
Definition seen_card : ProgressItem :=
  {| box := Some 3; learned := Some true; correct := Some 2; wrong := Some 1;
     lastReviewed := Some 0; due := Some 0 |}.

Definition new_card : ProgressItem :=
  {| box := Some 1; learned := Some false; correct := Some 0; wrong := Some 0;
     lastReviewed := None; due := Some 0 |}.

(** A store in which radical 5 has the record [it], due since the epoch,
    and every other radical is due on day 10; UTC, storage refusing access. *)
Definition practised (it : ProgressItem) : Store :=
  {| progress := patchId 5 it (emptyProgress (H := fixed_zone 0) 864000000);
     storage := {| items := ∅; denied := true; capacity := 0 |} |}.

(** The "review" session mounted on it on day 3: radical 5 is the only
    card. *)
Definition review_world (it : ProgressItem) : World :=
  match startSession (H := fixed_zone 0) 259200000 "review" (practised it) (lcg 1) with
  | Returned w => w
  | Thrown _ => sample_world
  end.

Lemma review_world_Inv it :
  wf_progress (progress (practised it)) = true -> Inv (review_world it).
Proof.
  intros Hwf. unfold review_world.
  by destruct (startSession_Inv (H := fixed_zone 0) 259200000 "review" (practised it) (lcg 1) Hwf)
    as (w & -> & Hw).
Qed.

Lemma seen_world_Inv : Inv (review_world seen_card).
Proof. apply review_world_Inv. by vm_compute. Qed.

Lemma new_world_Inv : Inv (review_world new_card).
Proof. apply review_world_Inv. by vm_compute. Qed.

Lemma session_runs_witness :
  exists w0 w x,
    startSession (H := fixed_zone 0) 0 "quiz" sample_store (lcg 2) = Returned w0 ∧
    run (H := fixed_zone 0) [(5, Tick); (6, ClickBack)] w0 = Returned (w, x) ∧ Inv w.
Proof.
  apply (session_runs (H := fixed_zone 0) 0 "quiz" sample_store (lcg 2) [(5, Tick); (6, ClickBack)]).
  apply emptyProgress_wf_progress.
Defined.

Lemma keys_as_buttons_witness :
  run (H := fixed_zone 0) [(259200001, KeyDown " "); (259200002, KeyDown "3")]
    (review_world seen_card) =
  run (H := fixed_zone 0) [(259200001, ClickShow); (259200002, ClickGrade 3)]
    (review_world seen_card).
Proof.
  apply (keys_as_buttons (H := fixed_zone 0) 259200001 259200002 "3" 3 (review_world seen_card));
    [apply seen_world_Inv | by vm_compute..].
Defined.

Lemma good_good_good_easy_witness :
  exists w',
    run (H := fixed_zone 0)
      [(259200001, ClickShow); (259200002, ClickGrade 3); (259200001, ClickShow);
       (259200003, ClickGrade 3); (259200001, ClickShow); (259200004, ClickGrade 3);
       (259200001, ClickShow); (259200005, ClickGrade 4)] (review_world new_card)
      = Returned (w', false) ∧
    byId (progress (store w')) !! 5%nat =
      Some {| box := Some 5; learned := Some true;
              correct := Some ((correct new_card || 0)%js + 4);
              wrong := Some (wrong new_card || 0)%js;
              lastReviewed := Some 259200005;
              due := Some (addDays (H := fixed_zone 0)
                             (todayStart (H := fixed_zone 0) 259200005) 14) |}.
Proof.
  apply (good_good_good_easy (H := fixed_zone 0) 259200001 259200002 259200003 259200004
           259200005 (review_world new_card) 5 new_card);
    [apply new_world_Inv | by vm_compute..].
Defined.

Lemma graded_card_due_again_witness :
  exists w2,
    run (H := fixed_zone 0) [(259200001, ClickShow); (259200002, ClickGrade 3)]
      (review_world seen_card) = Returned (w2, false) ∧
    (id (currentCard (session (review_world seen_card)))
       ∈ dueIds (progress (store w2)) (todayStart (H := fixed_zone 0) 950400000) <->
     addDays (H := fixed_zone 0) (todayStart (H := fixed_zone 0) 259200002)
       (intervalByBox (applyGrade 3 3)) <= todayStart (H := fixed_zone 0) 950400000) ∧
    (3 = 1 -> 259200002 <= 950400000 ->
     id (currentCard (session (review_world seen_card)))
       ∈ dueIds (progress (store w2)) (todayStart (H := fixed_zone 0) 950400000)) ∧
    (3 <= 3 -> todayStart (H := fixed_zone 0) 950400000 <= todayStart (H := fixed_zone 0) 259200002 ->
     id (currentCard (session (review_world seen_card)))
       ∉ dueIds (progress (store w2)) (todayStart (H := fixed_zone 0) 950400000)).
Proof.
  apply (graded_card_due_again (H := fixed_zone 0) 259200001 259200002 950400000 3
           (review_world seen_card) seen_card 3);
    [apply seen_world_Inv | by vm_compute.. | lia | by vm_compute | done].
Defined.

Lemma reset_leaves_listener_stale_witness :
  exists wk wb,
    run (H := fixed_zone 0) [(259200001, ClickShow); (259200002, ClickReset); (259200003, KeyDown "3")]
      (review_world seen_card) = Returned (wk, false) ∧
    run (H := fixed_zone 0) [(259200001, ClickShow); (259200002, ClickReset); (259200003, ClickGrade 3)]
      (review_world seen_card) = Returned (wb, false) ∧
    byId (progress (store wk)) !! id (currentCard (session (review_world seen_card))) =
      Some (gradePatch (H := fixed_zone 0) 259200003 seen_card 3) ∧
    byId (progress (store wb)) !! id (currentCard (session (review_world seen_card))) =
      Some (gradePatch (H := fixed_zone 0) 259200003
              (freshItem (todayStart (H := fixed_zone 0) 259200002)) 3) ∧
    ((correct seen_card || 0)%js ≠ 0 ->
     byId (progress (store wk)) !! id (currentCard (session (review_world seen_card))) ≠
     byId (progress (store wb)) !! id (currentCard (session (review_world seen_card)))).
Proof.
  apply (reset_leaves_listener_stale (H := fixed_zone 0) 259200001 259200002 259200003
           (review_world seen_card) defaultSettings seen_card);
    [apply seen_world_Inv | by vm_compute..].
Defined.

(** The quiz of the first card of [started_world]. *)
Definition started_quiz : Quiz.Question :=
  default {| Quiz.correct := ""; Quiz.options := [] |} (quiz (session started_world)).

Lemma quiz_round_witness :
  exists w2 w3,
    run (H := fixed_zone 0) [(1, ClickOption (Quiz.correct started_quiz)); (2, ClickSubmit)]
      started_world = Returned (w2, false) ∧
    store w2 = store started_world ∧ index (session w2) = index (session started_world) ∧
    quizChoice (session w2) = Some (Quiz.correct started_quiz) ∧
    quizReveal (session w2) = true ∧
    run (H := fixed_zone 0)
      [(1, ClickOption (Quiz.correct started_quiz)); (2, ClickSubmit); (3, ClickNext)]
      started_world = Returned (w3, false) ∧
    progress (store w3) =
      patchId (id (currentCard (session started_world)))
        (gradePatch (H := fixed_zone 0) 3 (freshItem 0)
           (if bool_decide (Quiz.correct started_quiz =
                            meaning (currentCard (session started_world)))
            then 3 else 1))
        (progress (store started_world)) ∧
    index (session w3) =
      nextIndex (length (deck (session started_world))) (index (session started_world)) ∧
    quizChoice (session w3) = None ∧ quizReveal (session w3) = false.
Proof.
  apply (quiz_round (H := fixed_zone 0) 1 2 3 (Quiz.correct started_quiz) started_world
           started_quiz (freshItem 0));
    [apply started_world_Inv | by vm_compute.. | | by vm_compute].
  apply (bool_decide_unpack _). by vm_compute.
Defined.
