(* ===== verification/Refine.v ===== *)
(** * Refine: the session against its specification

    The specification describes the study session as a small machine: a
    deck, a position in it, a card that is face down or revealed, a
    selected quiz option, an elapsed time, and the stored progress; a grade
    writes the record of the current card and moves to the next card,
    wrapping at the end; a change of the shuffle setting builds a new deck
    and starts over.  That machine is [AStep] on [AState].  It has no
    memoised quiz, no dependency lists, no keyboard listener, no storage
    and no random source: a new deck is the deck [buildDeck] returns for
    some state of the generator.

    [abs] reads the state of the specification off a state of the program
    ([World], of [Session]).  The theorems relate one event of the program
    ([Machine.step]: the handler and the render with its effects) to the
    machine:

    - every offered event that does not leave the session is a step of
      the machine or changes nothing the machine sees
      ([step_refines], [session_refines], [event_refines]), provided the
      keyboard listener holds the record of the card it will grade
      ([Fresh]);
    - [Fresh] holds when a session starts and is kept by every event but
      the reset of the progress ([step_Fresh]);
    - after a reset made while a card is face up the listener holds a
      record that is gone, and the next digit key is an event the machine
      cannot make ([reset_breaks_refinement]): in the machine the counter
      of correct answers of a card grows by one at most per step
      ([AStep_correct]). *)

From Stdlib Require Import ZArith Lia.
From stdpp Require Import base tactics option list strings gmap relations.
From S2P Require Import Prelude Clock Scheduler Catalog Random Store Deck Quiz Session Machine Trace.

#[local] Open Scope Z_scope.

(** ** The machine of the specification *)

Record AState := {
  a_mode : string;
  a_progress : ProgressState;
  a_deck : list nat;
  a_index : nat;
  a_revealed : bool;
  a_choice : option string;
  a_answered : bool;
  a_elapsed : nat;
}.

(** The card at the current position. *)
Definition a_card (a : AState) : Radical :=
  from_option findCard (findCard 1) (a_deck a !! a_index a).

Definition a_show (b : bool) (a : AState) : AState :=
  {| a_mode := a_mode a; a_progress := a_progress a; a_deck := a_deck a;
     a_index := a_index a; a_revealed := b; a_choice := a_choice a;
     a_answered := a_answered a; a_elapsed := a_elapsed a |}.

Definition a_pick (opt : string) (a : AState) : AState :=
  {| a_mode := a_mode a; a_progress := a_progress a; a_deck := a_deck a;
     a_index := a_index a; a_revealed := a_revealed a; a_choice := Some opt;
     a_answered := a_answered a; a_elapsed := a_elapsed a |}.

Definition a_lock (a : AState) : AState :=
  {| a_mode := a_mode a; a_progress := a_progress a; a_deck := a_deck a;
     a_index := a_index a; a_revealed := a_revealed a; a_choice := a_choice a;
     a_answered := true; a_elapsed := a_elapsed a |}.

Definition a_tick (a : AState) : AState :=
  {| a_mode := a_mode a; a_progress := a_progress a; a_deck := a_deck a;
     a_index := a_index a; a_revealed := a_revealed a; a_choice := a_choice a;
     a_answered := a_answered a; a_elapsed := S (a_elapsed a) |}.

Definition a_store (p : ProgressState) (a : AState) : AState :=
  {| a_mode := a_mode a; a_progress := p; a_deck := a_deck a;
     a_index := a_index a; a_revealed := a_revealed a; a_choice := a_choice a;
     a_answered := a_answered a; a_elapsed := a_elapsed a |}.

(** A new deck: the first card, face down, nothing selected. *)
Definition a_restart (d : list nat) (a : AState) : AState :=
  {| a_mode := a_mode a; a_progress := a_progress a; a_deck := d;
     a_index := 0; a_revealed := false; a_choice := None;
     a_answered := false; a_elapsed := a_elapsed a |}.

(** Grade(g): the record of the current card is replaced as the scheduler
    says, the card state is cleared and the position advances, wrapping to
    the first card after the last. *)
Definition a_grade `{DateLib} (now : Z) (g : Z) (a : AState) : AState :=
  {| a_mode := a_mode a;
     a_progress :=
       patchId (id (a_card a))
         (gradePatch now (currentRecord now (a_progress a) (a_card a)) g) (a_progress a);
     a_deck := a_deck a;
     a_index := ((a_index a + 1) `mod` length (a_deck a))%nat;
     a_revealed := false; a_choice := None; a_answered := false;
     a_elapsed := a_elapsed a |}.

(** The grade of a quiz answer: Good when it is the meaning of the card,
    Again otherwise. *)
Definition a_quizGrade (a : AState) : Z :=
  if decide (a_choice a = Some (meaning (a_card a))) then 3 else 1.

(** A new stored state: when the shuffle setting it holds differs from the
    one before, the deck is built again and the session starts over. *)
Definition a_configure `{DateLib} (now : Z) (p : ProgressState) (g : Rng) (a : AState) : AState :=
  if decide (settings p ≫= shuffleLearn = settings (a_progress a) ≫= shuffleLearn)
  then a_store p a
  else a_restart (buildDeck (a_mode a) p (settings p ≫= shuffleLearn) now g).1 (a_store p a).

Inductive AStep `{DateLib} : AState -> AState -> Prop :=
  | A_flip a :
      a_mode a ≠ "quiz"%string -> AStep a (a_show (negb (a_revealed a)) a)
  | A_reveal a :
      a_mode a ≠ "quiz"%string -> AStep a (a_show true a)
  | A_grade now g a :
      a_mode a ≠ "quiz"%string -> a_revealed a = true -> 1 <= g <= 4 ->
      AStep a (a_grade now g a)
  | A_choose opt a :
      a_mode a = "quiz"%string -> a_answered a = false -> AStep a (a_pick opt a)
  | A_submit a :
      a_mode a = "quiz"%string -> is_Some (a_choice a) -> a_answered a = false ->
      AStep a (a_lock a)
  | A_proceed now a :
      a_mode a = "quiz"%string -> a_answered a = true ->
      AStep a (a_grade now (a_quizGrade a) a)
  | A_second a : AStep a (a_tick a)
  | A_setting now f v g a :
      AStep a (a_configure now (patchSettings (settingPatch f v) (a_progress a)) g a)
  | A_resetAll now g a :
      AStep a (a_configure now (emptyProgress now) g a).

(** ** The state of the specification in a state of the program *)

Definition abs (w : World) : AState :=
  {| a_mode := mode (session w); a_progress := progress (store w);
     a_deck := deck (session w); a_index := index (session w);
     a_revealed := flipped (session w); a_choice := quizChoice (session w);
     a_answered := quizReveal (session w); a_elapsed := seconds (session w) |}.

(** The keyboard listener of a card that is face up holds the record of
    that card. *)
Definition Fresh `{DateLib} (w : World) : Prop :=
  flipped (session w) = true ->
  ∀ now, k_pr (listener (session w)) =
         currentRecord now (progress (store w)) (currentCard (session w)).

(** One event of the program other than the reset of the progress. *)
Inductive QuietStep `{DateLib} `{JsonLib} : World -> World -> Prop :=
  | QuietStep_event now e w w' :
      e ≠ ClickReset -> offered e (session w) = true ->
      step now e w = Returned (w', false) -> QuietStep w w'.

(** The state in which the specification starts a session: the first card
    of the deck [d], face down, no time elapsed. *)
Definition a_start (m : string) (p : ProgressState) (d : list nat) : AState :=
  {| a_mode := m; a_progress := p; a_deck := d; a_index := 0; a_revealed := false;
     a_choice := None; a_answered := false; a_elapsed := 0 |}.

(** The counter of correct answers the state holds for a card. *)
Definition a_correct (a : AState) (i : nat) : Z :=
  ((byId (a_progress a) !! i ≫= correct) || 0)%js.

(** ** Lemmas: what a render leaves of the abstract state *)

Section render.
Context `{DateLib} `{JsonLib}.
Implicit Types (w : World) (now : Z) (e : Event) (a : AState).

Lemma abs_memoQuiz w : abs (memoQuiz w) = abs w.
Proof. unfold memoQuiz. repeat case_decide; try done. by destruct (Quiz.makeQuiz _ _). Qed.

Lemma abs_registerKeys now kb w : abs (registerKeys now kb w) = abs w.
Proof. unfold registerKeys. by case_decide. Qed.

Lemma abs_deckEffect now sh w :
  abs (deckEffect now sh w) =
  a_restart (buildDeck (mode (session w)) (progress (store w)) sh now (rng w)).1 (abs w).
Proof. unfold deckEffect. by destruct (buildDeck _ _ _ _ _). Qed.

(** A render shows the state the handler left, unless the shuffle setting
    is not the one of the last deck: then the deck is built again. *)
Lemma render_abs now w w' st :
  settings (progress (store w)) = Some st -> render now w = Returned w' ->
  abs w' =
  if decide (lastShuffle (session w) = Some (shuffleLearn st)) then abs w
  else a_restart (buildDeck (mode (session w)) (progress (store w)) (shuffleLearn st) now
                    (rng (memoQuiz w))).1 (abs w).
Proof.
  intros Hst. unfold render. rewrite Hst. intros [= <-].
  rewrite abs_registerKeys.
  destruct (memoQuiz_fields w) as (Hs & _ & _ & Hm & _ & _ & _ & _ & Hl & _).
  rewrite Hl. case_decide; [apply abs_memoQuiz|].
  by rewrite abs_memoQuiz, abs_deckEffect, abs_memoQuiz, Hs, Hm.
Qed.

(** The card of the abstract state is the card the program shows. *)
Lemma a_card_abs w : deck_ok (session w) -> a_card (abs w) = currentCard (session w).
Proof.
  intros (_ & _ & _ & Hi). unfold a_card, currentCard, currentId. cbn [abs a_deck a_index].
  by destruct (lookup_lt_is_Some_2 _ _ Hi) as [i ->].
Qed.
End render.

(** ** Lemmas: one event *)

Section steps.
Context `{DateLib} `{JsonLib}.
Implicit Types (w : World) (now : Z) (e : Event) (a : AState).

(** When the handler leaves the settings alone, the render shows the state
    the handler left. *)
Lemma step_abs_quiet now e w wh w' :
  Inv w -> handle now e w = Returned (wh, false) ->
  settings (progress (store wh)) = settings (progress (store w)) ->
  lastShuffle (session wh) = lastShuffle (session w) ->
  step now e w = Returned (w', false) -> abs w' = abs wh.
Proof.
  intros Hw Hh Hst Hl. destruct (Inv_settings w Hw) as (st & Hs & Hsh & _).
  unfold step. rewrite Hh. cbn [outcome_bind fst snd].
  destruct (render now wh) as [wr|] eqn:Hr; [|done]. intros [= <-].
  rewrite (render_abs now wh wr st) by congruence. by rewrite decide_True by congruence.
Qed.

(** When it stores a new state, the render is the reconfiguration of the
    specification, for the generator the deck effect finds. *)
Lemma step_abs_store now e w f w' :
  Inv w -> handle now e w = Returned (withStore (setProgress f) w, false) ->
  is_Some (settings (f (progress (store w)))) ->
  step now e w = Returned (w', false) ->
  exists g, abs w' = a_configure now (f (progress (store w))) g (abs w).
Proof.
  intros Hw Hh [st Hst]. unfold step. rewrite Hh. cbn [outcome_bind fst snd].
  destruct (render now _) as [wr|] eqn:Hr; [|done]. intros [= <-].
  exists (rng (memoQuiz (withStore (setProgress f) w))).
  rewrite (render_abs now (withStore (setProgress f) w) wr st Hst Hr).
  unfold a_configure. cbn [withStore session store abs a_progress a_mode].
  rewrite setProgress_progress, Hst, (inv_shuffle w Hw). cbn [mbind option_bind].
  repeat case_decide; try done; congruence.
Qed.

Lemma abs_grade now g w : Inv w -> abs (grade now g w) = a_grade now g (abs w).
Proof.
  intros Hw. pose proof (h_deck w (inv_handled w Hw)) as Hd.
  unfold a_grade. rewrite a_card_abs by done. unfold grade, abs at 1.
  rewrite gradeWith_progress, gradeWith_session.
  destruct (afterGrade_fields (length (deck (session w))) (session w))
    as (-> & -> & -> & -> & -> & -> & ->).
  cbn [abs a_mode a_progress a_deck a_index a_elapsed].
  by rewrite nextIndex_mod by apply Hd.
Qed.

(** A step whose handler is [grade]. *)
Lemma step_abs_grade now e g w w' :
  Inv w -> handle now e w = Returned (grade now g w, false) ->
  step now e w = Returned (w', false) -> abs w' = a_grade now g (abs w).
Proof.
  intros Hw Hh Hs. rewrite <- abs_grade by done.
  by apply (step_abs_quiet now e w (grade now g w) w').
Qed.

(** A step whose handler changes the session only. *)
Lemma step_abs_session now e f w w' :
  Inv w -> handle now e w = Returned (withSession f w, false) ->
  lastShuffle (f (session w)) = lastShuffle (session w) ->
  step now e w = Returned (w', false) -> abs w' = abs (withSession f w).
Proof. intros Hw Hh Hl. by apply (step_abs_quiet now e w (withSession f w) w'). Qed.

(** A step that leaves the session is not one of the steps considered. *)
Lemma step_left now e w w' :
  handle now e w = Returned (w, true) -> step now e w = Returned (w', false) -> False.
Proof. intros Hh. unfold step. rewrite Hh. by cbn. Qed.

(** A step whose handler does nothing. *)
Lemma step_abs_idle now e w w' :
  Inv w -> handle now e w = Returned (w, false) ->
  step now e w = Returned (w', false) -> abs w' = abs w.
Proof. intros Hw Hh. by apply (step_abs_quiet now e w w w'). Qed.
End steps.

(** ** The refinement *)

Section refinement.
Context `{DateLib} `{JsonLib}.
Implicit Types (w : World) (now : Z) (e : Event) (a : AState).

(** What a key does, when the listener is fresh: nothing, leave, show the
    answer, or what the grade button does. *)
Lemma onKey_cases now key w :
  Inv w -> Fresh w ->
  onKey now key w = (w, true) ∨ onKey now key w = (w, false) ∨
  (mode (session w) ≠ "quiz"%string ∧ onKey now key w = (withSession showAnswer w, false)) ∨
  (exists g, mode (session w) ≠ "quiz"%string ∧ flipped (session w) = true ∧ 1 <= g <= 4 ∧
             onKey now key w = (grade now g w, false)).
Proof.
  intros Hw Hf. unfold onKey.
  destruct (k_enabled _); cbn [negb]; [|auto].
  case_decide; [auto|]. case_decide; [case_decide; auto|].
  case_decide; [auto|].
  destruct (k_flipped _) eqn:Hkf; cbn [negb]; [|auto].
  destruct (gradeOfKey key) as [g|] eqn:Hg; [|auto].
  assert (flipped (session w) = true) as Hfl by by rewrite <- (inv_key_flipped w Hw).
  destruct (gradeOfKey_Some key g Hg) as ([? ?] & _).
  do 3 right. exists g. split_and!; [done..|].
  f_equal. apply (gradeWith_listener now now); [done | done | by apply Hf].
Qed.

(** The quiz grade the program computes is the one of the specification. *)
Lemma quizGrade_abs w q :
  Inv w -> quiz (session w) = Some q -> mode (session w) = "quiz"%string ->
  (if bool_decide (quizChoice (session w) = Some (Quiz.correct q)) then 3 else 1) =
  a_quizGrade (abs w).
Proof.
  intros Hw Hq Hm. pose proof (Inv_quiz w Hw) as Hi.
  rewrite decide_True in Hi by done. destruct Hi as (q' & Hq' & Hc & _).
  assert (q' = q) as -> by congruence.
  unfold a_quizGrade. rewrite a_card_abs by apply Hw. cbn [abs a_choice]. rewrite Hc.
  case_bool_decide; case_decide; done.
Qed.

Lemma step_refines now e w w' :
  Inv w -> Fresh w -> offered e (session w) = true ->
  step now e w = Returned (w', false) ->
  abs w' = abs w ∨ AStep (abs w) (abs w').
Proof.
  intros Hw Hf Ho Hs. destruct e; cbn [offered] in Ho.
  - apply negb_true_iff, bool_decide_eq_false in Ho. right.
    assert (handleFlip (session w) = setFlipped (negb (flipped (session w))) (session w)) as Hfl
      by by apply handleFlip_flash.
    rewrite (step_abs_session now ClickCard handleFlip w w') by (done || by rewrite Hfl).
    unfold withSession. rewrite Hfl. by apply (A_flip (abs w)).
  - apply andb_true_iff in Ho as [Hm%negb_true_iff%bool_decide_eq_false _]. right.
    rewrite (step_abs_session now ClickShow showAnswer w w') by done.
    by apply (A_reveal (abs w)).
  - apply andb_true_iff in Ho as [[Hm%negb_true_iff%bool_decide_eq_false Hfl]%andb_true_iff
                                    Hg%bool_decide_eq_true].
    right. rewrite (step_abs_grade now (ClickGrade g) g w w') by done. by apply A_grade.
  - apply andb_true_iff in Ho as [Hm%bool_decide_eq_true _].
    rewrite (step_abs_session now (ClickOption opt) (chooseOption opt) w w');
      [|done|done|by unfold chooseOption; destruct (quizReveal _)|done].
    unfold withSession, chooseOption. destruct (quizReveal (session w)) eqn:Hr; [by left|].
    right. by apply (A_choose opt (abs w)).
  - apply andb_true_iff in Ho as [[Hm%bool_decide_eq_true Hr%negb_true_iff]%andb_true_iff
                                    Hc%bool_decide_eq_true].
    pose proof (Inv_quiz w Hw) as Hq. rewrite decide_True in Hq by done.
    destruct Hq as (q & Hq & _). destruct Hc as [c Hc].
    assert (submitQuiz (session w) = setQuizReveal true (session w)) as Hsub
      by (unfold submitQuiz; by rewrite Hq, Hc).
    rewrite (step_abs_session now ClickSubmit submitQuiz w w') by (done || by rewrite Hsub).
    unfold withSession. rewrite Hsub. right. apply (A_submit (abs w)); [done | by exists c | done].
  - apply andb_true_iff in Ho as [Hm%bool_decide_eq_true Hr].
    pose proof (Inv_quiz w Hw) as Hq. rewrite decide_True in Hq by done.
    destruct Hq as (q & Hq & _). right.
    rewrite (step_abs_grade now ClickNext _ w w' Hw) by
      (done || (cbn [handle]; unfold nextQuiz; by rewrite Hq)).
    rewrite (quizGrade_abs w q) by done. by apply A_proceed.
  - destruct (onKey_cases now key w Hw Hf) as [Hk|[Hk|[[Hm Hk]|(g & Hm & Hfl & Hg & Hk)]]].
    + destruct (step_left now (KeyDown key) w w'); [by cbn [handle]; rewrite Hk | done].
    + left. apply (step_abs_idle now (KeyDown key)); [done | by cbn [handle]; rewrite Hk | done].
    + right. rewrite (step_abs_session now (KeyDown key) showAnswer w w');
        [by apply (A_reveal (abs w)) | done | by cbn [handle]; rewrite Hk | done | done].
    + right. rewrite (step_abs_grade now (KeyDown key) g w w');
        [by apply A_grade | done | by cbn [handle]; rewrite Hk | done].
  - right. rewrite (step_abs_session now Tick tick w w') by done. apply (A_second (abs w)).
  - by destruct (step_left now ClickBack w w').
  - destruct (step_abs_store now (SetSetting f v) w (patchSettings (settingPatch f v)) w')
      as [g ->]; [done | done | by eexists | done |].
    right. apply A_setting.
  - destruct (step_abs_store now ClickReset w (resetAll now) w')
      as [g ->]; [done | done | by eexists | done |].
    right. apply A_resetAll.
Qed.
End refinement.

(** ** The listener stays fresh *)

Section fresh.
Context `{DateLib} `{JsonLib}.
Implicit Types (w : World) (now : Z) (e : Event).

(** A handler never touches the keyboard listener. *)
Lemma handle_listener now e w wh x :
  handle now e w = Returned (wh, x) -> listener (session wh) = listener (session w).
Proof.
  destruct e; cbn [handle]; try by intros [= <- <-].
  - intros [= <- <-]. cbn. unfold handleFlip. by case_decide.
  - intros [= <- <-]. cbn. unfold chooseOption. by destruct (quizReveal _).
  - intros [= <- <-]. cbn. unfold submitQuiz. by repeat case_match.
  - unfold nextQuiz. destruct (quiz (session w)); [|done]. by intros [= <- <-].
  - unfold onKey. intros [= Hk]. revert Hk.
    repeat (case_decide || case_match); by intros [= <- <-].
Qed.

(** A handler other than the reset that leaves the card face up has left
    the records alone: a grade turns the card down. *)
Lemma handle_byId now e w wh :
  handle now e w = Returned (wh, false) -> e ≠ ClickReset ->
  flipped (session wh) = true ->
  byId (progress (store wh)) = byId (progress (store w)).
Proof.
  intros Hh Hne. destruct e; cbn [handle] in Hh; try (by injection Hh as <-).
  - unfold nextQuiz in Hh. destruct (quiz (session w)); [|done].
    cbn [outcome_bind] in Hh. by injection Hh as <-.
  - unfold onKey in Hh. injection Hh as Hk. revert Hk.
    repeat (case_decide || case_match); by intros [= <-].
Qed.

(** The keyboard effect either finds its dependencies unchanged and does
    nothing, or registers a listener for the current render. *)
Lemma registerKeys_cases now kb w :
  (registerKeys now kb w = w ∧
   k_flipped (listener (session w)) = flipped (session w) ∧
   id (k_card (listener (session w))) = id (currentCard (session w))) ∨
  listener (session (registerKeys now kb w)) = snapshot now kb w.
Proof.
  unfold registerKeys. case_decide as Hd; [left; by destruct Hd as (? & ? & ?) | by right].
Qed.

(** After a render that shows a card face up, the listener is the one the
    handler left, registered for a card face up with the same identifier,
    or it holds the record of the card shown. *)
Lemma render_listener now wh w' :
  render now wh = Returned w' -> flipped (session w') = true ->
  (listener (session w') = listener (session wh) ∧
   k_flipped (listener (session wh)) = true ∧
   id (k_card (listener (session wh))) = id (currentCard (session w')) ∧
   flipped (session wh) = true) ∨
  k_pr (listener (session w')) =
    currentRecord now (progress (store w')) (currentCard (session w')).
Proof.
  unfold render. destruct (settings _) as [st|]; [|done]. intros [= <-].
  set (w2 := if decide _ then _ else _).
  destruct (registerKeys_cases now (keyboardShortcuts st) w2) as [(-> & Hkf & Hid)|Hsnap].
  - intros Hfl. left. revert Hkf Hid Hfl. unfold w2. case_decide.
    + destruct (memoQuiz_fields wh) as (_ & _ & _ & _ & -> & _ & _ & _ & _ & ->).
      rewrite memoQuiz_card. intros Hkf Hid Hfl. split_and!; [done | congruence | done..].
    + destruct (memoQuiz_fields (deckEffect now (shuffleLearn st) (memoQuiz wh)))
        as (_ & _ & _ & _ & -> & _).
      by destruct (deckEffect_fields now (shuffleLearn st) (memoQuiz wh))
        as (_ & _ & _ & _ & -> & _).
  - intros _. right. rewrite Hsnap. cbn [snapshot k_pr].
    destruct (registerKeys_fields now (keyboardShortcuts st) w2) as (-> & Hd & Hi & _).
    f_equal. symmetry. by apply currentCard_ext.
Qed.

Lemma step_Fresh now e w w' :
  Inv w -> Fresh w -> offered e (session w) = true -> e ≠ ClickReset ->
  step now e w = Returned (w', false) -> Fresh w'.
Proof.
  intros Hw Hf Ho Hne Hs.
  assert (Inv w') as Hw'.
  { destruct (step_Inv now e w Hw Ho) as (w2 & x & Hs2 & Hi).
    rewrite Hs in Hs2. injection Hs2 as <- <-. by apply Hi. }
  unfold step in Hs. destruct (handle now e w) as [[wh x]|] eqn:Hh; [|done].
  cbn [outcome_bind fst snd] in Hs. destruct x; [done|].
  destruct (render now wh) as [wr|] eqn:Hr; [|done]. injection Hs as ->.
  intros Hfl now'.
  rewrite (currentRecord_now now' now) by (apply Hw' || apply currentCard_in_table).
  destruct (render_listener now wh w' Hr Hfl) as [(Hl & Hkf & Hid & Hflh)|Hfresh]; [|done].
  rewrite (handle_listener now e w wh false Hh) in Hl, Hkf, Hid.
  assert (flipped (session w) = true) as Hflw by by rewrite <- (inv_key_flipped w Hw).
  rewrite Hl, (Hf Hflw now).
  assert (currentCard (session w') = currentCard (session w)) as ->.
  { rewrite (inv_key_card w Hw) in Hid. symmetry.
    by apply card_eq_of_id; [apply currentCard_in_table..|]. }
  destruct (render_frame now wh w' Hr) as [-> _].
  unfold currentRecord. by rewrite (handle_byId now e w wh Hh Hne Hflh).
Qed.

(** A render does not turn a card up. *)
Lemma render_face_down now w w' :
  render now w = Returned w' -> flipped (session w) = false -> flipped (session w') = false.
Proof.
  intros Hr Hf. destruct (settings (progress (store w))) as [st|] eqn:Hst;
    [|by unfold render in Hr; rewrite Hst in Hr].
  apply (render_abs now w w' st Hst), (f_equal a_revealed) in Hr.
  revert Hr. case_decide; cbn; congruence.
Qed.

(** A session starts with its first card face down. *)
Lemma startSession_Fresh now m st g w : startSession now m st g = Returned w -> Fresh w.
Proof.
  unfold startSession. destruct (initSession now m st g) as [w0|] eqn:Hi; [|done].
  cbn [outcome_bind]. intros Hr Hfl.
  rewrite (render_face_down now w0 w Hr) in Hfl; [done|].
  unfold initSession in Hi. destruct (settings (progress st)); [|done].
  destruct (buildDeck _ _ _ _ _). by injection Hi as <-.
Qed.
End fresh.

(** ** Lemmas: runs *)

Section runs.
Context `{DateLib} `{JsonLib}.
Implicit Types (w : World) (now : Z) (e : Event).

Lemma QuietStep_Step w w' : QuietStep w w' -> Step w w'.
Proof. intros [now e ? ? _ Ho Hs]. by apply (Step_event now e). Qed.

(** Runs without a reset are runs of the specification, and keep the
    invariant and the listener fresh. *)
Lemma rtc_QuietStep_refines w w' :
  Inv w -> Fresh w -> rtc QuietStep w w' ->
  rtc AStep (abs w) (abs w') ∧ Inv w' ∧ Fresh w'.
Proof.
  intros Hw Hf Hrun. induction Hrun as [|w w1 w2 Hq _ IH]; [done|].
  pose proof (Step_Inv w w1 Hw (QuietStep_Step w w1 Hq)) as Hw1.
  destruct Hq as [now e w w1 Hne Ho Hs].
  destruct (IH Hw1 (step_Fresh now e w w1 Hw Hf Ho Hne Hs)) as (Hrun & Hw2 & Hf2).
  split; [|done].
  destruct (step_refines now e w w1 Hw Hf Ho Hs) as [Heq|Ha];
    [by rewrite <- Heq | by eapply rtc_l].
Qed.

(** Mounting a session is the start of the specification, on the deck the
    mount effect builds. *)
Lemma startSession_abs now m st g w cfg :
  settings (progress st) = Some cfg -> startSession now m st g = Returned w ->
  exists g', abs w = a_start m (progress st)
                       (buildDeck m (progress st) (shuffleLearn cfg) now g').1.
Proof.
  intros Hc. unfold startSession.
  destruct (initSession now m st g) as [w0|] eqn:Hi; [|done]. cbn [outcome_bind]. intros Hr.
  unfold initSession in Hi. rewrite Hc in Hi.
  destruct (buildDeck m (progress st) (shuffleLearn cfg) now g) as [d g1]. injection Hi as <-.
  eapply render_abs in Hr; [|exact Hc]. rewrite decide_False in Hr by done.
  eexists. exact Hr.
Qed.

(** The timer tick is always a step that stays in the session. *)
Lemma step_Tick now w : Inv w -> exists w', step now Tick w = Returned (w', false) ∧ Inv w'.
Proof.
  intros Hw. unfold step. cbn [handle outcome_bind fst snd].
  destruct (render_Inv now (withSession tick w)) as (w' & -> & Hw');
    [by apply (handle_Handled now Tick w) | by exists w'].
Qed.
End runs.

(** ** What the specification excludes *)

Section counters.
Context `{DateLib}.
Implicit Types (a : AState) (i : nat).

Lemma a_grade_correct now g a i : a_correct (a_grade now g a) i <= a_correct a i + 1.
Proof.
  unfold a_correct, a_grade. cbn [a_progress].
  destruct (decide (id (a_card a) = i)) as [<-|Hne]; [|rewrite patchId_lookup_ne by done; lia].
  rewrite patchId_lookup_eq, gradePatch_full. cbn [mbind option_bind option_fmap gradePatch correct].
  rewrite num_or_counter. unfold currentRecord.
  destruct (byId (a_progress a) !! id (a_card a)) as [it|]; cbn; destruct (3 <=? g); lia.
Qed.

(** In one step of the specification the counter of correct answers of a
    card grows by one at most. *)
Lemma AStep_correct a a' i :
  AStep a a' -> 0 <= a_correct a i -> a_correct a' i <= a_correct a i + 1.
Proof.
  intros Hs H0. destruct Hs; try apply a_grade_correct; try (unfold a_correct in *; cbn; lia).
  - unfold a_configure, a_correct in *. case_decide; cbn; lia.
  - unfold a_configure, a_correct in *.
    case_decide; cbn [a_store a_restart a_progress]; rewrite emptyProgress_lookup;
      case_decide; cbn; lia.
Qed.
End counters.

(** ** Properties *)

Section properties.
Context `{DateLib} `{JsonLib}.
Implicit Types (w : World) (now : Z) (e : Event).

(** C7: the session refines its specification.  A session mounted on a
    well-formed store starts in the start state of the specification, on a
    deck [buildDeck] returns; every run of offered events that does not
    reset the progress, whatever the clock and the random source, is a run
    of the machine of the specification (events the machine does not see
    apart); and the keyboard listener holds the record of the card
    whenever the card is face up. *)
Theorem session_refines (now : Z) (m : string) (st : Store) (rg : Rng) (w0 w : World) :
  wf_progress (progress st) = true ->
  startSession now m st rg = Returned w0 ->
  rtc QuietStep w0 w ->
  (exists g, abs w0 = a_start m (progress st)
               (buildDeck m (progress st) (settings (progress st) ≫= shuffleLearn) now g).1) ∧
  rtc AStep (abs w0) (abs w) ∧ Fresh w.
Proof.
  intros Hwf Hstart Hrun.
  destruct (wf_progress_settings _ Hwf) as (cfg & Hc & _).
  destruct (startSession_Inv now m st rg Hwf) as (w0' & Hw0 & Hinv).
  rewrite Hstart in Hw0. injection Hw0 as <-.
  destruct (rtc_QuietStep_refines w0 w Hinv (startSession_Fresh now m st rg w0 Hstart) Hrun)
    as (Ha & _ & Hf).
  split_and!; [|done..]. rewrite Hc. by apply (startSession_abs now m st rg).
Qed.

(** Every event refines the specification.  In a state reached
    without a reset, each event the markup offers, the reset included,
    is a step of the machine of the specification or leaves the state of
    the specification as it is. *)
Theorem event_refines (now0 now : Z) (m : string) (st : Store) (rg : Rng)
    (w0 w w' : World) (e : Event) :
  wf_progress (progress st) = true ->
  startSession now0 m st rg = Returned w0 ->
  rtc QuietStep w0 w ->
  offered e (session w) = true ->
  step now e w = Returned (w', false) ->
  abs w' = abs w ∨ AStep (abs w) (abs w').
Proof.
  intros Hwf Hstart Hrun Ho Hs.
  destruct (startSession_Inv now0 m st rg Hwf) as (w0' & Hw0 & Hinv).
  rewrite Hstart in Hw0. injection Hw0 as <-.
  destruct (rtc_QuietStep_refines w0 w Hinv (startSession_Fresh now0 m st rg w0 Hstart) Hrun)
    as (_ & Hw & Hf).
  by apply (step_refines now e w w').
Qed.

(** C33: after a reset the session leaves its specification.  When the
    progress is reset while a card is face up (default settings in force),
    the keyboard listener keeps the record it captured; the digit key "3"
    then writes a record computed from it.  If the card had been answered
    correctly before, its counter of correct answers goes from 0 to more
    than 1 in one event, which no step of the specification does: the
    event is neither a step of the machine nor invisible to it. *)
Theorem reset_breaks_refinement (ts tr tg : Z) (w : World) (st : Settings)
    (old : ProgressItem) :
  Inv w -> mode (session w) ≠ "quiz"%string -> flipped (session w) = false ->
  settings (progress (store w)) = Some st ->
  shuffleLearn st = Some false -> keyboardShortcuts st = Some true ->
  byId (progress (store w)) !! id (currentCard (session w)) = Some old ->
  1 <= (correct old || 0)%js ->
  exists w2 wk,
    run [(ts, ClickShow); (tr, ClickReset)] w = Returned (w2, false) ∧
    offered (KeyDown "3") (session w2) = true ∧
    step tg (KeyDown "3") w2 = Returned (wk, false) ∧
    abs wk ≠ abs w2 ∧ ¬ AStep (abs w2) (abs wk).
Proof.
  intros Hw Hm Hf Hs Hsh Hkb Hold Hc.
  destruct (step_show ts w Hw Hm Hf)
    as (w1 & Hs1 & Hw1 & Hst1 & _ & _ & Hm1 & Hf1 & Hc1 & _ & Hpr).
  destruct (step_reset tr w1 st Hw1) as (w2 & Hs2 & Hw2 & Hp2 & Hl2 & Hm2 & Hf2 & Hc2);
    [congruence..|].
  destruct (step_key_grade tg "3" 3 w2 Hw2) as (wk & Hsk & _ & Hk);
    [congruence.. | by rewrite Hp2 | done |].
  assert (k_pr (listener (session w2)) = old) as Hstale.
  { rewrite Hl2, Hpr.
    destruct (currentRecord_wf ts _ _ (h_wf w (inv_handled w Hw))
                (currentCard_in_table (session w))) as [Hcur _]. congruence. }
  set (i := id (currentCard (session w2))) in *.
  assert (a_correct (abs w2) i = 0) as H2.
  { unfold a_correct. cbn [abs a_progress]. rewrite Hp2, emptyProgress_lookup.
    by rewrite decide_True by apply currentCard_id_range. }
  assert (a_correct (abs wk) i = (correct old || 0)%js + 1) as H3.
  { unfold a_correct. cbn [abs a_progress]. rewrite Hk, Hstale.
    cbn [mbind option_bind gradePatch correct]. by rewrite num_or_counter. }
  exists w2, wk. split_and!; [|done|done| |].
  - by rewrite (run_step ts ClickShow _ w w1), (run_step tr ClickReset _ w1 w2)
      by auto using offered_show.
  - intros Heq. rewrite Heq in H3. lia.
  - intros Ha. apply (AStep_correct _ _ i) in Ha; lia.
Qed.
End properties.

(** ** The properties at concrete inputs *)

(** The quiz session of [Machine.started_world] after one second. *)
Definition ticked_world : World :=
  match step (H := fixed_zone 0) 1000 Tick started_world with
  | Returned (w, _) => w
  | Thrown _ => started_world
  end.

Lemma ticked_world_eq :
  step (H := fixed_zone 0) 1000 Tick started_world = Returned (ticked_world, false).
Proof.
  unfold ticked_world.
  by destruct (step_Tick (H := fixed_zone 0) 1000 started_world started_world_Inv) as (w & -> & _).
Qed.

Lemma ticked_world_run : rtc (QuietStep (H := fixed_zone 0)) started_world ticked_world.
Proof. apply rtc_once, (QuietStep_event 1000 Tick); [done | done | apply ticked_world_eq]. Qed.

Lemma session_refines_witness :
  (exists g, abs started_world =
             a_start "quiz" (progress sample_store)
               (buildDeck (H := fixed_zone 0) "quiz" (progress sample_store)
                  (settings (progress sample_store) ≫= shuffleLearn) 0 g).1) ∧
  rtc (AStep (H := fixed_zone 0)) (abs started_world) (abs ticked_world) ∧
  Fresh (H := fixed_zone 0) ticked_world.
Proof.
  apply (session_refines (H := fixed_zone 0) 0 "quiz" sample_store (lcg 2)).
  - apply emptyProgress_wf_progress.
  - apply started_world_eq.
  - apply ticked_world_run.
Defined.

Lemma event_refines_witness :
  abs ticked_world = abs started_world ∨
  AStep (H := fixed_zone 0) (abs started_world) (abs ticked_world).
Proof.
  apply (event_refines (H := fixed_zone 0) 0 1000 "quiz" sample_store (lcg 2)
           started_world started_world ticked_world Tick).
  - apply emptyProgress_wf_progress.
  - apply started_world_eq.
  - apply rtc_refl.
  - done.
  - apply ticked_world_eq.
Defined.

Lemma reset_breaks_refinement_witness :
  exists w2 wk,
    run (H := fixed_zone 0) [(259200001, ClickShow); (259200002, ClickReset)]
      (review_world seen_card) = Returned (w2, false) ∧
    offered (KeyDown "3") (session w2) = true ∧
    step (H := fixed_zone 0) 259200003 (KeyDown "3") w2 = Returned (wk, false) ∧
    abs wk ≠ abs w2 ∧ ¬ AStep (H := fixed_zone 0) (abs w2) (abs wk).
Proof.
  apply (reset_breaks_refinement (H := fixed_zone 0) 259200001 259200002 259200003
           (review_world seen_card) defaultSettings seen_card);
    [apply seen_world_Inv | by vm_compute..].
Defined.
