(* ===== verification/History.v ===== *)
(** * History: what studying never takes back

    The specification states three facts about the life of a record: a
    radical that was learned stays learned, the two counters never
    decrease, and every answer adds one to exactly one of them.  For one
    call of [grade] they are facts about [Session.gradePatch]; this file
    proves them for the program as it runs: an order on records and on
    stored states ([⊑], "may come later"), and the theorem that every event
    of a session other than the reset of the progress leads to a later
    state.

    - [item_le] orders records by what is read of them: learned implies
      learned, and each counter is at most the other's.  [state_le] orders
      stored states record by record; a record that is there stays there.
      Both are preorders.
    - [step_progress] says what an event does to the stored state: nothing,
      a patch of the settings, or the patch [grade] writes for the card
      shown, from the record stored for it.  The last needs the keyboard
      listener to hold the stored record ([Refine.Fresh]), which is the
      case until the progress is reset.
    - [history_monotone]: along every run without a reset the stored state
      only grows; [answers_step]: an event adds at most one answer.
    - [reset_forgets]: the reset is the event that takes back. *)

From Stdlib Require Import ZArith Lia.
From stdpp Require Import base tactics option list strings gmap relations.
From S2P Require Import Prelude Clock Scheduler Catalog Random Store Deck Quiz.
From S2P Require Import Session Machine Trace Refine.

#[local] Open Scope Z_scope.

(** ** The order *)

(** The answers a record counts. *)
Definition answers (it : ProgressItem) : Z := (correct it || 0)%js + (wrong it || 0)%js.

#[export] Instance item_le : SqSubsetEq ProgressItem :=
  λ a b, (truthy (learned a) = true -> truthy (learned b) = true) ∧
         (correct a || 0)%js <= (correct b || 0)%js ∧ (wrong a || 0)%js <= (wrong b || 0)%js.

#[export] Instance record_le : SqSubsetEq (option ProgressItem) :=
  λ x y,
    match x, y with
    | Some a, Some b => a ⊑ b
    | None, _ => True
    | Some _, None => False
    end.

#[export] Instance state_le : SqSubsetEq ProgressState :=
  λ p q, ∀ i, byId p !! i ⊑ byId q !! i.

(** ** Lemmas: the order *)

#[export] Instance item_le_preorder : PreOrder (⊑@{ProgressItem}).
Proof.
  split.
  - intros a. unfold sqsubseteq, item_le. split_and!; [done|lia..].
  - intros a b c (Hl & Hc & Hw) (Hl' & Hc' & Hw'). unfold sqsubseteq, item_le.
    split_and!; [auto|lia..].
Qed.

#[export] Instance record_le_preorder : PreOrder (⊑@{option ProgressItem}).
Proof.
  split.
  - intros [a|]; [|done]. change (a ⊑ a). done.
  - intros [a|] [b|] [c|]; try done. intros Hab Hbc. change (a ⊑ c). by etrans.
Qed.

#[export] Instance state_le_preorder : PreOrder (⊑@{ProgressState}).
Proof.
  split.
  - by intros p i.
  - intros p q r Hpq Hqr i. etrans; [apply Hpq|apply Hqr].
Qed.

#[export] Instance item_le_dec (a b : ProgressItem) : Decision (a ⊑ b).
Proof. unfold sqsubseteq, item_le. apply _. Defined.

(** A later record counts at least as many answers. *)
#[export] Instance answers_mono : Proper ((⊑) ==> Z.le) answers.
Proof. intros a b (_ & Hc & Hw). unfold answers. lia. Qed.

(** Replacing one record by a later one gives a later state. *)
Lemma insert_le i it p :
  byId p !! i ⊑ Some it ->
  p ⊑ {| byId := <[i := it]> (byId p); settings := settings p |}.
Proof.
  intros Hi j. cbn. destruct (decide (i = j)) as [<-|Hne].
  - by rewrite lookup_insert_eq.
  - by rewrite lookup_insert_ne.
Qed.

Lemma patchSettings_le patch p : p ⊑ patchSettings patch p.
Proof. by intros i. Qed.

(** ** Lemmas: a grade *)

Section grade.
Context `{DateLib} `{JsonLib}.
Implicit Types (w : World) (p : ProgressState) (pr : ProgressItem) (now g : Z).

(** The patch of a grade is later than the record it starts from, by one
    answer. *)
Lemma gradePatch_le now pr g :
  0 <= (correct pr || 0)%js -> 0 <= (wrong pr || 0)%js -> pr ⊑ gradePatch now pr g.
Proof.
  intros Hc Hw. unfold sqsubseteq, item_le, gradePatch. cbn [learned correct wrong truthy].
  rewrite !num_or_counter. split_and!; [by intros ->|case_match; lia..].
Qed.

Lemma gradePatch_answers now pr g :
  0 <= (correct pr || 0)%js -> 0 <= (wrong pr || 0)%js ->
  answers (gradePatch now pr g) = answers pr + 1.
Proof.
  intros Hc Hw. unfold answers, gradePatch. cbn [correct wrong].
  rewrite !num_or_counter. destruct (3 <=? g) eqn:H3, (g <=? 2) eqn:H2; z_solve.
Qed.

(** Grading the record stored for a card gives a later state. *)
Lemma patchId_grade_le now p card g :
  wf_progress p = true -> card ∈ RADICALS ->
  p ⊑ patchId (id card) (gradePatch now (currentRecord now p card) g) p.
Proof.
  intros Hwf Hc. destruct (currentRecord_wf now p card Hwf Hc) as [Hit Hwfi].
  destruct (wf_item_reads _ Hwfi) as (_ & ? & ?).
  unfold patchId. rewrite gradePatch_full. apply insert_le. rewrite Hit.
  by apply gradePatch_le.
Qed.
End grade.

(** ** Lemmas: one event *)

Section steps.
Context `{DateLib} `{JsonLib}.
Implicit Types (w : World) (p : ProgressState) (now g : Z) (e : Event).

(** What the stored state can be after an event: the state before, a
    patch of its settings, or the grade of the card shown. *)
Inductive Written (now : Z) (w : World) (p' : ProgressState) : Prop :=
  | Written_nothing : p' = progress (store w) -> Written now w p'
  | Written_setting f v :
      p' = patchSettings (settingPatch f v) (progress (store w)) -> Written now w p'
  | Written_grade g :
      p' = patchId (id (currentCard (session w)))
             (gradePatch now (currentRecord now (progress (store w)) (currentCard (session w))) g)
             (progress (store w)) ->
      Written now w p'.

Lemma handle_progress now e w r :
  Inv w -> Fresh w -> e ≠ ClickReset -> handle now e w = Returned r ->
  Written now w (progress (store r.1)).
Proof.
  intros Hw Hf Hne. destruct e; cbn [handle]; try (by intros [= <-]; apply Written_nothing).
  - intros [= <-]. by apply (Written_grade _ _ _ g).
  - unfold nextQuiz. destruct (quiz (session w)) as [q|]; [|done]. intros [= <-].
    by eapply Written_grade.
  - intros [= <-].
    destruct (onKey_cases now key w Hw Hf) as [-> | [-> | [[_ ->] | (g & _ & _ & _ & ->)]]];
      try (by apply Written_nothing).
    by apply (Written_grade _ _ _ g).
  - intros [= <-]. by apply (Written_setting _ _ _ f v).
Qed.

Lemma step_progress now e w w' b :
  Inv w -> Fresh w -> e ≠ ClickReset -> step now e w = Returned (w', b) ->
  Written now w (progress (store w')).
Proof.
  intros Hw Hf Hne. unfold step.
  destruct (handle now e w) as [[w1 x]|] eqn:Hh; [|done]. cbn [outcome_bind fst snd].
  pose proof (handle_progress now e w _ Hw Hf Hne Hh) as Hp. cbn [fst] in Hp.
  destruct x; [by intros [= <- <-]|].
  destruct (render now w1) as [w2|] eqn:Hr; [|done]. intros [= <- <-].
  destruct (render_frame now w1 w2 Hr) as [-> _]. done.
Qed.

(** What is written is later than what was there. *)
Lemma Written_le now w p' : Inv w -> Written now w p' -> progress (store w) ⊑ p'.
Proof.
  intros Hw [->| f v ->| g ->]; [done|apply patchSettings_le|].
  apply patchId_grade_le; [apply Hw|apply currentCard_in_table].
Qed.

Lemma step_le now e w w' b :
  Inv w -> Fresh w -> e ≠ ClickReset -> step now e w = Returned (w', b) ->
  progress (store w) ⊑ progress (store w').
Proof. intros Hw Hf Hne Hs. by eapply Written_le, step_progress. Qed.

Lemma rtc_QuietStep_le w w' :
  Inv w -> Fresh w -> rtc QuietStep w w' -> progress (store w) ⊑ progress (store w').
Proof.
  intros Hw Hf Hrun. induction Hrun as [w|w w1 w2 Hq Hrun IH]; [done|].
  pose proof (Step_Inv w w1 Hw (QuietStep_Step w w1 Hq)) as Hw1.
  destruct Hq as [now e w w1 Hne Ho Hs].
  etrans; [by apply (step_le now e w w1 false)|]. apply IH; [done|].
  by apply (step_Fresh now e w w1).
Qed.
End steps.

(** ** Properties *)

Section properties.
Context `{DateLib} `{JsonLib}.

(** C15: what studying never takes back: from the start of a session on a
    well-formed stored state and through every sequence of events other
    than the reset of the progress, each record that was stored is still
    stored, a radical that was learned is still learned, and neither
    counter has decreased. *)
Theorem history_monotone now m st g w0 w :
  wf_progress (progress st) = true ->
  startSession now m st g = Returned w0 -> rtc QuietStep w0 w ->
  progress st ⊑ progress (store w) ∧
  ∀ i it, byId (progress st) !! i = Some it ->
    exists it', byId (progress (store w)) !! i = Some it' ∧
      (truthy (learned it) = true -> truthy (learned it') = true) ∧
      (correct it || 0)%js <= (correct it' || 0)%js ∧ (wrong it || 0)%js <= (wrong it' || 0)%js.
Proof.
  intros Hwf Hstart Hrun.
  destruct (startSession_Inv now m st g Hwf) as (w1 & Hw1 & Hinv).
  assert (w1 = w0) as -> by congruence.
  destruct (startSession_frame now m st g w0 Hstart) as [Hst _].
  assert (progress st ⊑ progress (store w)) as Hle.
  { rewrite <- Hst. apply rtc_QuietStep_le; [done| |done]. by eapply startSession_Fresh. }
  split; [done|]. intros i it Hit. specialize (Hle i). rewrite Hit in Hle.
  destruct (byId (progress (store w)) !! i) as [it'|]; [|done]. by exists it'.
Qed.

(** One event adds at most one answer: the stored state after an event
    other than the reset is the state before, up to its settings, or the
    record of the card shown counts one answer more and no other record
    has changed. *)
Theorem answers_step now e w w' b :
  Inv w -> Fresh w -> e ≠ ClickReset -> step now e w = Returned (w', b) ->
  byId (progress (store w')) = byId (progress (store w)) ∨
  exists it',
    byId (progress (store w')) =
      <[id (currentCard (session w)) := it']> (byId (progress (store w))) ∧
    answers it' =
      answers (currentRecord now (progress (store w)) (currentCard (session w))) + 1.
Proof.
  intros Hw Hf Hne Hs.
  destruct (step_progress now e w w' b Hw Hf Hne Hs) as [->| f v ->| g ->]; [by left..|].
  right. eexists. unfold patchId. rewrite gradePatch_full. split; [done|].
  destruct (currentRecord_wf now _ _ (h_wf w (inv_handled w Hw))
              (currentCard_in_table (session w))) as [_ Hwfi].
  destruct (wf_item_reads _ Hwfi) as (_ & ? & ?). by apply gradePatch_answers.
Qed.
End properties.

(** ** The properties at concrete inputs *)

Lemma history_monotone_witness :
  progress sample_store ⊑ progress (store ticked_world) ∧
  ∀ i it, byId (progress sample_store) !! i = Some it ->
    exists it', byId (progress (store ticked_world)) !! i = Some it' ∧
      (truthy (learned it) = true -> truthy (learned it') = true) ∧
      (correct it || 0)%js <= (correct it' || 0)%js ∧ (wrong it || 0)%js <= (wrong it' || 0)%js.
Proof.
  apply (history_monotone (H := fixed_zone 0) 0 "quiz" sample_store (lcg 2)
           started_world ticked_world).
  - apply emptyProgress_wf_progress.
  - apply started_world_eq.
  - apply ticked_world_run.
Defined.

(** The reset takes back: the card that was learned is not learned after
    it. *)
Example reset_forgets :
  exists w',
    step (H := fixed_zone 0) 259200001 ClickReset (review_world seen_card) = Returned (w', false) ∧
    ¬ progress (store (review_world seen_card)) ⊑ progress (store w').
Proof.
  destruct (step_reset (H := fixed_zone 0) 259200001 (review_world seen_card) defaultSettings)
    as (w2 & Hs & _ & Hp & _); [apply seen_world_Inv|by vm_compute..|].
  exists w2. split; [done|]. intros Hle. specialize (Hle 5%nat). rewrite Hp in Hle.
  revert Hle. vm_compute. intros (Hl & _). by specialize (Hl eq_refl).
Qed.
