(* ===== verification/App.v ===== *)
(** * App: the site around the session

    The component [Radicals60StudySite] of [src/app/page.tsx]: the hook
    [useProgress], the two state cells [page] and [mode], the counters of
    the home page and the four pages it switches between.  The settings
    dialog is part of every page; the study session is mounted while the
    page is "session" and unmounted, its state discarded, when the page
    changes.

    [Site] is the state of the component with the state of the mounted
    session, if any.  [siteHandle] is the handler of an event of the site
    (the navigation buttons, the settings dialog, and the events of the
    mounted session, which are those of [Machine]); [siteRender] is the
    render that follows: the settings dialog reads the fields of
    [progress.settings], the counters are recomputed when [progress.byId]
    is a new object, and a session is mounted when the page is "session"
    and none is.

    The theorems: from a well-formed stored state the site mounts and no
    event throws; the mode of a session is always one of "learn", "review"
    and "quiz"; the session mounted keeps the invariant of [Machine]
    across navigation.  Two theorems record defects: a stored state without
    settings makes the first render of the site throw, and the counter of
    due cards is computed when the progress changes, not when the day
    does. *)

From Stdlib Require Import ZArith Lia.
From stdpp Require Import base tactics option list strings gmap relations.
From S2P Require Import Prelude Clock Scheduler Catalog Random Store Deck Quiz Session Machine Trace.

#[local] Open Scope Z_scope.

(** ** State and events *)

(** The values of [page]. *)
Inductive Page : Set := PHome | PSelect | PSession | PList.

(** The three modes the markup can select. *)
Inductive ModeKey : Set := KLearn | KReview | KQuiz.

Definition modeKey (k : ModeKey) : string :=
  match k with
  | KLearn => "learn"
  | KReview => "review"
  | KQuiz => "quiz"
  end.

Record Site := {
  site_store : Store;
  site_rng : Rng;
  page : Page;
  site_mode : string;
  mounted : option Session;
  dueMemo : nat;
  learnedMemo : nat;
}.

Inductive SiteEvent : Type :=
  | HomeCard (k : ModeKey)
  | HomeStudy
  | OpenList
  | ChooseMode (k : ModeKey)
  | Start
  | SelectBack
  | ListBack
  | Study (e : Event)
  | Setting (f : SettingField) (v : bool)
  | Reset.

#[export] Instance Page_eq_dec : EqDecision Page.
Proof. solve_decision. Defined.

#[export] Instance ModeKey_eq_dec : EqDecision ModeKey.
Proof. solve_decision. Defined.

(** The world the mounted session lives in. *)
Definition world_of (s : Site) (sess : Session) : World :=
  {| store := site_store s; session := sess; rng := site_rng s |}.

Definition goto (p : Page) (s : Site) : Site :=
  {| site_store := site_store s; site_rng := site_rng s; page := p;
     site_mode := site_mode s; mounted := mounted s;
     dueMemo := dueMemo s; learnedMemo := learnedMemo s |}.

Definition setMode (m : string) (s : Site) : Site :=
  {| site_store := site_store s; site_rng := site_rng s; page := page s;
     site_mode := m; mounted := mounted s;
     dueMemo := dueMemo s; learnedMemo := learnedMemo s |}.

Definition setMounted (o : option Session) (s : Site) : Site :=
  {| site_store := site_store s; site_rng := site_rng s; page := page s;
     site_mode := site_mode s; mounted := o;
     dueMemo := dueMemo s; learnedMemo := learnedMemo s |}.

Definition setWorld (st : Store) (g : Rng) (s : Site) : Site :=
  {| site_store := st; site_rng := g; page := page s;
     site_mode := site_mode s; mounted := mounted s;
     dueMemo := dueMemo s; learnedMemo := learnedMemo s |}.

Definition setMemos (d l : nat) (s : Site) : Site :=
  {| site_store := site_store s; site_rng := site_rng s; page := page s;
     site_mode := site_mode s; mounted := mounted s;
     dueMemo := d; learnedMemo := l |}.

(** Which controls the markup of the current page offers.  While a session
    is mounted the settings dialog acts through the events of the session. *)
Definition siteOffered (e : SiteEvent) (s : Site) : bool :=
  match e with
  | HomeCard _ | HomeStudy => bool_decide (page s = PHome)
  | OpenList => bool_decide (page s = PHome) || bool_decide (page s = PSelect)
  | ChooseMode _ | Start | SelectBack => bool_decide (page s = PSelect)
  | ListBack => bool_decide (page s = PList)
  | Study e =>
      match mounted s with
      | Some sess => bool_decide (page s = PSession) && offered e sess
      | None => false
      end
  | Setting _ _ | Reset => negb (bool_decide (page s = PSession))
  end.

(** The handler of an event, before the render. *)
Definition siteHandle `{DateLib} `{JsonLib} (now : Z) (e : SiteEvent) (s : Site) : outcome Site :=
  match e with
  | HomeCard k => Returned (goto PSelect (setMode (modeKey k) s))
  | HomeStudy => Returned (goto PSelect s)
  | OpenList => Returned (goto PList s)
  | ChooseMode k => Returned (setMode (modeKey k) s)
  | Start => Returned (goto PSession s)
  | SelectBack | ListBack => Returned (goto PHome s)
  | Study e =>
      match mounted s with
      | None => Returned s
      | Some sess =>
          (try! r := step now e (world_of s sess) in
           let s' := setWorld (store r.1) (rng r.1) s in
           Returned (if r.2 then goto PSelect s' else setMounted (Some (session r.1)) s'))%js
      end
  | Setting f v =>
      Returned (setWorld (setProgress (patchSettings (settingPatch f v)) (site_store s))
                  (site_rng s) s)
  | Reset => Returned (setWorld (setProgress (resetAll now) (site_store s)) (site_rng s) s)
  end.

(** Whether the handler left a new [byId] object: a reset always does; a
    session event does when it graded, and a grade changes the record it
    writes (the counters grow), so the object is new exactly when the map
    differs. *)
Definition byIdChanged (e : SiteEvent) (s s' : Site) : bool :=
  match e with
  | Reset | Study ClickReset => true
  | _ =>
      negb (bool_decide (byId (progress (site_store s')) = byId (progress (site_store s))))
  end.

(** The two [useMemo] counters, dependencies [progress.byId]. *)
Definition refreshMemos `{DateLib} (now : Z) (changed : bool) (s : Site) : Site :=
  if changed
  then setMemos (dueCount (progress (site_store s)) now)
         (learnedCount (progress (site_store s))) s
  else s.

(** The page: the session is mounted when the page is "session" and it was
    not, kept when it was, and unmounted on every other page. *)
Definition showPage `{DateLib} (now : Z) (s : Site) : outcome Site :=
  match page s, mounted s with
  | PSession, Some _ => Returned s
  | PSession, None =>
      (try! w := startSession now (site_mode s) (site_store s) (site_rng s) in
       Returned (setMounted (Some (session w)) (setWorld (store w) (rng w) s)))%js
  | _, _ => Returned (setMounted None s)
  end.

(** The render of the site: the counters, the settings dialog, which reads
    the fields of [progress.settings], and the page. *)
Definition siteRender `{DateLib} (now : Z) (changed : bool) (s : Site) : outcome Site :=
  match settings (progress (site_store s)) with
  | None => Thrown TypeError
  | Some _ => showPage now (refreshMemos now changed s)
  end.

Definition siteStep `{DateLib} `{JsonLib} (now : Z) (e : SiteEvent) (s : Site) : outcome Site :=
  (try! s' := siteHandle now e s in siteRender now (byIdChanged e s s') s')%js.

(** The first render of the site. *)
Definition mountSite `{DateLib} `{JsonLib} (now : Z) (ls : LocalStorage) (g : Rng) : outcome Site :=
  siteRender now true
    {| site_store := useProgress now ls; site_rng := g; page := PHome;
       site_mode := "learn"; mounted := None; dueMemo := 0; learnedMemo := 0 |}.

Inductive SiteStep `{DateLib} `{JsonLib} : Site -> Site -> Prop :=
  | SiteStep_event now e s s' :
      siteOffered e s = true -> siteStep now e s = Returned s' -> SiteStep s s'.

(** ** The invariant *)

Record SiteInv (s : Site) : Prop := {
  si_wf : wf_progress (progress (site_store s)) = true;
  si_mode : site_mode s ∈ ["learn"; "review"; "quiz"]%string;
  si_session :
    match mounted s with
    | Some sess => page s = PSession ∧ Inv (world_of s sess) ∧ mode sess = site_mode s
    | None => page s ≠ PSession
    end;
}.

(** What holds between a handler of the site and the render after it: the
    session, if the page still shows it, is in a state of its invariant. *)
Record SitePre (s : Site) : Prop := {
  sp_wf : wf_progress (progress (site_store s)) = true;
  sp_mode : site_mode s ∈ ["learn"; "review"; "quiz"]%string;
  sp_session : ∀ sess,
    page s = PSession -> mounted s = Some sess ->
    Inv (world_of s sess) ∧ mode sess = site_mode s;
}.

(** ** Lemmas *)

Lemma modeKey_known k : modeKey k ∈ ["learn"; "review"; "quiz"]%string.
Proof. destruct k; simpl; set_solver. Qed.

Lemma world_of_eta w s :
  site_store s = store w -> site_rng s = rng w -> world_of s (session w) = w.
Proof. unfold world_of. intros -> ->. by destruct w. Qed.

Section site.
Context `{DateLib} `{JsonLib}.
Implicit Types (s : Site) (now : Z) (e : SiteEvent).

(** The render: it mounts a session when the page asks for one, unmounts
    it when the page has changed, and never fails on a well-formed state. *)
Lemma refreshMemos_fields now changed s :
  site_store (refreshMemos now changed s) = site_store s ∧
  site_rng (refreshMemos now changed s) = site_rng s ∧
  page (refreshMemos now changed s) = page s ∧
  site_mode (refreshMemos now changed s) = site_mode s ∧
  mounted (refreshMemos now changed s) = mounted s.
Proof. by destruct changed. Qed.

Lemma refreshMemos_Pre now changed s : SitePre s -> SitePre (refreshMemos now changed s).
Proof.
  intros [Hwf Hmode Hsess].
  destruct (refreshMemos_fields now changed s) as (Hst & Hrg & Hp & Hm & Hmt).
  split; rewrite ?Hst, ?Hm, ?Hp, ?Hmt; try done.
  unfold world_of. by rewrite Hst, Hrg.
Qed.

Lemma showPage_Inv now s :
  SitePre s ->
  exists s',
    showPage now s = Returned s' ∧ SiteInv s' ∧
    page s' = page s ∧ site_mode s' = site_mode s ∧ site_store s' = site_store s.
Proof.
  intros [Hwf Hmode Hsess]. unfold showPage. destruct (page s) eqn:Hpage.
  1,2,4: eexists; split; [by destruct (mounted s)|]; split; [|by destruct (mounted s)].
  1-3: split; destruct (mounted s); cbn; by rewrite ?Hpage.
  destruct (mounted s) as [sess|] eqn:Hmounted.
  - exists s. split_and!; try done. split; rewrite ?Hmounted; try done.
    by destruct (Hsess sess eq_refl eq_refl).
  - destruct (startSession_Inv now (site_mode s) (site_store s) (site_rng s) Hwf)
      as (w & Hs & Hw).
    rewrite Hs. destruct (startSession_frame _ _ _ _ _ Hs) as [Hsw Hmw].
    eexists. split; [done|]. cbn. split_and!; try done. split; cbn; rewrite ?Hsw; try done.
    split_and!; [congruence | by rewrite world_of_eta | congruence].
Qed.

Lemma siteRender_Inv now changed s :
  SitePre s ->
  exists s',
    siteRender now changed s = Returned s' ∧ SiteInv s' ∧
    page s' = page s ∧ site_mode s' = site_mode s ∧ site_store s' = site_store s.
Proof.
  intros Hs. unfold siteRender. destruct (wf_progress_settings _ (sp_wf s Hs)) as (st & -> & _).
  destruct (showPage_Inv now _ (refreshMemos_Pre now changed s Hs)) as (s' & -> & Hi & Hf).
  destruct (refreshMemos_fields now changed s) as (Hst & _ & Hp & Hm & _).
  exists s'. rewrite <- Hst, <- Hp, <- Hm. done.
Qed.

(** Every handler of an offered event returns and leaves a state the
    render accepts. *)
Lemma siteHandle_Pre now e s :
  SiteInv s -> siteOffered e s = true ->
  exists s', siteHandle now e s = Returned s' ∧ SitePre s'.
Proof.
  intros [Hwf Hmode Hsess] Ho.
  destruct e; cbn [siteHandle siteOffered] in *;
    repeat match goal with
      | H : _ || _ = true |- _ => apply orb_true_iff in H as [H|H]
      | H : bool_decide _ = true |- _ => apply bool_decide_eq_true in H
      | H : negb _ = true |- _ => apply negb_true_iff, bool_decide_eq_false in H
      end.
  1-8: try (eexists; split; [done|]; split; cbn;
            [done | done || apply modeKey_known | intros sess ? ?; try congruence]).
  - destruct (mounted s) as [sess0|]; [destruct Hsess; congruence | done].
  - destruct (mounted s) as [sess|] eqn:Hm; [|done].
    apply andb_true_iff in Ho as [_ Ho]. destruct Hsess as (Hp & Hi & Hms).
    destruct (step_Inv now e (world_of s sess) Hi Ho) as (w' & x & Hs & Hw'). rewrite Hs.
    cbn [outcome_bind fst snd]. eexists. split; [done|]. destruct x.
    + apply step_exit in Hs as ->. split; cbn; [done..|]. intros ? [=].
    + specialize (Hw' eq_refl). split; cbn; [apply Hw' | done |].
      intros ? _ [= <-]. split; [by rewrite world_of_eta|].
      rewrite <- Hms. apply (step_mode now e (world_of s sess) w' false Hs).
  - eexists. split; [done|]. split; cbn; [by apply patchSettings_wf_progress | done |].
    intros sess ? ?. congruence.
  - eexists. split; [done|]. split; cbn; [apply emptyProgress_wf_progress | done |].
    intros sess ? ?. congruence.
Qed.

Lemma siteStep_Inv now e s :
  SiteInv s -> siteOffered e s = true ->
  exists s', siteStep now e s = Returned s' ∧ SiteInv s'.
Proof.
  intros Hs Ho. destruct (siteHandle_Pre now e s Hs Ho) as (s1 & Hh & Hp).
  unfold siteStep. rewrite Hh. cbn [outcome_bind].
  destruct (siteRender_Inv now (byIdChanged e s s1) s1 Hp) as (s' & Hr & Hi & _). eauto.
Qed.

Lemma mountSite_Inv now ls g :
  wf_progress (progress (useProgress now ls)) = true ->
  exists s0, mountSite now ls g = Returned s0 ∧ SiteInv s0.
Proof.
  intros Hwf. unfold mountSite.
  destruct (siteRender_Inv now true
              {| site_store := useProgress now ls; site_rng := g; page := PHome;
                 site_mode := "learn"; mounted := None; dueMemo := 0; learnedMemo := 0 |})
    as (s0 & Hr & Hi & _); [|eauto].
  split; cbn; [done | set_solver | done].
Qed.

Lemma rtc_SiteStep_Inv s s' : SiteInv s -> rtc SiteStep s s' -> SiteInv s'.
Proof.
  intros Hs Hrtc. induction Hrtc as [|a b c Hab _ IH]; [done|].
  destruct Hab as [now e a b Ho Hstep].
  apply IH. destruct (siteStep_Inv now e a Hs Ho) as (b' & Hb & Hi). congruence.
Qed.
(** *** The counters *)

Lemma dueCount_ext p p' now : byId p = byId p' -> dueCount p now = dueCount p' now.
Proof.
  intros Hby. unfold dueCount. f_equal. apply filter_ext. intros r.
  unfold isDue. by rewrite Hby.
Qed.

Lemma siteHandle_memo now e s s1 :
  siteHandle now e s = Returned s1 -> dueMemo s1 = dueMemo s.
Proof.
  destruct e; cbn [siteHandle]; try by intros [= <-].
  destruct (mounted s); [|by intros [= <-]].
  destruct (step now e _) as [[w x]|]; [|done]. cbn [outcome_bind fst snd].
  intros [= <-]. by destruct x.
Qed.

Lemma showPage_memo now s s' :
  showPage now s = Returned s' ->
  dueMemo s' = dueMemo s ∧
  byId (progress (site_store s')) = byId (progress (site_store s)).
Proof.
  unfold showPage. destruct (page s), (mounted s); try by intros [= <-].
  destruct (startSession _ _ _ _) as [w|] eqn:Hs; [|done]. cbn [outcome_bind].
  intros [= <-]. apply startSession_frame in Hs as [-> _]. done.
Qed.

Lemma byIdChanged_false e s s1 :
  e ≠ Reset -> e ≠ Study ClickReset ->
  byId (progress (site_store s1)) = byId (progress (site_store s)) ->
  byIdChanged e s s1 = false.
Proof.
  intros Hr Hsr Hby. unfold byIdChanged.
  destruct e as [| | | | | | |[]| |]; try done; by rewrite bool_decide_eq_true_2.
Qed.
End site.

(** ** Properties *)

Section properties.
Context `{DateLib} `{JsonLib}.
Implicit Types (s : Site) (now : Z) (e : SiteEvent).

(** C19: the site as a whole.  When the state the hook starts from is well
    formed, the site mounts, and in every state reachable by the events
    the pages offer: the stored progress is well formed; a session is
    mounted exactly on the page "session", its mode is "learn", "review" or
    "quiz", and it satisfies the invariant of the session; and no offered
    event throws. *)
Theorem site_invariant (now : Z) (ls : LocalStorage) (g : Rng) :
  wf_progress (progress (useProgress now ls)) = true ->
  exists s0,
    mountSite now ls g = Returned s0 ∧
    ∀ s, rtc SiteStep s0 s ->
      wf_progress (progress (site_store s)) = true ∧
      (page s = PSession <-> is_Some (mounted s)) ∧
      (∀ sess, mounted s = Some sess ->
         mode sess ∈ ["learn"; "review"; "quiz"]%string ∧ Inv (world_of s sess)) ∧
      (∀ now' e, siteOffered e s = true -> returns (siteStep now' e s) = true).
Proof.
  intros Hwf. destruct (mountSite_Inv now ls g Hwf) as (s0 & Hm & Hs0).
  exists s0. split; [done|]. intros s Hrtc.
  pose proof (rtc_SiteStep_Inv s0 s Hs0 Hrtc) as Hs.
  destruct Hs as [Hwfs Hmode Hsess]. split_and!; [done | | |].
  - destruct (mounted s); [by destruct Hsess; split | split; [done | by intros []]].
  - intros sess Hmt. rewrite Hmt in Hsess. destruct Hsess as (_ & Hi & ->). done.
  - intros now' e Ho.
    by destruct (siteStep_Inv now' e s (Build_SiteInv s Hwfs Hmode Hsess) Ho) as (s' & -> & _).
Qed.

(** C36: the first render needs the settings.  The settings dialog is part
    of every page and reads the fields of [progress.settings]: the site
    mounts exactly when the state the hook starts from has settings, and
    throws a [TypeError] on a stored value that has [byId] only. *)
Theorem mountSite_needs_settings (now : Z) (ls : LocalStorage) (g : Rng) :
  returns (mountSite now ls g) = true <->
  is_Some (settings (progress (useProgress now ls))).
Proof.
  unfold mountSite, siteRender. cbn [site_store].
  destruct (settings (progress (useProgress now ls))); [|split; [done | by intros []]].
  split; [by eauto | done].
Qed.

(** C37: the counter of due cards follows the progress, not the clock.  It
    is recomputed when [progress.byId] is replaced and at no other time:
    an event that leaves [byId] alone leaves the counter as it was, whatever
    the time, so a counter that was right when it was computed shows a
    wrong number once the number of due cards has changed with the day. *)
Theorem dueMemo_follows_progress (t0 now : Z) (e : SiteEvent) (s s' : Site) :
  siteStep now e s = Returned s' -> e ≠ Reset -> e ≠ Study ClickReset ->
  byId (progress (site_store s')) = byId (progress (site_store s)) ->
  dueMemo s' = dueMemo s ∧
  (dueMemo s = dueCount (progress (site_store s)) t0 ->
   dueCount (progress (site_store s)) now ≠ dueCount (progress (site_store s)) t0 ->
   dueMemo s' ≠ dueCount (progress (site_store s')) now).
Proof.
  intros Hstep Hr Hsr Hby.
  assert (dueMemo s' = dueMemo s) as Hmemo; [|split; [done|]].
  - unfold siteStep in Hstep. destruct (siteHandle now e s) as [s1|] eqn:Hh; [|done].
    cbn [outcome_bind] in Hstep. unfold siteRender in Hstep.
    destruct (settings (progress (site_store s1))); [|done].
    apply showPage_memo in Hstep as [-> Hby'].
    destruct (refreshMemos_fields now (byIdChanged e s s1) s1) as (Hst & _).
    rewrite Hst in Hby'. rewrite (byIdChanged_false e s s1) by (done || congruence).
    by apply (siteHandle_memo now e).
  - intros Hright Hmoved. rewrite Hmemo, Hright, (dueCount_ext _ _ now Hby). congruence.
Qed.
End properties.

(** ** The properties at concrete inputs *)

(** A storage that refuses access: the hook starts from the fresh state. *)
Definition closed_storage : LocalStorage := {| items := ∅; denied := true; capacity := 0 |}.

Lemma closed_storage_wf now :
  wf_progress (progress (useProgress (H := fixed_zone 0) now closed_storage)) = true.
Proof.
  rewrite useProgress_progress.
  replace (loadProgress closed_storage) with (@None ProgressState) by by vm_compute.
  apply emptyProgress_wf_progress.
Qed.

Lemma site_invariant_witness :
  exists s0,
    mountSite (H := fixed_zone 0) 0 closed_storage (lcg 1) = Returned s0 ∧
    ∀ s, rtc (SiteStep (H := fixed_zone 0)) s0 s ->
      wf_progress (progress (site_store s)) = true ∧
      (page s = PSession <-> is_Some (mounted s)) ∧
      (∀ sess, mounted s = Some sess ->
         mode sess ∈ ["learn"; "review"; "quiz"]%string ∧ Inv (world_of s sess)) ∧
      (∀ now' e, siteOffered e s = true ->
         returns (siteStep (H := fixed_zone 0) now' e s) = true).
Proof.
  apply (site_invariant (H := fixed_zone 0) 0 closed_storage (lcg 1)).
  apply closed_storage_wf.
Defined.

(** The home page on day 3, when radical 5 is the only card due; the other
    59 are due on day 10. *)
Definition day3_site : Site :=
  {| site_store := practised seen_card; site_rng := lcg 1; page := PHome;
     site_mode := "learn"; mounted := None; dueMemo := 1; learnedMemo := 1 |}.

(** On day 11 the user opens the mode page: the counter still says 1, and
    all 60 cards are due. *)
Lemma dueMemo_follows_progress_witness :
  dueMemo (goto PSelect day3_site) = 1%nat ∧
  dueCount (H := fixed_zone 0) (progress (site_store (goto PSelect day3_site))) 950400000
    = 60%nat ∧
  dueMemo (goto PSelect day3_site) ≠
    dueCount (H := fixed_zone 0) (progress (site_store (goto PSelect day3_site))) 950400000.
Proof.
  split; [done|]. split; [by vm_compute|].
  apply (dueMemo_follows_progress (H := fixed_zone 0) 259200000 950400000 HomeStudy
           day3_site (goto PSelect day3_site)); by vm_compute.
Defined.
