(* ===== verification/Durable.v ===== *)
(** * Durable: what the storage holds while the site runs

    [useProgress] (source lines 702-727) saves the state after every
    change ([saveProgress] in an effect), and [loadProgress] reads it
    when the page is opened again.  This file follows the storage through
    the events of the session and of the site.

    - [fits st]: the storage of [st] is accessible and takes the text of
      its state.  [mirrored st]: the storage holds that text under the key
      of the program.  [Saved st]: mirrored when it fits.
    - Every event leaves the store as it is or is an update of the hook
      followed by its save effect ([step_store], [siteStep_store]); the
      save effect establishes [Saved] whatever was stored before, so
      [Saved] holds of the first render and after every event.
    - Opening the page on a mirrored storage gives the store back: the
      state read is the state that was written, and the first save writes
      the text that is there ([mirrored_reopen]).

    The theorems: whenever the text of the current state fits the
    storage, closing the page and opening it again continues with the
    same progress, on the home page; when it does not fit, the storage
    keeps the last text that did. *)

From Stdlib Require Import ZArith Lia String.
From stdpp Require Import base tactics option list strings gmap.
From S2P Require Import Prelude Clock Catalog Random Store Deck Session Machine App.

(** ** Definitions *)

Section definitions.
Context `{DateLib} `{JsonLib}.

(** The storage is accessible and its capacity takes the text of the
    state. *)
Definition fits (st : Store) : bool :=
  negb (denied (storage st)) &&
  bool_decide (String.length (stringify (progress st)) ≤ capacity (storage st))%nat.

(** The storage holds the text of the state. *)
Definition mirrored (st : Store) : Prop :=
  denied (storage st) = false ∧ items (storage st) !! LS_KEY = Some (stringify (progress st)).

Definition Saved (st : Store) : Prop := fits st = true -> mirrored st.

(** The store is as before or was updated through the hook. *)
Definition Updated (st st' : Store) : Prop :=
  st' = st ∨ ∃ f, st' = setProgress f st.

(** The events of a visit, dispatched in order; an event the page does not
    offer is not raised. *)
Fixpoint siteRun (es : list (Z * SiteEvent)) (s : Site) : outcome Site :=
  match es with
  | [] => Returned s
  | (now, e) :: es' =>
      if siteOffered e s then (try! s' := siteStep now e s in siteRun es' s')%js
      else siteRun es' s
  end.

(** A visit: the page is opened on a storage and events follow. *)
Definition visit (now : Z) (ls : LocalStorage) (g : Rng)
    (es : list (Z * SiteEvent)) : outcome Site :=
  (try! s0 := mountSite now ls g in siteRun es s0)%js.
End definitions.

(** ** The save effect *)

Section save.
Context `{DateLib} `{JsonLib}.
Implicit Types (st : Store) (w : World) (s : Site).

Lemma fits_iff st :
  fits st = true <->
  denied (storage st) = false ∧ (String.length (stringify (progress st)) ≤ capacity (storage st))%nat.
Proof.
  unfold fits. rewrite andb_true_iff, negb_true_iff, bool_decide_eq_true. done.
Qed.

(** The save effect changes neither the state nor whether it fits. *)
Lemma fits_saveEffect st : fits (saveEffect st) = fits st.
Proof.
  unfold fits, saveEffect. cbn [progress storage].
  by destruct (saveProgress_env (progress st) (storage st)) as [-> ->].
Qed.

Lemma saveEffect_Saved st : Saved (saveEffect st).
Proof.
  intros Hf. rewrite fits_saveEffect in Hf. apply fits_iff in Hf as [Hd Hc].
  unfold mirrored, saveEffect. cbn [progress storage]. rewrite saveProgress_ok by done.
  split; [done | apply lookup_insert_eq].
Qed.

Lemma setProgress_Saved f st : Saved (setProgress f st).
Proof. apply saveEffect_Saved. Qed.

Lemma useProgress_Saved now ls : Saved (useProgress now ls).
Proof. apply saveEffect_Saved. Qed.

Lemma Updated_Saved st st' : Updated st st' -> Saved st -> Saved st'.
Proof. intros [-> | [f ->]] Hs; [done | apply setProgress_Saved]. Qed.

(** When the text does not fit, the save effect leaves the storage as it
    was. *)
Lemma saveEffect_full st : fits st = false -> storage (saveEffect st) = storage st.
Proof.
  intros Hf. unfold saveEffect. cbn [storage]. apply saveProgress_failed.
  unfold fits in Hf. unfold setItem. destruct (denied (storage st)); [done|].
  cbn in Hf. by rewrite Hf.
Qed.

(** ** Reading back *)

Lemma mirrored_load st : mirrored st -> loadProgress (storage st) = Some (progress st).
Proof. intros [Hd Hi]. by apply loadProgress_stored. Qed.

(** Saving the text that is stored changes nothing. *)
Lemma mirrored_save st : mirrored st -> saveProgress (progress st) (storage st) = storage st.
Proof.
  intros [Hd Hi]. unfold saveProgress, setItem. rewrite Hd. case_bool_decide; [|done].
  cbn. rewrite insert_id by done. destruct (storage st). cbn in *. by subst.
Qed.

(** Opening the page on a mirrored storage gives the store back. *)
Lemma mirrored_reopen now st : mirrored st -> useProgress now (storage st) = st.
Proof.
  intros Hm. unfold useProgress. rewrite mirrored_load by done. cbn [default].
  unfold saveEffect, Datatypes.id. cbn [progress storage].
  rewrite mirrored_save by done. by destruct st.
Qed.

(** ** The events of the session *)

Lemma Updated_refl st : Updated st st.
Proof. by left. Qed.

Lemma Updated_set f st : Updated st (setProgress f st).
Proof. right. by exists f. Qed.

Lemma onKey_store now key w : Updated (store w) (store (onKey now key w).1).
Proof.
  unfold onKey. repeat (case_decide || case_match); cbn; try apply Updated_refl.
  apply Updated_set.
Qed.

Lemma handle_store now e w r :
  handle now e w = Returned r -> Updated (store w) (store r.1).
Proof.
  destruct e; cbn [handle]; try (intros [= <-]; cbn; first [apply Updated_refl | apply Updated_set]).
  - unfold nextQuiz. destruct (quiz (session w)); [|done]. intros [= <-]. apply Updated_set.
  - intros [= <-]. apply onKey_store.
Qed.

Lemma step_store now e w r :
  step now e w = Returned r -> Updated (store w) (store r.1).
Proof.
  unfold step. destruct (handle now e w) as [r1|] eqn:Hh; [|done]. cbn [outcome_bind].
  apply handle_store in Hh. destruct (r1.2); [by intros [= <-]|].
  destruct (render now r1.1) as [w'|] eqn:Hr; [|done]. cbn [outcome_bind]. intros [= <-].
  apply render_frame in Hr as [Hs _]. cbn [fst]. by rewrite Hs.
Qed.

(** ** The events of the site *)

Lemma showPage_store now s s' : showPage now s = Returned s' -> site_store s' = site_store s.
Proof.
  unfold showPage. destruct (page s), (mounted s); try by intros [= <-].
  destruct (startSession _ _ _ _) as [w|] eqn:Hw; [|done]. cbn [outcome_bind]. intros [= <-].
  by apply startSession_frame in Hw as [-> _].
Qed.

Lemma siteRender_store now changed s s' :
  siteRender now changed s = Returned s' -> site_store s' = site_store s.
Proof.
  unfold siteRender. destruct (settings _); [|done]. intros ->%showPage_store.
  unfold refreshMemos. by destruct changed.
Qed.

Lemma siteHandle_store now e s s' :
  siteHandle now e s = Returned s' -> Updated (site_store s) (site_store s').
Proof.
  destruct e; cbn [siteHandle]; try (intros [= <-]; cbn; first [apply Updated_refl | apply Updated_set]).
  destruct (mounted s) as [sess|]; [|intros [= <-]; apply Updated_refl].
  destruct (step now e (world_of s sess)) as [r|] eqn:Hs; [|done]. cbn [outcome_bind].
  apply step_store in Hs. intros [= <-]. by destruct (r.2).
Qed.

Lemma siteStep_store now e s s' :
  siteStep now e s = Returned s' -> Updated (site_store s) (site_store s').
Proof.
  unfold siteStep. destruct (siteHandle now e s) as [s1|] eqn:Hh; [|done]. cbn [outcome_bind].
  intros ->%siteRender_store. by apply siteHandle_store in Hh.
Qed.

Lemma mountSite_store now ls g s :
  mountSite now ls g = Returned s -> site_store s = useProgress now ls.
Proof. unfold mountSite. by intros ->%siteRender_store. Qed.

Lemma rtc_SiteStep_Saved s s' : Saved (site_store s) -> rtc SiteStep s s' -> Saved (site_store s').
Proof.
  intros Hs Hrtc. induction Hrtc as [|a b c Hab _ IH]; [done|]. destruct Hab as [now e a b _ Hstep].
  apply IH. eapply Updated_Saved; [by eapply siteStep_store | done].
Qed.

Lemma rtc_Step_Saved w w' : Saved (store w) -> rtc Step w w' -> Saved (store w').
Proof.
  intros Hs Hrtc. induction Hrtc as [|a b c Hab _ IH]; [done|]. destruct Hab as [now e a b _ Hstep].
  apply IH. eapply Updated_Saved; [|done]. by apply (step_store now e a (b, false)).
Qed.
End save.

(** ** Visits *)

Section visits.
Context `{DateLib} `{JsonLib}.
Implicit Types (st : Store) (s : Site).

Lemma siteRun_rtc es s s' : siteRun es s = Returned s' -> rtc SiteStep s s'.
Proof.
  revert s. induction es as [|[now e] es IH]; intros s; cbn [siteRun].
  - by intros [= ->].
  - destruct (siteOffered e s) eqn:Ho; [|apply IH].
    destruct (siteStep now e s) as [s1|] eqn:Hs; [|done]. cbn [outcome_bind]. intros Hr.
    eapply rtc_l; [by econstructor | by apply IH].
Qed.

Lemma visit_rtc now ls g es s :
  visit now ls g es = Returned s ->
  ∃ s0, mountSite now ls g = Returned s0 ∧ rtc SiteStep s0 s.
Proof.
  unfold visit. destruct (mountSite now ls g) as [s0|]; [|done]. cbn [outcome_bind].
  intros Hr%siteRun_rtc. by exists s0.
Qed.

(** A site that rendered has settings. *)
Lemma siteRender_settings now changed s s' :
  siteRender now changed s = Returned s' -> is_Some (settings (progress (site_store s'))).
Proof.
  intros Hr. rewrite (siteRender_store _ _ _ _ Hr). unfold siteRender in Hr.
  by destruct (settings _).
Qed.

Lemma rtc_SiteStep_settings s s' :
  is_Some (settings (progress (site_store s))) -> rtc SiteStep s s' ->
  is_Some (settings (progress (site_store s'))).
Proof.
  intros Hs Hrtc. induction Hrtc as [|a b c Hab _ IH]; [done|]. apply IH.
  destruct Hab as [now e a b _ Hstep]. unfold siteStep in Hstep.
  destruct (siteHandle now e a); [|done]. by eapply siteRender_settings.
Qed.

(** The first render of the site: the home page on the store of the hook. *)
Lemma mountSite_home now ls g :
  is_Some (settings (progress (useProgress now ls))) ->
  ∃ s, mountSite now ls g = Returned s ∧ site_store s = useProgress now ls ∧
       page s = PHome ∧ mounted s = None.
Proof.
  intros [cfg Hcfg]. unfold mountSite, siteRender. cbn [site_store]. rewrite Hcfg.
  eexists. split; [done|]. done.
Qed.
End visits.

(** ** Properties *)

Section properties.
Context `{DateLib} `{JsonLib}.

(** C12: progress survives closing the page.  After the site was opened and
    any events of its pages and sessions were handled, if the text of the
    current progress fits the storage, then opening the site again, at any
    time, starts on the home page with the store as it was left: the
    progress read back is the progress in memory and the storage is
    unchanged. *)
Theorem progress_survives_reload (now : Z) (ls : LocalStorage) (g : Rng) (s0 s : Site)
    (now' : Z) (g' : Rng) :
  mountSite now ls g = Returned s0 -> rtc SiteStep s0 s -> fits (site_store s) = true ->
  loadProgress (storage (site_store s)) = Some (progress (site_store s)) ∧
  ∃ s', mountSite now' (storage (site_store s)) g' = Returned s' ∧
        site_store s' = site_store s ∧ page s' = PHome ∧ mounted s' = None.
Proof.
  intros Hm Hrtc Hf.
  assert (mirrored (site_store s)) as Hmir.
  { apply (rtc_SiteStep_Saved s0 s); [|done..].
    rewrite (mountSite_store _ _ _ _ Hm). apply useProgress_Saved. }
  split; [by apply mirrored_load|].
  destruct (mountSite_home now' (storage (site_store s)) g') as (s' & Hs' & Hst & Hp & Hmt).
  - rewrite mirrored_reopen by done. apply (rtc_SiteStep_settings s0 s); [|done].
    unfold mountSite in Hm. by eapply siteRender_settings.
  - exists s'. by rewrite <- (mirrored_reopen now' (site_store s)) at 2.
Qed.

(** When the text of an update does not fit, the update is made in memory
    and the storage keeps the text it had: the page opened again shows the
    state before the update. *)
Theorem update_lost_when_full (f : ProgressState -> ProgressState) (st : Store) (now : Z) :
  mirrored st -> fits (setProgress f st) = false ->
  progress (setProgress f st) = f (progress st) ∧
  useProgress now (storage (setProgress f st)) = st.
Proof.
  intros Hm Hf. split; [done|]. unfold setProgress in *. rewrite fits_saveEffect in Hf.
  rewrite saveEffect_full by done. cbn [storage]. by apply mirrored_reopen.
Qed.

(** The same for the session alone: what a session leaves in the storage
    is its progress, when it fits. *)
Theorem session_leaves_progress (now : Z) (m : string) (st : Store) (g : Rng) (w0 w : World) :
  Saved st -> startSession now m st g = Returned w0 -> rtc Step w0 w ->
  fits (store w) = true ->
  loadProgress (storage (store w)) = Some (progress (store w)).
Proof.
  intros Hs Hw0 Hrtc Hf. apply mirrored_load, (rtc_Step_Saved w0 w); [|done..].
  by apply startSession_frame in Hw0 as [-> _].
Qed.
End properties.

(** ** The properties at concrete inputs *)

(** A first visit on an empty storage: a learn session is started, the
    first card is turned and graded Good, and the session is left. *)
Definition roomy : LocalStorage := open_storage ∅ (Z.to_nat 10000).

Definition first_visit : outcome Site :=
  visit (H := fixed_zone 0) 0 roomy (lcg 1)
    [(1, HomeCard KLearn); (2, Start); (3, Study ClickCard); (4, Study (ClickGrade 3));
     (5, Study ClickBack)]%Z.

Definition opened_site : Site :=
  catch (mountSite (H := fixed_zone 0) 0 roomy (lcg 1)) day3_site.

Definition left_site : Site := catch first_visit day3_site.

Lemma opened_site_eq :
  mountSite (H := fixed_zone 0) 0 roomy (lcg 1) = Returned opened_site.
Proof.
  unfold opened_site.
  destruct (mountSite_home (H := fixed_zone 0) 0 roomy (lcg 1)) as (s & -> & _);
    [vm_compute; by eexists | done].
Qed.

Lemma left_site_eq : first_visit = Returned left_site.
Proof.
  unfold left_site. assert (returns first_visit = true) as Hr by by vm_compute.
  by destruct first_visit.
Qed.

Lemma left_site_rtc : rtc (SiteStep (H := fixed_zone 0)) opened_site left_site.
Proof.
  destruct (visit_rtc (H := fixed_zone 0) _ _ _ _ _ left_site_eq) as (s0 & Hs0 & Hrtc).
  rewrite opened_site_eq in Hs0. by injection Hs0 as <-.
Qed.

(** The answer is in the stored text, and the site is on the mode page. *)
Example left_site_state :
  page left_site = PSelect ∧ mounted left_site = None ∧
  (byId (progress (site_store left_site)) !! 1%nat ≫= correct) = Some 1%Z ∧
  fits (site_store left_site) = true ∧
  String.length (default "" (items (storage (site_store left_site)) !! LS_KEY)) = Z.to_nat 6498.
Proof. by vm_compute. Qed.

Lemma progress_survives_reload_witness :
  loadProgress (storage (site_store left_site)) = Some (progress (site_store left_site)) ∧
  ∃ s', mountSite (H := fixed_zone 0) 86400000 (storage (site_store left_site)) (lcg 7)
          = Returned s' ∧
        site_store s' = site_store left_site ∧ page s' = PHome ∧ mounted s' = None.
Proof.
  apply (progress_survives_reload (H := fixed_zone 0) 0 roomy (lcg 1) opened_site left_site).
  - apply opened_site_eq.
  - apply left_site_rtc.
  - by vm_compute.
Defined.

(** A storage that takes the text of the fresh state and no more: the
    first answer is lost when the page is opened again. *)
Definition tight_store : Store := useProgress (H := fixed_zone 0) 0 (open_storage ∅ (Z.to_nat 6477)).

Definition first_answer : ProgressState -> ProgressState :=
  patchId 1 (gradePatch (H := fixed_zone 0) 5 (freshItem 0) 3).

Lemma update_lost_when_full_witness :
  progress (setProgress first_answer tight_store) = first_answer (progress tight_store) ∧
  useProgress (H := fixed_zone 0) 86400000 (storage (setProgress first_answer tight_store))
    = tight_store.
Proof.
  apply (update_lost_when_full (H := fixed_zone 0)).
  - apply useProgress_Saved. by vm_compute.
  - by vm_compute.
Defined.
