(* ===== verification/SiteView.v ===== *)
(** * SiteView: the markup of the site

    What [Radicals60StudySite] of [src/app/page.tsx] returns (lines
    1364-1577): the header with the settings dialog, then the page: home,
    select, the study session or the list.  The handlers are the events of
    [App] under [Nav]; typing in the search box of the list page is
    [Search], which the site itself does not handle (the text belongs to
    the list page).

    - [homePage] and [selectPage] are the two pages written in the
      component; [modeCards] is the array literal of the select page.
    - The settings dialog raises [Setting] and [Reset], or the events of
      the session while a session is mounted, as [App.siteHandle] treats
      them.
    - [siteView] is the render: it reads the settings, evaluates the tree
      of the mounted session on the session page and returns the tree.  A
      site on the session page without a session occurs only between a
      handler and the render that mounts it; its tree has no session.

    The theorems: every event the tree offers is one [App.siteOffered]
    allows, so that the invariants proved over [App.SiteStep] cover every
    state a user can reach; conversely every navigation event allowed is
    offered by the tree; and the render of a site that satisfies the
    invariant does not throw. *)

From Stdlib Require Import ZArith Lia.
From stdpp Require Import base tactics option list strings gmap sets pretty.
From S2P Require Import Prelude Clock Dom Catalog Text Random Store Session Machine Widgets View.
From S2P Require Import SessionView ListPage App.

#[local] Open Scope Z_scope.

(** ** Events *)

Inductive ViewEvent : Type :=
  | Nav (e : SiteEvent)
  | Search (v : string).

(** The events of the list page, seen from the site. *)
Definition listEvent (e : ListEvent) : ViewEvent :=
  match e with
  | SetQ v => Search v
  | Back => Nav ListBack
  end.

(** The events of the settings dialog. *)
Definition settingEvent (s : Site) (f : SettingField) (v : bool) : ViewEvent :=
  Nav (if bool_decide (page s = PSession) then Study (SetSetting f v) else Setting f v).

Definition resetEvent (s : Site) : ViewEvent :=
  Nav (if bool_decide (page s = PSession) then Study ClickReset else Reset).

(** ** The pages *)

(** An entry of the array of the select page. *)
Record ModeCard := {
    key : ModeKey;
    meta : Theme;
    desc : string;
  }.

(** The array of the select page. *)
Definition modeCards : list ModeCard := [
  {| key := KLearn; meta := MODE_META.learn; desc := "Flashcard lật & chấm" |};
  {| key := KReview; meta := MODE_META.review; desc := "Ưu tiên thẻ đến hạn" |};
  {| key := KQuiz; meta := MODE_META.quiz; desc := "Bộ thủ → ý nghĩa" |}
].

(** The page "home". *)
Definition homePage (s : Site) : Node ViewEvent :=
  let theme := themeOf (site_mode s) in
  Elem "div" [className "grid gap-4 lg:grid-cols-[1fr_360px]"]
    [Elem "Card" [className "rounded-2xl shadow-sm border-slate-200 bg-white/80"]
      [Elem "CardHeader" [className "space-y-2"]
        [Elem "CardTitle" [className "text-lg"] [Text "Bắt đầu học"];
         Elem "div" [className "text-sm text-slate-600"]
          [Text "Chọn chế độ, vào thẳng màn hình flashcard."]];
       Elem "CardContent" [className "space-y-3"]
        [Elem "div" [className "grid gap-3 md:grid-cols-3"]
          [Elem "button"
            [OnClick (Nav (HomeCard KLearn));
             className "rounded-2xl border border-slate-200 bg-white p-4 text-left transition hover:bg-sky-50"]
            [Elem "div" [className "flex items-center gap-2"]
              [Elem "span" [className "h-2 w-2 rounded-full bg-sky-500"] [];
               Elem "div" [className "text-sm font-semibold"] [Text "Học"]];
             Elem "div" [className "mt-1 text-sm text-slate-600"] [Text "Đi lần lượt hoặc xáo"];
             Elem "div" [className "mt-3 flex items-center gap-2 text-sm"]
              [Elem "Badge" [className "rounded-2xl border border-sky-200 bg-sky-50 text-sky-700"]
                [Text "60 thẻ"];
               Elem "ChevronRight" [className "h-4 w-4 text-slate-500"] []]];
           Elem "button"
            [OnClick (Nav (HomeCard KReview));
             className "rounded-2xl border border-slate-200 bg-white p-4 text-left transition hover:bg-amber-50"]
            [Elem "div" [className "flex items-center gap-2"]
              [Elem "span" [className "h-2 w-2 rounded-full bg-amber-500"] [];
               Elem "div" [className "text-sm font-semibold"] [Text "Ôn"]];
             Elem "div" [className "mt-1 text-sm text-slate-600"] [Text "Theo hạn (SRS)"];
             Elem "div" [className "mt-3 flex items-center gap-2 text-sm"]
              [Elem "Badge" [className "rounded-2xl border border-amber-200 bg-amber-50 text-amber-800"]
                [Text "Đến hạn: "; Text (pretty (dueMemo s))];
               Elem "ChevronRight" [className "h-4 w-4 text-slate-500"] []]];
           Elem "button"
            [OnClick (Nav (HomeCard KQuiz));
             className "rounded-2xl border border-slate-200 bg-white p-4 text-left transition hover:bg-violet-50"]
            [Elem "div" [className "flex items-center gap-2"]
              [Elem "span" [className "h-2 w-2 rounded-full bg-violet-500"] [];
               Elem "div" [className "text-sm font-semibold"] [Text "Kiểm tra"]];
             Elem "div" [className "mt-1 text-sm text-slate-600"] [Text "Trắc nghiệm nhanh"];
             Elem "div" [className "mt-3 flex items-center gap-2 text-sm"]
              [Elem "Badge" [className "rounded-2xl border border-violet-200 bg-violet-50 text-violet-700"]
                [Text "Random"];
               Elem "ChevronRight" [className "h-4 w-4 text-slate-500"] []]]];
         Elem "Separator" [] [];
         Elem "div" [className "flex flex-wrap gap-2"]
          [Elem "Button"
            [className ("rounded-2xl gap-2 " +:+ solid theme);
             OnClick (Nav HomeStudy)]
            [Text "Vào Study"; Elem "ChevronRight" [className "h-4 w-4"] []];
           Elem "Button"
            [Str "variant" "secondary";
             className "rounded-2xl bg-white/70 hover:bg-white";
             OnClick (Nav OpenList)]
            [Text "Xem danh sách"]];
         Elem "div" [className "mt-2 text-sm text-slate-600"]
          [Text "Gợi ý phím tắt: ";
           SmallKbd [Text "Space"];
           Text " lật thẻ, ";
           SmallKbd [Text "1–4"];
           Text " chấm điểm."]]];
     Elem "Card" [className "rounded-2xl shadow-sm border-slate-200 bg-white/80"]
      [Elem "CardHeader" [className "space-y-2"]
        [Elem "CardTitle" [className "text-lg"] [Text "Tiến độ"];
         Elem "div" [className "text-sm text-slate-600"] [Text "Tự lưu trên máy bạn."]];
       Elem "CardContent" [className "space-y-3"]
        [Elem "div" [className "rounded-2xl border border-slate-200 bg-white p-4"]
          [Elem "div" [className "text-sm text-slate-600"] [Text "Đã học"];
           Elem "div" [className "mt-1 text-2xl font-semibold"]
            [Text (pretty (learnedMemo s)); Text " / 60"]];
         Elem "div" [className "rounded-2xl border border-slate-200 bg-white p-4"]
          [Elem "div" [className "text-sm text-slate-600"] [Text "Đến hạn ôn hôm nay"];
           Elem "div" [className "mt-1 text-2xl font-semibold"] [Text (pretty (dueMemo s))]];
         Elem "div" [className "rounded-2xl border border-slate-200 bg-white p-4"]
          [Elem "div" [className "text-sm text-slate-600"] [Text "Chế độ gợi ý"];
           Elem "div" [className "mt-1 text-sm text-slate-800"]
            [Text (if negb (bool_decide (dueMemo s = 0%nat)) then "Bạn nên vào Ôn trước." else "Bạn có thể vào Học hoặc Kiểm tra.")]]]]].

(** A mode of the select page. *)
Definition modeButton (mode : string) (m : ModeCard) : Node ViewEvent :=
  Elem "button"
    [OnClick (Nav (ChooseMode (key m)));
     className ("rounded-2xl border p-4 text-left transition " +:+ (if bool_decide (mode = modeKey (key m)) then ("border-slate-300 " +:+ soft (meta m)) else "border-slate-200 bg-white hover:bg-slate-50"))]
    [Elem "div" [className "flex items-center gap-2"]
      [Elem "span" [className ("h-2 w-2 rounded-full " +:+ dot (meta m))] [];
       Elem "div" [className "text-sm font-semibold"] [Text (label (meta m))]];
     Elem "div" [className "mt-1 text-sm text-slate-600"] [Text (desc m)]].

(** The page "select". *)
Definition selectPage (s : Site) : Node ViewEvent :=
  let theme := themeOf (site_mode s) in
  Elem "div" [className "grid gap-4 lg:grid-cols-[1fr_360px]"]
    [Elem "Card" [className "rounded-2xl shadow-sm border-slate-200 bg-white/80"]
      [Elem "CardHeader" [className "space-y-2"]
        [Elem "CardTitle" [className "text-lg"] [Text "Study"];
         Elem "div" [className "text-sm text-slate-600"] [Text "Chọn chế độ rồi bấm Start."]];
       Elem "CardContent" [className "space-y-3"]
        [Elem "div" [className "grid gap-3 md:grid-cols-3"]
          (modeButton (site_mode s) <$> modeCards);
         Elem "Separator" [] [];
         Elem "div" [className "flex flex-wrap gap-2"]
          [Elem "Button" [className ("rounded-2xl gap-2 " +:+ solid theme); OnClick (Nav Start)]
            [Text "Start"; Elem "ChevronRight" [className "h-4 w-4"] []];
           Elem "Button"
            [Str "variant" "secondary";
             className "rounded-2xl bg-white/70 hover:bg-white";
             OnClick (Nav SelectBack)]
            [Text "Quay về"];
           Elem "Button"
            [Str "variant" "secondary";
             className "rounded-2xl bg-white/70 hover:bg-white";
             OnClick (Nav OpenList)]
            [Text "Danh sách"]];
         Elem "div" [className "rounded-2xl border border-slate-200 bg-slate-50 p-4 text-sm text-slate-600"]
          [Text "Mình đã thêm màu nhấn để mắt dễ bám vào thông tin (mà không bị rối)."]]];
     Elem "Card" [className "rounded-2xl shadow-sm border-slate-200 bg-white/80"]
      [Elem "CardHeader" [className "space-y-2"]
        [Elem "CardTitle" [className "text-lg"] [Text "Nhắc nhanh"]];
       Elem "CardContent" [className "space-y-3"]
        [Elem "div" [className "rounded-2xl border border-slate-200 bg-white p-4"]
          [Elem "div" [className "text-sm text-slate-600"] [Text "Deck"];
           Elem "div" [className "mt-1 text-base font-semibold"] [Text "Radicals 60"]];
         Elem "div" [className "rounded-2xl border border-slate-200 bg-white p-4"]
          [Elem "div" [className "text-sm text-slate-600"] [Text "Phím tắt"];
           Elem "div" [className "mt-2 space-y-2 text-sm text-slate-800"]
            [Elem "div" [] [SmallKbd [Text "Space"]; Text " lật thẻ"];
             Elem "div" []
              [SmallKbd [Text "1"];
               Text " Again • ";
               SmallKbd [Text "2"];
               Text " Hard • ";
               SmallKbd [Text "3"];
               Text " Good • ";
               SmallKbd [Text "4"];
               Text " Easy"];
             Elem "div" [] [SmallKbd [Text "Esc"]; Text " thoát"]]]]]].

(** The tree [Radicals60StudySite] returns; [study] is the tree of the
    mounted session and [q] the text of the search box. *)
Definition siteMarkup `{TextLib} (st : Settings) (s : Site) (q : string)
    (study : list (Node ViewEvent)) : Node ViewEvent :=
  Elem "div" [className "min-h-screen bg-gradient-to-b from-slate-50 via-white to-slate-50 text-slate-900"]
    [Elem "div" [className "mx-auto max-w-6xl px-4 py-6"]
      [Elem "div" [className "flex flex-wrap items-center justify-between gap-3"]
        [Elem "div" [className "flex items-center gap-3"]
          [Elem "div" [className "flex h-10 w-10 items-center justify-center rounded-2xl border border-sky-200 bg-sky-50"]
            [Elem "BookOpen" [className "h-5 w-5 text-sky-700"] []];
           Elem "div" []
            [Elem "div" [className "text-2xl font-semibold tracking-tight"]
              [Text "60 Bộ thủ thông dụng"];
             Elem "div" [className "mt-1 text-sm text-slate-600"]
              [Text "Giao diện study mode gọn, có điểm nhấn màu để dễ tập trung."]]];
         Elem "div" [className "flex items-center gap-2"]
          [SettingsDialog (settingEvent s) (resetEvent s) st]];
       Elem "div" [className "mt-6"]
        (when (bool_decide (page s = PHome)) (homePage s)
         ++ when (bool_decide (page s = PSelect)) (selectPage s)
         ++ (if bool_decide (page s = PSession) then study else [])
         ++ when (bool_decide (page s = PList))
            (node_map listEvent (ManageList (progress (site_store s)) q)));
       Elem "div" [className "mt-8 rounded-2xl border border-slate-200 bg-white/70 p-4 text-sm text-slate-600"]
        [Text "Tip: Nếu bạn muốn màu mạnh hơn hoặc đổi tone (xanh lá, xanh dương, tím), nói mình biết tone bạn thích."]]].

(** The render. *)
Definition siteView `{TextLib} `{LocaleLib} `{DateLib} (now : Z) (s : Site) (q : string) :
    outcome (Node ViewEvent) :=
  match settings (progress (site_store s)) with
  | None => Thrown TypeError
  | Some st =>
      match page s, mounted s with
      | PSession, Some sess =>
          (try! n := sessionView now (world_of s sess) in
           Returned (siteMarkup st s q [node_map (Nav ∘ Study) n]))%js
      | _, _ => Returned (siteMarkup st s q [])
      end
  end.

(** ** The events of the markup *)

(** The buttons of the page "home" and of the page "select", in document
    order. *)
Definition homeClicks : list SiteEvent :=
  [HomeCard KLearn; HomeCard KReview; HomeCard KQuiz; HomeStudy; OpenList].

Definition selectClicks : list SiteEvent :=
  (ChooseMode <$> [KLearn; KReview; KQuiz]) ++ [Start; SelectBack; OpenList].

(** The handlers of the page shown. *)
Definition pageHandlers (s : Site) (study : list (Node ViewEvent)) : list (Handler ViewEvent) :=
  match page s with
  | PHome => HClick ∘ Nav <$> homeClicks
  | PSelect => HClick ∘ Nav <$> selectClicks
  | PSession => study ≫= handlers
  | PList => [HClick (Nav ListBack); HInput Search]
  end.

(** The events the page shown offers. *)
Definition pageOffers (s : Site) (e : ViewEvent) : Prop :=
  match page s with
  | PHome => ∃ e', e = Nav e' ∧ e' ∈ homeClicks
  | PSelect => ∃ e', e = Nav e' ∧ e' ∈ selectClicks
  | PSession =>
      ∃ e', e = Nav (Study e') ∧ isClick e' = true ∧
        from_option (offered e') false (mounted s) = true
  | PList => e = Nav ListBack ∨ ∃ v, e = Search v
  end.

(** The events of [App] a button of a page raises, and those a control of
    the markup raises whenever they are allowed: the former and the two
    resets of the settings dialog.  The events of the keyboard and the
    timer come from no control, and a switch raises the event of one value
    only. *)
Definition pageEvent (e : SiteEvent) : bool :=
  match e with
  | Setting _ _ | Reset => false
  | Study e' => isClick e'
  | _ => true
  end.

Definition clickable (e : SiteEvent) : bool :=
  match e with
  | Reset | Study ClickReset => true
  | _ => pageEvent e
  end.

(** The site on its home page, over a fresh store. *)
Definition home_site : Site :=
  {| site_store := sample_store; site_rng := lcg 2; page := PHome; site_mode := "learn";
     mounted := None; dueMemo := 60; learnedMemo := 0 |}.

(** ** Lemmas *)

Lemma homePage_handlers s : handlers (homePage s) = HClick ∘ Nav <$> homeClicks.
Proof. unfold homePage. by destruct (negb _). Qed.

Lemma modeButton_handlers mode m :
  handlers (modeButton mode m) = [HClick (Nav (ChooseMode (key m)))].
Proof. done. Qed.

Lemma selectPage_handlers s : handlers (selectPage s) = HClick ∘ Nav <$> selectClicks.
Proof.
  unfold selectPage. cbn -[modeButton modeCards].
  by rewrite (handlers_fmap_single _ _ _ (modeButton_handlers _)).
Qed.

Lemma siteMarkup_handlers `{TextLib} st s q study :
  handlers (siteMarkup st s q study) =
  dialogHandlers (settingEvent s) (resetEvent s) st ++ pageHandlers s study.
Proof.
  unfold siteMarkup, pageHandlers.
  destruct (page s); repeat case_bool_decide; simplify_eq;
    cbn -[SettingsDialog homePage selectPage ManageList].
  all: rewrite ?SettingsDialog_handlers, ?homePage_handlers, ?selectPage_handlers,
    ?handlers_map, ?ManageList_handlers, ?app_nil_r; done.
Qed.

Section view.
Context `{TextLib} `{LocaleLib} `{DateLib}.

(** The render of a site that satisfies the invariant returns. *)
Lemma siteView_Inv now s q :
  SiteInv s ->
  ∃ st study,
    siteView now s q = Returned (siteMarkup st s q study) ∧
    settings (progress (site_store s)) = Some st ∧
    match mounted s with
    | Some sess =>
        ∃ th card pr ans,
          study = [node_map (Nav ∘ Study) (sessionMarkup th st card pr sess ans)]
    | None => study = []
    end.
Proof.
  intros Hs. unfold siteView.
  destruct (wf_progress_settings _ (si_wf _ Hs)) as (st & Hst & _). rewrite Hst.
  pose proof (si_session _ Hs) as Hm. destruct (mounted s) as [sess|].
  - destruct Hm as (Hp & Hinv & _). rewrite Hp, (sessionView_returns now _ Hinv).
    cbn [outcome_bind world_of session store progress]. rewrite Hst.
    eexists st, _. split_and!; [done..|]. by eexists _, _, _, _.
  - exists st, []. by destruct (page s).
Qed.

(** What the tree of a render offers: the events of the dialog and
    those of the page. *)
Lemma siteView_offers now s q n :
  SiteInv s -> siteView now s q = Returned n ->
  ∃ st, ∀ e,
    offers n e <->
    raises (dialogHandlers (settingEvent s) (resetEvent s) st) e ∨ pageOffers s e.
Proof.
  intros Hs. destruct (siteView_Inv now s q Hs) as (st & study & -> & _ & Hstudy).
  intros <-%Returned_inj. exists st. intros e. unfold offers.
  rewrite siteMarkup_handlers, raises_app. unfold pageHandlers, pageOffers.
  pose proof (si_session _ Hs) as Hm. destruct (mounted s) as [sess|].
  - destruct Hm as (-> & _). destruct Hstudy as (th & card & pr & ans & ->).
    rewrite bind_cons, app_nil_r, handlers_map, raises_map.
    by setoid_rewrite sessionMarkup_raises.
  - destruct (page s); [| |done|].
    + by rewrite raises_clicks.
    + by rewrite raises_clicks.
    + rewrite !raises_cons, raises_nil. cbn [fires]. firstorder.
Qed.

Lemma dialog_sound s st e :
  SiteInv s -> raises (dialogHandlers (settingEvent s) (resetEvent s) st) (Nav e) ->
  siteOffered e s = true.
Proof.
  intros Hs Hd. pose proof (si_session _ Hs) as Hm.
  destruct (dialog_raises _ _ _ _ Hd) as [(fld & v & He)|He]; clear Hd;
    unfold settingEvent, resetEvent in He; case_bool_decide as Hp; simplify_eq;
    cbn [siteOffered]; try by rewrite bool_decide_eq_false_2.
  all: destruct (mounted s); [by rewrite bool_decide_eq_true_2 | done].
Qed.

Lemma page_sound s e : pageOffers s (Nav e) -> siteOffered e s = true.
Proof.
  unfold pageOffers. destruct (page s) eqn:Hp.
  - intros (e' & [= <-] & He). unfold homeClicks in He.
    rewrite !elem_of_cons, elem_of_nil in He.
    destruct He as [->|[->|[->|[->|[->|[]]]]]]; cbn [siteOffered]; by rewrite Hp.
  - intros (e' & [= <-] & He). unfold selectClicks in He. cbn [fmap list_fmap app] in He.
    rewrite !elem_of_cons, elem_of_nil in He.
    destruct He as [->|[->|[->|[->|[->|[->|[]]]]]]]; cbn [siteOffered]; by rewrite Hp.
  - intros (e' & [= ->] & _ & He). cbn [siteOffered]. rewrite Hp.
    by destruct (mounted s).
  - intros [[= ->]|[v [=]]]. cbn [siteOffered]. by rewrite Hp.
Qed.

Lemma page_complete s e :
  pageEvent e = true -> siteOffered e s = true -> pageOffers s (Nav e).
Proof.
  unfold pageOffers.
  destruct e as [k| | |k| | | |e'| |]; try done; cbn [siteOffered pageEvent];
    rewrite ?orb_true_iff, ?bool_decide_eq_true; intros Hc.
  - intros ->. eexists. split; [done|]. unfold homeClicks. destruct k; set_solver.
  - intros ->. eexists. split; [done|]. unfold homeClicks. set_solver.
  - intros [-> | ->]; eexists; (split; [done|]); unfold homeClicks, selectClicks; set_solver.
  - intros ->. eexists. split; [done|]. unfold selectClicks. destruct k; set_solver.
  - intros ->. eexists. split; [done|]. unfold selectClicks. set_solver.
  - intros ->. eexists. split; [done|]. unfold selectClicks. set_solver.
  - intros ->. by left.
  - destruct (mounted s) as [sess|]; [|done].
    intros [Hp Ho]%andb_true_iff. apply bool_decide_eq_true in Hp. rewrite Hp.
    exists e'. by rewrite Hc.
Qed.

Lemma reset_complete s st e :
  SiteInv s -> clickable e = true -> pageEvent e = false -> siteOffered e s = true ->
  raises (dialogHandlers (settingEvent s) (resetEvent s) st) (Nav e).
Proof.
  intros Hs Hc Hp He. pose proof (si_session _ Hs) as Hm.
  assert (Nav e = resetEvent s) as ->; [|apply dialog_raises_reset].
  unfold resetEvent. destruct e as [| | | | | | |e'| |]; try done.
  - destruct e'; try done. cbn [siteOffered] in He. destruct (mounted s); [|done].
    destruct Hm as [Hpage _]. by rewrite bool_decide_eq_true_2.
  - cbn [siteOffered] in He. apply negb_true_iff, bool_decide_eq_false in He.
    by rewrite bool_decide_eq_false_2.
Qed.
End view.

(** ** Theorems *)

Section site_theorems.
Context `{TextLib} `{LocaleLib} `{DateLib}.

(** C21: every event a control of the site raises is an event the site
  machine allows in the state shown: the tree offers no step that the
  invariants proved over the steps of the site do not cover. *)
Theorem siteView_sound now s q n e :
  SiteInv s -> siteView now s q = Returned n ->
  offers n (Nav e) -> siteOffered e s = true.
Proof.
intros Hs Hn He. destruct (siteView_offers now s q n Hs Hn) as [st Hoff].
destruct (proj1 (Hoff _) He) as [Hd|Hp]; [by apply (dialog_sound s st) | by apply page_sound].
Qed.

(** Every event of the site that a control can raise and that the
  machine allows in a state is offered by the tree of that state: the
  buttons of the pages, the controls of the session and the reset of the
  settings dialog. *)
Theorem siteView_complete now s q n e :
  SiteInv s -> siteView now s q = Returned n ->
  clickable e = true -> siteOffered e s = true -> offers n (Nav e).
Proof.
intros Hs Hn Hc He. destruct (siteView_offers now s q n Hs Hn) as [st Hoff].
apply Hoff. destruct (pageEvent e) eqn:Hp.
- right. by apply page_complete.
- left. by apply reset_complete.
Qed.

(** The render of a site that satisfies the invariant does not
  throw. *)
Theorem siteView_returns now s q : SiteInv s -> returns (siteView now s q) = true.
Proof. intros Hs. by destruct (siteView_Inv now s q Hs) as (st & study & -> & _). Qed.

End site_theorems.

(** ** The theorems at concrete inputs *)

Lemma home_site_Inv : SiteInv home_site.
Proof.
  split; [apply (emptyProgress_wf_progress (H := fixed_zone 0)) | set_solver | done].
Qed.

Lemma home_site_view :
  siteView (H0 := digits_locale) (H1 := fixed_zone 0) 0 home_site EmptyString =
  Returned (siteMarkup defaultSettings home_site EmptyString []).
Proof. done. Qed.

Lemma home_site_offers :
  offers (siteMarkup defaultSettings home_site EmptyString []) (Nav OpenList).
Proof.
  unfold offers. rewrite siteMarkup_handlers, raises_app. right.
  apply raises_clicks. exists OpenList. split; [done|]. unfold homeClicks. set_solver.
Qed.

Lemma siteView_sound_witness : siteOffered OpenList home_site = true.
Proof.
  apply (siteView_sound (H0 := digits_locale) (H1 := fixed_zone 0) 0 home_site EmptyString
           (siteMarkup defaultSettings home_site EmptyString []));
    [apply home_site_Inv | apply home_site_view | apply home_site_offers].
Defined.

Lemma siteView_complete_witness :
  offers (siteMarkup defaultSettings home_site EmptyString []) (Nav (HomeCard KQuiz)).
Proof.
  apply (siteView_complete (H0 := digits_locale) (H1 := fixed_zone 0) 0 home_site EmptyString);
    [apply home_site_Inv | apply home_site_view | done | done].
Defined.

Lemma siteView_returns_witness :
  returns (siteView (H0 := digits_locale) (H1 := fixed_zone 0) 0 home_site EmptyString) = true.
Proof. apply siteView_returns, home_site_Inv. Defined.
