(* ===== verification/Observe.v ===== *)
(** * Observe: what the program can tell apart

    The program never reads a stored record directly: [grade], the deck
    builder and the markup read [pr.box || 1], [pr.correct || 0],
    [pr.wrong || 0], the truthiness of [pr.learned] and [pr.due]; nothing
    reads [pr.lastReviewed].  Two records with the same readings are
    therefore interchangeable, whatever their fields are: this file makes
    that an equivalence, [≡], lifts it to the stored state, the session and
    the world, and proves that every operation of the session respects it
    (the [Proper] instances), so that equivalent worlds can be rewritten
    for one another.

    - [reads] is what is read of a record; records are equivalent when
      their readings are equal.  A stored state is equivalent to another
      when they have the same settings and equivalent records under the
      same identifiers; the browser's storage is not compared, nothing
      reads it after the page has loaded.
    - The operations of [Store.v], [Deck.v], [Session.v] and [Machine.v]
      are morphisms: equivalent arguments give equivalent results, and
      equal decks, counters and patches.
    - The markup of [SessionView.v] and [ListPage.v] is equal for
      equivalent worlds: the equivalence is sound for what the user sees.
    - [run] of [Trace.v] is a morphism: the equivalence is a bisimulation.
      Together: after any sequence of events equivalent worlds show the
      same page. *)

From Stdlib Require Import ZArith Lia.
From stdpp Require Import base tactics option list strings gmap.
From S2P Require Import Prelude Clock Scheduler Catalog Text Dom Random Store Deck Quiz.
From S2P Require Import Session Machine Widgets View SessionView ListPage Trace.

#[local] Open Scope Z_scope.

(** ** Records *)

(** What the program reads of a record. *)
Record Reading := {
  r_box : Z;
  r_learned : bool;
  r_correct : Z;
  r_wrong : Z;
  r_due : option Z;
}.

Definition reads (it : ProgressItem) : Reading :=
  {| r_box := (box it || 1)%js;
     r_learned := truthy (learned it);
     r_correct := (correct it || 0)%js;
     r_wrong := (wrong it || 0)%js;
     r_due := due it |}.

#[export] Instance Reading_eq_dec : EqDecision Reading.
Proof. solve_decision. Defined.

#[export] Instance item_equiv : Equiv ProgressItem := λ a b, reads a = reads b.

(** The stored state: the same settings, equivalent records. *)
#[export] Instance state_equiv : Equiv ProgressState :=
  λ p q, byId p ≡ byId q ∧ settings p = settings q.

#[export] Instance store_equiv : Equiv Store := λ a b, progress a ≡ progress b.

(** The record with every default written out and no review date: the
    normal form of its class. *)
Definition normalItem (it : ProgressItem) : ProgressItem :=
  {| box := Some (box it || 1)%js; learned := Some (truthy (learned it));
     correct := Some (correct it || 0)%js; wrong := Some (wrong it || 0)%js;
     lastReviewed := None; due := due it |}.

Definition normalState (p : ProgressState) : ProgressState :=
  {| byId := normalItem <$> byId p; settings := settings p |}.

(** ** Sessions and worlds *)

(** The keyboard listener holds the record its closure captured. *)
#[export] Instance listener_equiv : Equiv KeyListener :=
  λ a b, k_enabled a = k_enabled b ∧ k_flipped a = k_flipped b ∧ k_card a = k_card b ∧
         k_pr a ≡ k_pr b ∧ k_deckLength a = k_deckLength b.

(** Equivalent sessions differ in their listeners at most, which are
    equivalent. *)
#[export] Instance session_equiv : Equiv Session :=
  λ s t, t = setListener (listener t) s ∧ listener s ≡ listener t.

#[export] Instance world_equiv : Equiv World :=
  λ w v, store w ≡ store v ∧ session w ≡ session v ∧ rng w = rng v.

(** What a handler returns: the world and whether the session is left. *)
#[export] Instance result_equiv : Equiv (World * bool) := λ a b, a.1 ≡ b.1 ∧ a.2 = b.2.

#[export] Instance outcome_equiv {A : Type} `{Equiv A} : Equiv (outcome A) :=
  λ x y,
    match x, y with
    | Returned a, Returned b => a ≡ b
    | Thrown e, Thrown e' => e = e'
    | _, _ => False
    end.

(** A record that differs from [it] in what is never read. *)
Definition withReviewed (d : option Z) (it : ProgressItem) : ProgressItem :=
  {| box := box it; learned := learned it; correct := correct it; wrong := wrong it;
     lastReviewed := d; due := due it |}.

(** The stored state with other review dates: [f i] for the record of
    radical [i]. *)
Definition reviewedBy (f : nat -> option Z) (p : ProgressState) : ProgressState :=
  {| byId := map_imap (λ i it, Some (withReviewed (f i) it)) (byId p);
     settings := settings p |}.

Definition reviewedWorld (f : nat -> option Z) (w : World) : World :=
  withStore (λ st, {| progress := reviewedBy f (progress st); storage := storage st |}) w.

(** What two runs show at the end: the same exception, or worlds with the
    same markup that are left or kept together. *)
Definition sameView `{DateLib} `{TextLib} `{LocaleLib} (now : Z)
    (x y : outcome (World * bool)) : Prop :=
  match x, y with
  | Returned a, Returned b => a.2 = b.2 ∧ sessionView now a.1 = sessionView now b.1
  | Thrown e, Thrown e' => e = e'
  | _, _ => False
  end.

(** ** Lemmas: records *)

Lemma kernel_equivalence {A B : Type} (f : A -> B) : Equivalence (λ a b, f a = f b).
Proof. split; [intros a|intros a b|intros a b c]; congruence. Qed.

#[export] Instance item_equivalence : Equivalence (≡@{ProgressItem}).
Proof. apply (kernel_equivalence reads). Qed.

#[export] Instance item_equiv_dec (a b : ProgressItem) : Decision (a ≡ b).
Proof. unfold equiv, item_equiv. apply _. Defined.

#[export] Instance reads_proper : Proper ((≡) ==> (=)) reads.
Proof. by intros a b. Qed.

Lemma num_or_idem x d : d ≠ 0 -> (Some (x || d) || d)%js = (x || d)%js.
Proof. intros Hd. destruct x as [v|]; cbn; repeat case_match; z_solve. Qed.

Lemma num_or_Some_0 : (Some 0 || 0)%js = 0.
Proof. done. Qed.

Lemma num_or_idem_0 x : (Some (x || 0) || 0)%js = (x || 0)%js.
Proof. destruct x as [v|]; cbn; repeat case_match; z_solve. Qed.

Lemma normalItem_reads it : reads (normalItem it) = reads it.
Proof.
  unfold reads, normalItem; cbn -[num_or]. by rewrite num_or_idem, !num_or_idem_0.
Qed.

Lemma normalItem_equiv it : normalItem it ≡ it.
Proof. apply normalItem_reads. Qed.

Lemma normalItem_eq a b : a ≡ b <-> normalItem a = normalItem b.
Proof.
  unfold equiv, item_equiv, reads, normalItem. split; [by intros [= -> -> -> -> ->]|].
  by intros [= -> -> -> -> ->].
Qed.

Lemma normalItem_idem it : normalItem (normalItem it) = normalItem it.
Proof. apply normalItem_eq, normalItem_equiv. Qed.

(** The fields that are read are morphisms. *)
#[export] Instance box_proper : Proper ((≡) ==> (=)) (λ it, (box it || 1)%js).
Proof. intros a b Hab. exact (f_equal r_box Hab). Qed.

#[export] Instance correct_proper : Proper ((≡) ==> (=)) (λ it, (correct it || 0)%js).
Proof. intros a b Hab. exact (f_equal r_correct Hab). Qed.

#[export] Instance wrong_proper : Proper ((≡) ==> (=)) (λ it, (wrong it || 0)%js).
Proof. intros a b Hab. exact (f_equal r_wrong Hab). Qed.

#[export] Instance learned_proper : Proper ((≡) ==> (=)) (λ it, truthy (learned it)).
Proof. intros a b Hab. exact (f_equal r_learned Hab). Qed.

#[export] Instance due_proper : Proper ((≡) ==> (=)) due.
Proof. intros a b Hab. exact (f_equal r_due Hab). Qed.

(** Rewriting with an equivalence of records: its five equations. *)
Lemma item_equiv_reads a b :
  a ≡ b ->
  (box a || 1)%js = (box b || 1)%js ∧ truthy (learned a) = truthy (learned b) ∧
  (correct a || 0)%js = (correct b || 0)%js ∧ (wrong a || 0)%js = (wrong b || 0)%js ∧
  due a = due b.
Proof. by intros [= -> -> -> -> ->]. Qed.

Ltac reads_rewrite H :=
  let Hb := fresh in let Hl := fresh in let Hc := fresh in let Hw := fresh in let Hd := fresh in
  destruct (item_equiv_reads _ _ H) as (Hb & Hl & Hc & Hw & Hd);
  rewrite ?Hb, ?Hl, ?Hc, ?Hw, ?Hd; clear Hb Hl Hc Hw Hd.

(** Object spread keeps the equivalence of the base; a patch that has
    every field makes the base irrelevant. *)
#[export] Instance spreadItem_proper : Proper ((≡) ==> (=) ==> (≡)) spreadItem.
Proof.
  intros a b Hab p _ <-. destruct (item_equiv_reads _ _ Hab) as (Hb & Hl & Hc & Hw & Hd).
  unfold equiv, item_equiv, reads, spreadItem; cbn.
  destruct p as [[]  [] [] [] ? []]; cbn; congruence.
Qed.

(** The patch of a grade depends on the readings only. *)
#[export] Instance gradePatch_proper `{DateLib} now : Proper ((≡) ==> (=) ==> (=)) (gradePatch now).
Proof. intros a b Hab g _ <-. unfold gradePatch. by reads_rewrite Hab. Qed.

(** ** Lemmas: the stored state *)

#[export] Instance state_equivalence : Equivalence (≡@{ProgressState}).
Proof.
  split.
  - by intros p.
  - by intros p q [].
  - intros p q r [? ?] [? ?]. split; by etrans.
Qed.

#[export] Instance store_equivalence : Equivalence (≡@{Store}).
Proof.
  split; [intros a|intros a b|intros a b c]; unfold equiv, store_equiv; [done|done|by etrans].
Qed.

#[export] Instance byId_proper : Proper ((≡) ==> (≡)) byId.
Proof. by intros p q [? _]. Qed.

#[export] Instance settings_proper : Proper ((≡) ==> (=)) settings.
Proof. by intros p q [_ ?]. Qed.

#[export] Instance progress_proper : Proper ((≡) ==> (≡)) progress.
Proof. by intros a b. Qed.

(** An optional record, read through a field. *)
Lemma lookup_due p q i : p ≡ q -> byId p !! i ≫= due = byId q !! i ≫= due.
Proof.
  intros [Hm _]. specialize (Hm i). destruct Hm as [a b Hab|]; [|done].
  cbn. by apply due_proper.
Qed.

Lemma lookup_learned p q i :
  p ≡ q -> truthy (byId p !! i ≫= learned) = truthy (byId q !! i ≫= learned).
Proof.
  intros [Hm _]. specialize (Hm i). destruct Hm as [a b Hab|]; [|done].
  cbn. by apply learned_proper.
Qed.

Lemma normalState_equiv p : normalState p ≡ p.
Proof.
  split; [|done]. intros i. cbn. rewrite lookup_fmap.
  destruct (byId p !! i); constructor. apply normalItem_equiv.
Qed.

(** Equivalent states are the states with the same normal form. *)
Lemma normalState_eq p q : p ≡ q <-> normalState p = normalState q.
Proof.
  split.
  - intros [Hm Hs]. unfold normalState. rewrite Hs. f_equal. apply map_eq. intros i.
    rewrite !lookup_fmap. destruct (Hm i) as [a b Hab|]; [|done].
    cbn. f_equal. by apply normalItem_eq.
  - intros Hn. rewrite <- (normalState_equiv p), <- (normalState_equiv q). by rewrite Hn.
Qed.

#[export] Instance state_equiv_dec (p q : ProgressState) : Decision (p ≡ q).
Proof. refine (cast_if (decide (normalState p = normalState q))); by rewrite normalState_eq. Defined.

(** The deck builder and the counters. *)
#[export] Instance isDue_proper : Proper ((≡) ==> (=) ==> (=) ==> (=)) isDue.
Proof. intros p q Hpq t _ <- r _ <-. unfold isDue. by rewrite (lookup_due p q). Qed.

#[export] Instance dueIds_proper : Proper ((≡) ==> (=) ==> (=)) dueIds.
Proof.
  intros p q Hpq t _ <-. unfold dueIds. f_equal. apply List.filter_ext. intros r.
  by apply isDue_proper.
Qed.

#[export] Instance buildDeck_proper `{DateLib} m :
  Proper ((≡) ==> (=) ==> (=) ==> (=) ==> (=)) (buildDeck m).
Proof.
  intros p q Hpq sh _ <- now _ <- g _ <-. unfold buildDeck.
  by rewrite (dueIds_proper p q Hpq _ _ eq_refl).
Qed.

#[export] Instance dueCount_proper `{DateLib} : Proper ((≡) ==> (=) ==> (=)) dueCount.
Proof.
  intros p q Hpq now _ <-. unfold dueCount. f_equal. apply List.filter_ext. intros r.
  by apply isDue_proper.
Qed.

#[export] Instance learnedCount_proper : Proper ((≡) ==> (=)) learnedCount.
Proof.
  intros p q Hpq. unfold learnedCount. f_equal. apply List.filter_ext. intros r.
  by apply lookup_learned.
Qed.

(** The record of the current card. *)
#[export] Instance currentRecord_proper `{DateLib} now :
  Proper ((≡) ==> (=) ==> (≡)) (currentRecord now).
Proof.
  intros p q [Hm _] card _ <-. unfold currentRecord.
  by destruct (Hm (id card)) as [a b Hab|].
Qed.

(** The updates of the store. *)
#[export] Instance patchId_proper i patch : Proper ((≡) ==> (≡)) (patchId i patch).
Proof.
  intros p q [Hm Hs]. split; [|done]. cbn. apply insert_proper; [|done].
  apply spreadItem_proper; [|done]. by destruct (Hm i).
Qed.

#[export] Instance patchSettings_proper patch : Proper ((≡) ==> (≡)) (patchSettings patch).
Proof. intros p q [Hm Hs]. split; [done|]. cbn. by rewrite Hs. Qed.

#[export] Instance setProgress_proper `{JsonLib} f :
  Proper ((≡) ==> (≡)) f -> Proper ((≡) ==> (≡)) (setProgress f).
Proof. intros Hf a b Hab. by apply Hf. Qed.

(** ** Lemmas: sessions *)

#[export] Instance listener_equivalence : Equivalence (≡@{KeyListener}).
Proof.
  split.
  - by intros a.
  - intros a b (? & ? & ? & ? & ?). by split_and!.
  - intros a b c (? & ? & ? & ? & ?) (? & ? & ? & ? & ?). split_and!; by etrans.
Qed.

Lemma setListener_eta s : setListener (listener s) s = s.
Proof. by destruct s. Qed.

Lemma setListener_twice l l' s : setListener l (setListener l' s) = setListener l s.
Proof. done. Qed.

#[export] Instance session_equivalence : Equivalence (≡@{Session}).
Proof.
  split.
  - intros s. split; [by rewrite setListener_eta|done].
  - intros s t [Hs Hl]. split; [|done]. rewrite Hs. by destruct s.
  - intros s t u [Hs Hl] [Ht Hl']. split; [|by etrans].
    transitivity (setListener (listener u) t); [done|]. by rewrite Hs.
Qed.

(** Equivalent sessions, one written in terms of the other. *)
Lemma session_equiv_inv s t : s ≡ t <-> ∃ l, t = setListener l s ∧ listener s ≡ l.
Proof.
  split.
  - intros [Hs Hl]. by exists (listener t).
  - intros (l & -> & Hl). by split.
Qed.

(** A function of the session that neither reads nor writes the
    listener is a morphism. *)
Definition blind (f : Session -> Session) : Prop :=
  ∀ l s, f (setListener l s) = setListener l (f s).

Lemma blind_listener f s : blind f -> listener (f s) = listener s.
Proof. intros Hf. pose proof (Hf (listener s) s) as E. rewrite setListener_eta in E. by rewrite E. Qed.

Lemma blind_proper f : blind f -> Proper ((≡) ==> (≡)) f.
Proof.
  intros Hf s t (l & -> & Hl)%session_equiv_inv. apply session_equiv_inv. exists l.
  split; [apply Hf|]. by rewrite blind_listener.
Qed.

Lemma blind_handleFlip : blind handleFlip.
Proof. intros l s. unfold handleFlip. cbn. by case_decide. Qed.

Lemma blind_showAnswer : blind showAnswer.
Proof. done. Qed.

Lemma blind_chooseOption opt : blind (chooseOption opt).
Proof. intros l s. unfold chooseOption. cbn. by destruct (quizReveal s). Qed.

Lemma blind_submitQuiz : blind submitQuiz.
Proof. intros l s. unfold submitQuiz. cbn. by destruct (quiz s), (quizChoice s). Qed.

Lemma blind_tick : blind tick.
Proof. done. Qed.

Lemma blind_afterGrade len : blind (afterGrade len).
Proof. done. Qed.

Lemma blind_setFlipped b : blind (setFlipped b).
Proof. done. Qed.

Lemma blind_setQuiz q c : blind (setQuiz q c).
Proof. done. Qed.

(** What is read of a session is read of an equivalent one. *)
#[export] Instance currentCard_proper : Proper ((≡) ==> (=)) currentCard.
Proof. by intros s t (l & -> & _)%session_equiv_inv. Qed.

#[export] Instance offered_proper e : Proper ((≡) ==> (=)) (offered e).
Proof. by intros s t (l & -> & _)%session_equiv_inv. Qed.

(** ** Lemmas: worlds *)

#[export] Instance world_equivalence : Equivalence (≡@{World}).
Proof.
  split.
  - by intros w.
  - intros w v (? & ? & ?). by split_and!.
  - intros w v u (? & ? & ?) (? & ? & ?). split_and!; by etrans.
Qed.

#[export] Instance result_equivalence : Equivalence (≡@{World * bool}).
Proof.
  split.
  - by intros a.
  - by intros a b [? ?].
  - intros a b c [? ?] [? ?]. split; by etrans.
Qed.

#[export] Instance outcome_equivalence {A : Type} `{Equiv A} :
  Equivalence (≡@{A}) -> Equivalence (≡@{outcome A}).
Proof.
  intros HA. split.
  - intros [a|e]; [change (a ≡ a)|change (e = e)]; done.
  - intros [a|e] [b|e'] Hab; try done. change (b ≡ a). change (a ≡ b) in Hab. done.
  - intros [a|e] [b|e'] [c|e''] Hab Hbc; try done.
    all: try (change (a ≡ c); change (a ≡ b) in Hab; change (b ≡ c) in Hbc; by etrans).
    all: change (e = e''); change (e = e') in Hab; change (e' = e'') in Hbc; by etrans.
Qed.

#[export] Instance Returned_proper {A : Type} `{Equiv A} : Proper ((≡) ==> (≡)) (@Returned A).
Proof. by intros a b. Qed.

(** Sequencing keeps the equivalence. *)
Lemma outcome_bind_proper {A B : Type} `{Equiv A} `{Equiv B} (f g : A -> outcome B) x y :
  x ≡ y -> (∀ a b, a ≡ b -> f a ≡ g b) -> outcome_bind x f ≡ outcome_bind y g.
Proof. intros Hxy Hfg. destruct x as [a|e], y as [b|e']; try done. by apply Hfg. Qed.

#[export] Instance session_proper : Proper ((≡) ==> (≡)) session.
Proof. by intros w v (_ & ? & _). Qed.

#[export] Instance store_proper : Proper ((≡) ==> (≡)) store.
Proof. by intros w v (? & _). Qed.

#[export] Instance rng_proper : Proper ((≡) ==> (=)) rng.
Proof. by intros w v (_ & _ & ?). Qed.

#[export] Instance withSession_proper f :
  Proper ((≡) ==> (≡)) f -> Proper ((≡) ==> (≡)) (withSession f).
Proof. intros Hf w v (? & ? & ?). split_and!; [done| |done]. by apply Hf. Qed.

#[export] Instance withStore_proper f :
  Proper ((≡) ==> (≡)) f -> Proper ((≡) ==> (≡)) (withStore f).
Proof. intros Hf w v (? & ? & ?). split_and!; [|done|done]. by apply Hf. Qed.

(** Equivalent worlds, one written in terms of the other. *)
Lemma world_equiv_inv w v :
  w ≡ v <->
  ∃ st l, v = {| store := st; session := setListener l (session w); rng := rng w |} ∧
          store w ≡ st ∧ listener (session w) ≡ l.
Proof.
  split.
  - intros (Hst & (l & Hs & Hl)%session_equiv_inv & Hg). exists (store v), l.
    split; [|done]. destruct v; cbn in *. by subst.
  - intros (st & l & -> & Hst & Hl). split_and!; [done| |done]. apply session_equiv_inv. by exists l.
Qed.

Section worlds.
Context `{DateLib} `{JsonLib}.
Implicit Types (w v : World) (s t : Session) (now g : Z).

#[export] Instance gradeWith_proper now :
  Proper ((≡) ==> (=) ==> (=) ==> (=) ==> (≡) ==> (≡)) (gradeWith now).
Proof.
  intros pr pr' Hpr card _ <- len _ <- g _ <- w v (Hst & Hs & Hg).
  unfold gradeWith. split_and!; cbn; [|by apply blind_proper|done].
  rewrite (gradePatch_proper now pr pr' Hpr g g eq_refl).
  by apply setProgress_proper; [apply patchId_proper|].
Qed.

#[export] Instance grade_proper now g : Proper ((≡) ==> (≡)) (grade now g).
Proof.
  intros w v Hwv. pose proof Hwv as (st & l & -> & Hst & Hl)%world_equiv_inv.
  unfold grade. cbn [session store]. change (currentCard (setListener l ?s)) with (currentCard s).
  cbn [deck setListener]. apply gradeWith_proper; try done. by apply currentRecord_proper.
Qed.

#[export] Instance nextQuiz_proper now : Proper ((≡) ==> (≡)) (nextQuiz now).
Proof.
  intros w v Hwv. pose proof Hwv as (st & l & Hv & Hst & Hl)%world_equiv_inv. subst v.
  unfold nextQuiz. cbn [session quiz quizChoice setListener].
  destruct (quiz (session w)); [|done]. by apply grade_proper.
Qed.

#[export] Instance onKey_proper now key : Proper ((≡) ==> (≡)) (onKey now key).
Proof.
  intros w v Hwv. pose proof Hwv as (st & l & Hv & Hst & Hl)%world_equiv_inv. subst v.
  destruct Hl as (He & Hf & Hc & Hpr & Hlen).
  unfold onKey. cbn [session listener mode setListener].
  rewrite <- He, <- Hf, <- Hc, <- Hlen.
  repeat (case_decide || case_match); try done.
  all: split; [|done]; cbn [fst].
  all: first [by apply gradeWith_proper
             |by apply withSession_proper; [apply blind_proper, blind_setFlipped|]].
Qed.

#[export] Instance memoQuiz_proper : Proper ((≡) ==> (≡)) memoQuiz.
Proof.
  intros w v (st & l & -> & Hst & Hl)%world_equiv_inv.
  unfold memoQuiz. cbn [session store rng].
  change (currentCard (setListener l ?s)) with (currentCard s). cbn [mode lastCardId setListener].
  repeat case_decide.
  - apply world_equiv_inv. by exists st, l.
  - destruct (Quiz.makeQuiz _ _) as [q g']. apply world_equiv_inv. by exists st, l.
  - apply world_equiv_inv. by exists st, l.
Qed.

#[export] Instance deckEffect_proper now sh : Proper ((≡) ==> (≡)) (deckEffect now sh).
Proof.
  intros w v (st & l & -> & Hst & Hl)%world_equiv_inv.
  unfold deckEffect. cbn [session store rng mode setListener].
  rewrite <- (buildDeck_proper _ _ _ Hst sh sh eq_refl now now eq_refl _ _ eq_refl).
  destruct (buildDeck _ _ _ _ _) as [d g']. apply world_equiv_inv. by exists st, l.
Qed.

#[export] Instance registerKeys_proper now kb : Proper ((≡) ==> (≡)) (registerKeys now kb).
Proof.
  intros w v Hwv. pose proof Hwv as (st & l & -> & Hst & Hl)%world_equiv_inv.
  destruct Hl as (He & Hf & Hc & Hpr & Hlen).
  unfold registerKeys. cbn [session store listener]. 
  change (currentCard (setListener l ?s)) with (currentCard s). cbn [flipped deck listener setListener].
  rewrite <- He, <- Hf, <- Hc. case_decide; [done|].
  apply world_equiv_inv. eexists st, _. split; [done|]. split; [done|].
  split_and!; try done. by apply currentRecord_proper.
Qed.

#[export] Instance render_proper now : Proper ((≡) ==> (≡)) (render now).
Proof.
  intros w v Hwv. unfold render. pose proof Hwv as (Hst & _ & _).
  rewrite <- (settings_proper _ _ Hst). destruct (settings _) as [st|]; [|done].
  pose proof (memoQuiz_proper _ _ Hwv) as Hm.
  assert (lastShuffle (session (memoQuiz v)) = lastShuffle (session (memoQuiz w))) as ->.
  { pose proof Hm as (st' & l & Hv & _ & _)%world_equiv_inv. by rewrite Hv. }
  apply registerKeys_proper.
  case_decide; [done|]. by apply memoQuiz_proper, deckEffect_proper.
Qed.

#[export] Instance handle_proper now e : Proper ((≡) ==> (≡)) (handle now e).
Proof.
  intros w v Hwv. destruct e; cbn [handle].
  1,2,4,5,8: split; [|done]; apply withSession_proper; [apply blind_proper|done].
  - apply blind_handleFlip.
  - apply blind_showAnswer.
  - apply blind_chooseOption.
  - apply blind_submitQuiz.
  - apply blind_tick.
  - split; [|done]. by apply grade_proper.
  - apply outcome_bind_proper; [by apply nextQuiz_proper|]. by intros a b Hab.
  - by apply onKey_proper.
  - done.
  - split; [|done]. apply withStore_proper; [|done]. apply setProgress_proper, patchSettings_proper.
  - split; [|done]. apply withStore_proper; [|done]. by apply setProgress_proper.
Qed.

#[export] Instance step_proper now e : Proper ((≡) ==> (≡)) (step now e).
Proof.
  intros w v Hwv. unfold step. apply outcome_bind_proper; [by apply handle_proper|].
  intros [w1 b] [v1 b'] [Hh Hb]. cbn in Hh, Hb. subst b'. cbn [fst snd].
  destruct b; [by split|]. apply outcome_bind_proper; [by apply render_proper|].
  by intros a b Hab.
Qed.

#[export] Instance initSession_proper now m :
  Proper ((≡) ==> (=) ==> (≡)) (initSession now m).
Proof.
  intros st st' Hst g _ <-. unfold initSession. rewrite <- (settings_proper _ _ Hst).
  destruct (settings _) as [cfg|]; [|done].
  rewrite <- (buildDeck_proper _ _ _ Hst _ _ eq_refl now now eq_refl _ _ eq_refl).
  by destruct (buildDeck _ _ _ _ _) as [d g'].
Qed.

#[export] Instance startSession_proper now m :
  Proper ((≡) ==> (=) ==> (≡)) (startSession now m).
Proof.
  intros st st' Hst g _ <-. unfold startSession.
  apply outcome_bind_proper; [by apply initSession_proper|]. intros a b Hab. by apply render_proper.
Qed.

#[export] Instance run_proper es : Proper ((≡) ==> (≡)) (run es).
Proof.
  induction es as [|[now e] es IH]; intros w v Hwv; cbn [run]; [done|].
  rewrite <- (offered_proper e _ _ (session_proper _ _ Hwv)).
  destruct (offered e (session w)); [|by apply IH].
  apply outcome_bind_proper; [by apply step_proper|].
  intros [w1 b] [v1 b'] [Hs Hb]. cbn in Hs, Hb. subst b'. cbn [fst snd].
  destruct b; [by split|]. by apply IH.
Qed.
End worlds.

(** ** Lemmas: the markup *)

Section views.
Context `{DateLib} `{JsonLib} `{TextLib} `{LocaleLib}.

(** The tree of the session reads the record through its readings, and
    does not read the listener. *)
#[export] Instance sessionMarkup_proper th st card :
  Proper ((≡) ==> (=) ==> (=) ==> (=)) (sessionMarkup th st card).
Proof.
  intros pr pr' Hpr s _ <- ans _ <-. unfold sessionMarkup, cardFace, sidePanel, boxChip.
  by reads_rewrite Hpr.
Qed.

Lemma sessionMarkup_blind th st card pr l s ans :
  sessionMarkup th st card pr (setListener l s) ans = sessionMarkup th st card pr s ans.
Proof. done. Qed.

#[export] Instance sessionView_proper now : Proper ((≡) ==> (=)) (sessionView now).
Proof.
  intros w v (st & l & -> & Hst & Hl)%world_equiv_inv. unfold sessionView. cbn [session store].
  rewrite <- (settings_proper _ _ Hst). destruct (settings _) as [cfg|]; [|done].
  change (currentCard (setListener l ?s)) with (currentCard s).
  change (isQuiz (setListener l ?s)) with (isQuiz s). cbn [quiz quizReveal mode setListener].
  pose proof (currentRecord_proper now _ _ Hst (currentCard (session w)) _ eq_refl) as Hpr.
  destruct (quiz (session w)); [|case_match; [done|]]; f_equal.
  all: rewrite ?sessionMarkup_blind; by apply sessionMarkup_proper.
Qed.

(** The rows of the list page. *)
#[export] Instance listRecord_proper : Proper ((≡) ==> (=) ==> (≡)) listRecord.
Proof.
  intros p q [Hm _] r _ <-. unfold listRecord. by destruct (Hm (id r)) as [a b Hab|].
Qed.

#[export] Instance listRow_proper : Proper ((≡) ==> (=) ==> (=)) listRow.
Proof.
  intros p q Hpq r _ <-. unfold listRow, boxChip. cbn zeta.
  by reads_rewrite (listRecord_proper _ _ Hpq r r eq_refl).
Qed.

#[export] Instance ManageList_proper : Proper ((≡) ==> (=) ==> (=)) ManageList.
Proof.
  intros p q Hpq txt _ <-. unfold ManageList.
  rewrite (list_fmap_ext (listRow p) (listRow q) (listMemo txt)); [done|].
  intros _ r _. by apply listRow_proper.
Qed.
End views.

(** ** Lemmas: what is never read *)

Lemma withReviewed_equiv d it : withReviewed d it ≡ it.
Proof. done. Qed.

Lemma reviewedBy_equiv f p : reviewedBy f p ≡ p.
Proof.
  split; [|done]. intros i. cbn. rewrite map_lookup_imap.
  destruct (byId p !! i); constructor. apply withReviewed_equiv.
Qed.

Lemma reviewedWorld_equiv f w : reviewedWorld f w ≡ w.
Proof. split_and!; [apply reviewedBy_equiv|done..]. Qed.

(** Equivalent outcomes show the same. *)
Lemma sameView_equiv `{DateLib} `{JsonLib} `{TextLib} `{LocaleLib} now
    (x y : outcome (World * bool)) :
  x ≡ y -> sameView now x y.
Proof.
  destruct x as [[w b]|e], y as [[v b']|e']; try done.
  intros [Hwv Hb]. split; [done|]. by apply sessionView_proper.
Qed.

(** ** Properties *)

Section properties.
Context `{DateLib} `{JsonLib} `{TextLib} `{LocaleLib}.

(** C25: worlds that differ only in what is never read of their records
    are indistinguishable: started on equivalent stores and given the same
    events, two sessions throw the same exception or end in equivalent
    worlds, and what they show at the end is the same tree. *)
Theorem equivalent_stores_indistinguishable now0 now m g es (st st' : Store) :
  st ≡ st' ->
  let go st := (try! w := startSession now0 m st g in run es w)%js in
  go st ≡ go st' ∧ sameView now (go st) (go st').
Proof.
  intros Hst go.
  assert (go st ≡ go st') as Hgo.
  { apply outcome_bind_proper; [by apply startSession_proper|].
    intros a b Hab. by apply run_proper. }
  split; [done|]. by apply sameView_equiv.
Qed.

(** [lastReviewed] is written by every grade and read by nothing:
    whatever the review dates of the stored records are, every sequence of
    events shows the same. *)
Corollary lastReviewed_never_read f now es w :
  sameView now (run es (reviewedWorld f w)) (run es w).
Proof. apply sameView_equiv, run_proper, reviewedWorld_equiv. Qed.
End properties.

(** ** The properties at concrete inputs *)

(** A stored state as [loadProgress] accepts it: the record of radical 5
    has a due date and a review date and nothing else.  It reads as the
    record [Trace.new_card]. *)
Definition sparse_card : ProgressItem :=
  {| box := None; learned := None; correct := None; wrong := None;
     lastReviewed := Some 7; due := Some 0 |}.

Definition sparse_store : Store :=
  {| progress :=
       {| byId := <[5%nat := sparse_card]> (byId (emptyProgress (H := fixed_zone 0) 864000000));
          settings := Some defaultSettings |};
     storage := {| items := ∅; denied := true; capacity := 0 |} |}.

Lemma sparse_store_equiv : practised new_card ≡ sparse_store.
Proof.
  split; [|done]. unfold practised, sparse_store, patchId. cbn [progress byId].
  rewrite emptyProgress_lookup. apply insert_proper; [by vm_compute|done].
Qed.

Lemma equivalent_stores_indistinguishable_witness :
  let go st :=
    (try! w := startSession (H := fixed_zone 0) 259200000 "review" st (lcg 1) in
     run (H := fixed_zone 0) [(259200001, ClickShow); (259200002, ClickGrade 3)] w)%js in
  go (practised new_card) ≡ go sparse_store ∧
  sameView (H := fixed_zone 0) (H1 := digits_locale) 259200003
    (go (practised new_card)) (go sparse_store).
Proof.
  apply (equivalent_stores_indistinguishable (H := fixed_zone 0) (H2 := digits_locale)
           259200000 259200003 "review" (lcg 1)
           [(259200001, ClickShow); (259200002, ClickGrade 3)]
           (practised new_card) sparse_store).
  apply sparse_store_equiv.
Defined.
